(** * MPTCP path manager and JOIN handshake core (IPv4 and IPv6)

    A shallow embedding of [net/mptcp/mptcp_ipv4.c] and
    [net/mptcp/mptcp_ipv6.c]: the remote address registry, the JOIN
    request creation routine, the request-sock hash table, the subflow
    factory and the address event handlers, followed by the properties
    proved about them. *)

From Stdlib Require Import ZArith Lia List Bool.
From stdpp Require Import base list.

Local Open Scope Z_scope.

(** ** Constants and bit sets *)

(** Modelled from the spec: [MPTCP_MAX_ADDR] is declared in
    [include/net/mptcp.h]; the spec gives "MAX_ADDR = 16 per family per
    direction" (a comment of [mptcp_init6_subsockets] speaks of ids in
    [8, 16[, the range for a value of 8; the spec's value is taken). *)
Definition MPTCP_MAX_ADDR : nat := 16.

(** Modelled from the spec: the presence bit sets ([rem4_bits],
    [loc4_bits], ...) and the per-remote [bitfield] hold one bit per slot,
    "bitfield capacity of 16"; a store into such a field keeps the low 16
    bits. *)
Definition u16 (z : Z) : Z := Z.land z (Z.ones 16).

(** Modelled from the spec: [remove_addrs] is a bit mask indexed by the
    local address id, which ranges over 0..31. *)
Definition u32 (z : Z) : Z := Z.land z (Z.ones 32).

(** [(1 << i) & b] as a test. *)
Definition bit_set (b : Z) (i : nat) : bool := Z.testbit b (Z.of_nat i).

(** Modelled from the spec: the macro [mptcp_for_each_bit_set(b, i)] of
    [include/net/mptcp.h] visits the populated slots, that is the indices
    of the bits set in [b], in increasing order. *)
Definition mptcp_for_each_bit_set (b : Z) : list nat :=
  List.filter (bit_set b) (seq 0 MPTCP_MAX_ADDR).

(** Modelled from the spec: [mptcp_find_free_index(b)] of
    [include/net/mptcp.h], "find the lowest clear bit"; [None] stands for
    the C result [-1]. *)
Definition mptcp_find_free_index (b : Z) : option nat :=
  List.find (fun i => negb (bit_set b i)) (seq 0 MPTCP_MAX_ADDR).

(** ** Address families *)

Inductive sa_family := AF_INET | AF_INET6.

Definition family_eqb (a b : sa_family) : bool :=
  match a, b with
  | AF_INET, AF_INET | AF_INET6, AF_INET6 => true
  | _, _ => false
  end.

(** [struct in6_addr], as its four 32-bit words [s6_addr32]. *)
Record in6_addr := mk_in6 { s6_0 : Z; s6_1 : Z; s6_2 : Z; s6_3 : Z }.

Definition in6addr_any : in6_addr := mk_in6 0 0 0 0.

Definition ipv6_addr_equal (a b : in6_addr) : bool :=
  (s6_0 a =? s6_0 b) && (s6_1 a =? s6_1 b) &&
  (s6_2 a =? s6_2 b) && (s6_3 a =? s6_3 b).

(** ** The remote address registry ([struct multipath_options]) *)

Record mptcp_rem4 := mk_rem4 {
  rem4_addr : Z;            (* addr.s_addr *)
  rem4_port : Z;
  rem4_bitfield : Z;
  rem4_retry_bitfield : Z;
  rem4_id : Z
}.

Record mptcp_rem6 := mk_rem6 {
  rem6_addr : in6_addr;
  rem6_port : Z;
  rem6_bitfield : Z;
  rem6_retry_bitfield : Z;
  rem6_id : Z
}.

#[global] Instance mptcp_rem4_inhabited : Inhabited mptcp_rem4 :=
  populate (mk_rem4 0 0 0 0 0).
#[global] Instance mptcp_rem6_inhabited : Inhabited mptcp_rem6 :=
  populate (mk_rem6 in6addr_any 0 0 0 0).

Record multipath_options := mk_mopt {
  rem4_bits : Z;
  addr4 : list mptcp_rem4;      (* addr4[MPTCP_MAX_ADDR] *)
  rem6_bits : Z;
  addr6 : list mptcp_rem6;      (* addr6[MPTCP_MAX_ADDR] *)
  list_rcvd : bool
}.

(** The arrays have [MPTCP_MAX_ADDR] entries. *)
Definition mopt_wf (m : multipath_options) : Prop :=
  length (addr4 m) = MPTCP_MAX_ADDR ∧ length (addr6 m) = MPTCP_MAX_ADDR.

Definition mopt_empty : multipath_options :=
  mk_mopt 0 (replicate MPTCP_MAX_ADDR inhabitant)
          0 (replicate MPTCP_MAX_ADDR inhabitant) false.

(** *** IPv4 *)

(** [mptcp_v4_rem_raddress]: the loop over [i < MPTCP_MAX_ADDR]. *)
Fixpoint v4_rem_loop (idx : list nat) (mopt : multipath_options) (id : Z)
  : Z * multipath_options :=
  match idx with
  | [] => (-1, mopt)
  | i :: idx' =>
      if negb (bit_set (rem4_bits mopt) i) then v4_rem_loop idx' mopt id
      else if rem4_id (addr4 mopt !!! i) =? id then
        (0, mk_mopt (u16 (Z.land (rem4_bits mopt) (Z.lnot (Z.shiftl 1 (Z.of_nat i)))))
                    (addr4 mopt) (rem6_bits mopt) (addr6 mopt) (list_rcvd mopt))
      else v4_rem_loop idx' mopt id
  end.

Definition mptcp_v4_rem_raddress (mopt : multipath_options) (id : Z)
  : Z * multipath_options :=
  v4_rem_loop (seq 0 MPTCP_MAX_ADDR) mopt id.

(** The body of the [mptcp_for_each_bit_set] loop of
    [mptcp_v4_add_raddress]; [Some] is a [return 0] from inside the loop,
    [None] is falling out of it. *)
Fixpoint v4_add_loop (idx : list nat) (mopt : multipath_options)
    (addr port id : Z) : option multipath_options :=
  match idx with
  | [] => None
  | i :: idx' =>
      let rem4 := addr4 mopt !!! i in
      if (rem4_id rem4 =? id) && (rem4_addr rem4 =? addr) && (rem4_port rem4 =? port)
      then Some mopt
      else if (rem4_id rem4 =? id) && negb (rem4_addr rem4 =? addr)
      then Some (mk_mopt (rem4_bits mopt)
                   (<[i := mk_rem4 addr port (rem4_bitfield rem4)
                              (rem4_retry_bitfield rem4) (rem4_id rem4)]> (addr4 mopt))
                   (rem6_bits mopt) (addr6 mopt) true)
      else v4_add_loop idx' mopt addr port id
  end.

Definition mptcp_v4_add_raddress (mopt : multipath_options) (addr port id : Z)
  : Z * multipath_options :=
  match v4_add_loop (mptcp_for_each_bit_set (rem4_bits mopt)) mopt addr port id with
  | Some mopt' => (0, mopt')
  | None =>
      match mptcp_find_free_index (rem4_bits mopt) with
      | None => (-1, mopt)
      | Some i =>
          (0, mk_mopt (u16 (Z.lor (rem4_bits mopt) (Z.shiftl 1 (Z.of_nat i))))
                      (<[i := mk_rem4 addr port 0 0 id]> (addr4 mopt))
                      (rem6_bits mopt) (addr6 mopt) true)
      end
  end.

(** *** IPv6 *)

Fixpoint v6_rem_loop (idx : list nat) (mopt : multipath_options) (id : Z)
  : Z * multipath_options :=
  match idx with
  | [] => (-1, mopt)
  | i :: idx' =>
      if negb (bit_set (rem6_bits mopt) i) then v6_rem_loop idx' mopt id
      else if rem6_id (addr6 mopt !!! i) =? id then
        (0, mk_mopt (rem4_bits mopt) (addr4 mopt)
                    (u16 (Z.land (rem6_bits mopt) (Z.lnot (Z.shiftl 1 (Z.of_nat i)))))
                    (addr6 mopt) (list_rcvd mopt))
      else v6_rem_loop idx' mopt id
  end.

Definition mptcp_v6_rem_raddress (mopt : multipath_options) (id : Z)
  : Z * multipath_options :=
  v6_rem_loop (seq 0 MPTCP_MAX_ADDR) mopt id.

Fixpoint v6_add_loop (idx : list nat) (mopt : multipath_options)
    (addr : in6_addr) (port id : Z) : option multipath_options :=
  match idx with
  | [] => None
  | i :: idx' =>
      let rem6 := addr6 mopt !!! i in
      if (rem6_id rem6 =? id) && ipv6_addr_equal (rem6_addr rem6) addr
         && (rem6_port rem6 =? port)
      then Some mopt
      else if rem6_id rem6 =? id
      then Some (mk_mopt (rem4_bits mopt) (addr4 mopt) (rem6_bits mopt)
                   (<[i := mk_rem6 addr port (rem6_bitfield rem6)
                              (rem6_retry_bitfield rem6) (rem6_id rem6)]> (addr6 mopt))
                   true)
      else v6_add_loop idx' mopt addr port id
  end.

Definition mptcp_v6_add_raddress (mopt : multipath_options) (addr : in6_addr)
    (port id : Z) : Z * multipath_options :=
  match v6_add_loop (mptcp_for_each_bit_set (rem6_bits mopt)) mopt addr port id with
  | Some mopt' => (0, mopt')
  | None =>
      match mptcp_find_free_index (rem6_bits mopt) with
      | None => (-1, mopt)
      | Some i =>
          (0, mk_mopt (rem4_bits mopt) (addr4 mopt)
                      (u16 (Z.lor (rem6_bits mopt) (Z.shiftl 1 (Z.of_nat i))))
                      (<[i := mk_rem6 addr port 0 0 id]> (addr6 mopt))
                      true)
      end
  end.

(** Slot [i] of the family is populated: its bit is set in [rem_bits]. *)
Definition populated4 (m : multipath_options) (i : nat) : Prop :=
  (i < MPTCP_MAX_ADDR)%nat ∧ bit_set (rem4_bits m) i = true.
Definition populated6 (m : multipath_options) (i : nat) : Prop :=
  (i < MPTCP_MAX_ADDR)%nat ∧ bit_set (rem6_bits m) i = true.

(** ** Memory images of integer fields *)

Inductive byte_order := LittleEndian | BigEndian.

(** The [n] bytes of [z], least significant first. *)
Fixpoint le_bytes (n : nat) (z : Z) : list Z :=
  match n with
  | O => []
  | S n' => z mod 256 :: le_bytes n' (z / 256)
  end.

Fixpoint le_load (l : list Z) : Z :=
  match l with
  | [] => 0
  | b :: l' => b + 256 * le_load l'
  end.

(** The bytes of an [n]-byte integer field in memory, as seen through a
    byte pointer to the field. *)
Definition mem_bytes (bo : byte_order) (n : nat) (z : Z) : list Z :=
  match bo with
  | LittleEndian => le_bytes n z
  | BigEndian => rev (le_bytes n z)
  end.

(** The integer whose memory image is [l], as read through an integer
    pointer. *)
Definition mem_load (bo : byte_order) (l : list Z) : Z :=
  match bo with
  | LittleEndian => le_load l
  | BigEndian => le_load (rev l)
  end.

(** ** SHA-1 and HMAC-SHA1 on byte lists *)

(** Modelled from the spec: the hash functions are the kernel's
    ([lib/sha1.c], used by [mptcp_hmac_sha1] of [net/mptcp/mptcp_ctrl.c]);
    the spec names them "HMAC-SHA1", with a "20-byte digest in network
    byte order", which is FIPS 180 and RFC 2104. *)
Module SHA1.

Definition add32 (a b : Z) : Z := (a + b) mod 2 ^ 32.

Definition rol32 (x n : Z) : Z :=
  Z.lor (Z.land (Z.shiftl x n) (Z.ones 32)) (Z.shiftr x (32 - n)).

Definition not32 (x : Z) : Z := Z.lxor x (Z.ones 32).

Record state := mk_state { ha : Z; hb : Z; hc : Z; hd : Z; he : Z }.

Definition init : state :=
  mk_state 0x67452301 0xEFCDAB89 0x98BADCFE 0x10325476 0xC3D2E1F0.

Definition f (t : nat) (b c d : Z) : Z :=
  if (t <? 20)%nat then Z.lor (Z.land b c) (Z.land (not32 b) d)
  else if (t <? 40)%nat then Z.lxor (Z.lxor b c) d
  else if (t <? 60)%nat then
    Z.lor (Z.lor (Z.land b c) (Z.land b d)) (Z.land c d)
  else Z.lxor (Z.lxor b c) d.

Definition k (t : nat) : Z :=
  if (t <? 20)%nat then 0x5A827999
  else if (t <? 40)%nat then 0x6ED9EBA1
  else if (t <? 60)%nat then 0x8F1BBCDC
  else 0xCA62C1D6.

Definition round (t : nat) (wt : Z) (s : state) : state :=
  let temp :=
    add32 (add32 (add32 (add32 (rol32 (ha s) 5) (f t (hb s) (hc s) (hd s)))
                        (he s)) (k t)) wt in
  mk_state temp (ha s) (rol32 (hb s) 30) (hc s) (hd s).

(** [w] is the window [W(t) .. W(t+15)] of the message schedule. *)
Fixpoint rounds (n t : nat) (w : list Z) (s : state) : state :=
  match n with
  | O => s
  | S n' =>
      let wnew :=
        rol32 (Z.lxor (Z.lxor (Z.lxor (nth 13 w 0) (nth 8 w 0)) (nth 2 w 0))
                      (nth 0 w 0)) 1 in
      rounds n' (S t) (tl w ++ [wnew]) (round t (nth 0 w 0) s)
  end.

(** Big-endian 32-bit words of a byte list. *)
Fixpoint be_words (n : nat) (l : list Z) : list Z :=
  match n with
  | O => []
  | S n' =>
      (nth 0 l 0 * 2 ^ 24 + nth 1 l 0 * 2 ^ 16 + nth 2 l 0 * 2 ^ 8 + nth 3 l 0)
        :: be_words n' (skipn 4 l)
  end.

Definition be32_bytes (w : Z) : list Z :=
  [(w / 2 ^ 24) mod 256; (w / 2 ^ 16) mod 256; (w / 2 ^ 8) mod 256; w mod 256].

Definition process_block (s : state) (block : list Z) : state :=
  let s' := rounds 80 0 (be_words 16 block) s in
  mk_state (add32 (ha s) (ha s')) (add32 (hb s) (hb s')) (add32 (hc s) (hc s'))
           (add32 (hd s) (hd s')) (add32 (he s) (he s')).

Fixpoint process_blocks (n : nat) (s : state) (l : list Z) : state :=
  match n with
  | O => s
  | S n' => process_blocks n' (process_block s (firstn 64 l)) (skipn 64 l)
  end.

(** The message followed by 0x80, zeros, and its bit length on 8 bytes. *)
Definition pad (msg : list Z) : list Z :=
  let len := Z.of_nat (length msg) in
  let zeros := Z.to_nat ((55 - len) mod 64) in
  msg ++ [0x80] ++ repeat 0 zeros ++ rev (le_bytes 8 (8 * len)).

Definition digest (msg : list Z) : list Z :=
  let p := pad msg in
  let s := process_blocks (Nat.div (length p) 64) init p in
  be32_bytes (ha s) ++ be32_bytes (hb s) ++ be32_bytes (hc s) ++
  be32_bytes (hd s) ++ be32_bytes (he s).

Definition hmac (key msg : list Z) : list Z :=
  let key' := if (64 <? length key)%nat then digest key else key in
  let key0 := key' ++ repeat 0 (64 - length key')%nat in
  let ikey := map (fun b => Z.lxor b 0x36) key0 in
  let okey := map (fun b => Z.lxor b 0x5c) key0 in
  digest (okey ++ digest (ikey ++ msg)).

End SHA1.

(** Modelled from the spec: [mptcp_hmac_sha1] is defined in
    [net/mptcp/mptcp_ctrl.c]; the spec defines it as HMAC-SHA1 "with a
    16-byte key formed by concatenating the two 8-byte keys ... over a
    message formed by concatenating the two 4-byte nonces", giving the
    20-byte digest.  The arguments are the memory images the four
    pointers designate. *)
Definition mptcp_hmac_sha1 (key_1 key_2 rand_1 rand_2 : list Z) : list Z :=
  SHA1.hmac (key_1 ++ key_2) (rand_1 ++ rand_2).

(** ** Kernel context

    Constants and helpers that the two files use and that are declared
    elsewhere in the kernel tree; they are taken as parameters. *)

Record kernel := mk_kernel {
  cpu_byte_order : byte_order;
  MPTCP_HASH_SIZE : Z;
  inet_synq_hash : Z → Z → Z → Z → Z;          (* raddr rport rnd size *)
  inet6_synq_hash : in6_addr → Z → Z → Z → Z;
  TCP_TIMEOUT_INIT : Z;
  TCP_PAWS_MSL : Z;
  TCP_PAWS_WINDOW : Z;
  RT_SCOPE_LINK : Z;
  IFF_NOMULTIPATH : Z;
  IFF_MPBACKUP : Z;
  ipv6_addr_type : in6_addr → Z;
  IPV6_ADDR_ANY : Z;
  IPV6_ADDR_LOOPBACK : Z;
  IPV6_ADDR_LINKLOCAL : Z;
  EINPROGRESS : Z
}.

Definition s32 (z : Z) : Z :=
  let w := u32 z in if w <? 2 ^ 31 then w else w - 2 ^ 32.

(** A non-NULL [struct sock *]. *)
Definition sock_ptr := positive.

Inductive tcp_state :=
  | TCP_ESTABLISHED | TCP_SYN_SENT | TCP_SYN_RECV | TCP_FIN_WAIT1
  | TCP_FIN_WAIT2 | TCP_TIME_WAIT | TCP_CLOSE | TCP_CLOSE_WAIT
  | TCP_LAST_ACK | TCP_LISTEN | TCP_CLOSING.

Definition is_TCP_CLOSE (s : tcp_state) : bool :=
  match s with TCP_CLOSE => true | _ => false end.

(** ** Request socks *)

(** The [rtx_syn_ack] member of [struct request_sock_ops] is one of two
    functions. *)
Inductive rtx_syn_ack_fn := Fn_tcp_v4_rtx_synack | Fn_mptcp_v6_rtx_synack.

Record request_sock_ops := mk_ops {
  ops_family : sa_family;
  rtx_syn_ack : rtx_syn_ack_fn
}.

Definition mptcp_request_sock_ops : request_sock_ops :=
  mk_ops AF_INET Fn_tcp_v4_rtx_synack.

Definition mptcp6_request_sock_ops : request_sock_ops :=
  mk_ops AF_INET6 Fn_mptcp_v6_rtx_synack.

(** [struct mptcp_request_sock] / [struct mptcp6_request_sock] with the
    request-sock structures they extend.  [mtreq_meta_sk] is
    [mtreq->mpcb->meta_sk]: the [mpcb] pointer of a request is only
    followed to reach the meta socket. *)
Record mptcp_request_sock := mk_req {
  rsk_ops : request_sock_ops;
  mtreq_meta_sk : sock_ptr;
  mptcp_rem_nonce : Z;
  mptcp_rem_key : Z;
  mptcp_loc_key : Z;
  mptcp_loc_nonce : Z;
  mptcp_hash_tmac : Z;
  mtreq_rem_id : Z;
  mtreq_low_prio : bool;
  ir_rmt_port : Z;
  ir_loc_port : Z;
  ir_loc_addr : Z;
  ir_rmt_addr : Z;
  ir_no_srccheck : bool;
  ir6_rmt_addr : in6_addr;
  ir6_loc_addr : in6_addr;
  ir6_iif : Z;
  ir6_pktopts : bool;
  req_ts_recent : Z;
  req_tstamp_ok : bool;
  snt_isn : Z;
  snt_synack : Z
}.

(** Calls into the rest of the kernel and accesses to shared data, in
    the order the code performs them. *)
Inductive event :=
  | Ev_spin_lock_reqsk_hlock
  | Ev_spin_unlock_reqsk_hlock
  | Ev_walk_bucket (h : Z)
  | Ev_sock_hold (sk : sock_ptr)
  | Ev_list_add (h : Z) (req : mptcp_request_sock)
  | Ev_inet_csk_reqsk_queue_hash_add (meta : sock_ptr) (req : mptcp_request_sock) (timeout : Z)
  | Ev_inet6_csk_reqsk_queue_hash_add (meta : sock_ptr) (req : mptcp_request_sock) (timeout : Z)
  | Ev_tcp_v4_send_reset (saddr daddr : Z)
  | Ev_tcp_v6_send_reset (saddr daddr : in6_addr)
  | Ev_tcp_v4_send_synack (req : mptcp_request_sock)
  | Ev_tcp_v6_send_synack (req : mptcp_request_sock)
  | Ev_ip6_dst_lookup_flow
  | Ev_tcp_make_synack
  | Ev_ip6_xmit
  | Ev_dst_release
  | Ev_reqsk_free
  | Ev_skb_hold
  | Ev_TCP_ECN_create_request
  | Ev_NET_INC_STATS_PAWSPASSIVEREJECTED
  | Ev_TCP_INC_STATS_RETRANSSEGS
  | Ev_tcp_v4_rtx_synack
  | Ev_tcp_v6_rtx_synack
  | Ev_store_bitfield (v : Z)
  | Ev_inet_create
  | Ev_inet6_create
  | Ev_mptcp_add_sock (rem_id : Z)
  | Ev_setup_timer
  | Ev_bind (addr : Z + in6_addr) (port : Z)
  | Ev_connect (addr : Z + in6_addr) (port : Z)
  | Ev_sk_set_socket
  | Ev_sock_orphan
  | Ev_tcp_done
  | Ev_mptcp_reinject_data (sk : sock_ptr)
  | Ev_mptcp_sub_force_close (sk : sock_ptr)
  | Ev_tcp_send_ack (sk : sock_ptr)
  | Ev_mptcp_create_subflows (meta : sock_ptr).

(** ** The request-sock hash table

    [mptcp_reqsk_htb] is an array of list heads indexed by the hash; a
    bucket is the list of its requests from the head on.  [sk_refcnt]
    holds the reference counts of the sockets. *)
Record global := mk_global {
  mptcp_reqsk_htb : Z → list mptcp_request_sock;
  sk_refcnt : sock_ptr → Z
}.

(** [atomic_inc] on a 32-bit counter. *)
Definition sock_hold (g : global) (sk : sock_ptr) : global :=
  mk_global (mptcp_reqsk_htb g)
    (fun p => if Pos.eqb p sk then s32 (sk_refcnt g p + 1) else sk_refcnt g p).

(** [list_add(&req->collide_tuple, &mptcp_reqsk_htb[h])]. *)
Definition htb_list_add (g : global) (h : Z) (req : mptcp_request_sock) : global :=
  mk_global
    (fun b => if b =? h then req :: mptcp_reqsk_htb g b else mptcp_reqsk_htb g b)
    (sk_refcnt g).

Definition mptcp_v4_reqsk_queue_hash_add (K : kernel) (g : global)
    (meta_sk : sock_ptr) (req : mptcp_request_sock) (timeout : Z)
  : global * list event :=
  let h := inet_synq_hash K (ir_rmt_addr req) (ir_rmt_port req) 0 (MPTCP_HASH_SIZE K) in
  (htb_list_add g h req,
   [Ev_inet_csk_reqsk_queue_hash_add meta_sk req timeout;
    Ev_spin_lock_reqsk_hlock; Ev_list_add h req; Ev_spin_unlock_reqsk_hlock]).

Definition mptcp_v6_reqsk_queue_hash_add (K : kernel) (g : global)
    (meta_sk : sock_ptr) (req : mptcp_request_sock) (timeout : Z)
  : global * list event :=
  let h := inet6_synq_hash K (ir6_rmt_addr req) (ir_rmt_port req) 0 (MPTCP_HASH_SIZE K) in
  (htb_list_add g h req,
   [Ev_inet6_csk_reqsk_queue_hash_add meta_sk req timeout;
    Ev_spin_lock_reqsk_hlock; Ev_list_add h req; Ev_spin_unlock_reqsk_hlock]).

(** The [list_for_each_entry] loop of [mptcp_v4_search_req]. *)
Fixpoint v4_search_loop (bucket : list mptcp_request_sock) (rport raddr laddr : Z)
  : option sock_ptr :=
  match bucket with
  | [] => None
  | mtreq :: bucket' =>
      if (ir_rmt_port mtreq =? rport) && (ir_rmt_addr mtreq =? raddr) &&
         (ir_loc_addr mtreq =? laddr) &&
         family_eqb (ops_family (rsk_ops mtreq)) AF_INET
      then Some (mtreq_meta_sk mtreq)
      else v4_search_loop bucket' rport raddr laddr
  end.

Definition mptcp_v4_search_req (K : kernel) (g : global) (rport raddr laddr : Z)
  : option sock_ptr * global * list event :=
  let h := inet_synq_hash K raddr rport 0 (MPTCP_HASH_SIZE K) in
  match v4_search_loop (mptcp_reqsk_htb g h) rport raddr laddr with
  | Some meta_sk =>
      (Some meta_sk, sock_hold g meta_sk,
       [Ev_spin_lock_reqsk_hlock; Ev_walk_bucket h; Ev_sock_hold meta_sk;
        Ev_spin_unlock_reqsk_hlock])
  | None =>
      (None, g,
       [Ev_spin_lock_reqsk_hlock; Ev_walk_bucket h; Ev_spin_unlock_reqsk_hlock])
  end.

Fixpoint v6_search_loop (bucket : list mptcp_request_sock) (rport : Z)
    (raddr laddr : in6_addr) : option sock_ptr :=
  match bucket with
  | [] => None
  | mtreq :: bucket' =>
      if (ir_rmt_port mtreq =? rport) &&
         family_eqb (ops_family (rsk_ops mtreq)) AF_INET6 &&
         ipv6_addr_equal (ir6_rmt_addr mtreq) raddr &&
         ipv6_addr_equal (ir6_loc_addr mtreq) laddr
      then Some (mtreq_meta_sk mtreq)
      else v6_search_loop bucket' rport raddr laddr
  end.

Definition mptcp_v6_search_req (K : kernel) (g : global) (rport : Z)
    (raddr laddr : in6_addr) : option sock_ptr * global * list event :=
  let h := inet6_synq_hash K raddr rport 0 (MPTCP_HASH_SIZE K) in
  match v6_search_loop (mptcp_reqsk_htb g h) rport raddr laddr with
  | Some meta_sk =>
      (Some meta_sk, sock_hold g meta_sk,
       [Ev_spin_lock_reqsk_hlock; Ev_walk_bucket h; Ev_sock_hold meta_sk;
        Ev_spin_unlock_reqsk_hlock])
  | None =>
      (None, g,
       [Ev_spin_lock_reqsk_hlock; Ev_walk_bucket h; Ev_spin_unlock_reqsk_hlock])
  end.

(** ** SYN-ACK retransmission *)

(** Results of the calls made while a SYN-ACK is built and sent. *)
Record synack_env := mk_synack_env {
  se_dst_lookup_err : Z;      (* [PTR_ERR] of [ip6_dst_lookup_flow], 0 when it succeeds *)
  se_make_synack_ok : bool;   (* [tcp_make_synack] returned a buffer *)
  se_xmit_err : Z;            (* [net_xmit_eval(ip6_xmit(...))] *)
  se_ENOMEM : Z
}.

(** [mptcp_v6v4_send_synack]: the meta socket is IPv4, the subflow IPv6. *)
Definition mptcp_v6v4_send_synack (S : synack_env) : Z * list event :=
  if negb (se_dst_lookup_err S =? 0)
  then (se_dst_lookup_err S, [Ev_ip6_dst_lookup_flow; Ev_dst_release])
  else if se_make_synack_ok S
  then (se_xmit_err S,
        [Ev_ip6_dst_lookup_flow; Ev_tcp_make_synack; Ev_ip6_xmit; Ev_dst_release])
  else (- se_ENOMEM S, [Ev_ip6_dst_lookup_flow; Ev_tcp_make_synack; Ev_dst_release]).

(** [mptcp_v6_rtx_synack]; [std] is the result of [tcp_v6_rtx_synack]. *)
Definition mptcp_v6_rtx_synack (S : synack_env) (std : Z) (meta_family : sa_family)
  : Z * list event :=
  if family_eqb meta_family AF_INET6 then (std, [Ev_tcp_v6_rtx_synack])
  else
    let '(err, tr) := mptcp_v6v4_send_synack S in
    (err, Ev_TCP_INC_STATS_RETRANSSEGS :: tr).

(** [req->rsk_ops->rtx_syn_ack(meta_sk, req, rvp)], the retransmission
    operation of a pending request; [std] is the result of the standard
    TCP routine when that is what runs. *)
Definition rtx_synack (S : synack_env) (std : Z) (meta_family : sa_family)
    (req : mptcp_request_sock) : Z * list event :=
  match rtx_syn_ack (rsk_ops req) with
  | Fn_tcp_v4_rtx_synack => (std, [Ev_tcp_v4_rtx_synack])
  | Fn_mptcp_v6_rtx_synack => mptcp_v6_rtx_synack S std meta_family
  end.

(** ** The meta connection *)

Record mptcp_loc4 := mk_loc4 { loc4_addr : Z; loc4_id : Z; loc4_low_prio : bool }.
Record mptcp_loc6 := mk_loc6 { loc6_addr : in6_addr; loc6_id : Z; loc6_low_prio : bool }.

#[global] Instance mptcp_loc4_inhabited : Inhabited mptcp_loc4 :=
  populate (mk_loc4 0 0 false).
#[global] Instance mptcp_loc6_inhabited : Inhabited mptcp_loc6 :=
  populate (mk_loc6 in6addr_any 0 false).

(** A subflow socket on the connection list of the meta connection. *)
Record subflow := mk_subflow {
  sf_sk : sock_ptr;
  sf_family : sa_family;
  sf_inet_saddr : Z;
  sf_saddr6 : in6_addr;
  sf_low_prio : bool;
  sf_send_mp_prio : bool;
  sf_add_addr4 : Z;
  sf_add_addr6 : Z
}.

Record mptcp_cb := mk_mpcb {
  meta_sk : sock_ptr;
  mpcb_loc_key : Z;
  mpcb_rem_key : Z;
  rx_opt : multipath_options;
  loc4_bits : Z;
  mpcb_addr4 : list mptcp_loc4;
  next_v4_index : nat;
  loc6_bits : Z;
  mpcb_addr6 : list mptcp_loc6;
  next_v6_index : nat;
  remove_addrs : Z;
  connection_list : list subflow
}.

Definition set_rx_opt (mpcb : mptcp_cb) (m : multipath_options) : mptcp_cb :=
  mk_mpcb (meta_sk mpcb) (mpcb_loc_key mpcb) (mpcb_rem_key mpcb) m
          (loc4_bits mpcb) (mpcb_addr4 mpcb) (next_v4_index mpcb)
          (loc6_bits mpcb) (mpcb_addr6 mpcb) (next_v6_index mpcb)
          (remove_addrs mpcb) (connection_list mpcb).

Definition set_list_rcvd (m : multipath_options) (b : bool) : multipath_options :=
  mk_mopt (rem4_bits m) (addr4 m) (rem6_bits m) (addr6 m) b.

(** The meta socket: the fields of [struct sock] / [struct tcp_sock] the
    code reads, and the control block it owns. *)
Record meta_sock := mk_meta {
  sk_state : tcp_state;
  sk_family : sa_family;
  sk_bound_dev_if : Z;
  inside_tk_table : bool;
  inet_transparent : bool;
  inet_dport : Z;
  mpcb : mptcp_cb
}.

Definition set_mpcb (meta : meta_sock) (c : mptcp_cb) : meta_sock :=
  mk_meta (sk_state meta) (sk_family meta) (sk_bound_dev_if meta)
          (inside_tk_table meta) (inet_transparent meta) (inet_dport meta) c.

(** ** JOIN request creation *)

Record tcp_options_received := mk_opt {
  saw_tstamp : bool;
  tstamp_ok : bool;
  rcv_tsval : Z;
  mptcp_recv_nonce : Z;
  opt_rem_id : Z;
  opt_low_prio : bool;
  mpj_addr_id : Z
}.

(** The fields of an incoming segment that the code reads. *)
Record sk_buff4 := mk_skb4 {
  ip_saddr : Z;
  ip_daddr : Z;
  th4_source : Z;
  th4_dest : Z;
  skb4_when : Z                  (* [TCP_SKB_CB(skb)->when] *)
}.

Record sk_buff6 := mk_skb6 {
  ip6_saddr : in6_addr;
  ip6_daddr : in6_addr;
  th6_source : Z;
  th6_dest : Z;
  skb6_when : Z;
  skb6_iif : Z                   (* [inet6_iif(skb)] *)
}.

Record inet_peer := mk_peer {
  tcp_ts_stamp : Z;
  tcp_ts : Z;
  peer_daddr6 : in6_addr
}.

(** A route: the flow's destination, the peer entry ([rt_get_peer],
    [rt6_get_peer]) and the RTT metric. *)
Record dst_entry := mk_dst {
  fl4_daddr : Z;
  dst_peer : option inet_peer;
  dst_metric_rtt : Z
}.

(** Results of the kernel calls and the system settings that one run of
    the request creation routine observes. *)
Record join_env := mk_join_env {
  je_md5_configured : bool;        (* [CONFIG_TCP_MD5SIG] *)
  je_inbound_md5_hash : bool;      (* [tcp_vX_inbound_md5_hash] is non-zero *)
  je_reqsk_alloc_ok : bool;
  je_random_bytes : Z;             (* what [get_random_bytes] draws *)
  je_uninitialised : Z;            (* contents of a field left as allocated *)
  je_security_conn_request : bool; (* [security_inet_conn_request] is non-zero *)
  je_tw_recycle : bool;
  je_route_req : option dst_entry;
  je_get_seconds : Z;
  je_tcp_syncookies : bool;
  je_max_syn_backlog : Z;
  je_reqsk_queue_len : Z;
  je_init_sequence : Z;
  je_tcp_time_stamp : Z;
  je_send_synack : Z;              (* result of [tcp_vX_send_synack] *)
  je_synack : synack_env;
  je_ipv6_opt_accepted : bool      (* [ipv6_opt_accepted] or an [rxopt] bit *)
}.

Record join_result := mk_join_result {
  jr_global : global;
  jr_req : option mptcp_request_sock;   (* the request built, when one was allocated *)
  jr_queued : bool;                     (* it was added to the queue and the table *)
  jr_trace : list event
}.

(** Modelled from the spec: [tcp_openreq_init] is defined in
    [include/net/tcp.h]; of what it stores into the request, the "ports
    from TCP header" and the echoed timestamp are kept.  The routines set
    [tmp_opt->tstamp_ok = tmp_opt->saw_tstamp] just before the call. *)
Record openreq := mk_openreq {
  or_rmt_port : Z;
  or_loc_port : Z;
  or_ts_recent : Z;
  or_tstamp_ok : bool
}.

Definition tcp_openreq_init (tmp_opt : tcp_options_received) (source dest : Z) : openreq :=
  mk_openreq source dest (if saw_tstamp tmp_opt then rcv_tsval tmp_opt else 0)
             (saw_tstamp tmp_opt).

(** The truncated MAC the routine stores: the first 8 of the 20 digest
    bytes, read as a 64-bit integer. *)
Definition join_hash_tmac (K : kernel) (loc_key rem_key loc_nonce rem_nonce : Z) : Z :=
  let bo := cpu_byte_order K in
  let mptcp_hash_mac :=
    mptcp_hmac_sha1 (mem_bytes bo 8 loc_key) (mem_bytes bo 8 rem_key)
                    (mem_bytes bo 4 loc_nonce) (mem_bytes bo 4 rem_nonce) in
  mem_load bo (firstn 8 mptcp_hash_mac).

(** The "VJ's idea" test of both routines; [peer_ok] is the last
    conjunct of the first condition, [dst] and [peer] are what the
    conditions have assigned when they are evaluated from left to right. *)
Definition paws_or_flood_drop (K : kernel) (E : join_env)
    (tmp_opt : tcp_options_received) (ts_recent : Z)
    (dst_ok : dst_entry → bool) (peer_ok : inet_peer → bool) : option (list event) :=
  let dst := if saw_tstamp tmp_opt && je_tw_recycle E then je_route_req E else None in
  let peer :=
    match dst with
    | Some d => if dst_ok d then dst_peer d else None
    | None => None
    end in
  let first :=
    match peer with Some p => peer_ok p | None => false end in
  if first then
    match peer with
    | Some p =>
        if (u32 (u32 (je_get_seconds E) - tcp_ts_stamp p) <? TCP_PAWS_MSL K) &&
           (TCP_PAWS_WINDOW K <? s32 (tcp_ts p - ts_recent))
        then Some [Ev_NET_INC_STATS_PAWSPASSIVEREJECTED; Ev_dst_release; Ev_reqsk_free]
        else None
    | None => None
    end
  else if negb (je_tcp_syncookies E) &&
          (je_max_syn_backlog E - je_reqsk_queue_len E <? Z.shiftr (je_max_syn_backlog E) 2) &&
          match peer with Some p => tcp_ts_stamp p =? 0 | None => true end &&
          match dst with Some d => dst_metric_rtt d =? 0 | None => true end
  then Some [Ev_dst_release; Ev_reqsk_free]
  else None.

Definition mptcp_v4_join_request_short (K : kernel) (E : join_env) (g : global)
    (meta : meta_sock) (skb : sk_buff4) (tmp_opt : tcp_options_received)
  : join_result :=
  let saddr := ip_saddr skb in
  let daddr := ip_daddr skb in
  let isn := skb4_when skb in
  if negb (je_reqsk_alloc_ok E) then mk_join_result g None false []
  else
    let loc_nonce := u32 (je_random_bytes E) in
    let init := tcp_openreq_init tmp_opt (th4_source skb) (th4_dest skb) in
    let ts_recent := or_ts_recent init in
    let req0 :=
      mk_req mptcp_request_sock_ops (meta_sk (mpcb meta))
        (mptcp_recv_nonce tmp_opt) (mpcb_rem_key (mpcb meta)) (mpcb_loc_key (mpcb meta))
        loc_nonce
        (join_hash_tmac K (mpcb_loc_key (mpcb meta)) (mpcb_rem_key (mpcb meta))
                        loc_nonce (mptcp_recv_nonce tmp_opt))
        (opt_rem_id tmp_opt) (opt_low_prio tmp_opt)
        (or_rmt_port init) (or_loc_port init) daddr saddr (inet_transparent meta)
        in6addr_any in6addr_any 0 false
        ts_recent (or_tstamp_ok init) 0 0 in
    if je_security_conn_request E
    then mk_join_result g (Some req0) false [Ev_reqsk_free]
    else
      let drop :=
        if isn =? 0
        then paws_or_flood_drop K E tmp_opt ts_recent
               (fun d => fl4_daddr d =? saddr) (fun _ => true)
        else None in
      match drop with
      | Some tr => mk_join_result g (Some req0) false (Ev_TCP_ECN_create_request :: tr)
      | None =>
          let isn' := if isn =? 0 then je_init_sequence E else isn in
          let req :=
            mk_req (rsk_ops req0) (mtreq_meta_sk req0) (mptcp_rem_nonce req0)
              (mptcp_rem_key req0) (mptcp_loc_key req0) (mptcp_loc_nonce req0)
              (mptcp_hash_tmac req0) (mtreq_rem_id req0) (mtreq_low_prio req0)
              (ir_rmt_port req0) (ir_loc_port req0) (ir_loc_addr req0) (ir_rmt_addr req0)
              (ir_no_srccheck req0) (ir6_rmt_addr req0) (ir6_loc_addr req0)
              (ir6_iif req0) (ir6_pktopts req0) (req_ts_recent req0) (req_tstamp_ok req0)
              isn' (je_tcp_time_stamp E) in
          if negb (je_send_synack E =? 0)
          then mk_join_result g (Some req) false
                 [Ev_TCP_ECN_create_request; Ev_tcp_v4_send_synack req; Ev_reqsk_free]
          else
            let '(g', tr) :=
              mptcp_v4_reqsk_queue_hash_add K g (meta_sk (mpcb meta)) req
                                            (TCP_TIMEOUT_INIT K) in
            mk_join_result g' (Some req) true
              ([Ev_TCP_ECN_create_request; Ev_tcp_v4_send_synack req] ++ tr)
      end.

Definition mptcp_v6_join_request_short (K : kernel) (E : join_env) (g : global)
    (meta : meta_sock) (skb : sk_buff6) (tmp_opt : tcp_options_received)
  : join_result :=
  let isn := skb6_when skb in
  if negb (je_reqsk_alloc_ok E) then mk_join_result g None false []
  else
    let loc_nonce := u32 (je_random_bytes E) in
    let init := tcp_openreq_init tmp_opt (th6_source skb) (th6_dest skb) in
    let ts_recent := or_ts_recent init in
    let iif :=
      if (sk_bound_dev_if meta =? 0) &&
         negb (Z.land (ipv6_addr_type K (ip6_saddr skb)) (IPV6_ADDR_LINKLOCAL K) =? 0)
      then skb6_iif skb else sk_bound_dev_if meta in
    let pktopts :=
      (isn =? 0) && family_eqb (sk_family meta) AF_INET6 && je_ipv6_opt_accepted E in
    let req0 :=
      mk_req mptcp6_request_sock_ops (meta_sk (mpcb meta))
        (mptcp_recv_nonce tmp_opt) (mpcb_rem_key (mpcb meta)) (mpcb_loc_key (mpcb meta))
        loc_nonce
        (join_hash_tmac K (mpcb_loc_key (mpcb meta)) (mpcb_rem_key (mpcb meta))
                        loc_nonce (mptcp_recv_nonce tmp_opt))
        (opt_rem_id tmp_opt) (opt_low_prio tmp_opt)
        (or_rmt_port init) (or_loc_port init) (je_uninitialised E) (je_uninitialised E)
        false
        (ip6_saddr skb) (ip6_daddr skb) iif pktopts
        ts_recent (or_tstamp_ok init) 0 0 in
    let pre := Ev_TCP_ECN_create_request :: (if pktopts then [Ev_skb_hold] else []) in
    let drop :=
      if isn =? 0
      then paws_or_flood_drop K E tmp_opt ts_recent
             (fun _ => true)
             (fun p => ipv6_addr_equal (peer_daddr6 p) (ip6_saddr skb))
      else None in
    match drop with
    | Some tr => mk_join_result g (Some req0) false (pre ++ tr)
    | None =>
        let isn' := if isn =? 0 then je_init_sequence E else isn in
        let req :=
          mk_req (rsk_ops req0) (mtreq_meta_sk req0) (mptcp_rem_nonce req0)
            (mptcp_rem_key req0) (mptcp_loc_key req0) (mptcp_loc_nonce req0)
            (mptcp_hash_tmac req0) (mtreq_rem_id req0) (mtreq_low_prio req0)
            (ir_rmt_port req0) (ir_loc_port req0) (ir_loc_addr req0) (ir_rmt_addr req0)
            (ir_no_srccheck req0) (ir6_rmt_addr req0) (ir6_loc_addr req0)
            (ir6_iif req0) (ir6_pktopts req0) (req_ts_recent req0) (req_tstamp_ok req0)
            isn' (je_tcp_time_stamp E) in
        let '(err, send) :=
          if family_eqb (sk_family meta) AF_INET6
          then (je_send_synack E, [Ev_tcp_v6_send_synack req])
          else mptcp_v6v4_send_synack (je_synack E) in
        if negb (err =? 0)
        then mk_join_result g (Some req) false (pre ++ send ++ [Ev_reqsk_free])
        else
          let '(g', tr) :=
            mptcp_v6_reqsk_queue_hash_add K g (meta_sk (mpcb meta)) req
                                          (TCP_TIMEOUT_INIT K) in
          mk_join_result g' (Some req) true (pre ++ send ++ tr)
    end.

(** ** Fast processing of SYN + MP_JOIN *)

Record rcv_result := mk_rcv_result {
  rr_meta : meta_sock;
  rr_global : global;
  rr_req : option mptcp_request_sock;
  rr_queued : bool;
  rr_trace : list event
}.

Definition mptcp_v4_do_rcv_join_syn (K : kernel) (E : join_env) (g : global)
    (meta : meta_sock) (skb : sk_buff4) (tmp_opt : tcp_options_received)
  : rcv_result :=
  if je_md5_configured E && je_inbound_md5_hash E
  then mk_rcv_result meta g None false []
  else if is_TCP_CLOSE (sk_state meta) || negb (inside_tk_table meta)
  then mk_rcv_result meta g None false [Ev_tcp_v4_send_reset (ip_saddr skb) (ip_daddr skb)]
  else
    let '(ret, mopt) :=
      mptcp_v4_add_raddress (rx_opt (mpcb meta)) (ip_saddr skb) 0 (mpj_addr_id tmp_opt) in
    if ret <? 0
    then mk_rcv_result (set_mpcb meta (set_rx_opt (mpcb meta) mopt)) g None false
           [Ev_tcp_v4_send_reset (ip_saddr skb) (ip_daddr skb)]
    else
      let meta' := set_mpcb meta (set_rx_opt (mpcb meta) (set_list_rcvd mopt false)) in
      let r := mptcp_v4_join_request_short K E g meta' skb tmp_opt in
      mk_rcv_result meta' (jr_global r) (jr_req r) (jr_queued r) (jr_trace r).

Definition mptcp_v6_do_rcv_join_syn (K : kernel) (E : join_env) (g : global)
    (meta : meta_sock) (skb : sk_buff6) (tmp_opt : tcp_options_received)
  : rcv_result :=
  if je_md5_configured E && je_inbound_md5_hash E
  then mk_rcv_result meta g None false []
  else if is_TCP_CLOSE (sk_state meta) || negb (inside_tk_table meta)
  then mk_rcv_result meta g None false [Ev_tcp_v6_send_reset (ip6_saddr skb) (ip6_daddr skb)]
  else
    let '(ret, mopt) :=
      mptcp_v6_add_raddress (rx_opt (mpcb meta)) (ip6_saddr skb) 0 (mpj_addr_id tmp_opt) in
    if ret <? 0
    then mk_rcv_result (set_mpcb meta (set_rx_opt (mpcb meta) mopt)) g None false
           [Ev_tcp_v6_send_reset (ip6_saddr skb) (ip6_daddr skb)]
    else
      let meta' := set_mpcb meta (set_rx_opt (mpcb meta) (set_list_rcvd mopt false)) in
      let r := mptcp_v6_join_request_short K E g meta' skb tmp_opt in
      mk_rcv_result meta' (jr_global r) (jr_req r) (jr_queued r) (jr_trace r).

(** ** Subflow creation *)

(** Results of the socket calls of one run of [mptcp_initX_subsockets]. *)
Record subsock_env := mk_subsock_env {
  ss_inet_create : Z;
  ss_mptcp_add_sock : Z;
  ss_bind : Z;
  ss_connect : Z
}.

Definition set_rem4_bitfield (rem : mptcp_rem4) (v : Z) : mptcp_rem4 :=
  mk_rem4 (rem4_addr rem) (rem4_port rem) v (rem4_retry_bitfield rem) (rem4_id rem).

Definition set_rem6_bitfield (rem : mptcp_rem6) (v : Z) : mptcp_rem6 :=
  mk_rem6 (rem6_addr rem) (rem6_port rem) v (rem6_retry_bitfield rem) (rem6_id rem).

Definition subsock_error : list event := [Ev_sock_orphan; Ev_tcp_done].

(** [mptcp_init4_subsockets]: the result, [*rem] on return, and the
    calls made. *)
Definition mptcp_init4_subsockets (K : kernel) (S : subsock_env) (meta : meta_sock)
    (loc : mptcp_loc4) (rem : mptcp_rem4) : Z * mptcp_rem4 * list event :=
  let v := u16 (Z.lor (rem4_bitfield rem) (Z.shiftl 1 (loc4_id loc))) in
  let rem' := set_rem4_bitfield rem v in
  let ret := ss_inet_create S in
  if ret <? 0 then (ret, rem', [Ev_store_bitfield v; Ev_inet_create])
  else if negb (ss_mptcp_add_sock S =? 0)
  then (ret, rem',
        [Ev_store_bitfield v; Ev_inet_create; Ev_mptcp_add_sock (rem4_id rem')]
          ++ subsock_error)
  else
    let rem_port := if negb (rem4_port rem' =? 0) then rem4_port rem' else inet_dport meta in
    let pre :=
      [Ev_store_bitfield v; Ev_inet_create; Ev_mptcp_add_sock (rem4_id rem');
       Ev_setup_timer; Ev_bind (inl (loc4_addr loc)) 0] in
    let ret := ss_bind S in
    if ret <? 0 then (ret, rem', pre ++ subsock_error)
    else
      let ret := ss_connect S in
      let pre := pre ++ [Ev_connect (inl (rem4_addr rem')) rem_port] in
      if (ret <? 0) && negb (ret =? - EINPROGRESS K)
      then (ret, rem', pre ++ subsock_error)
      else (0, rem', pre ++ [Ev_sk_set_socket]).

(** [mptcp_init6_subsockets]. *)
Definition mptcp_init6_subsockets (K : kernel) (S : subsock_env) (meta : meta_sock)
    (loc : mptcp_loc6) (rem : mptcp_rem6) : Z * mptcp_rem6 * list event :=
  let v := u16 (Z.lor (rem6_bitfield rem)
                  (Z.shiftl 1 (loc6_id loc - Z.min (loc6_id loc) (Z.of_nat MPTCP_MAX_ADDR)))) in
  let rem' := set_rem6_bitfield rem v in
  let ret := ss_inet_create S in
  if ret <? 0 then (ret, rem', [Ev_store_bitfield v; Ev_inet6_create])
  else if negb (ss_mptcp_add_sock S =? 0)
  then (ret, rem',
        [Ev_store_bitfield v; Ev_inet6_create; Ev_mptcp_add_sock (rem6_id rem')]
          ++ subsock_error)
  else
    let rem_port := if negb (rem6_port rem' =? 0) then rem6_port rem' else inet_dport meta in
    let pre :=
      [Ev_store_bitfield v; Ev_inet6_create; Ev_mptcp_add_sock (rem6_id rem');
       Ev_setup_timer; Ev_bind (inr (loc6_addr loc)) 0] in
    let ret := ss_bind S in
    if ret <? 0 then (ret, rem', pre ++ subsock_error)
    else
      let ret := ss_connect S in
      let pre := pre ++ [Ev_connect (inr (rem6_addr rem')) rem_port] in
      if (ret <? 0) && negb (ret =? - EINPROGRESS K)
      then (ret, rem', pre ++ subsock_error)
      else (0, rem', pre ++ [Ev_sk_set_socket]).

(** ** Address events *)

Inductive netdev_event := NETDEV_UP | NETDEV_DOWN | NETDEV_CHANGE | NETDEV_OTHER.

Definition is_NETDEV_DOWN (e : netdev_event) : bool :=
  match e with NETDEV_DOWN => true | _ => false end.
Definition is_NETDEV_UP (e : netdev_event) : bool :=
  match e with NETDEV_UP => true | _ => false end.
Definition is_NETDEV_CHANGE (e : netdev_event) : bool :=
  match e with NETDEV_CHANGE => true | _ => false end.

(** [struct in_ifaddr] and [struct inet6_ifaddr] with the fields of their
    device that the handlers read. *)
Record in_ifaddr := mk_ifa {
  ifa_scope : Z;
  ifa_local : Z;
  ifa_dev_flags : Z;
  ifa_dev_running : bool        (* [netif_running] *)
}.

Record inet6_ifaddr := mk_ifa6 {
  ifa6_scope : Z;
  ifa6_addr : in6_addr;
  ifa6_dev_flags : Z;
  ifa6_dev_running : bool
}.

(** Modelled from the spec: [__mptcp_find_free_index(b, j, base)] of
    [include/net/mptcp.h], "find_free_index(loc_bits, start=next_v_index)":
    the first clear bit from [base] on other than [j], else, wrapping, the
    first clear bit other than [j]; slot 0 "is reserved for the initial
    subflow's local address". *)
Definition __mptcp_find_free_index (b : Z) (j : nat) (base : nat) : option nat :=
  let free i := negb (bit_set b i) && negb (i =? j)%nat in
  match List.find (fun i => free i && (base <=? i)%nat) (seq 0 MPTCP_MAX_ADDR) with
  | Some i => Some i
  | None => List.find free (seq 0 MPTCP_MAX_ADDR)
  end.

(** [mptcp_v4_send_add_addr] and [mptcp_v6_send_add_addr]. *)
Definition mptcp_v4_send_add_addr (loc_id : nat) (mpcb : mptcp_cb) : list subflow :=
  map (fun tp =>
         mk_subflow (sf_sk tp) (sf_family tp) (sf_inet_saddr tp) (sf_saddr6 tp)
           (sf_low_prio tp) (sf_send_mp_prio tp)
           (u16 (Z.lor (sf_add_addr4 tp) (Z.shiftl 1 (Z.of_nat loc_id))))
           (sf_add_addr6 tp))
      (connection_list mpcb).

Definition mptcp_v6_send_add_addr (loc_id : nat) (mpcb : mptcp_cb) : list subflow :=
  map (fun tp =>
         mk_subflow (sf_sk tp) (sf_family tp) (sf_inet_saddr tp) (sf_saddr6 tp)
           (sf_low_prio tp) (sf_send_mp_prio tp) (sf_add_addr4 tp)
           (u16 (Z.lor (sf_add_addr6 tp) (Z.shiftl 1 (Z.of_nat loc_id)))))
      (connection_list mpcb).

(** The [mptcp_for_each_sk_safe] loop after [found:]; [bound sk] tells
    whether the subflow is of the handler's family and bound to the event
    address. *)
Fixpoint addr_event_sk_loop (bound : subflow → bool) (evt : netdev_event)
    (new_low_prio : bool) (sks : list subflow) : list subflow * list event :=
  match sks with
  | [] => ([], [])
  | sk :: sks' =>
      let '(rest, tr) := addr_event_sk_loop bound evt new_low_prio sks' in
      if negb (bound sk) then (sk :: rest, tr)
      else if is_NETDEV_DOWN evt
      then (sk :: rest,
            Ev_mptcp_reinject_data (sf_sk sk) :: Ev_mptcp_sub_force_close (sf_sk sk) :: tr)
      else if is_NETDEV_CHANGE evt
      then (mk_subflow (sf_sk sk) (sf_family sk) (sf_inet_saddr sk) (sf_saddr6 sk)
              new_low_prio
              (if Bool.eqb new_low_prio (sf_low_prio sk) then sf_send_mp_prio sk else true)
              (sf_add_addr4 sk) (sf_add_addr6 sk) :: rest, tr)
      else (sk :: rest, tr)
  end.

(** The last loop of the handlers: [addr4[i].bitfield &= loc4_bits] over
    the populated remote slots. *)
Fixpoint v4_forget_loop (idx : list nat) (a : list mptcp_rem4) (loc_bits : Z)
  : list mptcp_rem4 :=
  match idx with
  | [] => a
  | i :: idx' =>
      v4_forget_loop idx'
        (<[i := set_rem4_bitfield (a !!! i) (Z.land (rem4_bitfield (a !!! i)) loc_bits)]> a)
        loc_bits
  end.

Fixpoint v6_forget_loop (idx : list nat) (a : list mptcp_rem6) (loc_bits : Z)
  : list mptcp_rem6 :=
  match idx with
  | [] => a
  | i :: idx' =>
      v6_forget_loop idx'
        (<[i := set_rem6_bitfield (a !!! i) (Z.land (rem6_bitfield (a !!! i)) loc_bits)]> a)
        loc_bits
  end.

(** [mptcp_pm_addr4_event_handler]; [ack_sk] is what
    [mptcp_select_ack_sock] returns. *)
Definition mptcp_pm_addr4_event_handler (K : kernel) (ack_sk : option sock_ptr)
    (ifa : in_ifaddr) (evt : netdev_event) (mpcb : mptcp_cb)
  : mptcp_cb * list event :=
  if (RT_SCOPE_LINK K <? ifa_scope ifa) ||
     negb (Z.land (ifa_dev_flags ifa) (IFF_NOMULTIPATH K) =? 0)
  then (mpcb, [])
  else
    match List.find (fun i => loc4_addr (mpcb_addr4 mpcb !!! i) =? ifa_local ifa)
                    (mptcp_for_each_bit_set (loc4_bits mpcb)) with
    | None =>
        if (is_NETDEV_UP evt || is_NETDEV_CHANGE evt) && ifa_dev_running ifa
        then
          match __mptcp_find_free_index (loc4_bits mpcb) 0 (next_v4_index mpcb) with
          | None => (mpcb, [])
          | Some i =>
              let mpcb1 :=
                mk_mpcb (meta_sk mpcb) (mpcb_loc_key mpcb) (mpcb_rem_key mpcb) (rx_opt mpcb)
                  (u16 (Z.lor (loc4_bits mpcb) (Z.shiftl 1 (Z.of_nat i))))
                  (<[i := mk_loc4 (ifa_local ifa) (Z.of_nat i)
                            (loc4_low_prio (mpcb_addr4 mpcb !!! i))]> (mpcb_addr4 mpcb))
                  (S i) (loc6_bits mpcb) (mpcb_addr6 mpcb) (next_v6_index mpcb)
                  (remove_addrs mpcb) (connection_list mpcb) in
              (mk_mpcb (meta_sk mpcb1) (mpcb_loc_key mpcb1) (mpcb_rem_key mpcb1)
                 (rx_opt mpcb1) (loc4_bits mpcb1) (mpcb_addr4 mpcb1) (next_v4_index mpcb1)
                 (loc6_bits mpcb1) (mpcb_addr6 mpcb1) (next_v6_index mpcb1)
                 (remove_addrs mpcb1) (mptcp_v4_send_add_addr i mpcb1),
               [Ev_mptcp_create_subflows (meta_sk mpcb)])
          end
        else (mpcb, [])
    | Some i =>
        let new_low_prio := negb (Z.land (ifa_dev_flags ifa) (IFF_MPBACKUP K) =? 0) in
        let '(sks, tr) :=
          addr_event_sk_loop
            (fun sk => family_eqb (sf_family sk) AF_INET &&
                       (sf_inet_saddr sk =? ifa_local ifa))
            evt new_low_prio (connection_list mpcb) in
        if is_NETDEV_DOWN evt
        then
          let bits := u16 (Z.land (loc4_bits mpcb) (Z.lnot (Z.shiftl 1 (Z.of_nat i)))) in
          let m := rx_opt mpcb in
          (mk_mpcb (meta_sk mpcb) (mpcb_loc_key mpcb) (mpcb_rem_key mpcb)
             (mk_mopt (rem4_bits m)
                (v4_forget_loop (mptcp_for_each_bit_set (rem4_bits m)) (addr4 m) bits)
                (rem6_bits m) (addr6 m) (list_rcvd m))
             bits (mpcb_addr4 mpcb) (next_v4_index mpcb)
             (loc6_bits mpcb) (mpcb_addr6 mpcb) (next_v6_index mpcb)
             (u32 (Z.lor (remove_addrs mpcb)
                     (Z.shiftl 1 (loc4_id (mpcb_addr4 mpcb !!! i)))))
             sks,
           tr ++ match ack_sk with Some sk => [Ev_tcp_send_ack sk] | None => [] end)
        else
          (mk_mpcb (meta_sk mpcb) (mpcb_loc_key mpcb) (mpcb_rem_key mpcb) (rx_opt mpcb)
             (loc4_bits mpcb) (mpcb_addr4 mpcb) (next_v4_index mpcb)
             (loc6_bits mpcb) (mpcb_addr6 mpcb) (next_v6_index mpcb)
             (remove_addrs mpcb) sks,
           tr)
    end.

(** [mptcp_pm_addr6_event_handler]. *)
Definition mptcp_pm_addr6_event_handler (K : kernel) (ack_sk : option sock_ptr)
    (ifa : inet6_ifaddr) (evt : netdev_event) (mpcb : mptcp_cb)
  : mptcp_cb * list event :=
  let addr_type := ipv6_addr_type K (ifa6_addr ifa) in
  if (RT_SCOPE_LINK K <? ifa6_scope ifa) ||
     negb (Z.land (ifa6_dev_flags ifa) (IFF_NOMULTIPATH K) =? 0) ||
     (addr_type =? IPV6_ADDR_ANY K) ||
     negb (Z.land addr_type (IPV6_ADDR_LOOPBACK K) =? 0) ||
     negb (Z.land addr_type (IPV6_ADDR_LINKLOCAL K) =? 0)
  then (mpcb, [])
  else
    match List.find (fun i => ipv6_addr_equal (loc6_addr (mpcb_addr6 mpcb !!! i))
                                              (ifa6_addr ifa))
                    (mptcp_for_each_bit_set (loc6_bits mpcb)) with
    | None =>
        if (is_NETDEV_UP evt || is_NETDEV_CHANGE evt) && ifa6_dev_running ifa
        then
          match __mptcp_find_free_index (loc6_bits mpcb) 0 (next_v6_index mpcb) with
          | None => (mpcb, [])
          | Some i =>
              let mpcb1 :=
                mk_mpcb (meta_sk mpcb) (mpcb_loc_key mpcb) (mpcb_rem_key mpcb) (rx_opt mpcb)
                  (loc4_bits mpcb) (mpcb_addr4 mpcb) (next_v4_index mpcb)
                  (u16 (Z.lor (loc6_bits mpcb) (Z.shiftl 1 (Z.of_nat i))))
                  (<[i := mk_loc6 (ifa6_addr ifa) (Z.of_nat i + Z.of_nat MPTCP_MAX_ADDR)
                            (loc6_low_prio (mpcb_addr6 mpcb !!! i))]> (mpcb_addr6 mpcb))
                  (S i) (remove_addrs mpcb) (connection_list mpcb) in
              (mk_mpcb (meta_sk mpcb1) (mpcb_loc_key mpcb1) (mpcb_rem_key mpcb1)
                 (rx_opt mpcb1) (loc4_bits mpcb1) (mpcb_addr4 mpcb1) (next_v4_index mpcb1)
                 (loc6_bits mpcb1) (mpcb_addr6 mpcb1) (next_v6_index mpcb1)
                 (remove_addrs mpcb1) (mptcp_v6_send_add_addr i mpcb1),
               [Ev_mptcp_create_subflows (meta_sk mpcb)])
          end
        else (mpcb, [])
    | Some i =>
        let new_low_prio := negb (Z.land (ifa6_dev_flags ifa) (IFF_MPBACKUP K) =? 0) in
        let '(sks, tr) :=
          addr_event_sk_loop
            (fun sk => family_eqb (sf_family sk) AF_INET6 &&
                       ipv6_addr_equal (sf_saddr6 sk) (ifa6_addr ifa))
            evt new_low_prio (connection_list mpcb) in
        if is_NETDEV_DOWN evt
        then
          let bits := u16 (Z.land (loc6_bits mpcb) (Z.lnot (Z.shiftl 1 (Z.of_nat i)))) in
          let m := rx_opt mpcb in
          (mk_mpcb (meta_sk mpcb) (mpcb_loc_key mpcb) (mpcb_rem_key mpcb)
             (mk_mopt (rem4_bits m) (addr4 m) (rem6_bits m)
                (v6_forget_loop (mptcp_for_each_bit_set (rem6_bits m)) (addr6 m) bits)
                (list_rcvd m))
             (loc4_bits mpcb) (mpcb_addr4 mpcb) (next_v4_index mpcb)
             bits (mpcb_addr6 mpcb) (next_v6_index mpcb)
             (u32 (Z.lor (remove_addrs mpcb)
                     (Z.shiftl 1 (loc6_id (mpcb_addr6 mpcb !!! i)))))
             sks,
           tr ++ match ack_sk with Some sk => [Ev_tcp_send_ack sk] | None => [] end)
        else
          (mk_mpcb (meta_sk mpcb) (mpcb_loc_key mpcb) (mpcb_rem_key mpcb) (rx_opt mpcb)
             (loc4_bits mpcb) (mpcb_addr4 mpcb) (next_v4_index mpcb)
             (loc6_bits mpcb) (mpcb_addr6 mpcb) (next_v6_index mpcb)
             (remove_addrs mpcb) sks,
           tr)
    end.

(** ** Notions used to state the properties *)

(** What the scan of [mptcp_vX_add_raddress] compares an entry with. *)
Definition exact4 (r : mptcp_rem4) (addr port id : Z) : Prop :=
  rem4_id r = id ∧ rem4_addr r = addr ∧ rem4_port r = port.
Definition other_addr4 (r : mptcp_rem4) (addr id : Z) : Prop :=
  rem4_id r = id ∧ rem4_addr r ≠ addr.
Definition other_port4 (r : mptcp_rem4) (addr port id : Z) : Prop :=
  rem4_id r = id ∧ rem4_addr r = addr ∧ rem4_port r ≠ port.

Definition exact6 (r : mptcp_rem6) (addr : in6_addr) (port id : Z) : Prop :=
  rem6_id r = id ∧ rem6_addr r = addr ∧ rem6_port r = port.
Definition other_addr6 (r : mptcp_rem6) (addr : in6_addr) (id : Z) : Prop :=
  rem6_id r = id ∧ rem6_addr r ≠ addr.
Definition other_port6 (r : mptcp_rem6) (addr : in6_addr) (port id : Z) : Prop :=
  rem6_id r = id ∧ rem6_addr r = addr ∧ rem6_port r ≠ port.

(** All slots of a family are populated. *)
Definition full4 (m : multipath_options) : Prop :=
  ∀ i, (i < MPTCP_MAX_ADDR)%nat → bit_set (rem4_bits m) i = true.
Definition full6 (m : multipath_options) : Prop :=
  ∀ i, (i < MPTCP_MAX_ADDR)%nat → bit_set (rem6_bits m) i = true.

(** The [(id, ip, port)] triple of an entry. *)
Definition triple4 (r : mptcp_rem4) : Z * Z * Z := (rem4_id r, rem4_addr r, rem4_port r).
Definition triple6 (r : mptcp_rem6) : Z * in6_addr * Z :=
  (rem6_id r, rem6_addr r, rem6_port r).

Definition unique_triples4 (m : multipath_options) : Prop :=
  ∀ i j, populated4 m i → populated4 m j →
         triple4 (addr4 m !!! i) = triple4 (addr4 m !!! j) → i = j.
Definition unique_triples6 (m : multipath_options) : Prop :=
  ∀ i j, populated6 m i → populated6 m j →
         triple6 (addr6 m !!! i) = triple6 (addr6 m !!! j) → i = j.
Definition unique_ids6 (m : multipath_options) : Prop :=
  ∀ i j, populated6 m i → populated6 m j →
         rem6_id (addr6 m !!! i) = rem6_id (addr6 m !!! j) → i = j.

(** Registries reachable from the empty one by the additions and
    removals of the two families; the receive paths also clear [list_rcvd]
    after an addition.  The bit fields of the entries are written by other
    routines ([mptcp_initX_subsockets], [mptcp_vX_set_init_addr_bit], the
    address handlers) and are all 0 in these registries. *)
Inductive reachable : multipath_options → Prop :=
  | reach_empty : reachable mopt_empty
  | reach_add4 m addr port id :
      reachable m → reachable (mptcp_v4_add_raddress m addr port id).2
  | reach_rem4 m id :
      reachable m → reachable (mptcp_v4_rem_raddress m id).2
  | reach_add6 m addr port id :
      reachable m → reachable (mptcp_v6_add_raddress m addr port id).2
  | reach_rem6 m id :
      reachable m → reachable (mptcp_v6_rem_raddress m id).2
  | reach_clear m :
      reachable m → reachable (set_list_rcvd m false).

(** The tests of the scan as functions of the slot index, and the update
    the NAT branch performs. *)
Definition exact4b (m : multipath_options) (addr port id : Z) (i : nat) : bool :=
  let r := addr4 m !!! i in
  (rem4_id r =? id) && (rem4_addr r =? addr) && (rem4_port r =? port).
Definition nat4b (m : multipath_options) (addr id : Z) (i : nat) : bool :=
  let r := addr4 m !!! i in (rem4_id r =? id) && negb (rem4_addr r =? addr).
Definition v4_nat_update (m : multipath_options) (addr port : Z) (i : nat)
  : multipath_options :=
  let r := addr4 m !!! i in
  mk_mopt (rem4_bits m)
    (<[i := mk_rem4 addr port (rem4_bitfield r) (rem4_retry_bitfield r) (rem4_id r)]>
       (addr4 m))
    (rem6_bits m) (addr6 m) true.
Definition v4_store (m : multipath_options) (addr port id : Z) (i : nat)
  : multipath_options :=
  mk_mopt (u16 (Z.lor (rem4_bits m) (Z.shiftl 1 (Z.of_nat i))))
    (<[i := mk_rem4 addr port 0 0 id]> (addr4 m)) (rem6_bits m) (addr6 m) true.

Definition exact6b (m : multipath_options) (addr : in6_addr) (port id : Z) (i : nat)
  : bool :=
  let r := addr6 m !!! i in
  (rem6_id r =? id) && ipv6_addr_equal (rem6_addr r) addr && (rem6_port r =? port).
Definition id6b (m : multipath_options) (id : Z) (i : nat) : bool :=
  rem6_id (addr6 m !!! i) =? id.
Definition v6_nat_update (m : multipath_options) (addr : in6_addr) (port : Z) (i : nat)
  : multipath_options :=
  let r := addr6 m !!! i in
  mk_mopt (rem4_bits m) (addr4 m) (rem6_bits m)
    (<[i := mk_rem6 addr port (rem6_bitfield r) (rem6_retry_bitfield r) (rem6_id r)]>
       (addr6 m))
    true.
Definition v6_store (m : multipath_options) (addr : in6_addr) (port id : Z) (i : nat)
  : multipath_options :=
  mk_mopt (rem4_bits m) (addr4 m)
    (u16 (Z.lor (rem6_bits m) (Z.shiftl 1 (Z.of_nat i))))
    (<[i := mk_rem6 addr port 0 0 id]> (addr6 m)) true.

(** Slot [i] is the first populated slot whose entry has the id and
    another address. *)
Definition first_other_addr4 (m : multipath_options) (addr id : Z) (i : nat) : Prop :=
  populated4 m i ∧ other_addr4 (addr4 m !!! i) addr id ∧
  ∀ j, (j < i)%nat → populated4 m j → ¬ other_addr4 (addr4 m !!! j) addr id.
Definition first_other_addr6 (m : multipath_options) (addr : in6_addr) (id : Z) (i : nat)
  : Prop :=
  populated6 m i ∧ other_addr6 (addr6 m !!! i) addr id ∧
  ∀ j, (j < i)%nat → populated6 m j → ¬ other_addr6 (addr6 m !!! j) addr id.

Definition no_exact4 (m : multipath_options) (addr port id : Z) : Prop :=
  ∀ j, populated4 m j → ¬ exact4 (addr4 m !!! j) addr port id.
Definition no_exact6 (m : multipath_options) (addr : in6_addr) (port id : Z) : Prop :=
  ∀ j, populated6 m j → ¬ exact6 (addr6 m !!! j) addr port id.

(** No populated IPv6 slot before slot [i] carries the id: the scan of
    [mptcp_v6_add_raddress], which stops at the first populated slot with
    the id, reaches slot [i]. *)
Definition id_not_before6 (m : multipath_options) (id : Z) (i : nat) : Prop :=
  ∀ j, (j < i)%nat → populated6 m j → rem6_id (addr6 m !!! j) ≠ id.

(** The entry of slot [i] has been given [addr] and [port] in place:
    nothing else of the registry differs from [m], except that
    [list_rcvd] is set. *)
Definition updated_in_place4 (m m' : multipath_options) (addr port : Z) (i : nat) : Prop :=
  rem4_bits m' = rem4_bits m ∧ list_rcvd m' = true ∧
  addr4 m' !!! i =
    mk_rem4 addr port (rem4_bitfield (addr4 m !!! i))
            (rem4_retry_bitfield (addr4 m !!! i)) (rem4_id (addr4 m !!! i)) ∧
  (∀ j, j ≠ i → addr4 m' !!! j = addr4 m !!! j) ∧
  length (addr4 m') = length (addr4 m) ∧
  rem6_bits m' = rem6_bits m ∧ addr6 m' = addr6 m.
Definition updated_in_place6 (m m' : multipath_options) (addr : in6_addr) (port : Z)
    (i : nat) : Prop :=
  rem6_bits m' = rem6_bits m ∧ list_rcvd m' = true ∧
  addr6 m' !!! i =
    mk_rem6 addr port (rem6_bitfield (addr6 m !!! i))
            (rem6_retry_bitfield (addr6 m !!! i)) (rem6_id (addr6 m !!! i)) ∧
  (∀ j, j ≠ i → addr6 m' !!! j = addr6 m !!! j) ∧
  length (addr6 m') = length (addr6 m) ∧
  rem4_bits m' = rem4_bits m ∧ addr4 m' = addr4 m.

(** Claim C3 as the specification words it, on the registries built
    from the empty one by additions and removals. *)
Definition C3_as_stated : Prop :=
  (∀ m addr port id i,
     reachable m → first_other_addr4 m addr id i →
     (mptcp_v4_add_raddress m addr port id).1 = 0 ∧
     updated_in_place4 m (mptcp_v4_add_raddress m addr port id).2 addr port i) ∧
  (∀ m addr port id i,
     reachable m → first_other_addr6 m addr id i →
     (mptcp_v6_add_raddress m addr port id).1 = 0 ∧
     updated_in_place6 m (mptcp_v6_add_raddress m addr port id).2 addr port i).

(** Example registries: the peer announces id 1 at 10.0.0.2 without and
    with a port, then joins with id 1 from 10.0.0.99, then announces
    10.0.0.2 port 80 again. *)
Definition ip_10_0_0_2 : Z := 0x0A000002.
Definition ip_10_0_0_99 : Z := 0x0A000063.
Definition reg4_step1 : multipath_options :=
  (mptcp_v4_add_raddress mopt_empty ip_10_0_0_2 0 1).2.
Definition reg4_step2 : multipath_options :=
  (mptcp_v4_add_raddress reg4_step1 ip_10_0_0_2 80 1).2.
Definition reg4_step3 : multipath_options :=
  (mptcp_v4_add_raddress reg4_step2 ip_10_0_0_99 0 1).2.
Definition reg4_step4 : multipath_options :=
  (mptcp_v4_add_raddress reg4_step3 ip_10_0_0_2 80 1).2.

Definition ip6_2001_db8__2 : in6_addr := mk_in6 0x20010db8 0 0 2.
Definition ip6_2001_db8__99 : in6_addr := mk_in6 0x20010db8 0 0 0x99.
Definition reg6_step1 : multipath_options :=
  (mptcp_v6_add_raddress mopt_empty ip6_2001_db8__2 80 1).2.

(** The same registries after a subflow to the entry of slot 0 has been
    tried from the local addresses of bits 0 and 3: the bit field of the
    entry is 9. *)
Definition reg4_tried : multipath_options :=
  mk_mopt (rem4_bits reg4_step1)
    (<[0%nat := set_rem4_bitfield (addr4 reg4_step1 !!! 0%nat) 9]> (addr4 reg4_step1))
    (rem6_bits reg4_step1) (addr6 reg4_step1) (list_rcvd reg4_step1).
Definition reg6_tried : multipath_options :=
  mk_mopt (rem4_bits reg6_step1) (addr4 reg6_step1) (rem6_bits reg6_step1)
    (<[0%nat := set_rem6_bitfield (addr6 reg6_step1 !!! 0%nat) 9]> (addr6 reg6_step1))
    (list_rcvd reg6_step1).

(** Two populated IPv6 slots with the same id, which the additions never
    produce: (1, 2001:db8::99, 0) in slot 0 and (1, 2001:db8::2, 80) in
    slot 1. *)
Definition reg6_same_id : multipath_options :=
  mk_mopt 0 (replicate MPTCP_MAX_ADDR inhabitant) 3
    (<[1%nat := mk_rem6 ip6_2001_db8__2 80 0 0 1]>
       (<[0%nat := mk_rem6 ip6_2001_db8__99 0 0 0 1]>
          (replicate MPTCP_MAX_ADDR inhabitant)))
    false.

(** A fresh slot [k] has been allocated for [(id, addr, port)]: its bit
    is set, its entry is written, and every other bit and entry is as in
    [m]. *)
Definition stored_fresh4 (m m' : multipath_options) (addr port id : Z) (k : nat) : Prop :=
  (k < MPTCP_MAX_ADDR)%nat ∧ bit_set (rem4_bits m) k = false ∧
  bit_set (rem4_bits m') k = true ∧
  (∀ j, (j < MPTCP_MAX_ADDR)%nat → j ≠ k →
        bit_set (rem4_bits m') j = bit_set (rem4_bits m) j) ∧
  addr4 m' !!! k = mk_rem4 addr port 0 0 id ∧
  (∀ j, j ≠ k → addr4 m' !!! j = addr4 m !!! j) ∧
  list_rcvd m' = true ∧ rem6_bits m' = rem6_bits m ∧ addr6 m' = addr6 m.

(** Claim C10 as the specification words it, on the registries built
    from the empty one by additions and removals. *)
Definition C10_as_stated : Prop :=
  (∀ m addr port id i,
     reachable m → populated6 m i → other_port6 (addr6 m !!! i) addr port id →
     (mptcp_v6_add_raddress m addr port id).1 = 0 ∧
     updated_in_place6 m (mptcp_v6_add_raddress m addr port id).2 addr port i) ∧
  (∀ m addr port id i,
     reachable m → populated4 m i → other_port4 (addr4 m !!! i) addr port id →
     (mptcp_v4_add_raddress m addr port id).1 = 0 ∧
     ∃ k, stored_fresh4 m (mptcp_v4_add_raddress m addr port id).2 addr port id k).

(** No populated slot holds the id with another address. *)
Definition no_other_addr4 (m : multipath_options) (addr id : Z) : Prop :=
  ∀ j, populated4 m j → ¬ other_addr4 (addr4 m !!! j) addr id.

(** No populated slot matches the id, "neither exactly nor with a
    different address". *)
Definition no_match4 (m : multipath_options) (addr port id : Z) : Prop :=
  ∀ j, populated4 m j →
       ¬ exact4 (addr4 m !!! j) addr port id ∧ ¬ other_addr4 (addr4 m !!! j) addr id.
Definition no_match6 (m : multipath_options) (addr : in6_addr) (port id : Z) : Prop :=
  ∀ j, populated6 m j →
       ¬ exact6 (addr6 m !!! j) addr port id ∧ ¬ other_addr6 (addr6 m !!! j) addr id.

(** No populated slot carries the id. *)
Definition no_id6 (m : multipath_options) (id : Z) : Prop :=
  ∀ j, populated6 m j → rem6_id (addr6 m !!! j) ≠ id.

(** The outcome C2 describes: the addition fails and leaves the registry
    as it is, the handler answers the segment with a reset and builds no
    request. *)
Definition join_syn_refused4 (K : kernel) (E : join_env) (g : global) (meta : meta_sock)
    (skb : sk_buff4) (tmp_opt : tcp_options_received) : Prop :=
  mptcp_v4_add_raddress (rx_opt (mpcb meta)) (ip_saddr skb) 0 (mpj_addr_id tmp_opt)
    = (-1, rx_opt (mpcb meta)) ∧
  let r := mptcp_v4_do_rcv_join_syn K E g meta skb tmp_opt in
  rr_meta r = meta ∧ rr_global r = g ∧ rr_req r = None ∧ rr_queued r = false ∧
  rr_trace r = [Ev_tcp_v4_send_reset (ip_saddr skb) (ip_daddr skb)].
Definition join_syn_refused6 (K : kernel) (E : join_env) (g : global) (meta : meta_sock)
    (skb : sk_buff6) (tmp_opt : tcp_options_received) : Prop :=
  mptcp_v6_add_raddress (rx_opt (mpcb meta)) (ip6_saddr skb) 0 (mpj_addr_id tmp_opt)
    = (-1, rx_opt (mpcb meta)) ∧
  let r := mptcp_v6_do_rcv_join_syn K E g meta skb tmp_opt in
  rr_meta r = meta ∧ rr_global r = g ∧ rr_req r = None ∧ rr_queued r = false ∧
  rr_trace r = [Ev_tcp_v6_send_reset (ip6_saddr skb) (ip6_daddr skb)].

(** Claim C2 as the specification words it, for each family. *)
Definition C2_as_stated_v4 : Prop :=
  ∀ K E g meta skb tmp_opt,
    reachable (rx_opt (mpcb meta)) → full4 (rx_opt (mpcb meta)) →
    no_match4 (rx_opt (mpcb meta)) (ip_saddr skb) 0 (mpj_addr_id tmp_opt) →
    join_syn_refused4 K E g meta skb tmp_opt.
Definition C2_as_stated_v6 : Prop :=
  ∀ K E g meta skb tmp_opt,
    reachable (rx_opt (mpcb meta)) → full6 (rx_opt (mpcb meta)) →
    no_match6 (rx_opt (mpcb meta)) (ip6_saddr skb) 0 (mpj_addr_id tmp_opt) →
    join_syn_refused6 K E g meta skb tmp_opt.

(** An instance of the kernel context for the examples: a little-endian
    machine, a table of 1024 buckets and a toy hash. *)
Definition kernel_example : kernel :=
  mk_kernel LittleEndian 1024
    (fun raddr rport rnd size => Z.land (Z.lxor (Z.lxor raddr rport) rnd) (size - 1))
    (fun raddr rport rnd size =>
       Z.land (Z.lxor (Z.lxor (s6_3 raddr) rport) rnd) (size - 1))
    3000 60 1 253 0x20000 0x40000
    (fun a => if ipv6_addr_equal a in6addr_any then 0 else 1)
    0 0x10 0x20 115.

Definition synack_env_example : synack_env := mk_synack_env 0 true 0 12.

(** A run in which every kernel call succeeds. *)
Definition join_env_example : join_env :=
  mk_join_env false false true 0x12345678 0 false false None 1000 false 256 0
              0x1000 5000 0 synack_env_example false.

(** The same run on a kernel built with [CONFIG_TCP_MD5SIG], for a
    segment that fails the MD5 check. *)
Definition join_env_md5_drop : join_env :=
  mk_join_env true true true 0x12345678 0 false false None 1000 false 256 0
              0x1000 5000 0 synack_env_example false.

Definition global_empty : global := mk_global (fun _ => []) (fun _ => 1).

(** Registries with all 16 slots populated: ids 0..15 at 10.0.1.k, and
    at 2001:db8::k port 80. *)
Definition reg4_full : multipath_options :=
  fold_left (fun m k => (mptcp_v4_add_raddress m (0x0A000100 + Z.of_nat k) 0 (Z.of_nat k)).2)
            (seq 0 16) mopt_empty.
Definition reg6_full : multipath_options :=
  fold_left (fun m k =>
               (mptcp_v6_add_raddress m (mk_in6 0x20010db8 0 0 (Z.of_nat k)) 80 (Z.of_nat k)).2)
            (seq 0 16) mopt_empty.

Definition mpcb_example (m : multipath_options) : mptcp_cb :=
  mk_mpcb 1%positive 0x0102030405060708 0x1112131415161718 m
          1 (replicate MPTCP_MAX_ADDR inhabitant) 1
          0 (replicate MPTCP_MAX_ADDR inhabitant) 1 0 [].

Definition meta_example (m : multipath_options) : meta_sock :=
  mk_meta TCP_ESTABLISHED AF_INET 0 true false 443 (mpcb_example m).

Definition opt_example (addr_id : Z) : tcp_options_received :=
  mk_opt false false 0 0xDEADBEEF addr_id false addr_id.

Definition skb4_example : sk_buff4 := mk_skb4 ip_10_0_0_2 0xCB007101 49152 443 0.
Definition skb6_example : sk_buff6 :=
  mk_skb6 (mk_in6 0x20010db8 0 0 3) (mk_in6 0x20010db8 0 0 1) 55555 443 0 2.

Definition is_byte (b : Z) : Prop := 0 ≤ b < 256.

(** The requests the common creation routine builds, for either family. *)
Inductive join_request_created (K : kernel) (E : join_env) (g : global)
    (meta : meta_sock) (tmp_opt : tcp_options_received) : mptcp_request_sock → Prop :=
  | created_by_v4 skb req :
      jr_req (mptcp_v4_join_request_short K E g meta skb tmp_opt) = Some req →
      join_request_created K E g meta tmp_opt req
  | created_by_v6 skb req :
      jr_req (mptcp_v6_join_request_short K E g meta skb tmp_opt) = Some req →
      join_request_created K E g meta tmp_opt req.

(** What C1 says of a request [req] built for the meta socket [meta] in
    the run [E] from the options [tmp_opt]: the bytes of the stored
    [mptcp_hash_tmac] are the first 8 bytes of the HMAC-SHA1 digest with
    the key (local key, remote key) over the message (local nonce, remote
    nonce) of the request; the keys are those of the meta connection, the
    local nonce is the 32-bit value drawn at random and the remote nonce
    the one received. *)
Definition truncated_mac_stored (K : kernel) (E : join_env) (meta : meta_sock)
    (tmp_opt : tcp_options_received) (req : mptcp_request_sock) : Prop :=
  let bo := cpu_byte_order K in
  let key := mem_bytes bo 8 (mptcp_loc_key req) ++ mem_bytes bo 8 (mptcp_rem_key req) in
  let msg := mem_bytes bo 4 (mptcp_loc_nonce req) ++ mem_bytes bo 4 (mptcp_rem_nonce req) in
  mem_bytes bo 8 (mptcp_hash_tmac req) = firstn 8 (SHA1.hmac key msg) ∧
  length key = 16%nat ∧ length msg = 8%nat ∧ length (SHA1.hmac key msg) = 20%nat ∧
  mptcp_loc_key req = mpcb_loc_key (mpcb meta) ∧
  mptcp_rem_key req = mpcb_rem_key (mpcb meta) ∧
  mptcp_loc_nonce req = u32 (je_random_bytes E) ∧
  mptcp_rem_nonce req = mptcp_recv_nonce tmp_opt.

(** The request the IPv4 routine builds for the example segment, on a
    connection with an empty registry. *)
Definition join4_example : join_result :=
  mptcp_v4_join_request_short kernel_example join_env_example global_empty
    (meta_example mopt_empty) skb4_example (opt_example 2).
Definition req4_example : mptcp_request_sock :=
  default (mk_req mptcp_request_sock_ops 1%positive 0 0 0 0 0 0 false 0 0 0 0 false
                  in6addr_any in6addr_any 0 false 0 false 0 0)
          (jr_req join4_example).
Definition join6_example : join_result :=
  mptcp_v6_join_request_short kernel_example join_env_example global_empty
    (meta_example mopt_empty) skb6_example (opt_example 2).
Definition req6_example : mptcp_request_sock :=
  default req4_example (jr_req join6_example).

(** [x] is the first element of [l] that satisfies [P]. *)
Definition first_match {A} (P : A → Prop) (l : list A) (x : A) : Prop :=
  ∃ l1 l2, l = l1 ++ x :: l2 ∧ P x ∧ Forall (fun y => ¬ P y) l1.

(** A request's remote port, remote address, local address and family
    match the arguments of the lookup. *)
Definition tuple_match4 (rport raddr laddr : Z) (req : mptcp_request_sock) : Prop :=
  ir_rmt_port req = rport ∧ ir_rmt_addr req = raddr ∧ ir_loc_addr req = laddr ∧
  ops_family (rsk_ops req) = AF_INET.
Definition tuple_match6 (rport : Z) (raddr laddr : in6_addr) (req : mptcp_request_sock)
  : Prop :=
  ir_rmt_port req = rport ∧ ir6_rmt_addr req = raddr ∧ ir6_loc_addr req = laddr ∧
  ops_family (rsk_ops req) = AF_INET6.

(** What a lookup that scans bucket [h] must give: on a match, the meta
    socket of the first matching entry, with its reference count raised
    between taking and releasing the lock and nothing else changed; with
    no match, nothing. *)
Definition search_hit (g g' : global) (meta : sock_ptr) (h : Z) (tr : list event) : Prop :=
  mptcp_reqsk_htb g' = mptcp_reqsk_htb g ∧
  sk_refcnt g' meta = s32 (sk_refcnt g meta + 1) ∧
  (∀ p, p ≠ meta → sk_refcnt g' p = sk_refcnt g p) ∧
  tr = [Ev_spin_lock_reqsk_hlock; Ev_walk_bucket h; Ev_sock_hold meta;
        Ev_spin_unlock_reqsk_hlock].
Definition search_miss (g g' : global) (h : Z) (tr : list event) : Prop :=
  g' = g ∧ tr = [Ev_spin_lock_reqsk_hlock; Ev_walk_bucket h; Ev_spin_unlock_reqsk_hlock].
Definition search_req_spec (tuple : mptcp_request_sock → Prop) (g : global) (h : Z)
    (res : option sock_ptr * global * list event) : Prop :=
  (∀ req, first_match tuple (mptcp_reqsk_htb g h) req →
          res.1.1 = Some (mtreq_meta_sk req) ∧
          search_hit g res.1.2 (mtreq_meta_sk req) h res.2) ∧
  (Forall (fun y => ¬ tuple y) (mptcp_reqsk_htb g h) →
   res.1.1 = None ∧ search_miss g res.1.2 h res.2).

(** [req] has been put at the head of bucket [h] and of no other bucket. *)
Definition inserted_in_bucket (g g' : global) (h : Z) (req : mptcp_request_sock) : Prop :=
  mptcp_reqsk_htb g' h = req :: mptcp_reqsk_htb g h ∧
  (∀ b, b ≠ h → mptcp_reqsk_htb g' b = mptcp_reqsk_htb g b) ∧
  sk_refcnt g' = sk_refcnt g.

(** The pending JOIN requests are those made with one of the two
    operation tables. *)
Definition pending_join_request (req : mptcp_request_sock) : Prop :=
  rsk_ops req = mptcp_request_sock_ops ∨ rsk_ops req = mptcp6_request_sock_ops.

(** The standard TCP retransmission of the request's family. *)
Definition standard_rtx (req : mptcp_request_sock) : list event :=
  match ops_family (rsk_ops req) with
  | AF_INET => [Ev_tcp_v4_rtx_synack]
  | AF_INET6 => [Ev_tcp_v6_rtx_synack]
  end.

(** Modelled from the spec: [tcp_v4_rtx_synack] and [tcp_v6_rtx_synack],
    the standard TCP SYN-ACK retransmission of each family, are defined in
    tcp_ipv4.c and tcp_ipv6.c, not in these files.  The standard
    retransmission increments the retransmit-segments counter once and
    sends the SYN-ACK with the family's own [tcp_vX_send_synack], on the
    transmit path of that family; [mptcp_v6_rtx_synack] is, in the words
    of its comment, similar to [tcp_v6_rtx_synack], and
    [mptcp_v6v4_send_synack] to [tcp_v6_send_synack].

    [retrans_counted e] is the number of increments of the counter that
    the call [e] makes, and [transmit_path e] the family of the routing and
    transmit path the call uses, if it uses one: the two standard routines
    use the path of their family, [ip6_dst_lookup_flow] and [ip6_xmit] the
    IPv6 path. *)
Definition retrans_counted (e : event) : nat :=
  match e with
  | Ev_TCP_INC_STATS_RETRANSSEGS | Ev_tcp_v4_rtx_synack | Ev_tcp_v6_rtx_synack => 1
  | _ => 0
  end.
Definition transmit_path (e : event) : option sa_family :=
  match e with
  | Ev_tcp_v4_rtx_synack => Some AF_INET
  | Ev_tcp_v6_rtx_synack | Ev_ip6_dst_lookup_flow | Ev_ip6_xmit => Some AF_INET6
  | _ => None
  end.

(** The increments of the retransmit-segments counter in a trace, and
    the paths its calls use. *)
Definition retrans_count (tr : list event) : nat := list_sum (map retrans_counted tr).
Definition transmit_paths (tr : list event) : list sa_family :=
  flat_map (fun e => match transmit_path e with Some f => [f] | None => [] end) tr.

(** The trace starts with the store of [v] into the bitfield, and holds
    no other store: every call comes after it. *)
Definition stored_before_calls (tr : list event) (v : Z) : Prop :=
  ∃ tr', tr = Ev_store_bitfield v :: tr' ∧ ∀ w, ¬ In (Ev_store_bitfield w) tr'.

(** Local address ids on the wire: the slot for IPv4, 0 for the initial
    subflow or the slot plus [MPTCP_MAX_ADDR] for IPv6. *)
Definition loc4_id_valid (id : Z) : Prop := 0 ≤ id < Z.of_nat MPTCP_MAX_ADDR.
Definition loc6_id_valid (id : Z) : Prop :=
  id = 0 ∨ Z.of_nat MPTCP_MAX_ADDR ≤ id < 2 * Z.of_nat MPTCP_MAX_ADDR.

(** Claim C9 as the specification words it. *)
Definition C9_as_stated : Prop :=
  (∀ K S meta loc rem,
     loc4_id_valid (loc4_id loc) →
     let r := mptcp_init4_subsockets K S meta loc rem in
     Z.testbit (rem4_bitfield r.1.2) (loc4_id loc) = true ∧
     stored_before_calls r.2 (rem4_bitfield r.1.2)) ∧
  (∀ K S meta loc rem,
     loc6_id_valid (loc6_id loc) →
     let r := mptcp_init6_subsockets K S meta loc rem in
     Z.testbit (rem6_bitfield r.1.2) (loc6_id loc) = true ∧
     stored_before_calls r.2 (rem6_bitfield r.1.2)).

Definition subsock_env_example : subsock_env := mk_subsock_env 0 0 0 (-115).

(** Slot [i] is the populated local slot that holds the address [a]
    (the lowest one, should several hold it). *)
Definition occupies_loc4 (c : mptcp_cb) (a : Z) (i : nat) : Prop :=
  (i < MPTCP_MAX_ADDR)%nat ∧ bit_set (loc4_bits c) i = true ∧
  loc4_addr (mpcb_addr4 c !!! i) = a ∧
  ∀ j, (j < i)%nat → bit_set (loc4_bits c) j = true → loc4_addr (mpcb_addr4 c !!! j) ≠ a.
Definition occupies_loc6 (c : mptcp_cb) (a : in6_addr) (i : nat) : Prop :=
  (i < MPTCP_MAX_ADDR)%nat ∧ bit_set (loc6_bits c) i = true ∧
  loc6_addr (mpcb_addr6 c !!! i) = a ∧
  ∀ j, (j < i)%nat → bit_set (loc6_bits c) j = true → loc6_addr (mpcb_addr6 c !!! j) ≠ a.

(** The calls made for a subflow that is closed: its data is reinjected,
    then it is force-closed. *)
Definition reinjected_and_closed (tr : list event) (sk : sock_ptr) : Prop :=
  ∃ t1 t2, tr = t1 ++ Ev_mptcp_reinject_data sk :: Ev_mptcp_sub_force_close sk :: t2.

(** What C7 describes for local slot [i]: [c] and [c'] are the control
    block before and after, [tr] the calls made. *)
Definition down_outcome4 (c c' : mptcp_cb) (tr : list event) (a : Z) (i : nat) : Prop :=
  loc4_bits c' = u16 (Z.land (loc4_bits c) (Z.lnot (Z.shiftl 1 (Z.of_nat i)))) ∧
  bit_set (loc4_bits c') i = false ∧
  (∀ j, (j < MPTCP_MAX_ADDR)%nat → j ≠ i →
        bit_set (loc4_bits c') j = bit_set (loc4_bits c) j) ∧
  remove_addrs c' =
    u32 (Z.lor (remove_addrs c) (Z.shiftl 1 (loc4_id (mpcb_addr4 c !!! i)))) ∧
  rem4_bits (rx_opt c') = rem4_bits (rx_opt c) ∧
  (∀ j, populated4 (rx_opt c) j →
        addr4 (rx_opt c') !!! j =
        set_rem4_bitfield (addr4 (rx_opt c) !!! j)
          (Z.land (rem4_bitfield (addr4 (rx_opt c) !!! j)) (loc4_bits c'))) ∧
  (∀ j, ¬ populated4 (rx_opt c) j → addr4 (rx_opt c') !!! j = addr4 (rx_opt c) !!! j) ∧
  (∀ sk, In sk (connection_list c) → sf_family sk = AF_INET → sf_inet_saddr sk = a →
         reinjected_and_closed tr (sf_sk sk)).
Definition down_outcome6 (c c' : mptcp_cb) (tr : list event) (a : in6_addr) (i : nat)
  : Prop :=
  loc6_bits c' = u16 (Z.land (loc6_bits c) (Z.lnot (Z.shiftl 1 (Z.of_nat i)))) ∧
  bit_set (loc6_bits c') i = false ∧
  (∀ j, (j < MPTCP_MAX_ADDR)%nat → j ≠ i →
        bit_set (loc6_bits c') j = bit_set (loc6_bits c) j) ∧
  remove_addrs c' =
    u32 (Z.lor (remove_addrs c) (Z.shiftl 1 (loc6_id (mpcb_addr6 c !!! i)))) ∧
  rem6_bits (rx_opt c') = rem6_bits (rx_opt c) ∧
  (∀ j, populated6 (rx_opt c) j →
        addr6 (rx_opt c') !!! j =
        set_rem6_bitfield (addr6 (rx_opt c) !!! j)
          (Z.land (rem6_bitfield (addr6 (rx_opt c) !!! j)) (loc6_bits c'))) ∧
  (∀ j, ¬ populated6 (rx_opt c) j → addr6 (rx_opt c') !!! j = addr6 (rx_opt c) !!! j) ∧
  (∀ sk, In sk (connection_list c) → sf_family sk = AF_INET6 → sf_saddr6 sk = a →
         reinjected_and_closed tr (sf_sk sk)).

(** Claim C7 as the specification words it, for each family. *)
Definition C7_as_stated_v4 : Prop :=
  ∀ K ack_sk ifa c i,
    mopt_wf (rx_opt c) → occupies_loc4 c (ifa_local ifa) i →
    let r := mptcp_pm_addr4_event_handler K ack_sk ifa NETDEV_DOWN c in
    down_outcome4 c r.1 r.2 (ifa_local ifa) i.
Definition C7_as_stated_v6 : Prop :=
  ∀ K ack_sk ifa c i,
    mopt_wf (rx_opt c) → occupies_loc6 c (ifa6_addr ifa) i →
    let r := mptcp_pm_addr6_event_handler K ack_sk ifa NETDEV_DOWN c in
    down_outcome6 c r.1 r.2 (ifa6_addr ifa) i.

(** The checks at the head of the handlers. *)
Definition passes_checks4 (K : kernel) (ifa : in_ifaddr) : Prop :=
  ifa_scope ifa ≤ RT_SCOPE_LINK K ∧ Z.land (ifa_dev_flags ifa) (IFF_NOMULTIPATH K) = 0.
Definition passes_checks6 (K : kernel) (ifa : inet6_ifaddr) : Prop :=
  ifa6_scope ifa ≤ RT_SCOPE_LINK K ∧
  Z.land (ifa6_dev_flags ifa) (IFF_NOMULTIPATH K) = 0 ∧
  ipv6_addr_type K (ifa6_addr ifa) ≠ IPV6_ADDR_ANY K ∧
  Z.land (ipv6_addr_type K (ifa6_addr ifa)) (IPV6_ADDR_LOOPBACK K) = 0 ∧
  Z.land (ipv6_addr_type K (ifa6_addr ifa)) (IPV6_ADDR_LINKLOCAL K) = 0.

(** Scenario S5: 192.168.1.5 sits in local slot 3 with id 3 and is used
    by one subflow; 10.0.0.1 is the initial address in slot 0. *)
Definition ip_192_168_1_5 : Z := 0xC0A80105.
Definition ip_10_0_0_1 : Z := 0x0A000001.
Definition mpcb_s5 : mptcp_cb :=
  mk_mpcb 1%positive 0x0102030405060708 0x1112131415161718
    (mk_mopt 3
       (<[0%nat := mk_rem4 ip_10_0_0_2 0 9 0 1]>
          (<[1%nat := mk_rem4 ip_10_0_0_99 0 8 0 2]> (replicate MPTCP_MAX_ADDR inhabitant)))
       0 (replicate MPTCP_MAX_ADDR inhabitant) false)
    9 (<[0%nat := mk_loc4 ip_10_0_0_1 0 false]>
         (<[3%nat := mk_loc4 ip_192_168_1_5 3 false]> (replicate MPTCP_MAX_ADDR inhabitant)))
    4 0 (replicate MPTCP_MAX_ADDR inhabitant) 1 0
    [mk_subflow 5%positive AF_INET ip_10_0_0_1 in6addr_any false false 0 0;
     mk_subflow 7%positive AF_INET ip_192_168_1_5 in6addr_any false false 0 0].
Definition ifa_eth1 : in_ifaddr := mk_ifa 0 ip_192_168_1_5 0x1043 true.
Definition ifa_eth1_nomultipath : in_ifaddr := mk_ifa 0 ip_192_168_1_5 0x21043 true.

(** The same for IPv6: 2001:db8::2 in local slot 1 with id 17. *)
Definition mpcb6_s5 : mptcp_cb :=
  mk_mpcb 1%positive 0x0102030405060708 0x1112131415161718
    (mk_mopt 0 (replicate MPTCP_MAX_ADDR inhabitant)
       1 (<[0%nat := mk_rem6 ip6_2001_db8__99 0 3 0 1]> (replicate MPTCP_MAX_ADDR inhabitant))
       false)
    1 (replicate MPTCP_MAX_ADDR inhabitant) 1
    2 (<[1%nat := mk_loc6 ip6_2001_db8__2 17 false]> (replicate MPTCP_MAX_ADDR inhabitant))
    2 0
    [mk_subflow 9%positive AF_INET6 0 ip6_2001_db8__2 false false 0 0].
Definition ifa6_eth1 : inet6_ifaddr := mk_ifa6 0 ip6_2001_db8__2 0x1043 true.
Definition ifa6_eth1_nomultipath : inet6_ifaddr :=
  mk_ifa6 0 ip6_2001_db8__2 0x21043 true.

(** ** Further notions for the registry *)

(** Slot [i] is the lowest populated slot whose entry carries [id]: the
    slot at which the loop of [mptcp_vX_rem_raddress] stops. *)
Definition first_with_id4 (m : multipath_options) (id : Z) (i : nat) : Prop :=
  populated4 m i ∧ rem4_id (addr4 m !!! i) = id ∧
  ∀ j, (j < i)%nat → populated4 m j → rem4_id (addr4 m !!! j) ≠ id.
Definition first_with_id6 (m : multipath_options) (id : Z) (i : nat) : Prop :=
  populated6 m i ∧ rem6_id (addr6 m !!! i) = id ∧
  ∀ j, (j < i)%nat → populated6 m j → rem6_id (addr6 m !!! j) ≠ id.

Definition no_id4 (m : multipath_options) (id : Z) : Prop :=
  ∀ j, populated4 m j → rem4_id (addr4 m !!! j) ≠ id.

(** Bit [i] of the family has been cleared and nothing else of the
    registry differs from [m]. *)
Definition slot_cleared4 (m m' : multipath_options) (i : nat) : Prop :=
  ¬ populated4 m' i ∧ (∀ j, j ≠ i → populated4 m' j ↔ populated4 m j) ∧
  addr4 m' = addr4 m ∧ rem6_bits m' = rem6_bits m ∧ addr6 m' = addr6 m ∧
  list_rcvd m' = list_rcvd m.
Definition slot_cleared6 (m m' : multipath_options) (i : nat) : Prop :=
  ¬ populated6 m' i ∧ (∀ j, j ≠ i → populated6 m' j ↔ populated6 m j) ∧
  addr6 m' = addr6 m ∧ rem4_bits m' = rem4_bits m ∧ addr4 m' = addr4 m ∧
  list_rcvd m' = list_rcvd m.

(** ** Marking the remote address of the initial subflow *)

(** The [mptcp_for_each_bit_set] loop of [mptcp_v4_set_init_addr_bit]:
    the first visited slot whose address is [daddr] gets [bitfield |= 1]
    and the function returns. *)
Fixpoint v4_init_bit_loop (idx : list nat) (a : list mptcp_rem4) (daddr : Z)
  : list mptcp_rem4 :=
  match idx with
  | [] => a
  | i :: idx' =>
      if rem4_addr (a !!! i) =? daddr
      then <[i := set_rem4_bitfield (a !!! i)
                    (u16 (Z.lor (rem4_bitfield (a !!! i)) 1))]> a
      else v4_init_bit_loop idx' a daddr
  end.

Definition mptcp_v4_set_init_addr_bit (mpcb : mptcp_cb) (daddr : Z) : mptcp_cb :=
  let m := rx_opt mpcb in
  set_rx_opt mpcb
    (mk_mopt (rem4_bits m)
       (v4_init_bit_loop (mptcp_for_each_bit_set (rem4_bits m)) (addr4 m) daddr)
       (rem6_bits m) (addr6 m) (list_rcvd m)).

Fixpoint v6_init_bit_loop (idx : list nat) (a : list mptcp_rem6) (daddr : in6_addr)
  : list mptcp_rem6 :=
  match idx with
  | [] => a
  | i :: idx' =>
      if ipv6_addr_equal (rem6_addr (a !!! i)) daddr
      then <[i := set_rem6_bitfield (a !!! i)
                    (u16 (Z.lor (rem6_bitfield (a !!! i)) 1))]> a
      else v6_init_bit_loop idx' a daddr
  end.

Definition mptcp_v6_set_init_addr_bit (mpcb : mptcp_cb) (daddr : in6_addr) : mptcp_cb :=
  let m := rx_opt mpcb in
  set_rx_opt mpcb
    (mk_mopt (rem4_bits m) (addr4 m) (rem6_bits m)
       (v6_init_bit_loop (mptcp_for_each_bit_set (rem6_bits m)) (addr6 m) daddr)
       (list_rcvd m)).

(** Slot [i] is the lowest populated slot that stores the address [a]. *)
Definition first_with_addr4 (m : multipath_options) (a : Z) (i : nat) : Prop :=
  populated4 m i ∧ rem4_addr (addr4 m !!! i) = a ∧
  ∀ j, (j < i)%nat → populated4 m j → rem4_addr (addr4 m !!! j) ≠ a.
Definition first_with_addr6 (m : multipath_options) (a : in6_addr) (i : nat) : Prop :=
  populated6 m i ∧ rem6_addr (addr6 m !!! i) = a ∧
  ∀ j, (j < i)%nat → populated6 m j → rem6_addr (addr6 m !!! j) ≠ a.

Definition no_addr4 (m : multipath_options) (a : Z) : Prop :=
  ∀ j, populated4 m j → rem4_addr (addr4 m !!! j) ≠ a.
Definition no_addr6 (m : multipath_options) (a : in6_addr) : Prop :=
  ∀ j, populated6 m j → rem6_addr (addr6 m !!! j) ≠ a.

(** The entry of slot [i] has had bit 0 of its bit field set and nothing
    else of the control block differs from [c]. *)
Definition init_bit_marked4 (c c' : mptcp_cb) (i : nat) : Prop :=
  addr4 (rx_opt c') !!! i =
    set_rem4_bitfield (addr4 (rx_opt c) !!! i)
      (u16 (Z.lor (rem4_bitfield (addr4 (rx_opt c) !!! i)) 1)) ∧
  Z.testbit (rem4_bitfield (addr4 (rx_opt c') !!! i)) 0 = true ∧
  (∀ j, j ≠ i → addr4 (rx_opt c') !!! j = addr4 (rx_opt c) !!! j) ∧
  length (addr4 (rx_opt c')) = length (addr4 (rx_opt c)) ∧
  c' = set_rx_opt c
         (mk_mopt (rem4_bits (rx_opt c)) (addr4 (rx_opt c')) (rem6_bits (rx_opt c))
                  (addr6 (rx_opt c)) (list_rcvd (rx_opt c))).
Definition init_bit_marked6 (c c' : mptcp_cb) (i : nat) : Prop :=
  addr6 (rx_opt c') !!! i =
    set_rem6_bitfield (addr6 (rx_opt c) !!! i)
      (u16 (Z.lor (rem6_bitfield (addr6 (rx_opt c) !!! i)) 1)) ∧
  Z.testbit (rem6_bitfield (addr6 (rx_opt c') !!! i)) 0 = true ∧
  (∀ j, j ≠ i → addr6 (rx_opt c') !!! j = addr6 (rx_opt c) !!! j) ∧
  length (addr6 (rx_opt c')) = length (addr6 (rx_opt c)) ∧
  c' = set_rx_opt c
         (mk_mopt (rem4_bits (rx_opt c)) (addr4 (rx_opt c)) (rem6_bits (rx_opt c))
                  (addr6 (rx_opt c')) (list_rcvd (rx_opt c))).

(** ** Further notions for the JOIN path *)

Definition is_Ev_reqsk_free (e : event) : bool :=
  match e with Ev_reqsk_free => true | _ => false end.

(** The number of [reqsk_free] calls of a trace. *)
Definition reqsk_free_count (tr : list event) : nat :=
  length (List.filter is_Ev_reqsk_free tr).

Definition is_send_reset (e : event) : bool :=
  match e with
  | Ev_tcp_v4_send_reset _ _ | Ev_tcp_v6_send_reset _ _ => true
  | _ => false
  end.

(** ** Further notions for subflow creation *)

(** Every call of [mptcp_initX_subsockets] succeeds; a connect that is
    in progress counts as a success. *)
Definition subsock_calls_succeed (K : kernel) (S : subsock_env) : Prop :=
  0 ≤ ss_inet_create S ∧ ss_mptcp_add_sock S = 0 ∧ 0 ≤ ss_bind S ∧
  (0 ≤ ss_connect S ∨ ss_connect S = - EINPROGRESS K).

(** What a run with the call results [S] returns and does: [ret] is the
    value returned and [tr] the calls made. *)
Definition subsock_outcome (K : kernel) (S : subsock_env) (ret : Z) (tr : list event)
  : Prop :=
  (subsock_calls_succeed K S ↔ In Ev_sk_set_socket tr) ∧
  (subsock_calls_succeed K S →
   ret = 0 ∧ ¬ In Ev_sock_orphan tr ∧ ¬ In Ev_tcp_done tr) ∧
  (ss_inet_create S < 0 →
   ret = ss_inet_create S ∧ ¬ In Ev_sock_orphan tr ∧ ¬ In Ev_tcp_done tr) ∧
  (0 ≤ ss_inet_create S → ¬ subsock_calls_succeed K S →
   ∃ pre, tr = pre ++ [Ev_sock_orphan; Ev_tcp_done] ∧
          ¬ In Ev_sock_orphan pre ∧ ¬ In Ev_tcp_done pre) ∧
  (0 ≤ ret ∧ ¬ subsock_calls_succeed K S ↔
   0 ≤ ss_inet_create S ∧ ss_mptcp_add_sock S ≠ 0).

(** ** Further notions for the address events *)

(** No populated local slot holds the address. *)
Definition no_loc4 (c : mptcp_cb) (a : Z) : Prop :=
  ∀ j, (j < MPTCP_MAX_ADDR)%nat → bit_set (loc4_bits c) j = true →
       loc4_addr (mpcb_addr4 c !!! j) ≠ a.
Definition no_loc6 (c : mptcp_cb) (a : in6_addr) : Prop :=
  ∀ j, (j < MPTCP_MAX_ADDR)%nat → bit_set (loc6_bits c) j = true →
       loc6_addr (mpcb_addr6 c !!! j) ≠ a.

(** The tests the handlers make on a subflow of the connection list. *)
Definition bound4 (ifa : in_ifaddr) (sk : subflow) : bool :=
  family_eqb (sf_family sk) AF_INET && (sf_inet_saddr sk =? ifa_local ifa).
Definition bound6 (ifa : inet6_ifaddr) (sk : subflow) : bool :=
  family_eqb (sf_family sk) AF_INET6 && ipv6_addr_equal (sf_saddr6 sk) (ifa6_addr ifa).

(** What [mptcp_v4_send_add_addr] ([mptcp_v6_send_add_addr]) for the
    slot [i] makes of a subflow: bit [i] is ORed into its pending set and
    no other field changes. *)
Definition add_addr4_raised (i : nat) (sk sk' : subflow) : Prop :=
  sk' = mk_subflow (sf_sk sk) (sf_family sk) (sf_inet_saddr sk) (sf_saddr6 sk)
          (sf_low_prio sk) (sf_send_mp_prio sk)
          (u16 (Z.lor (sf_add_addr4 sk) (Z.shiftl 1 (Z.of_nat i)))) (sf_add_addr6 sk).
Definition add_addr6_raised (i : nat) (sk sk' : subflow) : Prop :=
  sk' = mk_subflow (sf_sk sk) (sf_family sk) (sf_inet_saddr sk) (sf_saddr6 sk)
          (sf_low_prio sk) (sf_send_mp_prio sk) (sf_add_addr4 sk)
          (u16 (Z.lor (sf_add_addr6 sk) (Z.shiftl 1 (Z.of_nat i)))).

(** The address [a] has been registered in local slot [i] with the id
    [id]: the slot is populated and is the one a search for [a] finds, the
    other slots are as before, [ADD_ADDR] for the slot is pending on every
    subflow ([add_addr] is the subflow's pending set), and nothing else of
    the control block has changed.  The last clauses fix every field of
    [c']: the presence bits are those of [c] with bit [i] ORed in, the
    array is that of [c] with the address and the id written to entry [i]
    (its [low_prio] is kept), every subflow is as before but for bit [i] of
    its pending set, and the meta socket, the keys, the remote registry,
    [remove_addrs] and the other family's bits, array and next index are
    those of [c]. *)
Definition loc4_registered (c c' : mptcp_cb) (a : Z) (i : nat) : Prop :=
  occupies_loc4 c' a i ∧ loc4_id (mpcb_addr4 c' !!! i) = Z.of_nat i ∧
  (∀ j, (j < MPTCP_MAX_ADDR)%nat → j ≠ i →
        bit_set (loc4_bits c') j = bit_set (loc4_bits c) j ∧
        mpcb_addr4 c' !!! j = mpcb_addr4 c !!! j) ∧
  next_v4_index c' = S i ∧
  Forall (fun sk => Z.testbit (sf_add_addr4 sk) (Z.of_nat i) = true) (connection_list c') ∧
  map sf_sk (connection_list c') = map sf_sk (connection_list c) ∧
  rx_opt c' = rx_opt c ∧ remove_addrs c' = remove_addrs c ∧
  loc6_bits c' = loc6_bits c ∧ mpcb_addr6 c' = mpcb_addr6 c ∧
  next_v6_index c' = next_v6_index c ∧
  meta_sk c' = meta_sk c ∧ mpcb_loc_key c' = mpcb_loc_key c ∧
  mpcb_rem_key c' = mpcb_rem_key c ∧
  loc4_bits c' = u16 (Z.lor (loc4_bits c) (Z.shiftl 1 (Z.of_nat i))) ∧
  mpcb_addr4 c' =
    <[i := mk_loc4 a (Z.of_nat i) (loc4_low_prio (mpcb_addr4 c !!! i))]> (mpcb_addr4 c) ∧
  Forall2 (add_addr4_raised i) (connection_list c) (connection_list c').
Definition loc6_registered (c c' : mptcp_cb) (a : in6_addr) (i : nat) : Prop :=
  occupies_loc6 c' a i ∧
  loc6_id (mpcb_addr6 c' !!! i) = Z.of_nat i + Z.of_nat MPTCP_MAX_ADDR ∧
  (∀ j, (j < MPTCP_MAX_ADDR)%nat → j ≠ i →
        bit_set (loc6_bits c') j = bit_set (loc6_bits c) j ∧
        mpcb_addr6 c' !!! j = mpcb_addr6 c !!! j) ∧
  next_v6_index c' = S i ∧
  Forall (fun sk => Z.testbit (sf_add_addr6 sk) (Z.of_nat i) = true) (connection_list c') ∧
  map sf_sk (connection_list c') = map sf_sk (connection_list c) ∧
  rx_opt c' = rx_opt c ∧ remove_addrs c' = remove_addrs c ∧
  loc4_bits c' = loc4_bits c ∧ mpcb_addr4 c' = mpcb_addr4 c ∧
  next_v4_index c' = next_v4_index c ∧
  meta_sk c' = meta_sk c ∧ mpcb_loc_key c' = mpcb_loc_key c ∧
  mpcb_rem_key c' = mpcb_rem_key c ∧
  loc6_bits c' = u16 (Z.lor (loc6_bits c) (Z.shiftl 1 (Z.of_nat i))) ∧
  mpcb_addr6 c' =
    <[i := mk_loc6 a (Z.of_nat i + Z.of_nat MPTCP_MAX_ADDR)
             (loc6_low_prio (mpcb_addr6 c !!! i))]> (mpcb_addr6 c) ∧
  Forall2 (add_addr6_raised i) (connection_list c) (connection_list c').

(** What NETDEV_CHANGE makes of a subflow: one that is bound to the
    event address takes the device's backup flag as its priority and has
    [send_mp_prio] raised when that changes it; any other is left alone. *)
Definition prio_changed (bound : subflow → bool) (flag : bool) (sk sk' : subflow) : Prop :=
  if bound sk then
    sf_low_prio sk' = flag ∧
    sf_send_mp_prio sk' = sf_send_mp_prio sk || negb (Bool.eqb flag (sf_low_prio sk)) ∧
    sf_sk sk' = sf_sk sk ∧ sf_family sk' = sf_family sk ∧
    sf_inet_saddr sk' = sf_inet_saddr sk ∧ sf_saddr6 sk' = sf_saddr6 sk ∧
    sf_add_addr4 sk' = sf_add_addr4 sk ∧ sf_add_addr6 sk' = sf_add_addr6 sk
  else sk' = sk.

(** Nothing but the connection list differs between [c] and [c']. *)
Definition only_connection_list (c c' : mptcp_cb) : Prop :=
  c' = mk_mpcb (meta_sk c) (mpcb_loc_key c) (mpcb_rem_key c) (rx_opt c)
               (loc4_bits c) (mpcb_addr4 c) (next_v4_index c)
               (loc6_bits c) (mpcb_addr6 c) (next_v6_index c)
               (remove_addrs c) (connection_list c').

(** ** The receive entry points [mptcp_v4_do_rcv] and [mptcp_v6_do_rcv] *)

(** The socket [__inet_lookup_established] ([__inet6_lookup_established])
    finds, with what the code reads of it. *)
Record lookup_sock := mk_lookup_sock {
  lk_sk : sock_ptr;
  lk_is_meta : bool;            (* [is_meta_sk(sk)] *)
  lk_state : tcp_state
}.

Definition is_TCP_TIME_WAIT (s : tcp_state) : bool :=
  match s with TCP_TIME_WAIT => true | _ => false end.

(** What [tcp_vX_hnd_req(meta_sk, skb)] returns: NULL, the meta socket
    itself, or another socket. *)
Inductive hnd_req_result := Hnd_NULL | Hnd_meta_sk | Hnd_child (child : sock_ptr).

(** Results of the kernel calls one run of the receive function
    observes.  [re_tcp_parse_options] is [tcp_parse_options] on the
    segment: it is given [&mpcb->rx_opt] and returns the parsed options and
    what it has left in the registry. *)
Record rcv_env := mk_rcv_env {
  re_MPTCPHDR_JOIN : Z;
  re_lookup_established : option lookup_sock;
  re_tcp_do_rcv : Z;                 (* [tcp_v4_do_rcv] / [tcp_v6_do_rcv] *)
  re_hnd_req : hnd_req_result;
  re_tcp_rcv_state_process : Z;
  re_join_opt_addr_id : Z;           (* [mptcp_find_join(skb)->addr_id] *)
  re_tcp_parse_options : multipath_options → tcp_options_received * multipath_options;
  re_join : join_env
}.

(** The calls of the receive functions; [Rcv_join] is a call made by the
    request creation routine. *)
Inductive rcv_event :=
  | Rcv_WARN
  | Rcv_kfree_skb
  | Rcv_sock_put (sk : sock_ptr)
  | Rcv_inet_twsk_put (sk : sock_ptr)
  | Rcv_tcp_do_rcv (family : sa_family) (sk : sock_ptr)
  | Rcv_sock_rps_save_rxhash (sk : sock_ptr)
  | Rcv_tcp_rcv_state_process (sk : sock_ptr)
  | Rcv_send_reset (family : sa_family) (rsk : option sock_ptr)
  | Rcv_join (e : event).

Record do_rcv_result := mk_do_rcv_result {
  dr_ret : Z;
  dr_mptcp_flags : Z;                (* [TCP_SKB_CB(skb)->mptcp_flags] on return *)
  dr_meta : meta_sock;
  dr_global : global;
  dr_req : option mptcp_request_sock;
  dr_queued : bool;
  dr_trace : list rcv_event
}.

(** [mptcp_v4_join_request]: the options are parsed again, then the
    request is created. *)
Definition mptcp_v4_join_request (K : kernel) (R : rcv_env) (g : global)
    (meta : meta_sock) (skb : sk_buff4) : meta_sock * join_result :=
  let '(tmp_opt, mopt) := re_tcp_parse_options R (rx_opt (mpcb meta)) in
  let meta' := set_mpcb meta (set_rx_opt (mpcb meta) mopt) in
  (meta', mptcp_v4_join_request_short K (re_join R) g meta' skb tmp_opt).

Definition mptcp_v6_join_request (K : kernel) (R : rcv_env) (g : global)
    (meta : meta_sock) (skb : sk_buff6) : meta_sock * join_result :=
  let '(tmp_opt, mopt) := re_tcp_parse_options R (rx_opt (mpcb meta)) in
  let meta' := set_mpcb meta (set_rx_opt (mpcb meta) mopt) in
  (meta', mptcp_v6_join_request_short K (re_join R) g meta' skb tmp_opt).

(** The part of the two receive functions before the JOIN processing:
    a segment without [MPTCPHDR_JOIN] is passed to the subflow it belongs
    to. *)
Definition do_rcv_no_join (family : sa_family) (R : rcv_env) (g : global)
    (meta : meta_sock) (mptcp_flags : Z) : do_rcv_result :=
  match re_lookup_established R with
  | None => mk_do_rcv_result 0 mptcp_flags meta g None false [Rcv_WARN; Rcv_kfree_skb]
  | Some sk =>
      if lk_is_meta sk
      then mk_do_rcv_result 0 mptcp_flags meta g None false
             [Rcv_WARN; Rcv_kfree_skb; Rcv_sock_put (lk_sk sk)]
      else if is_TCP_TIME_WAIT (lk_state sk)
      then mk_do_rcv_result 0 mptcp_flags meta g None false
             [Rcv_inet_twsk_put (lk_sk sk); Rcv_kfree_skb]
      else mk_do_rcv_result (re_tcp_do_rcv R) mptcp_flags meta g None false
             [Rcv_tcp_do_rcv family (lk_sk sk); Rcv_sock_put (lk_sk sk)]
  end.

(** The labels [reset_and_discard] and [discard]. *)
Definition reset_and_discard (family : sa_family) (rsk : option sock_ptr)
  : list rcv_event := [Rcv_send_reset family rsk; Rcv_kfree_skb].
Definition discard : list rcv_event := [Rcv_kfree_skb].

(** The branch [child != meta_sk]. *)
Definition do_rcv_child (family : sa_family) (R : rcv_env) (g : global)
    (meta : meta_sock) (child : sock_ptr) : do_rcv_result :=
  let pre := [Rcv_sock_rps_save_rxhash child; Rcv_tcp_rcv_state_process child;
              Rcv_sock_put child] in
  if negb (re_tcp_rcv_state_process R =? 0)
  then mk_do_rcv_result 0 0 meta g None false
         (pre ++ reset_and_discard family (Some child))
  else mk_do_rcv_result 0 0 meta g None false pre.

(** [mptcp_v4_do_rcv]; [mptcp_flags] is [TCP_SKB_CB(skb)->mptcp_flags]
    and [syn] is [tcp_hdr(skb)->syn]. *)
Definition mptcp_v4_do_rcv (K : kernel) (R : rcv_env) (g : global) (meta : meta_sock)
    (skb : sk_buff4) (mptcp_flags : Z) (syn : bool) : do_rcv_result :=
  if Z.land mptcp_flags (re_MPTCPHDR_JOIN R) =? 0
  then do_rcv_no_join AF_INET R g meta mptcp_flags
  else if is_TCP_CLOSE (sk_state meta) || negb (inside_tk_table meta)
  then mk_do_rcv_result 0 0 meta g None false (reset_and_discard AF_INET None)
  else
    match re_hnd_req R with
    | Hnd_NULL => mk_do_rcv_result 0 0 meta g None false discard
    | Hnd_child child => do_rcv_child AF_INET R g meta child
    | Hnd_meta_sk =>
        if syn then
          let '(ret, mopt) :=
            mptcp_v4_add_raddress (rx_opt (mpcb meta)) (ip_saddr skb) 0
                                  (re_join_opt_addr_id R) in
          if ret <? 0
          then mk_do_rcv_result 0 0 (set_mpcb meta (set_rx_opt (mpcb meta) mopt)) g
                 None false (reset_and_discard AF_INET None)
          else
            let meta1 :=
              set_mpcb meta (set_rx_opt (mpcb meta) (set_list_rcvd mopt false)) in
            let '(meta2, r) := mptcp_v4_join_request K R g meta1 skb in
            mk_do_rcv_result 0 0 meta2 (jr_global r) (jr_req r) (jr_queued r)
              (map Rcv_join (jr_trace r) ++ discard)
        else mk_do_rcv_result 0 0 meta g None false (reset_and_discard AF_INET None)
    end.

(** [mptcp_v6_do_rcv]. *)
Definition mptcp_v6_do_rcv (K : kernel) (R : rcv_env) (g : global) (meta : meta_sock)
    (skb : sk_buff6) (mptcp_flags : Z) (syn : bool) : do_rcv_result :=
  if Z.land mptcp_flags (re_MPTCPHDR_JOIN R) =? 0
  then do_rcv_no_join AF_INET6 R g meta mptcp_flags
  else if is_TCP_CLOSE (sk_state meta) || negb (inside_tk_table meta)
  then mk_do_rcv_result 0 0 meta g None false (reset_and_discard AF_INET6 None)
  else
    match re_hnd_req R with
    | Hnd_NULL => mk_do_rcv_result 0 0 meta g None false discard
    | Hnd_child child => do_rcv_child AF_INET6 R g meta child
    | Hnd_meta_sk =>
        if syn then
          let '(ret, mopt) :=
            mptcp_v6_add_raddress (rx_opt (mpcb meta)) (ip6_saddr skb) 0
                                  (re_join_opt_addr_id R) in
          if ret <? 0
          then mk_do_rcv_result 0 0 (set_mpcb meta (set_rx_opt (mpcb meta) mopt)) g
                 None false (reset_and_discard AF_INET6 None)
          else
            let meta1 :=
              set_mpcb meta (set_rx_opt (mpcb meta) (set_list_rcvd mopt false)) in
            let '(meta2, r) := mptcp_v6_join_request K R g meta1 skb in
            mk_do_rcv_result 0 0 meta2 (jr_global r) (jr_req r) (jr_queued r)
              (map Rcv_join (jr_trace r) ++ discard)
        else mk_do_rcv_result 0 0 meta g None false (reset_and_discard AF_INET6 None)
    end.

(** The segment has been handed to a routine that keeps it:
    [tcp_vX_do_rcv], or [tcp_rcv_state_process] when it returns 0. *)
Definition skb_consumed (R : rcv_env) (tr : list rcv_event) : bool :=
  existsb (fun e => match e with
                    | Rcv_tcp_do_rcv _ _ => true
                    | Rcv_tcp_rcv_state_process _ => re_tcp_rcv_state_process R =? 0
                    | _ => false
                    end) tr.

Definition is_Rcv_kfree_skb (e : rcv_event) : bool :=
  match e with Rcv_kfree_skb => true | _ => false end.

(** The references released on the socket [sk]. *)
Definition is_put_of (sk : sock_ptr) (e : rcv_event) : bool :=
  match e with
  | Rcv_sock_put p | Rcv_inet_twsk_put p => Pos.eqb p sk
  | _ => false
  end.

(** The socket the run has obtained a reference on: the one the lookup
    found, or the child [tcp_vX_hnd_req] returned. *)
Definition referenced_sock (R : rcv_env) (mptcp_flags : Z) (meta : meta_sock)
  : option sock_ptr :=
  if Z.land mptcp_flags (re_MPTCPHDR_JOIN R) =? 0
  then option_map lk_sk (re_lookup_established R)
  else if is_TCP_CLOSE (sk_state meta) || negb (inside_tk_table meta) then None
  else match re_hnd_req R with Hnd_child child => Some child | _ => None end.

(** A run of the receive function on a new JOIN SYN: the segment carries
    [MPTCPHDR_JOIN], [tcp_vX_hnd_req] returns the meta socket, and the
    options parse to those of [opt_example 2] without touching the
    registry. *)
Definition rcv_env_example : rcv_env :=
  mk_rcv_env 1 None 0 Hnd_meta_sk 0 2 (fun m => (opt_example 2, m)) join_env_example.

(** ** Module initialisation: [mptcp_pm_vX_init] and [mptcp_pm_vX_undo] *)

(** Results of the calls of one run of an initialisation function:
    the pointers [kasprintf] and [kmem_cache_create] return ([None] is
    NULL) and the values the two notifier registrations return. *)
Record pm_env := mk_pm_env {
  pe_kasprintf : option positive;
  pe_kmem_cache_create : option positive;
  pe_register_addr_notifier : Z;      (* [register_inetaddr_notifier] / [register_inet6addr_notifier] *)
  pe_register_netdevice_notifier : Z;
  pe_ENOMEM : Z
}.

(** The two fields of [struct request_sock_ops] the functions write. *)
Record slab_ops := mk_slab_ops {
  slab_name : option positive;
  slab : option positive
}.

(** The calls made, with their arguments or results. *)
Inductive pm_event :=
  | Pm_kasprintf (r : option positive)
  | Pm_kmem_cache_create (r : option positive)
  | Pm_register_inetaddr_notifier (ret : Z)
  | Pm_register_inet6addr_notifier (ret : Z)
  | Pm_register_netdevice_notifier (ret : Z)
  | Pm_unregister_inetaddr_notifier
  | Pm_unregister_inet6addr_notifier
  | Pm_unregister_netdevice_notifier
  | Pm_kmem_cache_destroy (c : option positive)
  | Pm_kfree (p : option positive).

(** [mptcp_pm_v4_init]: the value returned, [mptcp_request_sock_ops] on
    return, and the calls made. *)
Definition mptcp_pm_v4_init (P : pm_env) (ops : slab_ops)
  : Z * slab_ops * list pm_event :=
  match pe_kasprintf P with
  | None => (- pe_ENOMEM P, mk_slab_ops None (slab ops), [Pm_kasprintf None])
  | Some name =>
      match pe_kmem_cache_create P with
      | None =>
          (- pe_ENOMEM P, mk_slab_ops None None,
           [Pm_kasprintf (Some name); Pm_kmem_cache_create None; Pm_kfree (Some name)])
      | Some c =>
          let pre := [Pm_kasprintf (Some name); Pm_kmem_cache_create (Some c)] in
          let ret := pe_register_addr_notifier P in
          if negb (ret =? 0)
          then (ret, mk_slab_ops None (Some c),
                pre ++ [Pm_register_inetaddr_notifier ret;
                        Pm_kmem_cache_destroy (Some c); Pm_kfree (Some name)])
          else
            let pre := pre ++ [Pm_register_inetaddr_notifier ret] in
            let ret := pe_register_netdevice_notifier P in
            if negb (ret =? 0)
            then (ret, mk_slab_ops None (Some c),
                  pre ++ [Pm_register_netdevice_notifier ret;
                          Pm_unregister_inetaddr_notifier;
                          Pm_kmem_cache_destroy (Some c); Pm_kfree (Some name)])
            else (ret, mk_slab_ops (Some name) (Some c),
                  pre ++ [Pm_register_netdevice_notifier ret])
      end
  end.

Definition mptcp_pm_v4_undo (ops : slab_ops) : list pm_event :=
  [Pm_unregister_inetaddr_notifier; Pm_unregister_netdevice_notifier;
   Pm_kmem_cache_destroy (slab ops); Pm_kfree (slab_name ops)].

(** [mptcp_pm_v6_init], on [mptcp6_request_sock_ops]. *)
Definition mptcp_pm_v6_init (P : pm_env) (ops : slab_ops)
  : Z * slab_ops * list pm_event :=
  match pe_kasprintf P with
  | None => (- pe_ENOMEM P, mk_slab_ops None (slab ops), [Pm_kasprintf None])
  | Some name =>
      match pe_kmem_cache_create P with
      | None =>
          (- pe_ENOMEM P, mk_slab_ops None None,
           [Pm_kasprintf (Some name); Pm_kmem_cache_create None; Pm_kfree (Some name)])
      | Some c =>
          let pre := [Pm_kasprintf (Some name); Pm_kmem_cache_create (Some c)] in
          let ret := pe_register_addr_notifier P in
          if negb (ret =? 0)
          then (ret, mk_slab_ops None (Some c),
                pre ++ [Pm_register_inet6addr_notifier ret;
                        Pm_kmem_cache_destroy (Some c); Pm_kfree (Some name)])
          else
            let pre := pre ++ [Pm_register_inet6addr_notifier ret] in
            let ret := pe_register_netdevice_notifier P in
            if negb (ret =? 0)
            then (ret, mk_slab_ops None (Some c),
                  pre ++ [Pm_register_netdevice_notifier ret;
                          Pm_unregister_inet6addr_notifier;
                          Pm_kmem_cache_destroy (Some c); Pm_kfree (Some name)])
            else (ret, mk_slab_ops (Some name) (Some c),
                  pre ++ [Pm_register_netdevice_notifier ret])
      end
  end.

Definition mptcp_pm_v6_undo (ops : slab_ops) : list pm_event :=
  [Pm_kmem_cache_destroy (slab ops); Pm_kfree (slab_name ops);
   Pm_unregister_inet6addr_notifier; Pm_unregister_netdevice_notifier].

(** What a sequence of calls holds when it ends: how many strings and
    caches are allocated and not yet released, whether each notifier is
    registered, and whether a call has released something that was not
    held.  [kfree(NULL)] releases nothing and is allowed. *)
Record pm_held := mk_pm_held {
  held_names : nat;
  held_caches : nat;
  held_addr_notifier : bool;
  held_netdev_notifier : bool;
  held_misuse : bool
}.

Definition pm_nothing : pm_held := mk_pm_held 0 0 false false false.

Definition pm_step (h : pm_held) (e : pm_event) : pm_held :=
  let misuse := mk_pm_held (held_names h) (held_caches h) (held_addr_notifier h)
                           (held_netdev_notifier h) true in
  match e with
  | Pm_kasprintf (Some _) =>
      mk_pm_held (S (held_names h)) (held_caches h) (held_addr_notifier h)
                 (held_netdev_notifier h) (held_misuse h)
  | Pm_kmem_cache_create (Some _) =>
      mk_pm_held (held_names h) (S (held_caches h)) (held_addr_notifier h)
                 (held_netdev_notifier h) (held_misuse h)
  | Pm_kasprintf None | Pm_kmem_cache_create None | Pm_kfree None => h
  | Pm_register_inetaddr_notifier ret | Pm_register_inet6addr_notifier ret =>
      if ret =? 0
      then mk_pm_held (held_names h) (held_caches h) true (held_netdev_notifier h)
                      (held_misuse h || held_addr_notifier h)
      else h
  | Pm_register_netdevice_notifier ret =>
      if ret =? 0
      then mk_pm_held (held_names h) (held_caches h) (held_addr_notifier h) true
                      (held_misuse h || held_netdev_notifier h)
      else h
  | Pm_unregister_inetaddr_notifier | Pm_unregister_inet6addr_notifier =>
      if held_addr_notifier h
      then mk_pm_held (held_names h) (held_caches h) false (held_netdev_notifier h)
                      (held_misuse h)
      else misuse
  | Pm_unregister_netdevice_notifier =>
      if held_netdev_notifier h
      then mk_pm_held (held_names h) (held_caches h) (held_addr_notifier h) false
                      (held_misuse h)
      else misuse
  | Pm_kmem_cache_destroy (Some _) =>
      match held_caches h with
      | S n => mk_pm_held (held_names h) n (held_addr_notifier h)
                          (held_netdev_notifier h) (held_misuse h)
      | O => misuse
      end
  | Pm_kmem_cache_destroy None => misuse
  | Pm_kfree (Some _) =>
      match held_names h with
      | S n => mk_pm_held n (held_caches h) (held_addr_notifier h)
                          (held_netdev_notifier h) (held_misuse h)
      | O => misuse
      end
  end.

Definition pm_holds (tr : list pm_event) : pm_held := fold_left pm_step tr pm_nothing.

(** A release is given the pointer that the allocation of this run
    returned. *)
Definition pm_releases_own (P : pm_env) (e : pm_event) : Prop :=
  match e with
  | Pm_kfree p => p = pe_kasprintf P
  | Pm_kmem_cache_destroy c => c = pe_kmem_cache_create P
  | _ => True
  end.

(** All four steps of an initialisation succeed. *)
Definition pm_calls_succeed (P : pm_env) : Prop :=
  is_Some (pe_kasprintf P) ∧ is_Some (pe_kmem_cache_create P) ∧
  pe_register_addr_notifier P = 0 ∧ pe_register_netdevice_notifier P = 0.

(** The outcome of an initialisation [init] with its cleanup [undo]:
    on success everything is held and the cleanup releases it all; on a
    failure nothing is held any more and [slab_name] is NULL. *)
Definition pm_init_outcome (P : pm_env)
    (init : Z * slab_ops * list pm_event) (undo : slab_ops → list pm_event) : Prop :=
  let '(ret, ops', tr) := init in
  Forall (pm_releases_own P) tr ∧
  (pm_calls_succeed P →
   ret = 0 ∧ slab_name ops' = pe_kasprintf P ∧ slab ops' = pe_kmem_cache_create P ∧
   pm_holds tr = mk_pm_held 1 1 true true false ∧
   Forall (pm_releases_own P) (undo ops') ∧
   pm_holds (tr ++ undo ops') = pm_nothing) ∧
  (¬ pm_calls_succeed P → pm_holds tr = pm_nothing ∧ slab_name ops' = None) ∧
  (pe_ENOMEM P ≠ 0 → (ret = 0 ↔ pm_calls_succeed P)).

(** Runs of the initialisation: one in which every step succeeds, one in
    which the registration of the netdevice notifier fails. *)
Definition pm_env_example : pm_env := mk_pm_env (Some 1%positive) (Some 2%positive) 0 0 12.
Definition pm_env_netdev_fails : pm_env :=
  mk_pm_env (Some 1%positive) (Some 2%positive) 0 (-16) 12.

(** ** Duplicate address detection: the IPv6 address events *)

(** Constants of the kernel headers this part uses. *)
Record dad_consts := mk_dad_consts {
  IFA_F_TENTATIVE : Z;
  INET6_IFADDR_STATE_DAD : Z;
  MPTCP_IPV6_DEFAULT_DAD_WAIT : Z;
  NOTIFY_DONE : Z;
  BITS_PER_LONG : Z
}.

(** What this part reads of a [struct inet6_ifaddr] and of the
    configuration of its device. *)
Record dad_ifaddr := mk_dad_ifaddr {
  dad_flags : Z;                  (* [ifa->flags] *)
  dad_state : Z;                  (* [ifa->state] *)
  rtr_solicit_delay : Z           (* [ifa->idev->cnf.rtr_solicit_delay] *)
}.

(** The calls made; [Dad_addr_event_handler] is
    [mptcp_pm_addr_event_handler(event, ifa, AF_INET6)]. *)
Inductive dad_event :=
  | Dad_kmalloc (ok : bool)
  | Dad_init_timer
  | Dad_add_timer (expires : Z)
  | Dad_in6_ifa_hold
  | Dad_in6_ifa_put
  | Dad_kfree
  | Dad_addr_event_handler (evt : netdev_event).

Definition mptcp_ipv6_is_in_dad_state (D : dad_consts) (ifa : dad_ifaddr) : bool :=
  negb (Z.land (dad_flags ifa) (IFA_F_TENTATIVE D) =? 0) &&
  (dad_state ifa =? INET6_IFADDR_STATE_DAD D).

(** Arithmetic on [unsigned long]. *)
Definition ulong (D : dad_consts) (z : Z) : Z := z mod 2 ^ BITS_PER_LONG D.

(** [mptcp_dad_init_timer]: the value it gives [data->timer.expires]. *)
Definition mptcp_dad_init_timer (D : dad_consts) (jiffies : Z) (ifa : dad_ifaddr) : Z :=
  if negb (rtr_solicit_delay ifa =? 0)
  then ulong D (jiffies + rtr_solicit_delay ifa)
  else ulong D (jiffies + MPTCP_IPV6_DEFAULT_DAD_WAIT D).

(** [mptcp_dad_setup_timer]: the expiry of the timer it has armed, if
    any, and the calls made; [kmalloc_ok] tells whether the allocation
    succeeds. *)
Definition mptcp_dad_setup_timer (D : dad_consts) (kmalloc_ok : bool) (jiffies : Z)
    (ifa : dad_ifaddr) : option Z * list dad_event :=
  if negb kmalloc_ok then (None, [Dad_kmalloc false])
  else
    let expires := mptcp_dad_init_timer D jiffies ifa in
    (Some expires,
     [Dad_kmalloc true; Dad_init_timer; Dad_add_timer expires; Dad_in6_ifa_hold]).

(** [mptcp_pm_inet6_addr_event]: the value returned, the timer armed and
    the calls made; [handler_ret] is what [mptcp_pm_addr_event_handler]
    returns. *)
Definition mptcp_pm_inet6_addr_event (D : dad_consts) (handler_ret : Z)
    (kmalloc_ok : bool) (jiffies : Z) (evt : netdev_event) (ifa : dad_ifaddr)
  : Z * option Z * list dad_event :=
  if mptcp_ipv6_is_in_dad_state D ifa
  then
    let '(timer, tr) := mptcp_dad_setup_timer D kmalloc_ok jiffies ifa in
    (NOTIFY_DONE D, timer, tr)
  else (handler_ret, None, [Dad_addr_event_handler evt]).

(** [mptcp_dad_callback], run when the timer expires; [ifa] is the
    address as it is then. *)
Definition mptcp_dad_callback (D : dad_consts) (handler_ret : Z) (kmalloc_ok : bool)
    (jiffies : Z) (ifa : dad_ifaddr) : option Z * list dad_event :=
  if mptcp_ipv6_is_in_dad_state D ifa
  then
    let expires := mptcp_dad_init_timer D jiffies ifa in
    (Some expires, [Dad_add_timer expires])
  else
    let '(_, timer, tr) :=
      mptcp_pm_inet6_addr_event D handler_ret kmalloc_ok jiffies NETDEV_UP ifa in
    (timer, tr ++ [Dad_in6_ifa_put; Dad_kfree]).

(** The kernel runs the function of an armed timer once when it expires.
    [expiries] lists, for the successive expiries, the time and the
    address as it is then; the run ends when the callback arms no timer or
    when no expiry is left (the timer is still pending). *)
Fixpoint dad_timer_runs (D : dad_consts) (handler_ret : Z)
    (expiries : list (Z * dad_ifaddr)) : list dad_event :=
  match expiries with
  | [] => []
  | (jiffies, ifa) :: rest =>
      let '(timer, tr) := mptcp_dad_callback D handler_ret true jiffies ifa in
      tr ++ match timer with
            | Some _ => dad_timer_runs D handler_ret rest
            | None => []
            end
  end.

(** An address event followed by the timer runs it gives rise to. *)
Definition dad_event_then_timers (D : dad_consts) (handler_ret : Z) (kmalloc_ok : bool)
    (jiffies : Z) (evt : netdev_event) (ifa : dad_ifaddr)
    (expiries : list (Z * dad_ifaddr)) : list dad_event :=
  let '(_, timer, tr) :=
    mptcp_pm_inet6_addr_event D handler_ret kmalloc_ok jiffies evt ifa in
  tr ++ match timer with
        | Some _ => dad_timer_runs D handler_ret expiries
        | None => []
        end.

Definition count_dad (f : dad_event → bool) (tr : list dad_event) : nat :=
  length (List.filter f tr).

Definition is_Dad_handler (e : dad_event) : bool :=
  match e with Dad_addr_event_handler _ => true | _ => false end.
Definition is_Dad_handler_not_UP (e : dad_event) : bool :=
  match e with
  | Dad_addr_event_handler NETDEV_UP => false
  | Dad_addr_event_handler _ => true
  | _ => false
  end.
Definition is_Dad_hold (e : dad_event) : bool :=
  match e with Dad_in6_ifa_hold => true | _ => false end.
Definition is_Dad_put (e : dad_event) : bool :=
  match e with Dad_in6_ifa_put => true | _ => false end.
Definition is_Dad_kfree (e : dad_event) : bool :=
  match e with Dad_kfree => true | _ => false end.
Definition is_Dad_kmalloc_ok (e : dad_event) : bool :=
  match e with Dad_kmalloc true => true | _ => false end.

(** Some expiry finds the address out of the DAD state. *)
Definition dad_ends (D : dad_consts) (expiries : list (Z * dad_ifaddr)) : bool :=
  existsb (fun x => negb (mptcp_ipv6_is_in_dad_state D x.2)) expiries.

Definition dad_consts_example : dad_consts := mk_dad_consts 0x40 0 250 0 64.
Definition dad_ifaddr_tentative : dad_ifaddr := mk_dad_ifaddr 0x40 0 0.
Definition dad_ifaddr_ready : dad_ifaddr := mk_dad_ifaddr 0 2 0.

(** ** Creation of an IPv6 subflow socket for an IPv4 meta socket *)

(** Constants of the kernel headers this part uses. *)
Record srs_consts := mk_srs_consts {
  SKB_GSO_TCPV6 : Z;
  IPV6_PMTUDISC_WANT : Z;
  LOOPBACK4_IPV6 : Z
}.

(** The route at hand: the [dst] argument, or the one looked up. *)
Inductive dst_ref := Dst_arg | Dst_looked_up.

(** Results of the kernel calls and the values read from the segment and
    the route in one run of [mptcp_v6v4_syn_recv_sock]. *)
Record srs_env := mk_srs_env {
  sr_acceptq_is_full : bool;
  sr_dst_arg : bool;                     (* the [dst] argument is not NULL *)
  sr_dst_lookup_ok : bool;               (* [ip6_dst_lookup_flow] gives no error pointer *)
  sr_create_openreq_child : option sock_ptr;
  sr_skb_clone_ok : bool;
  sr_inet_inherit_port : Z;
  sr_inet6_iif : Z;                      (* [inet6_iif(skb)] *)
  sr_hop_limit : Z;                      (* [ipv6_hdr(skb)->hop_limit] *)
  sr_dst_mtu : Z;
  sr_dst_metric_advmss : Z;
  sr_tcp_time_stamp : Z;
  sr_req_retrans : Z                     (* [req->retrans] *)
}.

(** The fields of the new socket that the function writes. *)
Record child6 := mk_child6 {
  c6_sk : sock_ptr;
  c6_gso_type : Z;
  np_daddr : in6_addr;
  np_saddr : in6_addr;
  np_rcv_saddr : in6_addr;
  c6_bound_dev_if : Z;
  np_pktoptions : bool;                  (* not NULL *)
  np_mcast_oif : Z;
  np_mcast_hops : Z;
  np_hop_limit : Z;
  np_mc_loop : Z;
  np_pmtudisc : Z;
  icsk_ext_hdr_len : Z;
  c6_advmss : Z;
  c6_total_retrans : Z;
  c6_inet_daddr : Z;
  c6_inet_saddr : Z;
  c6_inet_rcv_saddr : Z
}.

Inductive srs_event :=
  | Srs_ip6_dst_lookup_flow
  | Srs_tcp_create_openreq_child
  | Srs_sk_setup_caps (d : dst_ref)
  | Srs_skb_clone
  | Srs_kfree_skb_pktopts
  | Srs_skb_set_owner_r
  | Srs_tcp_mtup_init
  | Srs_tcp_sync_mss (mtu : Z)
  | Srs_tcp_initialize_rcv_mss
  | Srs_tcp_valid_rtt_meas (rtt : Z)
  | Srs_inet_inherit_port
  | Srs_sock_put (sk : sock_ptr)
  | Srs_inet6_hash (sk : sock_ptr)
  | Srs_dst_release (d : option dst_ref)
  | Srs_NET_INC_STATS_LISTENOVERFLOWS
  | Srs_NET_INC_STATS_LISTENDROPS.

Definition set_ir6_pktopts (req : mptcp_request_sock) (b : bool) : mptcp_request_sock :=
  mk_req (rsk_ops req) (mtreq_meta_sk req) (mptcp_rem_nonce req) (mptcp_rem_key req)
    (mptcp_loc_key req) (mptcp_loc_nonce req) (mptcp_hash_tmac req) (mtreq_rem_id req)
    (mtreq_low_prio req) (ir_rmt_port req) (ir_loc_port req) (ir_loc_addr req)
    (ir_rmt_addr req) (ir_no_srccheck req) (ir6_rmt_addr req) (ir6_loc_addr req)
    (ir6_iif req) b (req_ts_recent req) (req_tstamp_ok req) (snt_isn req)
    (snt_synack req).

(** [mptcp_v6v4_syn_recv_sock]: the socket returned ([None] is NULL),
    the request on return, and the calls made. *)
Definition mptcp_v6v4_syn_recv_sock (C : srs_consts) (S : srs_env)
    (req : mptcp_request_sock) : option child6 * mptcp_request_sock * list srs_event :=
  if sr_acceptq_is_full S
  then (None, req,
        [Srs_NET_INC_STATS_LISTENOVERFLOWS;
         Srs_dst_release (if sr_dst_arg S then Some Dst_arg else None);
         Srs_NET_INC_STATS_LISTENDROPS])
  else if negb (sr_dst_arg S) && negb (sr_dst_lookup_ok S)
  then (None, req, [Srs_ip6_dst_lookup_flow; Srs_NET_INC_STATS_LISTENDROPS])
  else
    let dst := if sr_dst_arg S then Dst_arg else Dst_looked_up in
    let pre :=
      (if sr_dst_arg S then [] else [Srs_ip6_dst_lookup_flow]) ++
      [Srs_tcp_create_openreq_child] in
    match sr_create_openreq_child S with
    | None =>
        (None, req, pre ++ [Srs_dst_release (Some dst); Srs_NET_INC_STATS_LISTENDROPS])
    | Some newsk =>
        let req' := if ir6_pktopts req then set_ir6_pktopts req false else req in
        let newsk_fields :=
          mk_child6 newsk (SKB_GSO_TCPV6 C) (ir6_rmt_addr req) (ir6_loc_addr req)
            (ir6_loc_addr req) (ir6_iif req)
            (ir6_pktopts req && sr_skb_clone_ok S)
            (sr_inet6_iif S) (sr_hop_limit S) (-1) 1 (IPV6_PMTUDISC_WANT C) 0
            (sr_dst_metric_advmss S) (sr_req_retrans S)
            (LOOPBACK4_IPV6 C) (LOOPBACK4_IPV6 C) (LOOPBACK4_IPV6 C) in
        let tr :=
          pre ++ [Srs_sk_setup_caps dst] ++
          (if ir6_pktopts req
           then [Srs_skb_clone; Srs_kfree_skb_pktopts] ++
                (if sr_skb_clone_ok S then [Srs_skb_set_owner_r] else [])
           else []) ++
          [Srs_tcp_mtup_init; Srs_tcp_sync_mss (sr_dst_mtu S); Srs_tcp_initialize_rcv_mss] ++
          (if negb (snt_synack req =? 0)
           then [Srs_tcp_valid_rtt_meas (u32 (sr_tcp_time_stamp S - snt_synack req))]
           else []) ++
          [Srs_inet_inherit_port] in
        if sr_inet_inherit_port S <? 0
        then (None, req', tr ++ [Srs_sock_put newsk; Srs_NET_INC_STATS_LISTENDROPS])
        else (Some newsk_fields, req', tr ++ [Srs_inet6_hash newsk])
    end.

Definition count_srs (f : srs_event → bool) (tr : list srs_event) : nat :=
  length (List.filter f tr).

Definition is_Srs_LISTENDROPS (e : srs_event) : bool :=
  match e with Srs_NET_INC_STATS_LISTENDROPS => true | _ => false end.
Definition is_Srs_LISTENOVERFLOWS (e : srs_event) : bool :=
  match e with Srs_NET_INC_STATS_LISTENOVERFLOWS => true | _ => false end.
(** The route is released, or handed to the new socket. *)
Definition is_Srs_route_use (e : srs_event) : bool :=
  match e with Srs_dst_release (Some _) | Srs_sk_setup_caps _ => true | _ => false end.
Definition is_Srs_kfree_skb_pktopts (e : srs_event) : bool :=
  match e with Srs_kfree_skb_pktopts => true | _ => false end.
Definition is_Srs_inet6_hash (e : srs_event) : bool :=
  match e with Srs_inet6_hash _ => true | _ => false end.

(** A new socket has been created for the request. *)
Definition srs_child_created (S : srs_env) : bool :=
  negb (sr_acceptq_is_full S) && (sr_dst_arg S || sr_dst_lookup_ok S) &&
  match sr_create_openreq_child S with Some _ => true | None => false end.

(** ** Further notions for the SYN-ACK of a mixed-family request *)

Definition is_Ev_dst_release (e : event) : bool :=
  match e with Ev_dst_release => true | _ => false end.
Definition is_Ev_ip6_xmit (e : event) : bool :=
  match e with Ev_ip6_xmit => true | _ => false end.
Definition is_Ev_tcp_v6_send_synack (e : event) : bool :=
  match e with Ev_tcp_v6_send_synack _ => true | _ => false end.

(** The SYN-ACK of the run has been built and given to [ip6_xmit], which
    returned 0. *)
Definition synack_transmitted (S : synack_env) : Prop :=
  se_dst_lookup_err S = 0 ∧ se_make_synack_ok S = true ∧ se_xmit_err S = 0.

(** * Properties *)

(** ** Lists and bit sets *)

Lemma find_filter {A} (f g : A → bool) (l : list A) :
  List.find f (List.filter g l) = List.find (fun x => g x && f x) l.
Proof.
  induction l as [|x l IH]; simpl; [done|].
  destruct (g x); simpl; [|done]. by destruct (f x).
Qed.

Lemma find_seq_Some (f : nat → bool) (n s i : nat) :
  List.find f (seq s n) = Some i ↔
  (s ≤ i < s + n)%nat ∧ f i = true ∧ ∀ j, (s ≤ j < i)%nat → f j = false.
Proof.
  revert s. induction n as [|n IH]; intros s; simpl.
  - split; [done|]. intros [? _]. lia.
  - destruct (f s) eqn:Hs.
    + split.
      * intros [= <-]. split; [lia|]. split; [done|]. intros j ?. lia.
      * intros (Hi & Hf & Hlt). f_equal.
        destruct (decide (s = i)) as [|Hne]; [done|].
        rewrite Hlt in Hs; [done | lia].
    + rewrite IH. split.
      * intros (Hi & Hf & Hlt). split; [lia|]. split; [done|].
        intros j Hj. destruct (decide (j = s)) as [->|]; [done|]. apply Hlt. lia.
      * intros (Hi & Hf & Hlt).
        assert (s ≠ i) by (intros ->; congruence).
        split; [lia|]. split; [done|]. intros j Hj. apply Hlt. lia.
Qed.

Lemma find_seq_None (f : nat → bool) (n s : nat) :
  List.find f (seq s n) = None ↔ ∀ j, (s ≤ j < s + n)%nat → f j = false.
Proof.
  split.
  - intros H j Hj. eapply find_none in H; [done|]. apply in_seq. lia.
  - intros H. destruct (List.find f (seq s n)) eqn:E; [|done].
    apply find_seq_Some in E as (Hi & Hf & _). rewrite H in Hf; [done | lia].
Qed.

Lemma testbit_u16 (z : Z) (i : nat) :
  bit_set (u16 z) i = bit_set z i && (i <? 16)%nat.
Proof.
  unfold bit_set, u16. rewrite Z.land_spec, Z.testbit_ones by lia.
  f_equal. destruct (Nat.ltb_spec i 16); lia.
Qed.

Lemma testbit_shiftl_1 (i j : nat) :
  bit_set (Z.shiftl 1 (Z.of_nat i)) j = (i =? j)%nat.
Proof.
  unfold bit_set. rewrite Z.shiftl_1_l, Z.pow2_bits_eqb by lia.
  destruct (Nat.eqb_spec i j), (Z.eqb_spec (Z.of_nat i) (Z.of_nat j)); lia || done.
Qed.

Lemma bit_set_set (b : Z) (i j : nat) :
  bit_set (u16 (Z.lor b (Z.shiftl 1 (Z.of_nat i)))) j =
  (bit_set b j || (i =? j)%nat) && (j <? 16)%nat.
Proof.
  rewrite testbit_u16. f_equal. unfold bit_set at 1.
  rewrite Z.lor_spec. f_equal. apply testbit_shiftl_1.
Qed.

Lemma bit_set_clear (b : Z) (i j : nat) :
  bit_set (u16 (Z.land b (Z.lnot (Z.shiftl 1 (Z.of_nat i))))) j =
  bit_set b j && negb (i =? j)%nat && (j <? 16)%nat.
Proof.
  rewrite testbit_u16. f_equal. unfold bit_set at 1.
  rewrite Z.land_spec, Z.lnot_spec by lia. f_equal. f_equal. apply testbit_shiftl_1.
Qed.

Lemma elem_of_for_each_bit_set (b : Z) (i : nat) :
  In i (mptcp_for_each_bit_set b) ↔ (i < MPTCP_MAX_ADDR)%nat ∧ bit_set b i = true.
Proof.
  unfold mptcp_for_each_bit_set. rewrite filter_In, in_seq. intuition lia.
Qed.

Lemma find_free_index_Some (b : Z) (i : nat) :
  mptcp_find_free_index b = Some i ↔
  (i < MPTCP_MAX_ADDR)%nat ∧ bit_set b i = false ∧
  ∀ j, (j < i)%nat → bit_set b j = true.
Proof.
  unfold mptcp_find_free_index. rewrite find_seq_Some.
  split; intros (Hi & Hf & Hlt).
  - split; [lia|]. split; [by destruct (bit_set b i)|].
    intros j Hj. specialize (Hlt j). destruct (bit_set b j); [done|].
    simpl in Hlt. discriminate Hlt. lia.
  - split; [lia|]. split; [by rewrite Hf|]. intros j Hj. rewrite Hlt; [done | lia].
Qed.

Lemma find_free_index_None (b : Z) :
  mptcp_find_free_index b = None ↔
  ∀ j, (j < MPTCP_MAX_ADDR)%nat → bit_set b j = true.
Proof.
  unfold mptcp_find_free_index. rewrite find_seq_None. split; intros H j Hj.
  - specialize (H j). destruct (bit_set b j); [done|].
    simpl in H. discriminate H. lia.
  - rewrite H; [done | lia].
Qed.

(** ** The scan of the remote registry *)

Lemma ipv6_addr_equal_spec (a b : in6_addr) : ipv6_addr_equal a b = true ↔ a = b.
Proof.
  unfold ipv6_addr_equal. rewrite !andb_true_iff, !Z.eqb_eq.
  destruct a, b; simpl. split; [intros [[[-> ->] ->] ->]; done | by intros [= -> -> -> ->]].
Qed.

Lemma ipv6_addr_equal_refl (a : in6_addr) : ipv6_addr_equal a a = true.
Proof. by apply ipv6_addr_equal_spec. Qed.

Lemma exact4b_spec m addr port id i :
  exact4b m addr port id i = true ↔ exact4 (addr4 m !!! i) addr port id.
Proof. unfold exact4b, exact4. rewrite !andb_true_iff, !Z.eqb_eq. tauto. Qed.

Lemma nat4b_spec m addr id i :
  nat4b m addr id i = true ↔ other_addr4 (addr4 m !!! i) addr id.
Proof.
  unfold nat4b, other_addr4.
  rewrite andb_true_iff, negb_true_iff, Z.eqb_eq, Z.eqb_neq. tauto.
Qed.

Lemma exact6b_spec m addr port id i :
  exact6b m addr port id i = true ↔ exact6 (addr6 m !!! i) addr port id.
Proof.
  unfold exact6b, exact6.
  rewrite !andb_true_iff, !Z.eqb_eq, ipv6_addr_equal_spec. tauto.
Qed.

Lemma id6b_spec m id i : id6b m id i = true ↔ rem6_id (addr6 m !!! i) = id.
Proof. unfold id6b. apply Z.eqb_eq. Qed.

Lemma v4_add_loop_find idx m addr port id :
  v4_add_loop idx m addr port id =
  match List.find (fun i => exact4b m addr port id i || nat4b m addr id i) idx with
  | Some i => Some (if exact4b m addr port id i then m else v4_nat_update m addr port i)
  | None => None
  end.
Proof.
  induction idx as [|i idx IH]; [done|].
  cbn [v4_add_loop List.find]. rewrite IH.
  unfold exact4b, nat4b, v4_nat_update. cbv zeta.
  destruct (_ && _ && _) eqn:E1; simpl; [by rewrite E1|].
  destruct (_ && negb _) eqn:E2; simpl; [by rewrite E1|done].
Qed.

Lemma v6_add_loop_find idx m addr port id :
  v6_add_loop idx m addr port id =
  match List.find (fun i => exact6b m addr port id i || id6b m id i) idx with
  | Some i => Some (if exact6b m addr port id i then m else v6_nat_update m addr port i)
  | None => None
  end.
Proof.
  induction idx as [|i idx IH]; [done|].
  cbn [v6_add_loop List.find]. rewrite IH.
  unfold exact6b, id6b, v6_nat_update. cbv zeta.
  destruct (_ && _ && _) eqn:E1; simpl; [by rewrite E1|].
  destruct (_ =? _) eqn:E2; simpl; [by rewrite E2, E1|done].
Qed.

(** The add operations as one case analysis: the first populated slot at
    which the scan stops, else the lowest free slot, else failure. *)
Lemma mptcp_v4_add_raddress_find m addr port id :
  mptcp_v4_add_raddress m addr port id =
  match List.find (fun i => bit_set (rem4_bits m) i &&
                            (exact4b m addr port id i || nat4b m addr id i))
                  (seq 0 MPTCP_MAX_ADDR) with
  | Some i => (0, if exact4b m addr port id i then m else v4_nat_update m addr port i)
  | None =>
      match mptcp_find_free_index (rem4_bits m) with
      | Some i => (0, v4_store m addr port id i)
      | None => (-1, m)
      end
  end.
Proof.
  unfold mptcp_v4_add_raddress, mptcp_for_each_bit_set.
  rewrite v4_add_loop_find, find_filter.
  by destruct (List.find _ _).
Qed.

Lemma mptcp_v6_add_raddress_find m addr port id :
  mptcp_v6_add_raddress m addr port id =
  match List.find (fun i => bit_set (rem6_bits m) i &&
                            (exact6b m addr port id i || id6b m id i))
                  (seq 0 MPTCP_MAX_ADDR) with
  | Some i => (0, if exact6b m addr port id i then m else v6_nat_update m addr port i)
  | None =>
      match mptcp_find_free_index (rem6_bits m) with
      | Some i => (0, v6_store m addr port id i)
      | None => (-1, m)
      end
  end.
Proof.
  unfold mptcp_v6_add_raddress, mptcp_for_each_bit_set.
  rewrite v6_add_loop_find, find_filter.
  by destruct (List.find _ _).
Qed.

Lemma mptcp_v4_rem_raddress_find m id :
  mptcp_v4_rem_raddress m id =
  match List.find (fun i => bit_set (rem4_bits m) i && (rem4_id (addr4 m !!! i) =? id))
                  (seq 0 MPTCP_MAX_ADDR) with
  | Some i =>
      (0, mk_mopt (u16 (Z.land (rem4_bits m) (Z.lnot (Z.shiftl 1 (Z.of_nat i)))))
            (addr4 m) (rem6_bits m) (addr6 m) (list_rcvd m))
  | None => (-1, m)
  end.
Proof.
  unfold mptcp_v4_rem_raddress. generalize (seq 0 MPTCP_MAX_ADDR) as idx.
  induction idx as [|i idx IH]; simpl; [done|].
  destruct (bit_set (rem4_bits m) i); simpl; [|done].
  by destruct (rem4_id (addr4 m !!! i) =? id).
Qed.

Lemma mptcp_v6_rem_raddress_find m id :
  mptcp_v6_rem_raddress m id =
  match List.find (fun i => bit_set (rem6_bits m) i && (rem6_id (addr6 m !!! i) =? id))
                  (seq 0 MPTCP_MAX_ADDR) with
  | Some i =>
      (0, mk_mopt (rem4_bits m) (addr4 m)
            (u16 (Z.land (rem6_bits m) (Z.lnot (Z.shiftl 1 (Z.of_nat i)))))
            (addr6 m) (list_rcvd m))
  | None => (-1, m)
  end.
Proof.
  unfold mptcp_v6_rem_raddress. generalize (seq 0 MPTCP_MAX_ADDR) as idx.
  induction idx as [|i idx IH]; simpl; [done|].
  destruct (bit_set (rem6_bits m) i); simpl; [|done].
  by destruct (rem6_id (addr6 m !!! i) =? id).
Qed.

(** The scan stops at [i] with the NAT update when no populated slot
    before [i] stops it. *)
Lemma v4_add_stops_nat m addr port id i :
  populated4 m i → nat4b m addr id i = true →
  (∀ j, (j < i)%nat → populated4 m j →
        exact4b m addr port id j = false ∧ nat4b m addr id j = false) →
  mptcp_v4_add_raddress m addr port id = (0, v4_nat_update m addr port i).
Proof.
  intros [Hi Hb] Hn Hlt. rewrite mptcp_v4_add_raddress_find.
  assert (He : exact4b m addr port id i = false).
  { apply nat4b_spec in Hn as [_ Hn]. apply not_true_is_false.
    intros (_ & ? & _)%exact4b_spec. done. }
  replace (List.find _ _) with (Some i); [by rewrite He|].
  symmetry. apply find_seq_Some. split; [lia|]. split; [by rewrite Hb, Hn, He|].
  intros j Hj. destruct (bit_set (rem4_bits m) j) eqn:Hbj; [|done].
  destruct (Hlt j) as [-> ->]; [lia| |done]. split; [lia|done].
Qed.

Lemma v6_add_stops_nat m addr port id i :
  populated6 m i → id6b m id i = true → exact6b m addr port id i = false →
  (∀ j, (j < i)%nat → populated6 m j → id6b m id j = false) →
  mptcp_v6_add_raddress m addr port id = (0, v6_nat_update m addr port i).
Proof.
  intros [Hi Hb] Hn He Hlt. rewrite mptcp_v6_add_raddress_find.
  replace (List.find _ _) with (Some i); [by rewrite He|].
  symmetry. apply find_seq_Some. split; [lia|]. split; [by rewrite Hb, Hn, He|].
  intros j Hj. destruct (bit_set (rem6_bits m) j) eqn:Hbj; [|done].
  assert (Hid : id6b m id j = false) by (apply Hlt; [lia | split; [lia|done]]).
  assert (exact6b m addr port id j = false) as ->; [|by rewrite Hid].
  apply not_true_is_false. intros (Hq & _)%exact6b_spec.
  apply id6b_spec in Hq. congruence.
Qed.

Lemma v4_nat_update_in_place m addr port i :
  (i < length (addr4 m))%nat →
  updated_in_place4 m (v4_nat_update m addr port i) addr port i.
Proof.
  intros Hi. unfold updated_in_place4, v4_nat_update; simpl.
  split_and!; try done.
  - by rewrite list_lookup_total_insert_eq.
  - intros j Hj. by rewrite list_lookup_total_insert_ne.
  - by rewrite length_insert.
Qed.

Lemma v6_nat_update_in_place m addr port i :
  (i < length (addr6 m))%nat →
  updated_in_place6 m (v6_nat_update m addr port i) addr port i.
Proof.
  intros Hi. unfold updated_in_place6, v6_nat_update; simpl.
  split_and!; try done.
  - by rewrite list_lookup_total_insert_eq.
  - intros j Hj. by rewrite list_lookup_total_insert_ne.
  - by rewrite length_insert.
Qed.

(** ** Reachable registries *)

Lemma mopt_empty_wf : mopt_wf mopt_empty.
Proof. split; apply length_replicate. Qed.

Lemma mptcp_v4_add_raddress_wf m addr port id :
  mopt_wf m → mopt_wf (mptcp_v4_add_raddress m addr port id).2.
Proof.
  intros [H4 H6]. rewrite mptcp_v4_add_raddress_find.
  destruct (List.find _ _) as [i|]; simpl.
  - destruct (exact4b m addr port id i); [done|].
    split; simpl; [by rewrite length_insert | done].
  - destruct (mptcp_find_free_index _); [|done].
    split; simpl; [by rewrite length_insert | done].
Qed.

Lemma mptcp_v6_add_raddress_wf m addr port id :
  mopt_wf m → mopt_wf (mptcp_v6_add_raddress m addr port id).2.
Proof.
  intros [H4 H6]. rewrite mptcp_v6_add_raddress_find.
  destruct (List.find _ _) as [i|]; simpl.
  - destruct (exact6b m addr port id i); [done|].
    split; simpl; [done | by rewrite length_insert].
  - destruct (mptcp_find_free_index _); [|done].
    split; simpl; [done | by rewrite length_insert].
Qed.

Lemma mptcp_v4_rem_raddress_wf m id : mopt_wf m → mopt_wf (mptcp_v4_rem_raddress m id).2.
Proof. intros H. rewrite mptcp_v4_rem_raddress_find. by destruct (List.find _ _). Qed.

Lemma mptcp_v6_rem_raddress_wf m id : mopt_wf m → mopt_wf (mptcp_v6_rem_raddress m id).2.
Proof. intros H. rewrite mptcp_v6_rem_raddress_find. by destruct (List.find _ _). Qed.

Lemma reachable_wf m : reachable m → mopt_wf m.
Proof.
  induction 1; [apply mopt_empty_wf | by apply mptcp_v4_add_raddress_wf
               | by apply mptcp_v4_rem_raddress_wf | by apply mptcp_v6_add_raddress_wf
               | by apply mptcp_v6_rem_raddress_wf | done].
Qed.

(** The IPv4 operations leave the IPv6 part of the registry alone. *)
Lemma mptcp_v4_add_raddress_v6_part m addr port id :
  rem6_bits (mptcp_v4_add_raddress m addr port id).2 = rem6_bits m ∧
  addr6 (mptcp_v4_add_raddress m addr port id).2 = addr6 m.
Proof.
  rewrite mptcp_v4_add_raddress_find.
  destruct (List.find _ _) as [i|]; simpl.
  - by destruct (exact4b m addr port id i).
  - by destruct (mptcp_find_free_index _).
Qed.

Lemma mptcp_v4_rem_raddress_v6_part m id :
  rem6_bits (mptcp_v4_rem_raddress m id).2 = rem6_bits m ∧
  addr6 (mptcp_v4_rem_raddress m id).2 = addr6 m.
Proof. rewrite mptcp_v4_rem_raddress_find. by destruct (List.find _ _). Qed.

Lemma unique_ids6_v6_part m m' :
  rem6_bits m' = rem6_bits m → addr6 m' = addr6 m → unique_ids6 m → unique_ids6 m'.
Proof.
  intros Hb Ha Hu i j [Hi Hbi] [Hj Hbj]. rewrite Ha. rewrite Hb in Hbi, Hbj.
  by apply Hu.
Qed.

(** The ids of the entries are not changed by an update in place. *)
Lemma v6_nat_update_id m addr port i j :
  rem6_id (addr6 (v6_nat_update m addr port i) !!! j) = rem6_id (addr6 m !!! j).
Proof.
  unfold v6_nat_update; simpl. rewrite list_lookup_total_insert.
  case_decide as H; [|done]. by destruct H as [-> _].
Qed.

Lemma mptcp_v6_add_raddress_unique_ids m addr port id :
  mopt_wf m → unique_ids6 m → unique_ids6 (mptcp_v6_add_raddress m addr port id).2.
Proof.
  intros [_ Hlen] Hu. rewrite mptcp_v6_add_raddress_find.
  destruct (List.find _ _) as [i|] eqn:Hfind; simpl.
  - destruct (exact6b m addr port id i); [done|].
    intros j k Hj Hk. rewrite !v6_nat_update_id. by apply Hu.
  - destruct (mptcp_find_free_index _) as [i|] eqn:Hfree; [|done].
    apply find_free_index_Some in Hfree as (Hi & Hclear & _).
    assert (Hnone : ∀ j, populated6 m j → rem6_id (addr6 m !!! j) ≠ id).
    { intros j [Hj Hb] Hid. eapply find_seq_None in Hfind; [|split; [lia|exact Hj]].
      rewrite Hb in Hfind. apply id6b_spec in Hid. rewrite Hid in Hfind.
      by rewrite orb_true_r in Hfind. }
    assert (Hpop : ∀ j, populated6 (v6_store m addr port id i) j →
                        j = i ∨ (j ≠ i ∧ populated6 m j)).
    { intros j [Hj Hb]. simpl in Hb. rewrite bit_set_set in Hb.
      destruct (decide (j = i)) as [|Hne]; [by left|right]. split; [done|].
      split; [done|]. apply andb_true_iff in Hb as [Hb _].
      apply orb_true_iff in Hb as [Hb|Hb]; [done|]. apply Nat.eqb_eq in Hb. done. }
    intros j k Hj Hk. simpl.
    destruct (Hpop j Hj) as [->|[Hji Hj']], (Hpop k Hk) as [->|[Hki Hk']]; [done|..].
    + rewrite list_lookup_total_insert_eq by (rewrite Hlen; done).
      rewrite list_lookup_total_insert_ne by done. simpl.
      intros Heq. by destruct (Hnone k Hk').
    + rewrite list_lookup_total_insert_eq by (rewrite Hlen; done).
      rewrite list_lookup_total_insert_ne by done. simpl.
      intros Heq. by destruct (Hnone j Hj').
    + rewrite !list_lookup_total_insert_ne by done. by apply Hu.
Qed.

Lemma mptcp_v6_rem_raddress_unique_ids m id :
  unique_ids6 m → unique_ids6 (mptcp_v6_rem_raddress m id).2.
Proof.
  intros Hu. rewrite mptcp_v6_rem_raddress_find.
  destruct (List.find _ _) as [i|]; [|done]. simpl.
  assert (Hpop : ∀ j, populated6
                        (mk_mopt (rem4_bits m) (addr4 m)
                           (u16 (Z.land (rem6_bits m) (Z.lnot (Z.shiftl 1 (Z.of_nat i)))))
                           (addr6 m) (list_rcvd m)) j → populated6 m j).
  { intros j [Hj Hb]. simpl in Hb. rewrite bit_set_clear in Hb.
    split; [done|]. by apply andb_true_iff in Hb as [[Hb _]%andb_true_iff _]. }
  intros j k Hj Hk. simpl. apply Hu; by apply Hpop.
Qed.

(** On a registry the operations build, no two populated IPv6 slots
    carry the same id. *)
Lemma reachable_unique_ids6 m : reachable m → unique_ids6 m.
Proof.
  induction 1 as [|m addr port id Hr IH|m id Hr IH|m addr port id Hr IH
                 |m id Hr IH|m Hr IH].
  - intros i j [_ Hi]. unfold bit_set in Hi. simpl in Hi.
    by rewrite Z.testbit_0_l in Hi.
  - destruct (mptcp_v4_add_raddress_v6_part m addr port id).
    by apply (unique_ids6_v6_part m).
  - destruct (mptcp_v4_rem_raddress_v6_part m id).
    by apply (unique_ids6_v6_part m).
  - apply mptcp_v6_add_raddress_unique_ids; [by apply reachable_wf | done].
  - by apply mptcp_v6_rem_raddress_unique_ids.
  - exact IH.
Qed.

Lemma unique_ids6_triples m : unique_ids6 m → unique_triples6 m.
Proof. intros Hu i j Hi Hj [= Hid _ _]. by apply Hu. Qed.

(** ** C3: the NAT rule updates an entry in place *)

(** Enumerate the slots below [MPTCP_MAX_ADDR] for a concrete registry. *)
Ltac each_slot j Hj tac :=
  unfold MPTCP_MAX_ADDR in Hj;
  do 16 (destruct j as [|j]; [tac|]); exfalso; clear - Hj; lia.

Lemma reg4_step3_reachable : reachable (set_list_rcvd reg4_step3 false).
Proof. apply reach_clear. do 3 apply reach_add4. apply reach_empty. Qed.

(** C3, counterexample.  The registry holds id 1 at 10.0.0.99 port 0 in
    slot 0 and id 1 at 10.0.0.2 port 80 in slot 1.  Adding (10.0.0.99, 0,
    id 1) returns at slot 0, an exact match, and changes nothing, although
    slot 1 is a populated slot with the id and a different address: it is
    not overwritten and [list_rcvd] is not set. *)
Lemma C3_counterexample : ¬ C3_as_stated.
Proof.
  intros [H4 _].
  destruct (H4 (set_list_rcvd reg4_step3 false) ip_10_0_0_99 0 1 1%nat)
    as (_ & _ & Hrcvd & _).
  - apply reg4_step3_reachable.
  - split; [split; [unfold MPTCP_MAX_ADDR; lia | reflexivity]|].
    split; [split; [reflexivity | vm_compute; discriminate]|].
    intros j Hj _ [_ Hne]. assert (j = 0%nat) as -> by lia.
    apply Hne. reflexivity.
  - vm_compute in Hrcvd. discriminate.
Qed.

(** C3, amended.  For every registry state (the arrays have their
    [MPTCP_MAX_ADDR] entries) and every call
    [add_remote(family, addr, port, id)]: if some populated slot has the
    id but a different stored address and, for IPv4, no populated slot
    matches (id, addr, port) exactly or, for IPv6, no populated slot
    before the first such slot carries the id, then the first such slot's
    address and port are overwritten in place with the given ones,
    [list_rcvd] is set, the call returns 0 and [rem_bits] and every other
    entry, the slot's id and bit fields included, are unchanged.  The IPv6
    condition holds whenever the ids of the populated IPv6 slots are
    distinct. *)
Theorem C3_nat_rule_updates_in_place :
  (∀ m addr port id i,
     mopt_wf m → first_other_addr4 m addr id i → no_exact4 m addr port id →
     (mptcp_v4_add_raddress m addr port id).1 = 0 ∧
     updated_in_place4 m (mptcp_v4_add_raddress m addr port id).2 addr port i) ∧
  (∀ m addr port id i,
     mopt_wf m → first_other_addr6 m addr id i → id_not_before6 m id i →
     (mptcp_v6_add_raddress m addr port id).1 = 0 ∧
     updated_in_place6 m (mptcp_v6_add_raddress m addr port id).2 addr port i) ∧
  (∀ m addr id i,
     unique_ids6 m → first_other_addr6 m addr id i → id_not_before6 m id i).
Proof.
  split; [|split].
  - intros m addr port id i [Hlen _] (Hp & Ho & Hfirst) Hne.
    rewrite (v4_add_stops_nat m addr port id i); [simpl| done | by apply nat4b_spec |].
    + split; [done|]. apply v4_nat_update_in_place.
      rewrite Hlen. by destruct Hp.
    + intros j Hj Hpj. split; apply not_true_is_false.
      * intros He%exact4b_spec. by apply (Hne j).
      * intros Hn%nat4b_spec. by apply (Hfirst j).
  - intros m addr port id i [_ Hlen] (Hp & [Hid Ho] & Hfirst) Hnb.
    rewrite (v6_add_stops_nat m addr port id i); [simpl| done | by apply id6b_spec | |].
    + split; [done|]. apply v6_nat_update_in_place.
      rewrite Hlen. by destruct Hp.
    + apply not_true_is_false. intros (_ & He & _)%exact6b_spec. done.
    + intros j Hj Hpj. apply not_true_is_false. intros Hq%id6b_spec.
      by apply (Hnb j).
  - intros m addr id i Hu (Hp & [Hid _] & _) j Hj Hpj Hq.
    assert (j = i) by (apply Hu; [done..|congruence]). lia.
Qed.

Lemma C3_witness :
  ((mptcp_v4_add_raddress reg4_tried ip_10_0_0_99 0 1).1 = 0 ∧
   updated_in_place4 reg4_tried (mptcp_v4_add_raddress reg4_tried ip_10_0_0_99 0 1).2
     ip_10_0_0_99 0 0) ∧
  ((mptcp_v6_add_raddress reg6_tried ip6_2001_db8__99 0 1).1 = 0 ∧
   updated_in_place6 reg6_tried (mptcp_v6_add_raddress reg6_tried ip6_2001_db8__99 0 1).2
     ip6_2001_db8__99 0 0).
Proof.
  split.
  - apply (proj1 C3_nat_rule_updates_in_place).
    + split; reflexivity.
    + split; [split; [unfold MPTCP_MAX_ADDR; lia | reflexivity]|].
      split; [split; [reflexivity | vm_compute; discriminate]|].
      intros j Hj. lia.
    + intros j [Hj Hb] (_ & Ha & _).
      each_slot j Hj ltac:(vm_compute in Hb, Ha; discriminate).
  - apply (proj1 (proj2 C3_nat_rule_updates_in_place)).
    + split; reflexivity.
    + split; [split; [unfold MPTCP_MAX_ADDR; lia | reflexivity]|].
      split; [split; [reflexivity | vm_compute; discriminate]|].
      intros j Hj. lia.
    + intros j Hj. lia.
Defined.

(** ** Adding the same address twice *)

Lemma v4_add_stops_exact m addr port id i :
  populated4 m i → exact4b m addr port id i = true →
  (∀ j, (j < i)%nat → populated4 m j →
        exact4b m addr port id j = false ∧ nat4b m addr id j = false) →
  mptcp_v4_add_raddress m addr port id = (0, m).
Proof.
  intros [Hi Hb] He Hlt. rewrite mptcp_v4_add_raddress_find.
  replace (List.find _ _) with (Some i); [by rewrite He|].
  symmetry. apply find_seq_Some. split; [lia|]. split; [by rewrite Hb, He|].
  intros j Hj. destruct (bit_set (rem4_bits m) j) eqn:Hbj; [|done].
  destruct (Hlt j) as [-> ->]; [lia| |done]. split; [lia|done].
Qed.

Lemma v6_add_stops_exact m addr port id i :
  populated6 m i → exact6b m addr port id i = true →
  (∀ j, (j < i)%nat → populated6 m j →
        exact6b m addr port id j = false ∧ id6b m id j = false) →
  mptcp_v6_add_raddress m addr port id = (0, m).
Proof.
  intros [Hi Hb] He Hlt. rewrite mptcp_v6_add_raddress_find.
  replace (List.find _ _) with (Some i); [by rewrite He|].
  symmetry. apply find_seq_Some. split; [lia|]. split; [by rewrite Hb, He|].
  intros j Hj. destruct (bit_set (rem6_bits m) j) eqn:Hbj; [|done].
  destruct (Hlt j) as [-> ->]; [lia| |done]. split; [lia|done].
Qed.

(** Calling [mptcp_v4_add_raddress] a second time with the same arguments
    returns the same result and leaves the registry as the first call
    left it. *)
Lemma mptcp_v4_add_raddress_twice m addr port id :
  mopt_wf m →
  mptcp_v4_add_raddress (mptcp_v4_add_raddress m addr port id).2 addr port id =
  mptcp_v4_add_raddress m addr port id.
Proof.
  intros [Hlen _]. rewrite (mptcp_v4_add_raddress_find m).
  destruct (List.find _ _) as [i|] eqn:Hfind; simpl.
  - apply find_seq_Some in Hfind as (Hi & Hstop & Hlt).
    apply andb_true_iff in Hstop as [Hb Hstop].
    assert (Hbefore : ∀ j, (j < i)%nat → populated4 m j →
               exact4b m addr port id j = false ∧ nat4b m addr id j = false).
    { intros j Hj [_ Hbj]. specialize (Hlt j). rewrite Hbj in Hlt.
      apply orb_false_iff, Hlt. lia. }
    destruct (exact4b m addr port id i) eqn:He.
    + apply (v4_add_stops_exact m addr port id i); [split; [lia|done] | done..].
    + simpl in Hstop. apply (v4_add_stops_exact _ addr port id i).
      * split; [lia|done].
      * apply exact4b_spec. unfold v4_nat_update; simpl.
        rewrite list_lookup_total_insert_eq by lia. simpl.
        by apply nat4b_spec in Hstop as [-> _].
      * intros j Hj [_ Hbj]. unfold exact4b, nat4b, v4_nat_update; simpl.
        rewrite list_lookup_total_insert_ne by lia.
        apply (Hbefore j Hj). split; [lia|done].
  - destruct (mptcp_find_free_index _) as [i|] eqn:Hfree; simpl.
    + apply find_free_index_Some in Hfree as (Hi & Hclear & Hbelow).
      apply (v4_add_stops_exact _ addr port id i).
      * split; [done|]. simpl. rewrite bit_set_set, Nat.eqb_refl, orb_true_r. simpl.
        apply Nat.ltb_lt. exact Hi.
      * apply exact4b_spec. unfold v4_store; simpl.
        by rewrite list_lookup_total_insert_eq by lia.
      * intros j Hj _. unfold exact4b, nat4b, v4_store; simpl.
        rewrite list_lookup_total_insert_ne by lia.
        eapply find_seq_None in Hfind; [|split; [lia|]].
        -- rewrite (Hbelow j Hj) in Hfind. by apply orb_false_iff in Hfind.
        -- simpl. lia.
    + rewrite mptcp_v4_add_raddress_find, Hfind, Hfree. done.
Qed.

Lemma mptcp_v6_add_raddress_twice m addr port id :
  mopt_wf m →
  mptcp_v6_add_raddress (mptcp_v6_add_raddress m addr port id).2 addr port id =
  mptcp_v6_add_raddress m addr port id.
Proof.
  intros [_ Hlen]. rewrite (mptcp_v6_add_raddress_find m).
  destruct (List.find _ _) as [i|] eqn:Hfind; simpl.
  - apply find_seq_Some in Hfind as (Hi & Hstop & Hlt).
    apply andb_true_iff in Hstop as [Hb Hstop].
    assert (Hbefore : ∀ j, (j < i)%nat → populated6 m j →
               exact6b m addr port id j = false ∧ id6b m id j = false).
    { intros j Hj [_ Hbj]. specialize (Hlt j). rewrite Hbj in Hlt.
      apply orb_false_iff, Hlt. lia. }
    destruct (exact6b m addr port id i) eqn:He.
    + apply (v6_add_stops_exact m addr port id i); [split; [lia|done] | done..].
    + simpl in Hstop. apply (v6_add_stops_exact _ addr port id i).
      * split; [lia|done].
      * apply exact6b_spec. unfold v6_nat_update; simpl.
        rewrite list_lookup_total_insert_eq by lia. simpl.
        by apply id6b_spec in Hstop as ->.
      * intros j Hj [_ Hbj]. unfold exact6b, id6b, v6_nat_update; simpl.
        rewrite list_lookup_total_insert_ne by lia.
        apply (Hbefore j Hj). split; [lia|done].
  - destruct (mptcp_find_free_index _) as [i|] eqn:Hfree; simpl.
    + apply find_free_index_Some in Hfree as (Hi & Hclear & Hbelow).
      apply (v6_add_stops_exact _ addr port id i).
      * split; [done|]. simpl. rewrite bit_set_set, Nat.eqb_refl, orb_true_r. simpl.
        apply Nat.ltb_lt. exact Hi.
      * apply exact6b_spec. unfold v6_store; simpl.
        by rewrite list_lookup_total_insert_eq by lia.
      * intros j Hj _. unfold exact6b, id6b, v6_store; simpl.
        rewrite list_lookup_total_insert_ne by lia.
        eapply find_seq_None in Hfind; [|split; [lia|]].
        -- rewrite (Hbelow j Hj) in Hfind. by apply orb_false_iff in Hfind.
        -- simpl. lia.
    + rewrite mptcp_v6_add_raddress_find, Hfind, Hfree. done.
Qed.

(** ** C5 and C6: entries sharing an id in the IPv4 registry *)

Lemma reg4_step4_reachable : reachable reg4_step4.
Proof. do 4 apply reach_add4. apply reach_empty. Qed.

(** C5, the IPv4 code at the failing input.  From the empty registry,
    [add(10.0.0.2, 0, id 1)], [add(10.0.0.2, 80, id 1)],
    [add(10.0.0.99, 0, id 1)] and [add(10.0.0.2, 80, id 1)] leave slots 0
    and 1 both populated with the triple (1, 10.0.0.2, 80): the invariant
    that no two populated slots store the same (id, ip, port) fails in a
    reachable state. *)
Theorem C5_v4_reaches_duplicate_triple :
  reachable reg4_step4 ∧
  populated4 reg4_step4 0 ∧ populated4 reg4_step4 1 ∧
  triple4 (addr4 reg4_step4 !!! 0%nat) = (1, ip_10_0_0_2, 80) ∧
  triple4 (addr4 reg4_step4 !!! 1%nat) = (1, ip_10_0_0_2, 80) ∧
  ¬ unique_triples4 reg4_step4.
Proof.
  split; [apply reg4_step4_reachable|].
  assert (H0 : populated4 reg4_step4 0) by (split; [unfold MPTCP_MAX_ADDR; lia | reflexivity]).
  assert (H1 : populated4 reg4_step4 1) by (split; [unfold MPTCP_MAX_ADDR; lia | reflexivity]).
  split_and!; try done.
  intros Hu. specialize (Hu 0%nat 1%nat H0 H1 eq_refl). discriminate.
Qed.

(** The IPv6 code keeps the invariant of C5: on every registry built from
    the empty one, no two populated IPv6 slots store the same
    (id, ip, port). *)
Lemma reachable_unique_triples6 m : reachable m → unique_triples6 m.
Proof. intros Hr. by apply unique_ids6_triples, reachable_unique_ids6. Qed.

(** C6, the IPv4 code at the failing input.  In the registry with
    (1, 10.0.0.99, 0) in slot 0 and (1, 10.0.0.2, 80) in slot 1, slot 1
    matches [add(10.0.0.2, 80, id 1)] exactly, and yet the call rewrites
    slot 0 and sets [list_rcvd]. *)
Theorem C6_v4_exact_match_is_not_a_no_op :
  let m := set_list_rcvd reg4_step3 false in
  reachable m ∧ populated4 m 1 ∧ exact4 (addr4 m !!! 1%nat) ip_10_0_0_2 80 1 ∧
  (mptcp_v4_add_raddress m ip_10_0_0_2 80 1).1 = 0 ∧
  addr4 m !!! 0%nat = mk_rem4 ip_10_0_0_99 0 0 0 1 ∧
  addr4 (mptcp_v4_add_raddress m ip_10_0_0_2 80 1).2 !!! 0%nat = mk_rem4 ip_10_0_0_2 80 0 0 1 ∧
  list_rcvd m = false ∧
  list_rcvd (mptcp_v4_add_raddress m ip_10_0_0_2 80 1).2 = true.
Proof.
  cbv zeta. split; [apply reg4_step3_reachable|].
  split; [split; [unfold MPTCP_MAX_ADDR; lia | reflexivity]|].
  split; [by split_and!|]. split_and!; reflexivity.
Qed.

(** ** C10: a known id and address with another port *)

Lemma reg4_step2_reachable : reachable reg4_step2.
Proof. do 2 apply reach_add4. apply reach_empty. Qed.

(** C10, counterexample.  After [add(10.0.0.2, 0, id 1)] and
    [add(10.0.0.2, 80, id 1)], slot 0 holds id 1 and the address with
    another port than 80, yet a further [add(10.0.0.2, 80, id 1)] on the
    IPv4 registry allocates no slot: slot 1 already matches exactly. *)
Lemma C10_counterexample : ¬ C10_as_stated.
Proof.
  intros [_ H4].
  destruct (H4 reg4_step2 ip_10_0_0_2 80 1 0%nat) as (_ & k & _ & Hclear & Hset & _).
  - apply reg4_step2_reachable.
  - split; [unfold MPTCP_MAX_ADDR; lia | reflexivity].
  - split; [reflexivity|]. split; [reflexivity|]. vm_compute. discriminate.
  - assert (Heq : (mptcp_v4_add_raddress reg4_step2 ip_10_0_0_2 80 1).2 = reg4_step2)
      by reflexivity.
    rewrite Heq in Hset. congruence.
Qed.

(** The IPv6 scan stops at the first populated slot that carries the id:
    on [reg6_same_id], [add(2001:db8::2, 0, id 1)] rewrites slot 0 and
    leaves slot 1, the slot with the id, the address and another port, as
    it was. *)
Lemma v6_scan_stops_at_first_id :
  mopt_wf reg6_same_id ∧ populated6 reg6_same_id 1 ∧
  other_port6 (addr6 reg6_same_id !!! 1%nat) ip6_2001_db8__2 0 1 ∧
  let m' := (mptcp_v6_add_raddress reg6_same_id ip6_2001_db8__2 0 1).2 in
  addr6 m' !!! 1%nat = addr6 reg6_same_id !!! 1%nat ∧
  addr6 m' !!! 0%nat = mk_rem6 ip6_2001_db8__2 0 0 0 1.
Proof.
  split; [split; reflexivity|].
  split; [split; [unfold MPTCP_MAX_ADDR; lia | reflexivity]|].
  split; [split; [reflexivity|]; split; [reflexivity|]; vm_compute; discriminate|].
  split; vm_compute; reflexivity.
Qed.

(** C10, amended.  For every registry state (the arrays have their
    [MPTCP_MAX_ADDR] entries): if a populated IPv6 slot has the id and the
    address with another port and no populated slot before it carries the
    id, [mptcp_v6_add_raddress] overwrites that slot's port in place, sets
    [list_rcvd] and allocates no slot.  If a populated IPv4 slot has the
    id and the address with another port and, besides, no populated slot
    matches (id, addr, port) exactly, none holds the id with another
    address, and a slot is free, [mptcp_v4_add_raddress] leaves the
    matching slot, like every other entry, untouched and allocates a fresh
    slot for the entry.  The IPv6 condition on the earlier slots holds
    whenever the ids of the populated IPv6 slots are distinct. *)
Theorem C10_port_change_v6_updates_v4_allocates :
  (∀ m addr port id i,
     mopt_wf m → populated6 m i → other_port6 (addr6 m !!! i) addr port id →
     id_not_before6 m id i →
     (mptcp_v6_add_raddress m addr port id).1 = 0 ∧
     updated_in_place6 m (mptcp_v6_add_raddress m addr port id).2 addr port i) ∧
  (∀ m addr port id i,
     mopt_wf m → populated4 m i → other_port4 (addr4 m !!! i) addr port id →
     no_exact4 m addr port id → no_other_addr4 m addr id → ¬ full4 m →
     (mptcp_v4_add_raddress m addr port id).1 = 0 ∧
     ∃ k, stored_fresh4 m (mptcp_v4_add_raddress m addr port id).2 addr port id k) ∧
  (∀ m addr port id i,
     unique_ids6 m → populated6 m i → other_port6 (addr6 m !!! i) addr port id →
     id_not_before6 m id i).
Proof.
  split; [|split].
  - intros m addr port id i [_ Hlen] Hp (Hid & Haddr & Hport) Hnb.
    rewrite (v6_add_stops_nat m addr port id i); [simpl| done | by apply id6b_spec | |].
    + split; [done|]. apply v6_nat_update_in_place. rewrite Hlen. by destruct Hp.
    + apply not_true_is_false. intros (_ & _ & He)%exact6b_spec. done.
    + intros j Hj Hpj. apply not_true_is_false. intros Hq%id6b_spec.
      by apply (Hnb j).
  - intros m addr port id i [Hlen _] Hp Hop Hne Hna Hfull.
    rewrite mptcp_v4_add_raddress_find.
    replace (List.find _ _) with (@None nat).
    2:{ symmetry. apply find_seq_None. intros j Hj.
        destruct (bit_set (rem4_bits m) j) eqn:Hb; [|done]. simpl.
        assert (Hpj : populated4 m j) by (split; [lia|done]).
        apply orb_false_iff. split; apply not_true_is_false.
        - intros He%exact4b_spec. by apply (Hne j).
        - intros Hn%nat4b_spec. by apply (Hna j). }
    destruct (mptcp_find_free_index _) as [k|] eqn:Hfree.
    2:{ destruct Hfull. exact (proj1 (find_free_index_None _) Hfree). }
    apply find_free_index_Some in Hfree as (Hk & Hclear & _). simpl.
    split; [done|]. exists k. unfold stored_fresh4, v4_store; simpl.
    split_and!; try done.
    + rewrite bit_set_set, Nat.eqb_refl, orb_true_r. simpl. by apply Nat.ltb_lt.
    + intros j Hj Hjk. rewrite bit_set_set.
      replace (k =? j)%nat with false by (symmetry; apply Nat.eqb_neq; lia).
      replace (j <? 16)%nat with true by (symmetry; apply Nat.ltb_lt; exact Hj).
      by rewrite orb_false_r, andb_true_r.
    + rewrite list_lookup_total_insert_eq; [done | by rewrite Hlen].
    + intros j Hj. by rewrite list_lookup_total_insert_ne.
  - intros m addr port id i Hu Hp (Hid & _) j Hj Hpj Hq.
    assert (j = i) by (apply Hu; [done..|congruence]). lia.
Qed.

Lemma C10_witness :
  ((mptcp_v6_add_raddress reg6_tried ip6_2001_db8__2 0 1).1 = 0 ∧
   updated_in_place6 reg6_tried (mptcp_v6_add_raddress reg6_tried ip6_2001_db8__2 0 1).2
     ip6_2001_db8__2 0 0) ∧
  ((mptcp_v4_add_raddress reg4_tried ip_10_0_0_2 80 1).1 = 0 ∧
   ∃ k, stored_fresh4 reg4_tried (mptcp_v4_add_raddress reg4_tried ip_10_0_0_2 80 1).2
          ip_10_0_0_2 80 1 k).
Proof.
  split.
  - apply (proj1 C10_port_change_v6_updates_v4_allocates).
    + split; reflexivity.
    + split; [unfold MPTCP_MAX_ADDR; lia | reflexivity].
    + split; [reflexivity|]. split; [reflexivity|]. vm_compute. discriminate.
    + intros j Hj. lia.
  - apply (proj1 (proj2 C10_port_change_v6_updates_v4_allocates)) with (i := 0%nat).
    + split; reflexivity.
    + split; [unfold MPTCP_MAX_ADDR; lia | reflexivity].
    + split; [reflexivity|]. split; [reflexivity|]. vm_compute. discriminate.
    + intros j [Hj Hb] (_ & _ & Hport).
      each_slot j Hj ltac:(vm_compute in Hb, Hport; discriminate).
    + intros j [Hj Hb] (_ & Haddr).
      each_slot j Hj ltac:(vm_compute in Hb, Haddr; try discriminate; by apply Haddr).
    + intros Hfull. specialize (Hfull 1%nat). vm_compute in Hfull.
      discriminate Hfull. lia.
Defined.

(** ** C2: a JOIN SYN when the registry is full *)

Lemma v4_add_full m addr port id :
  full4 m → no_match4 m addr port id → mptcp_v4_add_raddress m addr port id = (-1, m).
Proof.
  intros Hfull Hno. rewrite mptcp_v4_add_raddress_find.
  replace (List.find _ _) with (@None nat).
  - by rewrite (proj2 (find_free_index_None _) Hfull).
  - symmetry. apply find_seq_None. intros j Hj.
    destruct (bit_set (rem4_bits m) j) eqn:Hb; [|done]. simpl.
    destruct (Hno j) as [He Hn]; [split; [lia|done]|].
    apply orb_false_iff. split; apply not_true_is_false.
    + by intros ?%exact4b_spec.
    + by intros ?%nat4b_spec.
Qed.

Lemma v6_add_full m addr port id :
  full6 m → no_id6 m id → mptcp_v6_add_raddress m addr port id = (-1, m).
Proof.
  intros Hfull Hno. rewrite mptcp_v6_add_raddress_find.
  replace (List.find _ _) with (@None nat).
  - by rewrite (proj2 (find_free_index_None _) Hfull).
  - symmetry. apply find_seq_None. intros j Hj.
    destruct (bit_set (rem6_bits m) j) eqn:Hb; [|done]. simpl.
    assert (Hid : rem6_id (addr6 m !!! j) ≠ id) by (apply Hno; split; [lia|done]).
    apply orb_false_iff. split; apply not_true_is_false.
    + by intros [? _]%exact6b_spec.
    + by intros ?%id6b_spec.
Qed.

Lemma set_mpcb_rx_opt_id meta :
  set_mpcb meta (set_rx_opt (mpcb meta) (rx_opt (mpcb meta))) = meta.
Proof. destruct meta as [? ? ? ? ? ? []]. done. Qed.

Lemma reg4_full_reachable : reachable reg4_full.
Proof.
  unfold reg4_full. cbn [fold_left seq]. do 16 apply reach_add4. apply reach_empty.
Qed.

Lemma reg6_full_reachable : reachable reg6_full.
Proof.
  unfold reg6_full. cbn [fold_left seq]. do 16 apply reach_add6. apply reach_empty.
Qed.

(** C2, counterexample.  IPv6: all 16 slots are populated and slot 3
    holds id 3 at 2001:db8::3 with port 80; a JOIN SYN from 2001:db8::3
    with address id 3 matches no slot exactly (its port is 0) nor with a
    different address, yet the addition succeeds by overwriting the port,
    so that no reset is sent and a request is created.  IPv4, on a kernel
    built with MD5 signatures: all 16 slots are populated with other ids,
    and a JOIN SYN that fails the MD5 check is dropped without a reset. *)
Lemma C2_counterexample : ¬ C2_as_stated_v4 ∧ ¬ C2_as_stated_v6.
Proof.
  split.
  - intros H4.
    destruct (H4 kernel_example join_env_md5_drop global_empty (meta_example reg4_full)
                 skb4_example (opt_example 17)) as (_ & _ & _ & _ & _ & Htr).
    + apply reg4_full_reachable.
    + intros i Hi. unfold MPTCP_MAX_ADDR in Hi.
      do 16 (destruct i as [|i]; [vm_compute; reflexivity|]). lia.
    + intros j [Hj _]. split.
      * intros (Hid & _). each_slot j Hj ltac:(vm_compute in Hid; discriminate Hid).
      * intros [Hid _]. each_slot j Hj ltac:(vm_compute in Hid; discriminate Hid).
    + vm_compute in Htr. discriminate Htr.
  - intros H6.
    destruct (H6 kernel_example join_env_example global_empty (meta_example reg6_full)
                 skb6_example (opt_example 3)) as [Hadd _].
    + apply reg6_full_reachable.
    + intros i Hi. unfold MPTCP_MAX_ADDR in Hi.
      do 16 (destruct i as [|i]; [vm_compute; reflexivity|]). lia.
    + intros j [Hj _]. split.
      * intros (_ & _ & Hport).
        each_slot j Hj ltac:(vm_compute in Hport; discriminate Hport).
      * intros [Hid Haddr].
        each_slot j Hj ltac:(vm_compute in Hid, Haddr; try discriminate Hid;
                             by apply Haddr).
    + vm_compute in Hadd. discriminate Hadd.
Qed.

(** What the IPv6 handler does at that input: the port of slot 3 is
    overwritten and a request is queued. *)
Example C2_v6_port_overwritten :
  let r := mptcp_v6_do_rcv_join_syn kernel_example join_env_example global_empty
             (meta_example reg6_full) skb6_example (opt_example 3) in
  rem6_port (addr6 reg6_full !!! 3%nat) = 80 ∧
  rem6_port (addr6 (rx_opt (mpcb (rr_meta r))) !!! 3%nat) = 0 ∧
  rr_queued r = true ∧ ¬ In (Ev_tcp_v6_send_reset (ip6_saddr skb6_example)
                                                  (ip6_daddr skb6_example)) (rr_trace r).
Proof.
  vm_compute. split_and!; try done. intros H. repeat destruct H as [H|H]; done.
Qed.

(** C2, amended.  For every incoming JOIN SYN handled by the fast path
    and not dropped by the MD5 check: if all 16 remote slots of the
    packet's family are populated and none matches the option's address
    id (IPv4: neither exactly nor with a different address; IPv6: no slot
    carries the id), then the addition returns -1 and leaves the registry
    unchanged, and the handler emits a TCP RST toward the sender and
    creates no request. *)
Theorem C2_join_syn_full_registry_is_reset :
  (∀ K E g meta skb tmp_opt,
     je_md5_configured E && je_inbound_md5_hash E = false →
     full4 (rx_opt (mpcb meta)) →
     no_match4 (rx_opt (mpcb meta)) (ip_saddr skb) 0 (mpj_addr_id tmp_opt) →
     join_syn_refused4 K E g meta skb tmp_opt) ∧
  (∀ K E g meta skb tmp_opt,
     je_md5_configured E && je_inbound_md5_hash E = false →
     full6 (rx_opt (mpcb meta)) →
     no_id6 (rx_opt (mpcb meta)) (mpj_addr_id tmp_opt) →
     join_syn_refused6 K E g meta skb tmp_opt).
Proof.
  split.
  - intros K E g meta skb tmp_opt Hmd5 Hfull Hno.
    pose proof (v4_add_full _ _ _ _ Hfull Hno) as Hadd.
    split; [done|]. unfold mptcp_v4_do_rcv_join_syn. rewrite Hmd5, Hadd.
    destruct (is_TCP_CLOSE _ || _); simpl; [done|].
    by rewrite set_mpcb_rx_opt_id.
  - intros K E g meta skb tmp_opt Hmd5 Hfull Hno.
    pose proof (v6_add_full _ (ip6_saddr skb) 0 _ Hfull Hno) as Hadd.
    split; [done|]. unfold mptcp_v6_do_rcv_join_syn. rewrite Hmd5, Hadd.
    destruct (is_TCP_CLOSE _ || _); simpl; [done|].
    by rewrite set_mpcb_rx_opt_id.
Qed.

Lemma C2_witness :
  join_syn_refused4 kernel_example join_env_example global_empty (meta_example reg4_full)
    skb4_example (opt_example 17) ∧
  join_syn_refused6 kernel_example join_env_example global_empty (meta_example reg6_full)
    skb6_example (opt_example 17).
Proof.
  split.
  - apply (proj1 C2_join_syn_full_registry_is_reset).
    + reflexivity.
    + intros i Hi. unfold MPTCP_MAX_ADDR in Hi.
      do 16 (destruct i as [|i]; [vm_compute; reflexivity|]). lia.
    + intros j [Hj _]. split.
      * intros (Hid & _). each_slot j Hj ltac:(vm_compute in Hid; discriminate Hid).
      * intros [Hid _]. each_slot j Hj ltac:(vm_compute in Hid; discriminate Hid).
  - apply (proj2 C2_join_syn_full_registry_is_reset).
    + reflexivity.
    + intros i Hi. unfold MPTCP_MAX_ADDR in Hi.
      do 16 (destruct i as [|i]; [vm_compute; reflexivity|]). lia.
    + intros j [Hj _] Hid. each_slot j Hj ltac:(vm_compute in Hid; discriminate Hid).
Defined.

(** ** C1: the truncated MAC of a JOIN request *)

Lemma le_bytes_le_load (l : list Z) :
  Forall is_byte l → le_bytes (length l) (le_load l) = l.
Proof.
  induction 1 as [|b l Hb Hl IH]; [done|].
  cbn [le_bytes le_load length]. unfold is_byte in Hb.
  replace (b + 256 * le_load l) with (b + le_load l * 256) by lia.
  rewrite Z_mod_plus_full, Z.mod_small, Z.div_add, Z.div_small by lia.
  rewrite Z.add_0_l. by rewrite IH.
Qed.

Lemma mem_bytes_mem_load (bo : byte_order) (l : list Z) :
  Forall is_byte l → mem_bytes bo (length l) (mem_load bo l) = l.
Proof.
  intros Hl. destruct bo; simpl.
  - by apply le_bytes_le_load.
  - rewrite <- length_rev, le_bytes_le_load, rev_involutive; [done|].
    by apply Forall_rev.
Qed.

Lemma length_le_bytes (n : nat) (z : Z) : length (le_bytes n z) = n.
Proof. revert z. induction n as [|n IH]; intros z; simpl; [done|]. by rewrite IH. Qed.

Lemma length_mem_bytes (bo : byte_order) (n : nat) (z : Z) :
  length (mem_bytes bo n z) = n.
Proof. destruct bo; simpl; [|rewrite length_rev]; apply length_le_bytes. Qed.

Lemma be32_bytes_bytes (w : Z) : Forall is_byte (SHA1.be32_bytes w).
Proof.
  unfold SHA1.be32_bytes, is_byte.
  repeat constructor; apply Z.mod_pos_bound; lia.
Qed.

Lemma digest_bytes (msg : list Z) : Forall is_byte (SHA1.digest msg).
Proof. unfold SHA1.digest. rewrite !Forall_app. split_and!; apply be32_bytes_bytes. Qed.

(** Reading the first 8 digest bytes as a 64-bit integer and looking at
    that integer's bytes gives the 8 bytes back. *)
Lemma join_hash_tmac_bytes K loc_key rem_key loc_nonce rem_nonce :
  let bo := cpu_byte_order K in
  mem_bytes bo 8 (join_hash_tmac K loc_key rem_key loc_nonce rem_nonce) =
  firstn 8 (SHA1.hmac (mem_bytes bo 8 loc_key ++ mem_bytes bo 8 rem_key)
                      (mem_bytes bo 4 loc_nonce ++ mem_bytes bo 4 rem_nonce)).
Proof.
  intros bo. unfold join_hash_tmac, mptcp_hmac_sha1. fold bo.
  set (mac := SHA1.hmac _ _).
  assert (Hlen : length (firstn 8 mac) = 8%nat) by done.
  rewrite <- Hlen at 1. apply mem_bytes_mem_load.
  apply Forall_take. apply digest_bytes.
Qed.

Lemma v4_join_request_fields K E g meta skb tmp_opt req :
  jr_req (mptcp_v4_join_request_short K E g meta skb tmp_opt) = Some req →
  mptcp_loc_key req = mpcb_loc_key (mpcb meta) ∧
  mptcp_rem_key req = mpcb_rem_key (mpcb meta) ∧
  mptcp_loc_nonce req = u32 (je_random_bytes E) ∧
  mptcp_rem_nonce req = mptcp_recv_nonce tmp_opt ∧
  mptcp_hash_tmac req =
    join_hash_tmac K (mptcp_loc_key req) (mptcp_rem_key req)
                   (mptcp_loc_nonce req) (mptcp_rem_nonce req).
Proof.
  unfold mptcp_v4_join_request_short, mptcp_v4_reqsk_queue_hash_add.
  repeat case_match; simpl; intros [= <-]; done.
Qed.

Lemma v6_join_request_fields K E g meta skb tmp_opt req :
  jr_req (mptcp_v6_join_request_short K E g meta skb tmp_opt) = Some req →
  mptcp_loc_key req = mpcb_loc_key (mpcb meta) ∧
  mptcp_rem_key req = mpcb_rem_key (mpcb meta) ∧
  mptcp_loc_nonce req = u32 (je_random_bytes E) ∧
  mptcp_rem_nonce req = mptcp_recv_nonce tmp_opt ∧
  mptcp_hash_tmac req =
    join_hash_tmac K (mptcp_loc_key req) (mptcp_rem_key req)
                   (mptcp_loc_nonce req) (mptcp_rem_nonce req).
Proof.
  unfold mptcp_v6_join_request_short, mptcp_v6_reqsk_queue_hash_add.
  repeat case_match; simpl; intros [= <-]; done.
Qed.

Lemma v4_join_request_built K E g meta skb tmp_opt :
  is_Some (jr_req (mptcp_v4_join_request_short K E g meta skb tmp_opt)) ↔
  je_reqsk_alloc_ok E = true.
Proof.
  unfold mptcp_v4_join_request_short, mptcp_v4_reqsk_queue_hash_add.
  destruct (je_reqsk_alloc_ok E); simpl.
  - split; [done|]. intros _. repeat case_match; simpl; by eexists.
  - split; [by intros [? ?]|done].
Qed.

Lemma v6_join_request_built K E g meta skb tmp_opt :
  is_Some (jr_req (mptcp_v6_join_request_short K E g meta skb tmp_opt)) ↔
  je_reqsk_alloc_ok E = true.
Proof.
  unfold mptcp_v6_join_request_short, mptcp_v6_reqsk_queue_hash_add.
  destruct (je_reqsk_alloc_ok E); simpl.
  - split; [done|]. intros _. repeat case_match; simpl; by eexists.
  - split; [by intros [? ?]|done].
Qed.

(** C1.  Both request-creation routines build a request exactly when
    the allocation of the request block succeeds, and for every JOIN
    request created by either of them (v4 or v6), the stored truncated MAC
    is the first 8 bytes of the HMAC-SHA1 digest computed with the 16-byte
    key (local_key || remote_key) over the 8-byte message
    (local_nonce || remote_nonce), where the keys are those of the meta
    connection and the local nonce is the 32-bit value drawn at random and
    stored in the same request. *)
Theorem C1_join_request_truncated_mac K E g meta tmp_opt :
  (∀ skb, is_Some (jr_req (mptcp_v4_join_request_short K E g meta skb tmp_opt)) ↔
          je_reqsk_alloc_ok E = true) ∧
  (∀ skb, is_Some (jr_req (mptcp_v6_join_request_short K E g meta skb tmp_opt)) ↔
          je_reqsk_alloc_ok E = true) ∧
  (∀ req, join_request_created K E g meta tmp_opt req →
          truncated_mac_stored K E meta tmp_opt req).
Proof.
  split; [intros skb; apply v4_join_request_built|].
  split; [intros skb; apply v6_join_request_built|].
  intros req Hc. unfold truncated_mac_stored. cbv zeta.
  set (bo := cpu_byte_order K).
  set (key := mem_bytes bo 8 (mptcp_loc_key req) ++ mem_bytes bo 8 (mptcp_rem_key req)).
  set (msg := mem_bytes bo 4 (mptcp_loc_nonce req) ++ mem_bytes bo 4 (mptcp_rem_nonce req)).
  assert (Hf : mptcp_loc_key req = mpcb_loc_key (mpcb meta) ∧
               mptcp_rem_key req = mpcb_rem_key (mpcb meta) ∧
               mptcp_loc_nonce req = u32 (je_random_bytes E) ∧
               mptcp_rem_nonce req = mptcp_recv_nonce tmp_opt ∧
               mptcp_hash_tmac req =
                 join_hash_tmac K (mptcp_loc_key req) (mptcp_rem_key req)
                                (mptcp_loc_nonce req) (mptcp_rem_nonce req)).
  { destruct Hc as [skb req Hreq|skb req Hreq];
      [by eapply v4_join_request_fields | by eapply v6_join_request_fields]. }
  destruct Hf as (Hlk & Hrk & Hln & Hrn & Hmac).
  split_and!; try done.
  - rewrite Hmac. apply join_hash_tmac_bytes.
  - unfold key. by rewrite length_app, !length_mem_bytes.
  - unfold msg. by rewrite length_app, !length_mem_bytes.
Qed.

Lemma C1_witness :
  je_reqsk_alloc_ok join_env_example = true ∧
  jr_req join4_example = Some req4_example ∧
  jr_req join6_example = Some req6_example ∧
  rsk_ops req4_example = mptcp_request_sock_ops ∧
  rsk_ops req6_example = mptcp6_request_sock_ops ∧
  truncated_mac_stored kernel_example join_env_example (meta_example mopt_empty)
    (opt_example 2) req4_example ∧
  truncated_mac_stored kernel_example join_env_example (meta_example mopt_empty)
    (opt_example 2) req6_example.
Proof.
  destruct (C1_join_request_truncated_mac kernel_example join_env_example global_empty
              (meta_example mopt_empty) (opt_example 2)) as (H4 & H6 & Hmac).
  assert (Ha : je_reqsk_alloc_ok join_env_example = true) by reflexivity.
  assert (Hr4 : jr_req join4_example = Some req4_example).
  { destruct (proj2 (H4 skb4_example) Ha) as [req Hreq].
    unfold req4_example, join4_example. rewrite Hreq. reflexivity. }
  assert (Hr6 : jr_req join6_example = Some req6_example).
  { destruct (proj2 (H6 skb6_example) Ha) as [req Hreq].
    unfold req6_example, join6_example. rewrite Hreq. reflexivity. }
  split; [exact Ha|]. split; [exact Hr4|]. split; [exact Hr6|].
  split; [vm_compute; reflexivity|]. split; [vm_compute; reflexivity|].
  split.
  - apply Hmac. apply created_by_v4 with (skb := skb4_example). exact Hr4.
  - apply Hmac. apply created_by_v6 with (skb := skb6_example). exact Hr6.
Defined.

(** The model against known answers: the SHA-1 of "abc" (FIPS 180), the
    HMAC-SHA1 of RFC 2202 test case 2, and the truncated MAC of the
    example request as an independent HMAC-SHA1 gives it. *)
Example sha1_abc :
  SHA1.digest [97; 98; 99] =
  [0xa9; 0x99; 0x3e; 0x36; 0x47; 0x06; 0x81; 0x6a; 0xba; 0x3e;
   0x25; 0x71; 0x78; 0x50; 0xc2; 0x6c; 0x9c; 0xd0; 0xd8; 0x9d].
Proof. vm_compute. reflexivity. Qed.

Example hmac_sha1_rfc2202_case2 :
  SHA1.hmac [74; 101; 102; 101]
    [119; 104; 97; 116; 32; 100; 111; 32; 121; 97; 32; 119; 97; 110; 116; 32;
     102; 111; 114; 32; 110; 111; 116; 104; 105; 110; 103; 63] =
  [0xef; 0xfc; 0xdf; 0x6a; 0xe5; 0xeb; 0x2f; 0xa2; 0xd2; 0x74;
   0x16; 0xd5; 0xf1; 0x84; 0xdf; 0x9c; 0x25; 0x9a; 0x7c; 0x79].
Proof. vm_compute. reflexivity. Qed.

Example req4_example_tmac :
  mem_bytes LittleEndian 8 (mptcp_hash_tmac req4_example) =
  [83; 181; 51; 167; 67; 249; 255; 237] ∧
  mptcp_hash_tmac req6_example = mptcp_hash_tmac req4_example.
Proof. vm_compute. done. Qed.

(** ** C4: lookup and insertion in the request table *)

Lemma family_eqb_spec (a b : sa_family) : family_eqb a b = true ↔ a = b.
Proof. by destruct a, b. Qed.

Lemma v4_search_loop_first bucket rport raddr laddr req :
  first_match (tuple_match4 rport raddr laddr) bucket req →
  v4_search_loop bucket rport raddr laddr = Some (mtreq_meta_sk req).
Proof.
  intros (l1 & l2 & -> & (Hp & Ha & Hl & Hf) & Hno).
  induction Hno as [|x l1 Hx Hno IH]; simpl.
  - rewrite Hp, Ha, Hl, Hf, !Z.eqb_refl. done.
  - destruct (_ && _) eqn:Hm; [|done]. destruct Hx.
    rewrite !andb_true_iff, !Z.eqb_eq, family_eqb_spec in Hm.
    unfold tuple_match4. tauto.
Qed.

Lemma v4_search_loop_none bucket rport raddr laddr :
  Forall (fun y => ¬ tuple_match4 rport raddr laddr y) bucket →
  v4_search_loop bucket rport raddr laddr = None.
Proof.
  induction 1 as [|x l Hx Hno IH]; simpl; [done|].
  destruct (_ && _) eqn:Hm; [|done]. destruct Hx.
  rewrite !andb_true_iff, !Z.eqb_eq, family_eqb_spec in Hm.
  unfold tuple_match4. tauto.
Qed.

Lemma v6_search_loop_first bucket rport raddr laddr req :
  first_match (tuple_match6 rport raddr laddr) bucket req →
  v6_search_loop bucket rport raddr laddr = Some (mtreq_meta_sk req).
Proof.
  intros (l1 & l2 & -> & (Hp & Ha & Hl & Hf) & Hno).
  induction Hno as [|x l1 Hx Hno IH]; simpl.
  - rewrite Hp, Ha, Hl, Hf, Z.eqb_refl, !ipv6_addr_equal_refl. done.
  - destruct (_ && _) eqn:Hm; [|done]. destruct Hx.
    rewrite !andb_true_iff, Z.eqb_eq, family_eqb_spec, !ipv6_addr_equal_spec in Hm.
    unfold tuple_match6. tauto.
Qed.

Lemma v6_search_loop_none bucket rport raddr laddr :
  Forall (fun y => ¬ tuple_match6 rport raddr laddr y) bucket →
  v6_search_loop bucket rport raddr laddr = None.
Proof.
  induction 1 as [|x l Hx Hno IH]; simpl; [done|].
  destruct (_ && _) eqn:Hm; [|done]. destruct Hx.
  rewrite !andb_true_iff, Z.eqb_eq, family_eqb_spec, !ipv6_addr_equal_spec in Hm.
  unfold tuple_match6. tauto.
Qed.

Lemma sock_hold_hit g meta h :
  search_hit g (sock_hold g meta) meta h
    [Ev_spin_lock_reqsk_hlock; Ev_walk_bucket h; Ev_sock_hold meta;
     Ev_spin_unlock_reqsk_hlock].
Proof.
  unfold search_hit, sock_hold; simpl. split_and!; try done.
  - by rewrite Pos.eqb_refl.
  - intros p Hp. by apply Pos.eqb_neq in Hp as ->.
Qed.

Lemma htb_list_add_inserted g h req : inserted_in_bucket g (htb_list_add g h req) h req.
Proof.
  unfold inserted_in_bucket, htb_list_add; simpl. split_and!; try done.
  - by rewrite Z.eqb_refl.
  - intros b Hb. by apply Z.eqb_neq in Hb as ->.
Qed.

Lemma v4_join_queued K E g meta skb tmp_opt req :
  let r := mptcp_v4_join_request_short K E g meta skb tmp_opt in
  jr_queued r = true → jr_req r = Some req →
  jr_global r =
    htb_list_add g (inet_synq_hash K (ir_rmt_addr req) (ir_rmt_port req) 0
                                   (MPTCP_HASH_SIZE K)) req ∧
  tuple_match4 (th4_source skb) (ip_saddr skb) (ip_daddr skb) req ∧
  mtreq_meta_sk req = meta_sk (mpcb meta).
Proof.
  unfold mptcp_v4_join_request_short, mptcp_v4_reqsk_queue_hash_add.
  repeat case_match; simpl; intros [=] [= <-]; done.
Qed.

Lemma v6_join_queued K E g meta skb tmp_opt req :
  let r := mptcp_v6_join_request_short K E g meta skb tmp_opt in
  jr_queued r = true → jr_req r = Some req →
  jr_global r =
    htb_list_add g (inet6_synq_hash K (ir6_rmt_addr req) (ir_rmt_port req) 0
                                    (MPTCP_HASH_SIZE K)) req ∧
  tuple_match6 (th6_source skb) (ip6_saddr skb) (ip6_daddr skb) req ∧
  mtreq_meta_sk req = meta_sk (mpcb meta).
Proof.
  unfold mptcp_v6_join_request_short, mptcp_v6_reqsk_queue_hash_add.
  repeat case_match; simpl; intros [=] [= <-]; done.
Qed.

(** A request queued by the JOIN routine is found by the lookup of its
    addresses, which returns the meta socket the request was made on. *)
Lemma v4_join_then_search K E g meta skb tmp_opt :
  let r := mptcp_v4_join_request_short K E g meta skb tmp_opt in
  jr_queued r = true →
  (mptcp_v4_search_req K (jr_global r) (th4_source skb) (ip_saddr skb) (ip_daddr skb)).1.1
  = Some (meta_sk (mpcb meta)).
Proof.
  intros r Hq. destruct (jr_req r) as [req|] eqn:Hreq.
  - destruct (v4_join_queued K E g meta skb tmp_opt req Hq Hreq) as (Hg & Ht & Hm).
    fold r in Hg. rewrite Hg. unfold mptcp_v4_search_req.
    rewrite (v4_search_loop_first _ _ _ _ req); [by rewrite Hm|].
    destruct Ht as (Hp & Ha & Hl & Hf).
    exists [], (mptcp_reqsk_htb g
                  (inet_synq_hash K (ip_saddr skb) (th4_source skb) 0 (MPTCP_HASH_SIZE K))).
    split; [|by split].
    simpl. by rewrite Ha, Hp, Z.eqb_refl.
  - exfalso. revert Hq Hreq. subst r.
    unfold mptcp_v4_join_request_short, mptcp_v4_reqsk_queue_hash_add.
    repeat case_match; simpl; done.
Qed.

Lemma v6_join_then_search K E g meta skb tmp_opt :
  let r := mptcp_v6_join_request_short K E g meta skb tmp_opt in
  jr_queued r = true →
  (mptcp_v6_search_req K (jr_global r) (th6_source skb) (ip6_saddr skb)
                       (ip6_daddr skb)).1.1
  = Some (meta_sk (mpcb meta)).
Proof.
  intros r Hq. destruct (jr_req r) as [req|] eqn:Hreq.
  - destruct (v6_join_queued K E g meta skb tmp_opt req Hq Hreq) as (Hg & Ht & Hm).
    fold r in Hg. rewrite Hg. unfold mptcp_v6_search_req.
    rewrite (v6_search_loop_first _ _ _ _ req); [by rewrite Hm|].
    destruct Ht as (Hp & Ha & Hl & Hf).
    exists [], (mptcp_reqsk_htb g
                  (inet6_synq_hash K (ip6_saddr skb) (th6_source skb) 0
                                   (MPTCP_HASH_SIZE K))).
    split; [|by split].
    simpl. by rewrite Ha, Hp, Z.eqb_refl.
  - exfalso. revert Hq Hreq. subst r.
    unfold mptcp_v6_join_request_short, mptcp_v6_reqsk_queue_hash_add.
    repeat case_match; simpl; done.
Qed.

(** C4.  For every table state, [search_req(remote_port, remote_addr,
    local_addr)] scans exactly the bucket [hash(remote_addr, remote_port)]
    under the table lock and returns the meta connection of the first
    entry whose remote port, remote address, local address and family all
    match, raising that meta's reference count before the lock is
    released; it returns none when no entry of the bucket matches; and a
    request the JOIN routine queues is placed in exactly the bucket that a
    lookup of its addresses scans. *)
Theorem C4_search_req_scans_the_bucket_of_insertion :
  (∀ K g rport raddr laddr,
     search_req_spec (tuple_match4 rport raddr laddr) g
       (inet_synq_hash K raddr rport 0 (MPTCP_HASH_SIZE K))
       (mptcp_v4_search_req K g rport raddr laddr)) ∧
  (∀ K g rport raddr laddr,
     search_req_spec (tuple_match6 rport raddr laddr) g
       (inet6_synq_hash K raddr rport 0 (MPTCP_HASH_SIZE K))
       (mptcp_v6_search_req K g rport raddr laddr)) ∧
  (∀ K E g meta skb tmp_opt req,
     let r := mptcp_v4_join_request_short K E g meta skb tmp_opt in
     jr_queued r = true → jr_req r = Some req →
     inserted_in_bucket g (jr_global r)
       (inet_synq_hash K (ip_saddr skb) (th4_source skb) 0 (MPTCP_HASH_SIZE K)) req ∧
     tuple_match4 (th4_source skb) (ip_saddr skb) (ip_daddr skb) req ∧
     mtreq_meta_sk req = meta_sk (mpcb meta)) ∧
  (∀ K E g meta skb tmp_opt req,
     let r := mptcp_v6_join_request_short K E g meta skb tmp_opt in
     jr_queued r = true → jr_req r = Some req →
     inserted_in_bucket g (jr_global r)
       (inet6_synq_hash K (ip6_saddr skb) (th6_source skb) 0 (MPTCP_HASH_SIZE K)) req ∧
     tuple_match6 (th6_source skb) (ip6_saddr skb) (ip6_daddr skb) req ∧
     mtreq_meta_sk req = meta_sk (mpcb meta)).
Proof.
  split_and!.
  - intros K g rport raddr laddr. unfold mptcp_v4_search_req. split.
    + intros req Hfirst. rewrite (v4_search_loop_first _ _ _ _ req Hfirst). simpl.
      split; [done | apply sock_hold_hit].
    + intros Hno. by rewrite (v4_search_loop_none _ _ _ _ Hno).
  - intros K g rport raddr laddr. unfold mptcp_v6_search_req. split.
    + intros req Hfirst. rewrite (v6_search_loop_first _ _ _ _ req Hfirst). simpl.
      split; [done | apply sock_hold_hit].
    + intros Hno. by rewrite (v6_search_loop_none _ _ _ _ Hno).
  - intros K E g meta skb tmp_opt req r Hq Hreq.
    destruct (v4_join_queued K E g meta skb tmp_opt req Hq Hreq)
      as (Hg & Ht & Hm).
    split_and!; [|done..]. fold r in Hg. rewrite Hg.
    destruct Ht as (-> & -> & _). apply htb_list_add_inserted.
  - intros K E g meta skb tmp_opt req r Hq Hreq.
    destruct (v6_join_queued K E g meta skb tmp_opt req Hq Hreq)
      as (Hg & Ht & Hm).
    split_and!; [|done..]. fold r in Hg. rewrite Hg.
    destruct Ht as (-> & -> & _). apply htb_list_add_inserted.
Qed.


Lemma C4_witness :
  let K := kernel_example in
  let g4 := jr_global join4_example in
  let g6 := jr_global join6_example in
  ((mptcp_v4_search_req K g4 49152 ip_10_0_0_2 0xCB007101).1.1
     = Some (mtreq_meta_sk req4_example) ∧
   search_hit g4 (mptcp_v4_search_req K g4 49152 ip_10_0_0_2 0xCB007101).1.2
     (mtreq_meta_sk req4_example)
     (inet_synq_hash K ip_10_0_0_2 49152 0 (MPTCP_HASH_SIZE K))
     (mptcp_v4_search_req K g4 49152 ip_10_0_0_2 0xCB007101).2) ∧
  ((mptcp_v4_search_req K global_empty 49152 ip_10_0_0_2 0xCB007101).1.1 = None ∧
   search_miss global_empty
     (mptcp_v4_search_req K global_empty 49152 ip_10_0_0_2 0xCB007101).1.2
     (inet_synq_hash K ip_10_0_0_2 49152 0 (MPTCP_HASH_SIZE K))
     (mptcp_v4_search_req K global_empty 49152 ip_10_0_0_2 0xCB007101).2) ∧
  (mptcp_v6_search_req K g6 55555 (ip6_saddr skb6_example) (ip6_daddr skb6_example)).1.1
     = Some (mtreq_meta_sk req6_example) ∧
  inserted_in_bucket global_empty g4
    (inet_synq_hash K (ip_saddr skb4_example) (th4_source skb4_example) 0
                    (MPTCP_HASH_SIZE K)) req4_example ∧
  inserted_in_bucket global_empty g6
    (inet6_synq_hash K (ip6_saddr skb6_example) (th6_source skb6_example) 0
                     (MPTCP_HASH_SIZE K)) req6_example.
Proof.
  intros K g4 g6.
  destruct C4_search_req_scans_the_bucket_of_insertion as (H4 & H6 & Hi4 & Hi6).
  split; [|split; [|split; [|split]]].
  - apply (proj1 (H4 K g4 49152 ip_10_0_0_2 0xCB007101) req4_example).
    exists [], []. split; [vm_compute; reflexivity|]. split; [|constructor].
    split_and!; vm_compute; reflexivity.
  - apply (proj2 (H4 K global_empty 49152 ip_10_0_0_2 0xCB007101)). constructor.
  - refine (proj1 (proj1 (H6 K g6 55555 (ip6_saddr skb6_example)
                             (ip6_daddr skb6_example)) req6_example _)).
    exists [], []. split; [vm_compute; reflexivity|]. split; [|constructor].
    split_and!; vm_compute; reflexivity.
  - refine (proj1 (Hi4 K join_env_example global_empty (meta_example mopt_empty)
                       skb4_example (opt_example 2) req4_example _ _));
      vm_compute; reflexivity.
  - refine (proj1 (Hi6 K join_env_example global_empty (meta_example mopt_empty)
                       skb6_example (opt_example 2) req6_example _ _));
      vm_compute; reflexivity.
Defined.

(** ** C8: SYN-ACK retransmission *)

(** C8.  For every pending JOIN request, the SYN-ACK retransmission
    operation is the standard retransmission of the request's family when
    the meta socket is of that family.  Otherwise it increments the TCP
    retransmit-segments counter once and sends the SYN-ACK on the transmit
    path of the request's family, the opposite of the meta socket's: for
    an IPv6 request on an IPv4 meta socket by the increment in
    [mptcp_v6_rtx_synack] followed by [mptcp_v6v4_send_synack], for an
    IPv4 request on an IPv6 meta socket by [tcp_v4_rtx_synack], which
    [mptcp_request_sock_ops] binds without a test of the meta socket's
    family. *)
Theorem C8_rtx_synack_dispatch S std meta_family req :
  pending_join_request req →
  let r := rtx_synack S std meta_family req in
  let fam := ops_family (rsk_ops req) in
  r = match fam, meta_family with
      | AF_INET, _ => (std, [Ev_tcp_v4_rtx_synack])
      | AF_INET6, AF_INET6 => (std, [Ev_tcp_v6_rtx_synack])
      | AF_INET6, AF_INET =>
          ((mptcp_v6v4_send_synack S).1,
           Ev_TCP_INC_STATS_RETRANSSEGS :: (mptcp_v6v4_send_synack S).2)
      end ∧
  (meta_family = fam → r = (std, standard_rtx req)) ∧
  (meta_family ≠ fam →
   retrans_count r.2 = 1%nat ∧ transmit_paths r.2 ≠ [] ∧
   Forall (fun f => f = fam ∧ f ≠ meta_family) (transmit_paths r.2)).
Proof.
  intros [Hops|Hops] r fam; subst r fam;
    unfold rtx_synack, mptcp_v6_rtx_synack, standard_rtx; rewrite Hops; simpl.
  - split; [done|]. split; [done|]. intros Hne.
    destruct meta_family; [done|]. split; [done|]. split; [done|].
    by repeat constructor.
  - destruct meta_family; simpl.
    + split; [by destruct (mptcp_v6v4_send_synack S)|]. split; [done|]. intros _.
      unfold mptcp_v6v4_send_synack.
      destruct (se_dst_lookup_err S =? 0); simpl;
        [destruct (se_make_synack_ok S); simpl|];
        (split; [done|]); (split; [done|]); by repeat constructor.
    + split; [done|]. split; [done|]. intros Hne. done.
Qed.

Lemma C8_witness :
  (let r := rtx_synack synack_env_example 0 AF_INET req6_example in
   r = (0, [Ev_TCP_INC_STATS_RETRANSSEGS; Ev_ip6_dst_lookup_flow; Ev_tcp_make_synack;
            Ev_ip6_xmit; Ev_dst_release]) ∧
   retrans_count r.2 = 1%nat ∧
   Forall (fun f => f = AF_INET6 ∧ f ≠ AF_INET) (transmit_paths r.2)) ∧
  (let r := rtx_synack synack_env_example 0 AF_INET6 req4_example in
   r = (0, [Ev_tcp_v4_rtx_synack]) ∧
   retrans_count r.2 = 1%nat ∧
   Forall (fun f => f = AF_INET ∧ f ≠ AF_INET6) (transmit_paths r.2)) ∧
  rtx_synack synack_env_example 0 AF_INET6 req6_example = (0, [Ev_tcp_v6_rtx_synack]) ∧
  rtx_synack synack_env_example 0 AF_INET req4_example = (0, [Ev_tcp_v4_rtx_synack]).
Proof.
  assert (H4 : pending_join_request req4_example) by (left; vm_compute; reflexivity).
  assert (H6 : pending_join_request req6_example) by (right; vm_compute; reflexivity).
  split; [|split; [|split]].
  - destruct (C8_rtx_synack_dispatch synack_env_example 0 AF_INET req6_example H6)
      as (Heq & _ & Hmixed).
    cbv zeta. split; [rewrite Heq; vm_compute; reflexivity|].
    destruct Hmixed as (Hc & _ & Hp); [vm_compute; discriminate|]. split; [exact Hc|].
    exact Hp.
  - destruct (C8_rtx_synack_dispatch synack_env_example 0 AF_INET6 req4_example H4)
      as (Heq & _ & Hmixed).
    cbv zeta. split; [rewrite Heq; vm_compute; reflexivity|].
    destruct Hmixed as (Hc & _ & Hp); [vm_compute; discriminate|]. split; [exact Hc|].
    exact Hp.
  - destruct (C8_rtx_synack_dispatch synack_env_example 0 AF_INET6 req6_example H6)
      as (_ & Hsame & _).
    rewrite Hsame; [vm_compute; reflexivity|vm_compute; reflexivity].
  - destruct (C8_rtx_synack_dispatch synack_env_example 0 AF_INET req4_example H4)
      as (_ & Hsame & _).
    rewrite Hsame; [vm_compute; reflexivity|vm_compute; reflexivity].
Defined.

(** ** C9: the bit set by subflow creation *)

Lemma testbit_u16_set (bf k : Z) :
  0 ≤ k < 16 → Z.testbit (u16 (Z.lor bf (Z.shiftl 1 k))) k = true.
Proof.
  intros Hk. unfold u16.
  rewrite Z.land_spec, Z.lor_spec, Z.shiftl_spec, Z.sub_diag by lia.
  rewrite Z.ones_spec_low by lia. simpl. by rewrite orb_true_r.
Qed.

Lemma testbit_u16_lor_keeps (bf v k : Z) :
  0 ≤ k < 16 → Z.testbit bf k = true → Z.testbit (u16 (Z.lor bf v)) k = true.
Proof.
  intros Hk Hb. unfold u16.
  rewrite Z.land_spec, Z.lor_spec, Hb. simpl.
  apply Z.ones_spec_low. lia.
Qed.

Lemma init4_stored_before_calls K S meta loc rem :
  let r := mptcp_init4_subsockets K S meta loc rem in
  rem4_bitfield r.1.2 = u16 (Z.lor (rem4_bitfield rem) (Z.shiftl 1 (loc4_id loc))) ∧
  stored_before_calls r.2 (rem4_bitfield r.1.2).
Proof.
  unfold mptcp_init4_subsockets, stored_before_calls, subsock_error.
  repeat case_match; simpl; (split; [done|]); eexists; (split; [done|]);
    intros w Hin; simpl in Hin; intuition discriminate.
Qed.

Lemma init6_stored_before_calls K S meta loc rem :
  let r := mptcp_init6_subsockets K S meta loc rem in
  rem6_bitfield r.1.2 =
    u16 (Z.lor (rem6_bitfield rem)
           (Z.shiftl 1 (loc6_id loc - Z.min (loc6_id loc) (Z.of_nat MPTCP_MAX_ADDR)))) ∧
  stored_before_calls r.2 (rem6_bitfield r.1.2).
Proof.
  unfold mptcp_init6_subsockets, stored_before_calls, subsock_error.
  repeat case_match; simpl; (split; [done|]); eexists; (split; [done|]);
    intros w Hin; simpl in Hin; intuition discriminate.
Qed.

(** C9, counterexample.  For the IPv6 local address of id 17 (slot 1)
    and a remote entry with an empty bitfield, [mptcp_init6_subsockets]
    leaves the bitfield equal to 2: bit 1 is set, bit 17 is not. *)
Lemma C9_counterexample : ¬ C9_as_stated.
Proof.
  intros [_ H6].
  destruct (H6 kernel_example subsock_env_example (meta_example mopt_empty)
               (mk_loc6 ip6_2001_db8__2 17 false) (mk_rem6 ip6_2001_db8__99 0 0 0 1))
    as [Hbit _].
  - right. unfold MPTCP_MAX_ADDR. simpl. lia.
  - vm_compute in Hbit. discriminate Hbit.
Qed.

(** C9, amended.  For every invocation of the subflow creation, the
    remote address's bitfield has a bit ORed in before the socket is
    created, bound or connected: the bitfield on return is the one on
    entry with that bit ORed in (as a 16-bit value), every bit that was
    set on entry is still set, nothing else of the remote entry changes,
    and the store is the first thing done, so the bit is set in the final
    state whatever fails afterwards.  For IPv4 the bit is [1 << loc->id];
    for IPv6 it is [1 << (loc->id - min(loc->id, MPTCP_MAX_ADDR))], that
    is bit 0 for the initial address and the slot number, not the id on
    the wire, for the others. *)
Theorem C9_bitfield_set_before_connecting :
  (∀ K S meta loc rem,
     loc4_id_valid (loc4_id loc) →
     let r := mptcp_init4_subsockets K S meta loc rem in
     Z.testbit (rem4_bitfield r.1.2) (loc4_id loc) = true ∧
     stored_before_calls r.2 (rem4_bitfield r.1.2) ∧
     r.1.2 = set_rem4_bitfield rem
               (u16 (Z.lor (rem4_bitfield rem) (Z.shiftl 1 (loc4_id loc)))) ∧
     (∀ k, 0 ≤ k < 16 → Z.testbit (rem4_bitfield rem) k = true →
           Z.testbit (rem4_bitfield r.1.2) k = true)) ∧
  (∀ K S meta loc rem,
     loc6_id_valid (loc6_id loc) →
     let r := mptcp_init6_subsockets K S meta loc rem in
     let bit := loc6_id loc - Z.min (loc6_id loc) (Z.of_nat MPTCP_MAX_ADDR) in
     Z.testbit (rem6_bitfield r.1.2) bit = true ∧
     stored_before_calls r.2 (rem6_bitfield r.1.2) ∧
     r.1.2 = set_rem6_bitfield rem (u16 (Z.lor (rem6_bitfield rem) (Z.shiftl 1 bit))) ∧
     (∀ k, 0 ≤ k < 16 → Z.testbit (rem6_bitfield rem) k = true →
           Z.testbit (rem6_bitfield r.1.2) k = true)).
Proof.
  split.
  - intros K S meta loc rem Hid r.
    destruct (init4_stored_before_calls K S meta loc rem) as [Hv Hs].
    assert (Hrem : r.1.2 = set_rem4_bitfield rem
                     (u16 (Z.lor (rem4_bitfield rem) (Z.shiftl 1 (loc4_id loc)))))
      by (subst r; unfold mptcp_init4_subsockets; repeat case_match; reflexivity).
    fold r in Hv, Hs. split_and!; [|done|done|].
    + rewrite Hv. apply testbit_u16_set.
      unfold loc4_id_valid, MPTCP_MAX_ADDR in Hid. lia.
    + intros k Hk Hb. rewrite Hv. by apply testbit_u16_lor_keeps.
  - intros K S meta loc rem Hid r bit.
    destruct (init6_stored_before_calls K S meta loc rem) as [Hv Hs].
    assert (Hrem : r.1.2 = set_rem6_bitfield rem
                     (u16 (Z.lor (rem6_bitfield rem) (Z.shiftl 1 bit))))
      by (subst r bit; unfold mptcp_init6_subsockets; repeat case_match; reflexivity).
    fold r in Hv, Hs. fold bit in Hv. unfold loc6_id_valid, MPTCP_MAX_ADDR in *.
    split_and!; [|done|done|].
    + rewrite Hv. apply testbit_u16_set. subst bit. lia.
    + intros k Hk Hb. rewrite Hv. by apply testbit_u16_lor_keeps.
Qed.

Lemma C9_witness :
  (let r := mptcp_init4_subsockets kernel_example subsock_env_example
              (meta_example mopt_empty) (mk_loc4 ip_10_0_0_2 3 false)
              (mk_rem4 ip_10_0_0_99 0 1 0 1) in
   Z.testbit (rem4_bitfield r.1.2) 3 = true ∧
   stored_before_calls r.2 (rem4_bitfield r.1.2) ∧
   r.1.2 = mk_rem4 ip_10_0_0_99 0 9 0 1 ∧
   Z.testbit (rem4_bitfield r.1.2) 0 = true) ∧
  (let r := mptcp_init6_subsockets kernel_example subsock_env_example
              (meta_example mopt_empty) (mk_loc6 ip6_2001_db8__2 17 false)
              (mk_rem6 ip6_2001_db8__99 0 1 0 1) in
   Z.testbit (rem6_bitfield r.1.2) 1 = true ∧
   stored_before_calls r.2 (rem6_bitfield r.1.2) ∧
   r.1.2 = mk_rem6 ip6_2001_db8__99 0 3 0 1 ∧
   Z.testbit (rem6_bitfield r.1.2) 0 = true).
Proof.
  split.
  - destruct (proj1 C9_bitfield_set_before_connecting kernel_example subsock_env_example
                (meta_example mopt_empty) (mk_loc4 ip_10_0_0_2 3 false)
                (mk_rem4 ip_10_0_0_99 0 1 0 1)) as (Hb & Hs & Hr & Hk).
    { unfold loc4_id_valid, MPTCP_MAX_ADDR. simpl. lia. }
    cbv zeta. split; [exact Hb|]. split; [exact Hs|]. split; [exact Hr|].
    apply Hk; [lia|reflexivity].
  - destruct (proj2 C9_bitfield_set_before_connecting kernel_example subsock_env_example
                (meta_example mopt_empty) (mk_loc6 ip6_2001_db8__2 17 false)
                (mk_rem6 ip6_2001_db8__99 0 1 0 1)) as (Hb & Hs & Hr & Hk).
    { right. unfold MPTCP_MAX_ADDR. simpl. lia. }
    cbv zeta. split; [exact Hb|]. split; [exact Hs|]. split; [exact Hr|].
    apply Hk; [lia|reflexivity].
Defined.

(** ** C7: an address goes down *)

Lemma v4_forget_loop_other idx a bits j :
  ¬ In j idx → v4_forget_loop idx a bits !!! j = a !!! j.
Proof.
  revert a. induction idx as [|i idx IH]; intros a Hj; simpl; [done|].
  rewrite IH by (intros ?; apply Hj; by right).
  apply list_lookup_total_insert_ne. intros ->. apply Hj. by left.
Qed.

Lemma v4_forget_loop_visited idx a bits j :
  List.NoDup idx → In j idx → (j < length a)%nat →
  v4_forget_loop idx a bits !!! j =
  set_rem4_bitfield (a !!! j) (Z.land (rem4_bitfield (a !!! j)) bits).
Proof.
  revert a. induction idx as [|i idx IH]; intros a Hnd Hj Hlen; simpl; [done|].
  apply List.NoDup_cons_iff in Hnd as [Hi Hnd]. destruct Hj as [->|Hj].
  - rewrite v4_forget_loop_other by done. by apply list_lookup_total_insert_eq.
  - rewrite IH by (rewrite ?length_insert; done).
    rewrite list_lookup_total_insert_ne; [done|]. by intros ->.
Qed.

Lemma v6_forget_loop_other idx a bits j :
  ¬ In j idx → v6_forget_loop idx a bits !!! j = a !!! j.
Proof.
  revert a. induction idx as [|i idx IH]; intros a Hj; simpl; [done|].
  rewrite IH by (intros ?; apply Hj; by right).
  apply list_lookup_total_insert_ne. intros ->. apply Hj. by left.
Qed.

Lemma v6_forget_loop_visited idx a bits j :
  List.NoDup idx → In j idx → (j < length a)%nat →
  v6_forget_loop idx a bits !!! j =
  set_rem6_bitfield (a !!! j) (Z.land (rem6_bitfield (a !!! j)) bits).
Proof.
  revert a. induction idx as [|i idx IH]; intros a Hnd Hj Hlen; simpl; [done|].
  apply List.NoDup_cons_iff in Hnd as [Hi Hnd]. destruct Hj as [->|Hj].
  - rewrite v6_forget_loop_other by done. by apply list_lookup_total_insert_eq.
  - rewrite IH by (rewrite ?length_insert; done).
    rewrite list_lookup_total_insert_ne; [done|]. by intros ->.
Qed.

Lemma for_each_bit_set_NoDup (b : Z) : List.NoDup (mptcp_for_each_bit_set b).
Proof. apply List.NoDup_filter, List.seq_NoDup. Qed.

Lemma addr_event_sk_loop_down bound nlp sks sk :
  In sk sks → bound sk = true →
  reinjected_and_closed (addr_event_sk_loop bound NETDEV_DOWN nlp sks).2 (sf_sk sk).
Proof.
  induction sks as [|x sks IH]; intros Hin Hb; [done|]. simpl.
  destruct (addr_event_sk_loop bound NETDEV_DOWN nlp sks) as [rest tr] eqn:Hloop.
  simpl in IH. destruct Hin as [->|Hin].
  - rewrite Hb. simpl. by exists [], tr.
  - destruct (IH Hin Hb) as (t1 & t2 & ->).
    destruct (bound x); simpl.
    + by exists (Ev_mptcp_reinject_data (sf_sk x) :: Ev_mptcp_sub_force_close (sf_sk x) :: t1), t2.
    + by exists t1, t2.
Qed.

Lemma reinjected_and_closed_app tr tr' sk :
  reinjected_and_closed tr sk → reinjected_and_closed (tr ++ tr') sk.
Proof.
  intros (t1 & t2 & ->). exists t1, (t2 ++ tr'). by rewrite <- app_assoc.
Qed.

Lemma find_loc4 c a i :
  occupies_loc4 c a i →
  List.find (fun i => loc4_addr (mpcb_addr4 c !!! i) =? a)
            (mptcp_for_each_bit_set (loc4_bits c)) = Some i.
Proof.
  intros (Hi & Hb & Ha & Hfirst). unfold mptcp_for_each_bit_set.
  rewrite find_filter. apply find_seq_Some. split; [lia|].
  split; [by rewrite Hb, Ha, Z.eqb_refl|].
  intros j Hj. destruct (bit_set (loc4_bits c) j) eqn:Hbj; [|done]. simpl.
  apply Z.eqb_neq, Hfirst; [lia|done].
Qed.

Lemma find_loc6 c a i :
  occupies_loc6 c a i →
  List.find (fun i => ipv6_addr_equal (loc6_addr (mpcb_addr6 c !!! i)) a)
            (mptcp_for_each_bit_set (loc6_bits c)) = Some i.
Proof.
  intros (Hi & Hb & Ha & Hfirst). unfold mptcp_for_each_bit_set.
  rewrite find_filter. apply find_seq_Some. split; [lia|].
  split; [by rewrite Hb, Ha, ipv6_addr_equal_refl|].
  intros j Hj. destruct (bit_set (loc6_bits c) j) eqn:Hbj; [|done]. simpl.
  apply not_true_is_false. intros He%ipv6_addr_equal_spec.
  by apply (Hfirst j); [lia| |].
Qed.

Lemma bit_clear_self (b : Z) (i : nat) :
  bit_set (u16 (Z.land b (Z.lnot (Z.shiftl 1 (Z.of_nat i))))) i = false.
Proof. by rewrite bit_set_clear, Nat.eqb_refl, andb_false_r. Qed.

Lemma bit_clear_other (b : Z) (i j : nat) :
  (j < MPTCP_MAX_ADDR)%nat → j ≠ i →
  bit_set (u16 (Z.land b (Z.lnot (Z.shiftl 1 (Z.of_nat i))))) j = bit_set b j.
Proof.
  intros Hj Hne. rewrite bit_set_clear.
  replace (i =? j)%nat with false by (symmetry; apply Nat.eqb_neq; lia).
  replace (j <? 16)%nat with true by (symmetry; apply Nat.ltb_lt; exact Hj).
  by rewrite !andb_true_r.
Qed.

(** C7, counterexample.  The event address 192.168.1.5 occupies local
    slot 3 (2001:db8::2 occupies local IPv6 slot 1), but the device of the
    event carries [IFF_NOMULTIPATH]: the handler returns at once, and the
    bit of the slot stays set in [loc_bits]. *)
Lemma C7_counterexample : ¬ C7_as_stated_v4 ∧ ¬ C7_as_stated_v6.
Proof.
  split.
  - intros H4.
    destruct (H4 kernel_example None ifa_eth1_nomultipath mpcb_s5 3%nat)
      as (_ & Hbit & _).
    + split; reflexivity.
    + split; [unfold MPTCP_MAX_ADDR; lia|]. split; [reflexivity|]. split; [reflexivity|].
      intros j Hj Hb Ha.
      do 3 (destruct j as [|j]; [vm_compute in Hb, Ha; discriminate|]). lia.
    + vm_compute in Hbit. discriminate Hbit.
  - intros H6.
    destruct (H6 kernel_example None ifa6_eth1_nomultipath mpcb6_s5 1%nat)
      as (_ & Hbit & _).
    + split; reflexivity.
    + split; [unfold MPTCP_MAX_ADDR; lia|]. split; [reflexivity|]. split; [reflexivity|].
      intros j Hj Hb Ha.
      do 1 (destruct j as [|j]; [vm_compute in Hb; discriminate|]). lia.
    + vm_compute in Hbit. discriminate Hbit.
Qed.

(** C7, amended.  For every meta-connection state in which the event
    address occupies local slot i, handling a NETDEV_DOWN event that
    passes the handler's checks on the address (scope, [IFF_NOMULTIPATH],
    and for IPv6 the address type) clears bit i of [loc_bits], ORs
    [1 << addr[i].id] into [remove_addrs], and then replaces every
    populated remote slot's bitfield by its AND with the new [loc_bits];
    every subflow bound to that local address has its data reinjected and
    is force-closed. *)
Theorem C7_netdev_down_forgets_the_address :
  (∀ K ack_sk ifa c i,
     mopt_wf (rx_opt c) → passes_checks4 K ifa → occupies_loc4 c (ifa_local ifa) i →
     let r := mptcp_pm_addr4_event_handler K ack_sk ifa NETDEV_DOWN c in
     down_outcome4 c r.1 r.2 (ifa_local ifa) i) ∧
  (∀ K ack_sk ifa c i,
     mopt_wf (rx_opt c) → passes_checks6 K ifa → occupies_loc6 c (ifa6_addr ifa) i →
     let r := mptcp_pm_addr6_event_handler K ack_sk ifa NETDEV_DOWN c in
     down_outcome6 c r.1 r.2 (ifa6_addr ifa) i).
Proof.
  split.
  - intros K ack_sk ifa c i [Hlen _] [Hscope Hflags] Hocc.
    unfold mptcp_pm_addr4_event_handler.
    replace (RT_SCOPE_LINK K <? ifa_scope ifa) with false
      by (symmetry; apply Z.ltb_ge; lia).
    rewrite Hflags, (find_loc4 c _ i Hocc). simpl.
    pose proof (addr_event_sk_loop_down
                  (fun sk => family_eqb (sf_family sk) AF_INET &&
                             (sf_inet_saddr sk =? ifa_local ifa))
                  (negb (Z.land (ifa_dev_flags ifa) (IFF_MPBACKUP K) =? 0))
                  (connection_list c)) as Hloop.
    destruct (addr_event_sk_loop _ _ _ _) as [sks tr]. simpl in *.
    destruct Hocc as (Hi & _).
    unfold down_outcome4; simpl. split_and!; try done.
    + apply bit_clear_self.
    + intros j Hj Hne. by apply bit_clear_other.
    + intros j Hp. apply v4_forget_loop_visited.
      * apply for_each_bit_set_NoDup.
      * by apply elem_of_for_each_bit_set.
      * rewrite Hlen. by destruct Hp.
    + intros j Hp. apply v4_forget_loop_other.
      intros Hin. apply elem_of_for_each_bit_set in Hin. exact (Hp Hin).
    + intros sk Hin Hf Ha. apply reinjected_and_closed_app, Hloop; [done|].
      by rewrite Hf, Ha, Z.eqb_refl.
  - intros K ack_sk ifa c i [_ Hlen] (Hscope & Hflags & Hany & Hloop' & Hll) Hocc.
    unfold mptcp_pm_addr6_event_handler.
    replace (RT_SCOPE_LINK K <? ifa6_scope ifa) with false
      by (symmetry; apply Z.ltb_ge; lia).
    replace (ipv6_addr_type K (ifa6_addr ifa) =? IPV6_ADDR_ANY K) with false
      by (symmetry; by apply Z.eqb_neq).
    rewrite Hflags, Hloop', Hll, (find_loc6 c _ i Hocc). simpl.
    pose proof (addr_event_sk_loop_down
                  (fun sk => family_eqb (sf_family sk) AF_INET6 &&
                             ipv6_addr_equal (sf_saddr6 sk) (ifa6_addr ifa))
                  (negb (Z.land (ifa6_dev_flags ifa) (IFF_MPBACKUP K) =? 0))
                  (connection_list c)) as Hloop.
    destruct (addr_event_sk_loop _ _ _ _) as [sks tr]. simpl in *.
    destruct Hocc as (Hi & _).
    unfold down_outcome6; simpl. split_and!; try done.
    + apply bit_clear_self.
    + intros j Hj Hne. by apply bit_clear_other.
    + intros j Hp. apply v6_forget_loop_visited.
      * apply for_each_bit_set_NoDup.
      * by apply elem_of_for_each_bit_set.
      * rewrite Hlen. by destruct Hp.
    + intros j Hp. apply v6_forget_loop_other.
      intros Hin. apply elem_of_for_each_bit_set in Hin. exact (Hp Hin).
    + intros sk Hin Hf Ha. apply reinjected_and_closed_app, Hloop; [done|].
      by rewrite Hf, Ha, ipv6_addr_equal_refl.
Qed.

Lemma C7_witness :
  (let r := mptcp_pm_addr4_event_handler kernel_example (Some 5%positive) ifa_eth1
              NETDEV_DOWN mpcb_s5 in
   down_outcome4 mpcb_s5 r.1 r.2 ip_192_168_1_5 3) ∧
  (let r := mptcp_pm_addr6_event_handler kernel_example None ifa6_eth1
              NETDEV_DOWN mpcb6_s5 in
   down_outcome6 mpcb6_s5 r.1 r.2 ip6_2001_db8__2 1).
Proof.
  split.
  - apply (proj1 C7_netdev_down_forgets_the_address kernel_example (Some 5%positive)
             ifa_eth1 mpcb_s5 3%nat).
    + split; reflexivity.
    + split; [vm_compute; discriminate | reflexivity].
    + split; [unfold MPTCP_MAX_ADDR; lia|]. split; [reflexivity|]. split; [reflexivity|].
      intros j Hj Hb Ha.
      do 3 (destruct j as [|j]; [vm_compute in Hb, Ha; discriminate|]). lia.
  - apply (proj2 C7_netdev_down_forgets_the_address kernel_example None
             ifa6_eth1 mpcb6_s5 1%nat).
    + split; reflexivity.
    + split; [vm_compute; discriminate|]. split; [reflexivity|].
      split; [vm_compute; discriminate|]. split; reflexivity.
    + split; [unfold MPTCP_MAX_ADDR; lia|]. split; [reflexivity|]. split; [reflexivity|].
      intros j Hj Hb Ha.
      do 1 (destruct j as [|j]; [vm_compute in Hb; discriminate|]). lia.
Defined.

(** Scenario S5 of the specification, evaluated: one subflow reinjected
    and closed, bit 3 of [loc4_bits] cleared, bit 3 of [remove_addrs] set,
    one ACK on the selected socket, the remote bitfields ANDed with the new
    [loc4_bits]. *)
Example scenario_S5 :
  let r := mptcp_pm_addr4_event_handler kernel_example (Some 5%positive) ifa_eth1
             NETDEV_DOWN mpcb_s5 in
  loc4_bits r.1 = 1 ∧ remove_addrs r.1 = 8 ∧
  r.2 = [Ev_mptcp_reinject_data 7%positive; Ev_mptcp_sub_force_close 7%positive;
         Ev_tcp_send_ack 5%positive] ∧
  rem4_bitfield (addr4 (rx_opt r.1) !!! 0%nat) = 1 ∧
  rem4_bitfield (addr4 (rx_opt r.1) !!! 1%nat) = 0.
Proof. vm_compute. done. Qed.

(** ** The scenarios of the specification, evaluated *)

(** S1: a SYN with MP_JOIN (address id 2, nonce 0xDEADBEEF) from
    10.0.0.2:49152 on an established meta connection: the registry gets
    (id 2, 10.0.0.2, port 0) in slot 0, a SYN-ACK is sent and the request
    is queued in the bucket of (10.0.0.2, 49152). *)
Example scenario_S1 :
  let r := mptcp_v4_do_rcv_join_syn kernel_example join_env_example global_empty
             (meta_example mopt_empty) skb4_example (opt_example 2) in
  let m := rx_opt (mpcb (rr_meta r)) in
  rem4_bits m = 1 ∧ addr4 m !!! 0%nat = mk_rem4 ip_10_0_0_2 0 0 0 2 ∧
  list_rcvd m = false ∧ rr_queued r = true ∧ rr_req r = Some req4_example ∧
  mptcp_reqsk_htb (rr_global r)
    (inet_synq_hash kernel_example ip_10_0_0_2 49152 0 1024) = [req4_example] ∧
  rr_trace r =
    [Ev_TCP_ECN_create_request; Ev_tcp_v4_send_synack req4_example;
     Ev_inet_csk_reqsk_queue_hash_add 1%positive req4_example 3000;
     Ev_spin_lock_reqsk_hlock;
     Ev_list_add (inet_synq_hash kernel_example ip_10_0_0_2 49152 0 1024) req4_example;
     Ev_spin_unlock_reqsk_hlock].
Proof. vm_compute. done. Qed.

(** S2: the same JOIN again leaves the registry as it is and creates a
    second request. *)
Example scenario_S2 :
  let r1 := mptcp_v4_do_rcv_join_syn kernel_example join_env_example global_empty
              (meta_example mopt_empty) skb4_example (opt_example 2) in
  let r2 := mptcp_v4_do_rcv_join_syn kernel_example join_env_example (rr_global r1)
              (rr_meta r1) skb4_example (opt_example 2) in
  rx_opt (mpcb (rr_meta r2)) = rx_opt (mpcb (rr_meta r1)) ∧ rr_queued r2 = true ∧
  length (mptcp_reqsk_htb (rr_global r2)
            (inet_synq_hash kernel_example ip_10_0_0_2 49152 0 1024)) = 2%nat.
Proof. vm_compute. done. Qed.

(** S3: an addition of id 2 seen from 10.0.0.99 rewrites the address of
    the slot in place and sets [list_rcvd]. *)
Example scenario_S3 :
  let m := (mptcp_v4_add_raddress mopt_empty ip_10_0_0_2 0 2).2 in
  let r := mptcp_v4_add_raddress (set_list_rcvd m false) ip_10_0_0_99 0 2 in
  r.1 = 0 ∧ rem4_bits r.2 = 1 ∧ addr4 r.2 !!! 0%nat = mk_rem4 ip_10_0_0_99 0 0 0 2 ∧
  list_rcvd r.2 = true.
Proof. vm_compute. done. Qed.

(** S4: with 16 remote IPv4 slots populated, a JOIN with the new address
    id 17 from a new address is answered by a reset; no slot is
    allocated. *)
Example scenario_S4 :
  let r := mptcp_v4_do_rcv_join_syn kernel_example join_env_example global_empty
             (meta_example reg4_full) skb4_example (opt_example 17) in
  rr_trace r = [Ev_tcp_v4_send_reset ip_10_0_0_2 (ip_daddr skb4_example)] ∧
  rr_req r = None ∧ rx_opt (mpcb (rr_meta r)) = reg4_full.
Proof. vm_compute. done. Qed.

(** ** Removal from the registry *)

Lemma find_first_with_id4 m id i :
  first_with_id4 m id i →
  List.find (fun i => bit_set (rem4_bits m) i && (rem4_id (addr4 m !!! i) =? id))
            (seq 0 MPTCP_MAX_ADDR) = Some i.
Proof.
  intros ([Hi Hb] & Hid & Hfirst). apply find_seq_Some. split; [lia|]. split.
  - by rewrite Hb, (proj2 (Z.eqb_eq _ _) Hid).
  - intros j Hj. destruct (bit_set (rem4_bits m) j) eqn:Hbj; [|done]. simpl.
    apply Z.eqb_neq, Hfirst; [lia|]. split; [lia|done].
Qed.

Lemma find_first_with_id6 m id i :
  first_with_id6 m id i →
  List.find (fun i => bit_set (rem6_bits m) i && (rem6_id (addr6 m !!! i) =? id))
            (seq 0 MPTCP_MAX_ADDR) = Some i.
Proof.
  intros ([Hi Hb] & Hid & Hfirst). apply find_seq_Some. split; [lia|]. split.
  - by rewrite Hb, (proj2 (Z.eqb_eq _ _) Hid).
  - intros j Hj. destruct (bit_set (rem6_bits m) j) eqn:Hbj; [|done]. simpl.
    apply Z.eqb_neq, Hfirst; [lia|]. split; [lia|done].
Qed.

Lemma find_no_id4 m id :
  no_id4 m id →
  List.find (fun i => bit_set (rem4_bits m) i && (rem4_id (addr4 m !!! i) =? id))
            (seq 0 MPTCP_MAX_ADDR) = None.
Proof.
  intros Hno. apply find_seq_None. intros j Hj.
  destruct (bit_set (rem4_bits m) j) eqn:Hbj; [|done]. simpl.
  apply Z.eqb_neq, Hno. split; [lia|done].
Qed.

Lemma find_no_id6 m id :
  no_id6 m id →
  List.find (fun i => bit_set (rem6_bits m) i && (rem6_id (addr6 m !!! i) =? id))
            (seq 0 MPTCP_MAX_ADDR) = None.
Proof.
  intros Hno. apply find_seq_None. intros j Hj.
  destruct (bit_set (rem6_bits m) j) eqn:Hbj; [|done]. simpl.
  apply Z.eqb_neq, Hno. split; [lia|done].
Qed.

Lemma v4_rem_first m id i :
  first_with_id4 m id i →
  (mptcp_v4_rem_raddress m id).1 = 0 ∧ slot_cleared4 m (mptcp_v4_rem_raddress m id).2 i.
Proof.
  intros Hf. rewrite mptcp_v4_rem_raddress_find, (find_first_with_id4 _ _ _ Hf). simpl.
  split; [done|]. unfold slot_cleared4, populated4. simpl. split_and!; try done.
  - rewrite bit_clear_self. intros [_ ?]. done.
  - intros j Hj. split; intros [Hlt Hb]; (split; [done|]).
    + by rewrite bit_clear_other in Hb.
    + by rewrite bit_clear_other.
Qed.

Lemma v6_rem_first m id i :
  first_with_id6 m id i →
  (mptcp_v6_rem_raddress m id).1 = 0 ∧ slot_cleared6 m (mptcp_v6_rem_raddress m id).2 i.
Proof.
  intros Hf. rewrite mptcp_v6_rem_raddress_find, (find_first_with_id6 _ _ _ Hf). simpl.
  split; [done|]. unfold slot_cleared6, populated6. simpl. split_and!; try done.
  - rewrite bit_clear_self. intros [_ ?]. done.
  - intros j Hj. split; intros [Hlt Hb]; (split; [done|]).
    + by rewrite bit_clear_other in Hb.
    + by rewrite bit_clear_other.
Qed.

(** X1. [mptcp_v4_rem_raddress] and [mptcp_v6_rem_raddress] return 0 and
    clear the presence bit of the lowest populated slot that carries the id,
    leaving every other bit, every stored entry and [list_rcvd] as they
    were; when no populated slot carries the id they return -1 and leave
    the registry unchanged. *)
Theorem rem_raddress_clears_first_slot_with_id :
  (∀ m id i, first_with_id4 m id i →
     (mptcp_v4_rem_raddress m id).1 = 0 ∧
     slot_cleared4 m (mptcp_v4_rem_raddress m id).2 i) ∧
  (∀ m id, no_id4 m id → mptcp_v4_rem_raddress m id = (-1, m)) ∧
  (∀ m id i, first_with_id6 m id i →
     (mptcp_v6_rem_raddress m id).1 = 0 ∧
     slot_cleared6 m (mptcp_v6_rem_raddress m id).2 i) ∧
  (∀ m id, no_id6 m id → mptcp_v6_rem_raddress m id = (-1, m)).
Proof.
  split_and!.
  - apply v4_rem_first.
  - intros m id Hno. by rewrite mptcp_v4_rem_raddress_find, find_no_id4.
  - apply v6_rem_first.
  - intros m id Hno. by rewrite mptcp_v6_rem_raddress_find, find_no_id6.
Qed.
Lemma rem_raddress_witness :
  ((mptcp_v4_rem_raddress reg4_step2 1).1 = 0 ∧
   slot_cleared4 reg4_step2 (mptcp_v4_rem_raddress reg4_step2 1).2 0) ∧
  mptcp_v4_rem_raddress mopt_empty 1 = (-1, mopt_empty) ∧
  ((mptcp_v6_rem_raddress reg6_step1 1).1 = 0 ∧
   slot_cleared6 reg6_step1 (mptcp_v6_rem_raddress reg6_step1 1).2 0) ∧
  mptcp_v6_rem_raddress mopt_empty 1 = (-1, mopt_empty).
Proof.
  destruct rem_raddress_clears_first_slot_with_id as (H1 & H2 & H3 & H4).
  split; [apply H1|split; [apply H2|split; [apply H3|apply H4]]].
  - split; [split; [unfold MPTCP_MAX_ADDR; lia|vm_compute; reflexivity]|].
    split; [vm_compute; reflexivity|]. intros j Hj. lia.
  - intros j [_ Hb]. unfold bit_set in Hb. simpl in Hb.
    rewrite Z.testbit_0_l in Hb. discriminate Hb.
  - split; [split; [unfold MPTCP_MAX_ADDR; lia|vm_compute; reflexivity]|].
    split; [vm_compute; reflexivity|]. intros j Hj. lia.
  - intros j [_ Hb]. unfold bit_set in Hb. simpl in Hb.
    rewrite Z.testbit_0_l in Hb. discriminate Hb.
Defined.

(** ** Addition to the registry *)

Lemma v4_add_stored m addr port id :
  mopt_wf m → (mptcp_v4_add_raddress m addr port id).1 = 0 →
  ∃ i, populated4 (mptcp_v4_add_raddress m addr port id).2 i ∧
       triple4 (addr4 (mptcp_v4_add_raddress m addr port id).2 !!! i) = (id, addr, port).
Proof.
  intros [Hl _] H0. rewrite mptcp_v4_add_raddress_find in *.
  destruct (List.find _ _) as [i|] eqn:Hf.
  - apply find_seq_Some in Hf as (Hi & Hfi & _). apply andb_true_iff in Hfi as [Hb Hm].
    exists i. destruct (exact4b m addr port id i) eqn:He; simpl.
    + split; [split; [lia|done]|]. apply exact4b_spec in He as (Hid & Ha & Hp).
      unfold triple4. by rewrite Hid, Ha, Hp.
    + simpl in Hm. apply nat4b_spec in Hm as [Hid _]. split; [split; [lia|done]|].
      unfold triple4. rewrite list_lookup_total_insert_eq by (rewrite Hl; lia). simpl.
      by rewrite Hid.
  - destruct (mptcp_find_free_index _) as [i|] eqn:Hfree; [|done].
    apply find_free_index_Some in Hfree as (Hi & _ & _). exists i.
    unfold v4_store, v6_store. simpl. split.
    + split; [done|]. simpl. rewrite bit_set_set, Nat.eqb_refl, orb_true_r. simpl.
      apply Nat.ltb_lt. exact Hi.
    + unfold triple4. by rewrite list_lookup_total_insert_eq by (rewrite Hl; done).
Qed.

Lemma v6_add_stored m addr port id :
  mopt_wf m → (mptcp_v6_add_raddress m addr port id).1 = 0 →
  ∃ i, populated6 (mptcp_v6_add_raddress m addr port id).2 i ∧
       triple6 (addr6 (mptcp_v6_add_raddress m addr port id).2 !!! i) = (id, addr, port).
Proof.
  intros [_ Hl] H0. rewrite mptcp_v6_add_raddress_find in *.
  destruct (List.find _ _) as [i|] eqn:Hf.
  - apply find_seq_Some in Hf as (Hi & Hfi & _). apply andb_true_iff in Hfi as [Hb Hm].
    exists i. destruct (exact6b m addr port id i) eqn:He; simpl.
    + split; [split; [lia|done]|]. apply exact6b_spec in He as (Hid & Ha & Hp).
      unfold triple6. by rewrite Hid, Ha, Hp.
    + simpl in Hm. apply id6b_spec in Hm. split; [split; [lia|done]|].
      unfold triple6. rewrite list_lookup_total_insert_eq by (rewrite Hl; lia). simpl.
      by rewrite Hm.
  - destruct (mptcp_find_free_index _) as [i|] eqn:Hfree; [|done].
    apply find_free_index_Some in Hfree as (Hi & _ & _). exists i.
    unfold v4_store, v6_store. simpl. split.
    + split; [done|]. simpl. rewrite bit_set_set, Nat.eqb_refl, orb_true_r. simpl.
      apply Nat.ltb_lt. exact Hi.
    + unfold triple6. by rewrite list_lookup_total_insert_eq by (rewrite Hl; done).
Qed.

Lemma v4_rem_finds_populated m id i :
  populated4 m i → rem4_id (addr4 m !!! i) = id → (mptcp_v4_rem_raddress m id).1 = 0.
Proof.
  intros [Hi Hb] Hid. rewrite mptcp_v4_rem_raddress_find.
  destruct (List.find _ _) eqn:Hf; [done|].
  eapply find_seq_None in Hf; [|split; [lia|exact Hi]].
  rewrite Hb, (proj2 (Z.eqb_eq _ _) Hid) in Hf. discriminate Hf.
Qed.

Lemma v6_rem_finds_populated m id i :
  populated6 m i → rem6_id (addr6 m !!! i) = id → (mptcp_v6_rem_raddress m id).1 = 0.
Proof.
  intros [Hi Hb] Hid. rewrite mptcp_v6_rem_raddress_find.
  destruct (List.find _ _) eqn:Hf; [done|].
  eapply find_seq_None in Hf; [|split; [lia|exact Hi]].
  rewrite Hb, (proj2 (Z.eqb_eq _ _) Hid) in Hf. discriminate Hf.
Qed.

(** X2. After [mptcp_v4_add_raddress] or [mptcp_v6_add_raddress] has
    returned 0, some populated slot of the family holds exactly the given
    (id, address, port), and a removal of that id then succeeds. *)
Theorem add_raddress_then_entry_is_stored :
  (∀ m addr port id,
     mopt_wf m → (mptcp_v4_add_raddress m addr port id).1 = 0 →
     let m' := (mptcp_v4_add_raddress m addr port id).2 in
     (∃ i, populated4 m' i ∧ triple4 (addr4 m' !!! i) = (id, addr, port)) ∧
     (mptcp_v4_rem_raddress m' id).1 = 0) ∧
  (∀ m addr port id,
     mopt_wf m → (mptcp_v6_add_raddress m addr port id).1 = 0 →
     let m' := (mptcp_v6_add_raddress m addr port id).2 in
     (∃ i, populated6 m' i ∧ triple6 (addr6 m' !!! i) = (id, addr, port)) ∧
     (mptcp_v6_rem_raddress m' id).1 = 0).
Proof.
  split; intros m addr port id Hwf H0 m'.
  - destruct (v4_add_stored m addr port id Hwf H0) as (i & Hp & Ht).
    split; [by exists i|]. apply (v4_rem_finds_populated _ _ i Hp).
    unfold triple4 in Ht. congruence.
  - destruct (v6_add_stored m addr port id Hwf H0) as (i & Hp & Ht).
    split; [by exists i|]. apply (v6_rem_finds_populated _ _ i Hp).
    unfold triple6 in Ht. congruence.
Qed.

Lemma add_raddress_then_entry_is_stored_witness :
  (let m' := (mptcp_v4_add_raddress reg4_step1 ip_10_0_0_99 0 1).2 in
   (∃ i, populated4 m' i ∧ triple4 (addr4 m' !!! i) = (1, ip_10_0_0_99, 0)) ∧
   (mptcp_v4_rem_raddress m' 1).1 = 0) ∧
  (let m' := (mptcp_v6_add_raddress reg6_step1 ip6_2001_db8__99 0 1).2 in
   (∃ i, populated6 m' i ∧ triple6 (addr6 m' !!! i) = (1, ip6_2001_db8__99, 0)) ∧
   (mptcp_v6_rem_raddress m' 1).1 = 0).
Proof.
  destruct add_raddress_then_entry_is_stored as [H4 H6]. split.
  - apply H4; [|vm_compute; reflexivity].
    apply mptcp_v4_add_raddress_wf, mopt_empty_wf.
  - apply H6; [|vm_compute; reflexivity].
    apply mptcp_v6_add_raddress_wf, mopt_empty_wf.
Defined.
Lemma v4_add_result m addr port id :
  (mptcp_v4_add_raddress m addr port id).1 = 0 ∨
  mptcp_v4_add_raddress m addr port id = (-1, m).
Proof.
  rewrite mptcp_v4_add_raddress_find. destruct (List.find _ _); [by left|].
  destruct (mptcp_find_free_index _); [by left|by right].
Qed.

Lemma v6_add_result m addr port id :
  (mptcp_v6_add_raddress m addr port id).1 = 0 ∨
  mptcp_v6_add_raddress m addr port id = (-1, m).
Proof.
  rewrite mptcp_v6_add_raddress_find. destruct (List.find _ _); [by left|].
  destruct (mptcp_find_free_index _); [by left|by right].
Qed.

Lemma v4_add_minus1 m addr port id :
  (mptcp_v4_add_raddress m addr port id).1 = -1 → full4 m ∧ no_match4 m addr port id.
Proof.
  rewrite mptcp_v4_add_raddress_find. destruct (List.find _ _) eqn:Hf; [done|].
  destruct (mptcp_find_free_index _) eqn:Hfree; [done|]. intros _. split.
  - exact (proj1 (find_free_index_None _) Hfree).
  - intros j [Hj Hb]. eapply find_seq_None in Hf; [|split; [lia|exact Hj]].
    rewrite Hb in Hf. simpl in Hf. apply orb_false_iff in Hf as [He Hn]. split.
    + intros H. apply exact4b_spec in H. congruence.
    + intros H. apply nat4b_spec in H. congruence.
Qed.

Lemma v6_add_minus1 m addr port id :
  (mptcp_v6_add_raddress m addr port id).1 = -1 → full6 m ∧ no_id6 m id.
Proof.
  rewrite mptcp_v6_add_raddress_find. destruct (List.find _ _) eqn:Hf; [done|].
  destruct (mptcp_find_free_index _) eqn:Hfree; [done|]. intros _. split.
  - exact (proj1 (find_free_index_None _) Hfree).
  - intros j [Hj Hb]. eapply find_seq_None in Hf; [|split; [lia|exact Hj]].
    rewrite Hb in Hf. simpl in Hf. apply orb_false_iff in Hf as [_ Hn].
    intros H. apply id6b_spec in H. congruence.
Qed.

(** X3. [mptcp_v4_add_raddress] and [mptcp_v6_add_raddress] return 0 or
    -1; they return -1 exactly when all 16 slots of the family are
    populated and no populated slot stops the scan (IPv4: none matches
    exactly or has the id with another address; IPv6: none carries the
    id), and then the registry is left as it was. *)
Theorem add_raddress_fails_exactly_when_full :
  (∀ m addr port id,
     ((mptcp_v4_add_raddress m addr port id).1 = 0 ∨
      mptcp_v4_add_raddress m addr port id = (-1, m)) ∧
     ((mptcp_v4_add_raddress m addr port id).1 = -1 ↔
      full4 m ∧ no_match4 m addr port id)) ∧
  (∀ m addr port id,
     ((mptcp_v6_add_raddress m addr port id).1 = 0 ∨
      mptcp_v6_add_raddress m addr port id = (-1, m)) ∧
     ((mptcp_v6_add_raddress m addr port id).1 = -1 ↔ full6 m ∧ no_id6 m id)).
Proof.
  split; intros m addr port id; (split; [|split]).
  - apply v4_add_result.
  - apply v4_add_minus1.
  - intros [Hfull Hno]. by rewrite v4_add_full.
  - apply v6_add_result.
  - apply v6_add_minus1.
  - intros [Hfull Hno]. by rewrite v6_add_full.
Qed.

Lemma v4_add_frame m addr port id j :
  mopt_wf m → populated4 m j →
  let m' := (mptcp_v4_add_raddress m addr port id).2 in
  populated4 m' j ∧
  rem4_id (addr4 m' !!! j) = rem4_id (addr4 m !!! j) ∧
  rem4_bitfield (addr4 m' !!! j) = rem4_bitfield (addr4 m !!! j) ∧
  rem4_retry_bitfield (addr4 m' !!! j) = rem4_retry_bitfield (addr4 m !!! j) ∧
  (rem4_id (addr4 m !!! j) ≠ id → addr4 m' !!! j = addr4 m !!! j).
Proof.
  intros [Hl _] [Hj Hb] m'. subst m'. rewrite mptcp_v4_add_raddress_find.
  destruct (List.find _ _) as [i|] eqn:Hf.
  - apply find_seq_Some in Hf as (Hi & Hfi & _). apply andb_true_iff in Hfi as [Hbi Hm].
    destruct (exact4b m addr port id i) eqn:He; simpl.
    { by refine (conj (conj _ _) (conj _ (conj _ (conj _ _)))). }
    simpl in Hm. apply nat4b_spec in Hm as [Hid _]. unfold v4_nat_update; simpl.
    destruct (decide (j = i)) as [->|Hne].
    + rewrite list_lookup_total_insert_eq by (rewrite Hl; lia). simpl.
      by refine (conj (conj _ _) (conj _ (conj _ (conj _ _)))).
    + rewrite list_lookup_total_insert_ne by done.
      by refine (conj (conj _ _) (conj _ (conj _ (conj _ _)))).
  - destruct (mptcp_find_free_index _) as [i|] eqn:Hfree; simpl.
    2: { by refine (conj (conj _ _) (conj _ (conj _ (conj _ _)))). }
    apply find_free_index_Some in Hfree as (Hi & Hclear & _).
    assert (j ≠ i) by (intros ->; congruence).
    unfold v4_store; simpl. rewrite list_lookup_total_insert_ne by done.
    refine (conj (conj _ _) (conj _ (conj _ (conj _ _)))); try done.
    simpl. rewrite bit_set_set, Hb. simpl. by apply Nat.ltb_lt.
Qed.

Lemma v6_add_frame m addr port id j :
  mopt_wf m → populated6 m j →
  let m' := (mptcp_v6_add_raddress m addr port id).2 in
  populated6 m' j ∧
  rem6_id (addr6 m' !!! j) = rem6_id (addr6 m !!! j) ∧
  rem6_bitfield (addr6 m' !!! j) = rem6_bitfield (addr6 m !!! j) ∧
  rem6_retry_bitfield (addr6 m' !!! j) = rem6_retry_bitfield (addr6 m !!! j) ∧
  (rem6_id (addr6 m !!! j) ≠ id → addr6 m' !!! j = addr6 m !!! j).
Proof.
  intros [_ Hl] [Hj Hb] m'. subst m'. rewrite mptcp_v6_add_raddress_find.
  destruct (List.find _ _) as [i|] eqn:Hf.
  - apply find_seq_Some in Hf as (Hi & Hfi & _). apply andb_true_iff in Hfi as [Hbi Hm].
    destruct (exact6b m addr port id i) eqn:He; simpl.
    { by refine (conj (conj _ _) (conj _ (conj _ (conj _ _)))). }
    simpl in Hm. apply id6b_spec in Hm. unfold v6_nat_update; simpl.
    destruct (decide (j = i)) as [->|Hne].
    + rewrite list_lookup_total_insert_eq by (rewrite Hl; lia). simpl.
      by refine (conj (conj _ _) (conj _ (conj _ (conj _ _)))).
    + rewrite list_lookup_total_insert_ne by done.
      by refine (conj (conj _ _) (conj _ (conj _ (conj _ _)))).
  - destruct (mptcp_find_free_index _) as [i|] eqn:Hfree; simpl.
    2: { by refine (conj (conj _ _) (conj _ (conj _ (conj _ _)))). }
    apply find_free_index_Some in Hfree as (Hi & Hclear & _).
    assert (j ≠ i) by (intros ->; congruence).
    unfold v6_store; simpl. rewrite list_lookup_total_insert_ne by done.
    refine (conj (conj _ _) (conj _ (conj _ (conj _ _)))); try done.
    simpl. rewrite bit_set_set, Hb. simpl. by apply Nat.ltb_lt.
Qed.

Lemma mptcp_v6_add_raddress_v4_part m addr port id :
  rem4_bits (mptcp_v6_add_raddress m addr port id).2 = rem4_bits m ∧
  addr4 (mptcp_v6_add_raddress m addr port id).2 = addr4 m.
Proof.
  rewrite mptcp_v6_add_raddress_find. destruct (List.find _ _) as [i|].
  - by destruct (exact6b m addr port id i).
  - by destruct (mptcp_find_free_index _).
Qed.

Lemma mptcp_v6_rem_raddress_v4_part m id :
  rem4_bits (mptcp_v6_rem_raddress m id).2 = rem4_bits m ∧
  addr4 (mptcp_v6_rem_raddress m id).2 = addr4 m.
Proof. rewrite mptcp_v6_rem_raddress_find. by destruct (List.find _ _). Qed.

(** X4. An addition never evicts or rewrites what it was not asked
    about: every populated slot stays populated and keeps its id and its
    two subflow bit fields, an entry whose id differs from the given one
    is left untouched, and the other family's part of the registry is
    unchanged. *)
Theorem add_raddress_keeps_other_entries :
  (∀ m addr port id j,
     mopt_wf m → populated4 m j →
     let m' := (mptcp_v4_add_raddress m addr port id).2 in
     populated4 m' j ∧
     rem4_id (addr4 m' !!! j) = rem4_id (addr4 m !!! j) ∧
     rem4_bitfield (addr4 m' !!! j) = rem4_bitfield (addr4 m !!! j) ∧
     rem4_retry_bitfield (addr4 m' !!! j) = rem4_retry_bitfield (addr4 m !!! j) ∧
     (rem4_id (addr4 m !!! j) ≠ id → addr4 m' !!! j = addr4 m !!! j) ∧
     rem6_bits m' = rem6_bits m ∧ addr6 m' = addr6 m) ∧
  (∀ m addr port id j,
     mopt_wf m → populated6 m j →
     let m' := (mptcp_v6_add_raddress m addr port id).2 in
     populated6 m' j ∧
     rem6_id (addr6 m' !!! j) = rem6_id (addr6 m !!! j) ∧
     rem6_bitfield (addr6 m' !!! j) = rem6_bitfield (addr6 m !!! j) ∧
     rem6_retry_bitfield (addr6 m' !!! j) = rem6_retry_bitfield (addr6 m !!! j) ∧
     (rem6_id (addr6 m !!! j) ≠ id → addr6 m' !!! j = addr6 m !!! j) ∧
     rem4_bits m' = rem4_bits m ∧ addr4 m' = addr4 m).
Proof.
  split; intros m addr port id j Hwf Hp m'.
  - destruct (v4_add_frame m addr port id j Hwf Hp) as (H1 & H2 & H3 & H4 & H5).
    destruct (mptcp_v4_add_raddress_v6_part m addr port id) as [H6 H7].
    by refine (conj _ (conj _ (conj _ (conj _ (conj _ (conj _ _)))))).
  - destruct (v6_add_frame m addr port id j Hwf Hp) as (H1 & H2 & H3 & H4 & H5).
    destruct (mptcp_v6_add_raddress_v4_part m addr port id) as [H6 H7].
    by refine (conj _ (conj _ (conj _ (conj _ (conj _ (conj _ _)))))).
Qed.

Lemma add_raddress_keeps_other_entries_witness :
  (let m' := (mptcp_v4_add_raddress reg4_step2 ip_10_0_0_99 0 2).2 in
   populated4 m' 1 ∧
   rem4_id (addr4 m' !!! 1%nat) = rem4_id (addr4 reg4_step2 !!! 1%nat) ∧
   rem4_bitfield (addr4 m' !!! 1%nat) = rem4_bitfield (addr4 reg4_step2 !!! 1%nat) ∧
   rem4_retry_bitfield (addr4 m' !!! 1%nat) =
     rem4_retry_bitfield (addr4 reg4_step2 !!! 1%nat) ∧
   (rem4_id (addr4 reg4_step2 !!! 1%nat) ≠ 2 →
    addr4 m' !!! 1%nat = addr4 reg4_step2 !!! 1%nat) ∧
   rem6_bits m' = rem6_bits reg4_step2 ∧ addr6 m' = addr6 reg4_step2) ∧
  (let m' := (mptcp_v6_add_raddress reg6_step1 ip6_2001_db8__99 0 2).2 in
   populated6 m' 0 ∧
   rem6_id (addr6 m' !!! 0%nat) = rem6_id (addr6 reg6_step1 !!! 0%nat) ∧
   rem6_bitfield (addr6 m' !!! 0%nat) = rem6_bitfield (addr6 reg6_step1 !!! 0%nat) ∧
   rem6_retry_bitfield (addr6 m' !!! 0%nat) =
     rem6_retry_bitfield (addr6 reg6_step1 !!! 0%nat) ∧
   (rem6_id (addr6 reg6_step1 !!! 0%nat) ≠ 2 →
    addr6 m' !!! 0%nat = addr6 reg6_step1 !!! 0%nat) ∧
   rem4_bits m' = rem4_bits reg6_step1 ∧ addr4 m' = addr4 reg6_step1).
Proof.
  destruct add_raddress_keeps_other_entries as [H4 H6]. split.
  - apply H4.
    + do 2 apply mptcp_v4_add_raddress_wf. apply mopt_empty_wf.
    + split; [unfold MPTCP_MAX_ADDR; lia|vm_compute; reflexivity].
  - apply H6.
    + apply mptcp_v6_add_raddress_wf, mopt_empty_wf.
    + split; [unfold MPTCP_MAX_ADDR; lia|vm_compute; reflexivity].
Defined.

(** ** Removal on reachable registries *)

Lemma v6_rem_removes_id m id :
  unique_ids6 m → no_id6 (mptcp_v6_rem_raddress m id).2 id.
Proof.
  intros Hu. rewrite mptcp_v6_rem_raddress_find.
  destruct (List.find _ _) as [i|] eqn:Hf; simpl.
  - apply find_seq_Some in Hf as (Hi & Hfi & _).
    apply andb_true_iff in Hfi as [Hbi Hidi]. apply Z.eqb_eq in Hidi.
    intros j [Hj Hb] Hid. simpl in Hb, Hid. rewrite bit_set_clear in Hb.
    apply andb_true_iff in Hb as [Hb _]. apply andb_true_iff in Hb as [Hb Hne].
    apply negb_true_iff, Nat.eqb_neq in Hne. apply Hne.
    apply Hu; [split; [lia|done]|split; done|congruence].
  - intros j [Hj Hb] Hid. eapply find_seq_None in Hf; [|split; [lia|exact Hj]].
    rewrite Hb, (proj2 (Z.eqb_eq _ _) Hid) in Hf. discriminate Hf.
Qed.

(** X5. On a registry built by the operations, [mptcp_v6_rem_raddress]
    removes the id altogether: afterwards no populated IPv6 slot carries
    it and a second removal returns -1.  The IPv4 routine does not have
    this property: a reachable registry exists on which a second removal
    of the same id succeeds again. *)
Theorem v6_rem_raddress_forgets_the_id :
  (∀ m id, reachable m →
     no_id6 (mptcp_v6_rem_raddress m id).2 id ∧
     mptcp_v6_rem_raddress (mptcp_v6_rem_raddress m id).2 id =
       (-1, (mptcp_v6_rem_raddress m id).2)) ∧
  (∃ m id, reachable m ∧
     (mptcp_v4_rem_raddress m id).1 = 0 ∧
     (mptcp_v4_rem_raddress (mptcp_v4_rem_raddress m id).2 id).1 = 0).
Proof.
  split.
  - intros m id Hr.
    assert (Hno : no_id6 (mptcp_v6_rem_raddress m id).2 id)
      by apply v6_rem_removes_id, reachable_unique_ids6, Hr.
    split; [exact Hno|]. by rewrite mptcp_v6_rem_raddress_find, find_no_id6.
  - exists reg4_step2, 1. split; [apply reg4_step2_reachable|].
    split; vm_compute; reflexivity.
Qed.

Lemma v6_rem_raddress_forgets_the_id_witness :
  no_id6 (mptcp_v6_rem_raddress reg6_step1 1).2 1 ∧
  mptcp_v6_rem_raddress (mptcp_v6_rem_raddress reg6_step1 1).2 1 =
    (-1, (mptcp_v6_rem_raddress reg6_step1 1).2).
Proof.
  apply (proj1 v6_rem_raddress_forgets_the_id).
  apply reach_add6, reach_empty.
Defined.

(** ** Invariants of reachable registries *)

Lemma u16_range (z : Z) : 0 ≤ u16 z < 2 ^ 16.
Proof. unfold u16. rewrite Z.land_ones by lia. apply Z.mod_pos_bound. lia. Qed.

Lemma reachable_bits_range m :
  reachable m → 0 ≤ rem4_bits m < 2 ^ 16 ∧ 0 ≤ rem6_bits m < 2 ^ 16.
Proof.
  induction 1 as [|m addr port id Hr [IH4 IH6]|m id Hr [IH4 IH6]
                 |m addr port id Hr [IH4 IH6]|m id Hr [IH4 IH6]|m Hr IH].
  - simpl. lia.
  - destruct (mptcp_v4_add_raddress_v6_part m addr port id) as [-> _].
    split; [|done]. rewrite mptcp_v4_add_raddress_find.
    destruct (List.find _ _) as [i|]; [by destruct (exact4b m addr port id i)|].
    destruct (mptcp_find_free_index _); [apply u16_range|done].
  - destruct (mptcp_v4_rem_raddress_v6_part m id) as [-> _].
    split; [|done]. rewrite mptcp_v4_rem_raddress_find.
    destruct (List.find _ _) as [i|]; [apply u16_range|done].
  - destruct (mptcp_v6_add_raddress_v4_part m addr port id) as [-> _].
    split; [done|]. rewrite mptcp_v6_add_raddress_find.
    destruct (List.find _ _) as [i|]; [by destruct (exact6b m addr port id i)|].
    destruct (mptcp_find_free_index _); [apply u16_range|done].
  - destruct (mptcp_v6_rem_raddress_v4_part m id) as [-> _].
    split; [done|]. rewrite mptcp_v6_rem_raddress_find.
    destruct (List.find _ _) as [i|]; [apply u16_range|done].
  - exact IH.
Qed.

(** X6. Every registry reachable from the empty one by the additions and
    removals of the two families keeps arrays of [MPTCP_MAX_ADDR] entries
    and presence bit sets below bit 16, and never has two populated IPv6
    slots with the same id. *)
Theorem reachable_registry_invariants m :
  reachable m →
  mopt_wf m ∧ 0 ≤ rem4_bits m < 2 ^ 16 ∧ 0 ≤ rem6_bits m < 2 ^ 16 ∧ unique_ids6 m.
Proof.
  intros Hr. destruct (reachable_bits_range m Hr) as [H4 H6].
  split; [by apply reachable_wf|]. split; [done|]. split; [done|].
  by apply reachable_unique_ids6.
Qed.

Lemma reachable_registry_invariants_witness :
  mopt_wf reg6_step1 ∧ 0 ≤ rem4_bits reg6_step1 < 2 ^ 16 ∧
  0 ≤ rem6_bits reg6_step1 < 2 ^ 16 ∧ unique_ids6 reg6_step1.
Proof.
  apply reachable_registry_invariants. apply reach_add6, reach_empty.
Defined.
(** ** Marking the remote address of the initial subflow *)

Lemma v4_init_bit_loop_find idx a daddr :
  v4_init_bit_loop idx a daddr =
  match List.find (fun i => rem4_addr (a !!! i) =? daddr) idx with
  | Some i => <[i := set_rem4_bitfield (a !!! i)
                       (u16 (Z.lor (rem4_bitfield (a !!! i)) 1))]> a
  | None => a
  end.
Proof. induction idx as [|i idx IH]; simpl; [done|]. by destruct (_ =? _). Qed.

Lemma v6_init_bit_loop_find idx a daddr :
  v6_init_bit_loop idx a daddr =
  match List.find (fun i => ipv6_addr_equal (rem6_addr (a !!! i)) daddr) idx with
  | Some i => <[i := set_rem6_bitfield (a !!! i)
                       (u16 (Z.lor (rem6_bitfield (a !!! i)) 1))]> a
  | None => a
  end.
Proof. induction idx as [|i idx IH]; simpl; [done|]. by destruct (ipv6_addr_equal _ _). Qed.

Lemma find_first_with_addr4 m a i :
  first_with_addr4 m a i →
  List.find (fun i => rem4_addr (addr4 m !!! i) =? a)
            (mptcp_for_each_bit_set (rem4_bits m)) = Some i.
Proof.
  intros ([Hi Hb] & Ha & Hfirst). unfold mptcp_for_each_bit_set.
  rewrite find_filter. apply find_seq_Some. split; [lia|]. split.
  - by rewrite Hb, (proj2 (Z.eqb_eq _ _) Ha).
  - intros j Hj. destruct (bit_set (rem4_bits m) j) eqn:Hbj; [|done]. simpl.
    apply Z.eqb_neq, Hfirst; [lia|]. split; [lia|done].
Qed.

Lemma find_first_with_addr6 m a i :
  first_with_addr6 m a i →
  List.find (fun i => ipv6_addr_equal (rem6_addr (addr6 m !!! i)) a)
            (mptcp_for_each_bit_set (rem6_bits m)) = Some i.
Proof.
  intros ([Hi Hb] & Ha & Hfirst). unfold mptcp_for_each_bit_set.
  rewrite find_filter. apply find_seq_Some. split; [lia|]. split.
  - by rewrite Hb, (proj2 (ipv6_addr_equal_spec _ _) Ha).
  - intros j Hj. destruct (bit_set (rem6_bits m) j) eqn:Hbj; [|done]. simpl.
    destruct (ipv6_addr_equal _ _) eqn:He; [|done].
    apply ipv6_addr_equal_spec in He. destruct (Hfirst j); [lia|split; [lia|done]|done].
Qed.

Lemma find_addr4_Some m a i :
  List.find (fun i => rem4_addr (addr4 m !!! i) =? a)
            (mptcp_for_each_bit_set (rem4_bits m)) = Some i →
  first_with_addr4 m a i.
Proof.
  unfold mptcp_for_each_bit_set. rewrite find_filter. intros Hf.
  apply find_seq_Some in Hf as (Hi & Hfi & Hfirst).
  apply andb_true_iff in Hfi as [Hb Ha]. apply Z.eqb_eq in Ha.
  split; [split; [lia|done]|]. split; [done|].
  intros j Hj [_ Hbj] Haj. specialize (Hfirst j ltac:(lia)).
  rewrite Hbj, (proj2 (Z.eqb_eq _ _) Haj) in Hfirst. discriminate Hfirst.
Qed.

Lemma find_addr6_Some m a i :
  List.find (fun i => ipv6_addr_equal (rem6_addr (addr6 m !!! i)) a)
            (mptcp_for_each_bit_set (rem6_bits m)) = Some i →
  first_with_addr6 m a i.
Proof.
  unfold mptcp_for_each_bit_set. rewrite find_filter. intros Hf.
  apply find_seq_Some in Hf as (Hi & Hfi & Hfirst).
  apply andb_true_iff in Hfi as [Hb Ha]. apply ipv6_addr_equal_spec in Ha.
  split; [split; [lia|done]|]. split; [done|].
  intros j Hj [_ Hbj] Haj. specialize (Hfirst j ltac:(lia)).
  rewrite Hbj, (proj2 (ipv6_addr_equal_spec _ _) Haj) in Hfirst. discriminate Hfirst.
Qed.

Lemma find_no_addr4 m a :
  no_addr4 m a →
  List.find (fun i => rem4_addr (addr4 m !!! i) =? a)
            (mptcp_for_each_bit_set (rem4_bits m)) = None.
Proof.
  intros Hno. unfold mptcp_for_each_bit_set. rewrite find_filter.
  apply find_seq_None. intros j Hj.
  destruct (bit_set (rem4_bits m) j) eqn:Hbj; [|done]. simpl.
  apply Z.eqb_neq, Hno. split; [lia|done].
Qed.

Lemma find_no_addr6 m a :
  no_addr6 m a →
  List.find (fun i => ipv6_addr_equal (rem6_addr (addr6 m !!! i)) a)
            (mptcp_for_each_bit_set (rem6_bits m)) = None.
Proof.
  intros Hno. unfold mptcp_for_each_bit_set. rewrite find_filter.
  apply find_seq_None. intros j Hj.
  destruct (bit_set (rem6_bits m) j) eqn:Hbj; [|done]. simpl.
  destruct (ipv6_addr_equal _ _) eqn:He; [|done].
  apply ipv6_addr_equal_spec in He. destruct (Hno j); [split; [lia|done]|done].
Qed.

Lemma set_rx_opt_eta c :
  set_rx_opt c (mk_mopt (rem4_bits (rx_opt c)) (addr4 (rx_opt c)) (rem6_bits (rx_opt c))
                        (addr6 (rx_opt c)) (list_rcvd (rx_opt c))) = c.
Proof. destruct c as [? ? ? [] ? ? ? ? ? ? ? ?]. done. Qed.

Lemma testbit_u16_lor_1 (bf : Z) : Z.testbit (u16 (Z.lor bf 1)) 0 = true.
Proof. apply (testbit_u16_set bf 0). lia. Qed.

Lemma v4_set_init_addr_bit_first c daddr i :
  mopt_wf (rx_opt c) → first_with_addr4 (rx_opt c) daddr i →
  init_bit_marked4 c (mptcp_v4_set_init_addr_bit c daddr) i.
Proof.
  intros [Hl _] Hf. pose proof Hf as ([Hi _] & _).
  unfold init_bit_marked4, mptcp_v4_set_init_addr_bit. simpl.
  rewrite v4_init_bit_loop_find, (find_first_with_addr4 _ _ _ Hf).
  rewrite list_lookup_total_insert_eq by (rewrite Hl; done). simpl.
  split; [done|]. split; [apply testbit_u16_lor_1|]. split.
  { intros j Hj. by rewrite list_lookup_total_insert_ne. }
  split; [by rewrite length_insert|done].
Qed.

Lemma v6_set_init_addr_bit_first c daddr i :
  mopt_wf (rx_opt c) → first_with_addr6 (rx_opt c) daddr i →
  init_bit_marked6 c (mptcp_v6_set_init_addr_bit c daddr) i.
Proof.
  intros [_ Hl] Hf. pose proof Hf as ([Hi _] & _).
  unfold init_bit_marked6, mptcp_v6_set_init_addr_bit. simpl.
  rewrite v6_init_bit_loop_find, (find_first_with_addr6 _ _ _ Hf).
  rewrite list_lookup_total_insert_eq by (rewrite Hl; done). simpl.
  split; [done|]. split; [apply testbit_u16_lor_1|]. split.
  { intros j Hj. by rewrite list_lookup_total_insert_ne. }
  split; [by rewrite length_insert|done].
Qed.

(** X7. [mptcp_v4_set_init_addr_bit] and [mptcp_v6_set_init_addr_bit] set
    bit 0 of the bit field of the lowest populated remote slot that stores
    the given address and change nothing else (no other slot, no presence
    bit, no other field of the control block); when no populated slot
    stores the address the control block is left as it was. *)
Theorem set_init_addr_bit_marks_first_slot :
  (∀ c daddr i, mopt_wf (rx_opt c) → first_with_addr4 (rx_opt c) daddr i →
     init_bit_marked4 c (mptcp_v4_set_init_addr_bit c daddr) i) ∧
  (∀ c daddr, no_addr4 (rx_opt c) daddr → mptcp_v4_set_init_addr_bit c daddr = c) ∧
  (∀ c daddr i, mopt_wf (rx_opt c) → first_with_addr6 (rx_opt c) daddr i →
     init_bit_marked6 c (mptcp_v6_set_init_addr_bit c daddr) i) ∧
  (∀ c daddr, no_addr6 (rx_opt c) daddr → mptcp_v6_set_init_addr_bit c daddr = c).
Proof.
  split; [exact v4_set_init_addr_bit_first|]. split.
  { intros c daddr Hno. unfold mptcp_v4_set_init_addr_bit. simpl.
    rewrite v4_init_bit_loop_find, (find_no_addr4 _ _ Hno). apply set_rx_opt_eta. }
  split; [exact v6_set_init_addr_bit_first|].
  intros c daddr Hno. unfold mptcp_v6_set_init_addr_bit. simpl.
  rewrite v6_init_bit_loop_find, (find_no_addr6 _ _ Hno). apply set_rx_opt_eta.
Qed.
Lemma set_init_addr_bit_witness :
  init_bit_marked4 mpcb_s5 (mptcp_v4_set_init_addr_bit mpcb_s5 ip_10_0_0_99) 1 ∧
  mptcp_v4_set_init_addr_bit mpcb_s5 ip_10_0_0_1 = mpcb_s5 ∧
  init_bit_marked6 mpcb6_s5 (mptcp_v6_set_init_addr_bit mpcb6_s5 ip6_2001_db8__99) 0 ∧
  mptcp_v6_set_init_addr_bit mpcb6_s5 ip6_2001_db8__2 = mpcb6_s5.
Proof.
  destruct set_init_addr_bit_marks_first_slot as (H1 & H2 & H3 & H4).
  split; [apply H1|split; [apply H2|split; [apply H3|apply H4]]].
  - split; vm_compute; reflexivity.
  - split; [split; [unfold MPTCP_MAX_ADDR; lia|vm_compute; reflexivity]|].
    split; [vm_compute; reflexivity|].
    intros j Hj _. assert (j = 0%nat) as -> by lia. vm_compute. discriminate.
  - intros j [Hj Hb].
    each_slot j Hj ltac:(first [vm_compute in Hb; discriminate Hb
                               |vm_compute; discriminate]).
  - split; vm_compute; reflexivity.
  - split; [split; [unfold MPTCP_MAX_ADDR; lia|vm_compute; reflexivity]|].
    split; [vm_compute; reflexivity|]. intros j Hj. lia.
  - intros j [Hj Hb].
    each_slot j Hj ltac:(first [vm_compute in Hb; discriminate Hb
                               |vm_compute; discriminate]).
Defined.

Lemma find_ext {A} (f g : A → bool) (l : list A) :
  (∀ x, In x l → f x = g x) → List.find f l = List.find g l.
Proof.
  induction l as [|x l IH]; simpl; [done|]. intros H.
  rewrite (H x) by (by left). destruct (g x); [done|].
  apply IH. intros y Hy. apply H. by right.
Qed.

Lemma u16_lor_1_idem (bf : Z) : u16 (Z.lor (u16 (Z.lor bf 1)) 1) = u16 (Z.lor bf 1).
Proof.
  unfold u16. apply Z.bits_inj'. intros n Hn.
  rewrite !Z.land_spec, !Z.lor_spec, !Z.land_spec, !Z.lor_spec.
  by destruct (Z.testbit bf n), (Z.testbit 1 n), (Z.testbit (Z.ones 16) n).
Qed.

Lemma v4_init_bit_loop_idem idx a daddr :
  (∀ i, In i idx → (i < length a)%nat) →
  v4_init_bit_loop idx (v4_init_bit_loop idx a daddr) daddr = v4_init_bit_loop idx a daddr.
Proof.
  intros Hlen. rewrite (v4_init_bit_loop_find idx a).
  destruct (List.find _ idx) as [i|] eqn:Hf.
  - assert (Hi : (i < length a)%nat) by (apply Hlen; by apply find_some in Hf as [? _]).
    rewrite v4_init_bit_loop_find.
    rewrite (find_ext _ (fun i => rem4_addr (a !!! i) =? daddr)), Hf.
    + rewrite list_lookup_total_insert_eq by done. rewrite list_insert_insert_eq.
      unfold set_rem4_bitfield. simpl. by rewrite u16_lor_1_idem.
    + intros j Hj. destruct (decide (j = i)) as [->|Hne].
      * by rewrite list_lookup_total_insert_eq.
      * by rewrite list_lookup_total_insert_ne.
  - by rewrite v4_init_bit_loop_find, Hf.
Qed.

Lemma v6_init_bit_loop_idem idx a daddr :
  (∀ i, In i idx → (i < length a)%nat) →
  v6_init_bit_loop idx (v6_init_bit_loop idx a daddr) daddr = v6_init_bit_loop idx a daddr.
Proof.
  intros Hlen. rewrite (v6_init_bit_loop_find idx a).
  destruct (List.find _ idx) as [i|] eqn:Hf.
  - assert (Hi : (i < length a)%nat) by (apply Hlen; by apply find_some in Hf as [? _]).
    rewrite v6_init_bit_loop_find.
    rewrite (find_ext _ (fun i => ipv6_addr_equal (rem6_addr (a !!! i)) daddr)), Hf.
    + rewrite list_lookup_total_insert_eq by done. rewrite list_insert_insert_eq.
      unfold set_rem6_bitfield. simpl. by rewrite u16_lor_1_idem.
    + intros j Hj. destruct (decide (j = i)) as [->|Hne].
      * by rewrite list_lookup_total_insert_eq.
      * by rewrite list_lookup_total_insert_ne.
  - by rewrite v6_init_bit_loop_find, Hf.
Qed.

(** X8. Marking is idempotent: calling [mptcp_v4_set_init_addr_bit] (or
    its IPv6 sibling) a second time with the same address changes
    nothing. *)
Theorem set_init_addr_bit_idempotent :
  (∀ c daddr, mopt_wf (rx_opt c) →
     mptcp_v4_set_init_addr_bit (mptcp_v4_set_init_addr_bit c daddr) daddr =
     mptcp_v4_set_init_addr_bit c daddr) ∧
  (∀ c daddr, mopt_wf (rx_opt c) →
     mptcp_v6_set_init_addr_bit (mptcp_v6_set_init_addr_bit c daddr) daddr =
     mptcp_v6_set_init_addr_bit c daddr).
Proof.
  split; intros c daddr [Hl4 Hl6].
  - unfold mptcp_v4_set_init_addr_bit, set_rx_opt. simpl.
    rewrite v4_init_bit_loop_idem; [done|].
    intros i Hi. apply elem_of_for_each_bit_set in Hi as [Hi _]. by rewrite Hl4.
  - unfold mptcp_v6_set_init_addr_bit, set_rx_opt. simpl.
    rewrite v6_init_bit_loop_idem; [done|].
    intros i Hi. apply elem_of_for_each_bit_set in Hi as [Hi _]. by rewrite Hl6.
Qed.

Lemma set_init_addr_bit_idempotent_witness :
  mptcp_v4_set_init_addr_bit (mptcp_v4_set_init_addr_bit mpcb_s5 ip_10_0_0_99) ip_10_0_0_99 =
  mptcp_v4_set_init_addr_bit mpcb_s5 ip_10_0_0_99 ∧
  mptcp_v6_set_init_addr_bit (mptcp_v6_set_init_addr_bit mpcb6_s5 ip6_2001_db8__99)
    ip6_2001_db8__99 =
  mptcp_v6_set_init_addr_bit mpcb6_s5 ip6_2001_db8__99.
Proof.
  destruct set_init_addr_bit_idempotent as [H4 H6].
  split; [apply H4|apply H6]; split; vm_compute; reflexivity.
Defined.

Lemma exists_first_with_addr4 m a i :
  populated4 m i → rem4_addr (addr4 m !!! i) = a → ∃ k, first_with_addr4 m a k.
Proof.
  intros Hp Ha.
  destruct (List.find (fun i => rem4_addr (addr4 m !!! i) =? a)
                      (mptcp_for_each_bit_set (rem4_bits m))) as [k|] eqn:Hf.
  - exists k. by apply find_addr4_Some.
  - exfalso. eapply find_none in Hf; [|by apply elem_of_for_each_bit_set, Hp].
    apply Z.eqb_neq in Hf. done.
Qed.

Lemma exists_first_with_addr6 m a i :
  populated6 m i → rem6_addr (addr6 m !!! i) = a → ∃ k, first_with_addr6 m a k.
Proof.
  intros Hp Ha.
  destruct (List.find (fun i => ipv6_addr_equal (rem6_addr (addr6 m !!! i)) a)
                      (mptcp_for_each_bit_set (rem6_bits m))) as [k|] eqn:Hf.
  - exists k. by apply find_addr6_Some.
  - exfalso. eapply find_none in Hf; [|by apply elem_of_for_each_bit_set, Hp].
    simpl in Hf. rewrite (proj2 (ipv6_addr_equal_spec _ _) Ha) in Hf. discriminate Hf.
Qed.

Lemma v4_set_init_addr_bit_bits c daddr :
  rem4_bits (rx_opt (mptcp_v4_set_init_addr_bit c daddr)) = rem4_bits (rx_opt c).
Proof. reflexivity. Qed.

Lemma v6_set_init_addr_bit_bits c daddr :
  rem6_bits (rx_opt (mptcp_v6_set_init_addr_bit c daddr)) = rem6_bits (rx_opt c).
Proof. reflexivity. Qed.

(** X9. Recording the peer's address and then marking it always finds it:
    after a successful [mptcp_vX_add_raddress] of an address,
    [mptcp_vX_set_init_addr_bit] for that address leaves some populated
    slot that stores the address with bit 0 of its bit field set. *)
Theorem add_raddress_then_set_init_addr_bit :
  (∀ c addr port id,
     mopt_wf (rx_opt c) → (mptcp_v4_add_raddress (rx_opt c) addr port id).1 = 0 →
     let c' :=
       mptcp_v4_set_init_addr_bit
         (set_rx_opt c (mptcp_v4_add_raddress (rx_opt c) addr port id).2) addr in
     ∃ i, populated4 (rx_opt c') i ∧ rem4_addr (addr4 (rx_opt c') !!! i) = addr ∧
          Z.testbit (rem4_bitfield (addr4 (rx_opt c') !!! i)) 0 = true) ∧
  (∀ c addr port id,
     mopt_wf (rx_opt c) → (mptcp_v6_add_raddress (rx_opt c) addr port id).1 = 0 →
     let c' :=
       mptcp_v6_set_init_addr_bit
         (set_rx_opt c (mptcp_v6_add_raddress (rx_opt c) addr port id).2) addr in
     ∃ i, populated6 (rx_opt c') i ∧ rem6_addr (addr6 (rx_opt c') !!! i) = addr ∧
          Z.testbit (rem6_bitfield (addr6 (rx_opt c') !!! i)) 0 = true).
Proof.
  split; intros c addr port id Hwf H0 c'.
  - destruct (v4_add_stored _ addr port id Hwf H0) as (i & Hp & Ht).
    destruct (exists_first_with_addr4 _ addr i Hp) as [k Hk];
      [unfold triple4 in Ht; congruence|].
    set (c1 := set_rx_opt c (mptcp_v4_add_raddress (rx_opt c) addr port id).2) in *.
    assert (Hwf1 : mopt_wf (rx_opt c1)) by (by apply mptcp_v4_add_raddress_wf).
    destruct (v4_set_init_addr_bit_first c1 addr k Hwf1 Hk) as (He & Hb & _).
    destruct Hk as ([Hk1 Hk2] & Hka & _). fold c' in He, Hb. exists k.
    split; [split; [done|]; subst c'; by rewrite v4_set_init_addr_bit_bits|].
    split; [|exact Hb]. rewrite He. unfold set_rem4_bitfield, set_rem6_bitfield.
    cbn [rem4_addr rem6_addr]. exact Hka.
  - destruct (v6_add_stored _ addr port id Hwf H0) as (i & Hp & Ht).
    destruct (exists_first_with_addr6 _ addr i Hp) as [k Hk];
      [unfold triple6 in Ht; congruence|].
    set (c1 := set_rx_opt c (mptcp_v6_add_raddress (rx_opt c) addr port id).2) in *.
    assert (Hwf1 : mopt_wf (rx_opt c1)) by (by apply mptcp_v6_add_raddress_wf).
    destruct (v6_set_init_addr_bit_first c1 addr k Hwf1 Hk) as (He & Hb & _).
    destruct Hk as ([Hk1 Hk2] & Hka & _). fold c' in He, Hb. exists k.
    split; [split; [done|]; subst c'; by rewrite v6_set_init_addr_bit_bits|].
    split; [|exact Hb]. rewrite He. unfold set_rem4_bitfield, set_rem6_bitfield.
    cbn [rem4_addr rem6_addr]. exact Hka.
Qed.

Lemma add_raddress_then_set_init_addr_bit_witness :
  (let c' :=
     mptcp_v4_set_init_addr_bit
       (set_rx_opt mpcb_s5 (mptcp_v4_add_raddress (rx_opt mpcb_s5) ip_10_0_0_1 0 7).2)
       ip_10_0_0_1 in
   ∃ i, populated4 (rx_opt c') i ∧ rem4_addr (addr4 (rx_opt c') !!! i) = ip_10_0_0_1 ∧
        Z.testbit (rem4_bitfield (addr4 (rx_opt c') !!! i)) 0 = true) ∧
  (let c' :=
     mptcp_v6_set_init_addr_bit
       (set_rx_opt mpcb6_s5
          (mptcp_v6_add_raddress (rx_opt mpcb6_s5) ip6_2001_db8__2 0 7).2)
       ip6_2001_db8__2 in
   ∃ i, populated6 (rx_opt c') i ∧ rem6_addr (addr6 (rx_opt c') !!! i) = ip6_2001_db8__2 ∧
        Z.testbit (rem6_bitfield (addr6 (rx_opt c') !!! i)) 0 = true).
Proof.
  destruct add_raddress_then_set_init_addr_bit as [H4 H6].
  split; [apply H4|apply H6]; first [split; vm_compute; reflexivity|vm_compute; reflexivity].
Defined.
(** ** The JOIN request and the request table *)

Lemma paws_or_flood_drop_trace K E tmp_opt ts dst_ok peer_ok tr :
  paws_or_flood_drop K E tmp_opt ts dst_ok peer_ok = Some tr →
  tr = [Ev_NET_INC_STATS_PAWSPASSIVEREJECTED; Ev_dst_release; Ev_reqsk_free] ∨
  tr = [Ev_dst_release; Ev_reqsk_free].
Proof.
  unfold paws_or_flood_drop. repeat case_match; intros [= <-]; auto.
Qed.

Ltac abstract_requests :=
  repeat match goal with
         | |- context [@Some mptcp_request_sock ?r] =>
             tryif is_var r then fail else (generalize r; intro)
         end.

Ltac paws_drop_case tr Hd :=
  let Htr := fresh "Htr" in
  assert (Htr : tr = [Ev_NET_INC_STATS_PAWSPASSIVEREJECTED; Ev_dst_release; Ev_reqsk_free] ∨
                tr = [Ev_dst_release; Ev_reqsk_free])
    by (revert Hd; case_match; [apply paws_or_flood_drop_trace|done]);
  by destruct Htr as [-> | ->].

Ltac join_outcome := simpl; (split; [done|]; split; [by eauto|done]).

Lemma v4_join_accounting K E g meta skb tmp_opt :
  let r := mptcp_v4_join_request_short K E g meta skb tmp_opt in
  reqsk_free_count (jr_trace r) =
    match jr_req r with Some _ => if jr_queued r then 0 else 1 | None => 0 end%nat ∧
  (if jr_queued r then is_Some (jr_req r) else jr_global r = g) ∧
  forallb (fun e => negb (is_send_reset e)) (jr_trace r) = true.
Proof.
  unfold mptcp_v4_join_request_short, mptcp_v4_reqsk_queue_hash_add.
  generalize (join_hash_tmac K (mpcb_loc_key (mpcb meta)) (mpcb_rem_key (mpcb meta))
                (u32 (je_random_bytes E)) (mptcp_recv_nonce tmp_opt)).
  intros tmac. destruct (negb (je_reqsk_alloc_ok E)); [done|].
  cbv zeta. abstract_requests.
  destruct (je_security_conn_request E); [done|].
  match goal with |- context [if skb4_when skb =? 0 then ?p else None] =>
    destruct (if skb4_when skb =? 0 then p else None) as [tr|] eqn:Hd end.
  - assert (Htr : tr = [Ev_NET_INC_STATS_PAWSPASSIVEREJECTED; Ev_dst_release; Ev_reqsk_free] ∨
                  tr = [Ev_dst_release; Ev_reqsk_free]).
    { destruct (skb4_when skb =? 0); [|done]. by eapply paws_or_flood_drop_trace. }
    by destruct Htr as [-> | ->].
  - destruct (negb (je_send_synack E =? 0)); simpl; [done|].
    split; [done|]. split; [by eexists|done].
Qed.

Lemma v6_join_accounting K E g meta skb tmp_opt :
  let r := mptcp_v6_join_request_short K E g meta skb tmp_opt in
  reqsk_free_count (jr_trace r) =
    match jr_req r with Some _ => if jr_queued r then 0 else 1 | None => 0 end%nat ∧
  (if jr_queued r then is_Some (jr_req r) else jr_global r = g) ∧
  forallb (fun e => negb (is_send_reset e)) (jr_trace r) = true.
Proof.
  unfold mptcp_v6_join_request_short, mptcp_v6_reqsk_queue_hash_add,
    mptcp_v6v4_send_synack.
  destruct (negb (je_reqsk_alloc_ok E)); [done|].
  cbv zeta. abstract_requests.
  destruct ((skb6_when skb =? 0) && family_eqb (sk_family meta) AF_INET6 &&
            je_ipv6_opt_accepted E);
  (match goal with |- context [if skb6_when skb =? 0 then ?p else None] =>
     destruct (if skb6_when skb =? 0 then p else None) as [tr|] eqn:Hd end;
   [paws_drop_case tr Hd|];
   destruct (family_eqb (sk_family meta) AF_INET6);
   [destruct (negb (je_send_synack E =? 0)); join_outcome|];
   destruct (negb (se_dst_lookup_err (je_synack E) =? 0)) eqn:Hl;
   [rewrite Hl; join_outcome|];
   destruct (se_make_synack_ok (je_synack E));
   [destruct (negb (se_xmit_err (je_synack E) =? 0)); join_outcome|];
   destruct (negb (- se_ENOMEM (je_synack E) =? 0)); join_outcome).
Qed.

(** X10. Every request block that [mptcp_vX_join_request_short]
    allocates is either queued or released by exactly one [reqsk_free],
    never both; when nothing is queued the request table is left as it
    was; and the routine itself never sends a reset. *)
Theorem join_request_is_queued_or_freed :
  (∀ K E g meta skb tmp_opt,
     let r := mptcp_v4_join_request_short K E g meta skb tmp_opt in
     reqsk_free_count (jr_trace r) =
       match jr_req r with Some _ => if jr_queued r then 0 else 1 | None => 0 end%nat ∧
     (if jr_queued r then is_Some (jr_req r) else jr_global r = g) ∧
     forallb (fun e => negb (is_send_reset e)) (jr_trace r) = true) ∧
  (∀ K E g meta skb tmp_opt,
     let r := mptcp_v6_join_request_short K E g meta skb tmp_opt in
     reqsk_free_count (jr_trace r) =
       match jr_req r with Some _ => if jr_queued r then 0 else 1 | None => 0 end%nat ∧
     (if jr_queued r then is_Some (jr_req r) else jr_global r = g) ∧
     forallb (fun e => negb (is_send_reset e)) (jr_trace r) = true).
Proof. split; [exact v4_join_accounting|exact v6_join_accounting]. Qed.

(** ** Fast processing of a JOIN SYN *)

Lemma v4_do_rcv_join_syn_request K E g meta skb tmp_opt req :
  mopt_wf (rx_opt (mpcb meta)) →
  rr_req (mptcp_v4_do_rcv_join_syn K E g meta skb tmp_opt) = Some req →
  let r := mptcp_v4_do_rcv_join_syn K E g meta skb tmp_opt in
  let m' := rx_opt (mpcb (rr_meta r)) in
  sk_state meta ≠ TCP_CLOSE ∧ inside_tk_table meta = true ∧
  m' = set_list_rcvd
         (mptcp_v4_add_raddress (rx_opt (mpcb meta)) (ip_saddr skb) 0
                                (mpj_addr_id tmp_opt)).2 false ∧
  (∃ i, populated4 m' i ∧
        triple4 (addr4 m' !!! i) = (mpj_addr_id tmp_opt, ip_saddr skb, 0)) ∧
  forallb (fun e => negb (is_send_reset e)) (rr_trace r) = true.
Proof.
  intros Hwf. unfold mptcp_v4_do_rcv_join_syn.
  destruct (je_md5_configured E && je_inbound_md5_hash E); [done|].
  destruct (is_TCP_CLOSE (sk_state meta) || negb (inside_tk_table meta)) eqn:Hst; [done|].
  apply orb_false_iff in Hst as [Hc Hin]. apply negb_false_iff in Hin.
  pose proof (v4_add_stored (rx_opt (mpcb meta)) (ip_saddr skb) 0 (mpj_addr_id tmp_opt) Hwf)
    as Hst.
  pose proof (v4_add_result (rx_opt (mpcb meta)) (ip_saddr skb) 0 (mpj_addr_id tmp_opt))
    as Hres.
  destruct (mptcp_v4_add_raddress _ _ _ _) as [ret mopt].
  destruct (ret <? 0) eqn:Hret; [done|]. simpl. intros _.
  assert (ret = 0) as -> by (destruct Hres as [?|[= -> _]]; done).
  destruct (Hst eq_refl) as (i & Hp & Ht).
  split; [by destruct (sk_state meta)|]. split; [done|]. split; [done|].
  split; [by exists i|]. apply v4_join_accounting.
Qed.

Lemma v6_do_rcv_join_syn_request K E g meta skb tmp_opt req :
  mopt_wf (rx_opt (mpcb meta)) →
  rr_req (mptcp_v6_do_rcv_join_syn K E g meta skb tmp_opt) = Some req →
  let r := mptcp_v6_do_rcv_join_syn K E g meta skb tmp_opt in
  let m' := rx_opt (mpcb (rr_meta r)) in
  sk_state meta ≠ TCP_CLOSE ∧ inside_tk_table meta = true ∧
  m' = set_list_rcvd
         (mptcp_v6_add_raddress (rx_opt (mpcb meta)) (ip6_saddr skb) 0
                                (mpj_addr_id tmp_opt)).2 false ∧
  (∃ i, populated6 m' i ∧
        triple6 (addr6 m' !!! i) = (mpj_addr_id tmp_opt, ip6_saddr skb, 0)) ∧
  forallb (fun e => negb (is_send_reset e)) (rr_trace r) = true.
Proof.
  intros Hwf. unfold mptcp_v6_do_rcv_join_syn.
  destruct (je_md5_configured E && je_inbound_md5_hash E); [done|].
  destruct (is_TCP_CLOSE (sk_state meta) || negb (inside_tk_table meta)) eqn:Hst; [done|].
  apply orb_false_iff in Hst as [Hc Hin]. apply negb_false_iff in Hin.
  pose proof (v6_add_stored (rx_opt (mpcb meta)) (ip6_saddr skb) 0 (mpj_addr_id tmp_opt) Hwf)
    as Hst.
  pose proof (v6_add_result (rx_opt (mpcb meta)) (ip6_saddr skb) 0 (mpj_addr_id tmp_opt))
    as Hres.
  destruct (mptcp_v6_add_raddress _ _ _ _) as [ret mopt].
  destruct (ret <? 0) eqn:Hret; [done|]. simpl. intros _.
  assert (ret = 0) as -> by (destruct Hres as [?|[= -> _]]; done).
  destruct (Hst eq_refl) as (i & Hp & Ht).
  split; [by destruct (sk_state meta)|]. split; [done|]. split; [done|].
  split; [by exists i|]. apply v6_join_accounting.
Qed.

(** X11. The fast path builds a request only for an open meta connection
    that is still in the token table, and only after the segment's source
    address has been recorded: whenever [mptcp_vX_do_rcv_join_syn] has
    allocated a request, the registry is the result of the addition with
    [list_rcvd] cleared, some populated slot holds (address id of the
    option, source address, port 0), and no reset has been sent. *)
Theorem join_syn_request_only_with_recorded_address :
  (∀ K E g meta skb tmp_opt req,
     mopt_wf (rx_opt (mpcb meta)) →
     rr_req (mptcp_v4_do_rcv_join_syn K E g meta skb tmp_opt) = Some req →
     let r := mptcp_v4_do_rcv_join_syn K E g meta skb tmp_opt in
     let m' := rx_opt (mpcb (rr_meta r)) in
     sk_state meta ≠ TCP_CLOSE ∧ inside_tk_table meta = true ∧
     m' = set_list_rcvd
            (mptcp_v4_add_raddress (rx_opt (mpcb meta)) (ip_saddr skb) 0
                                   (mpj_addr_id tmp_opt)).2 false ∧
     (∃ i, populated4 m' i ∧
           triple4 (addr4 m' !!! i) = (mpj_addr_id tmp_opt, ip_saddr skb, 0)) ∧
     forallb (fun e => negb (is_send_reset e)) (rr_trace r) = true) ∧
  (∀ K E g meta skb tmp_opt req,
     mopt_wf (rx_opt (mpcb meta)) →
     rr_req (mptcp_v6_do_rcv_join_syn K E g meta skb tmp_opt) = Some req →
     let r := mptcp_v6_do_rcv_join_syn K E g meta skb tmp_opt in
     let m' := rx_opt (mpcb (rr_meta r)) in
     sk_state meta ≠ TCP_CLOSE ∧ inside_tk_table meta = true ∧
     m' = set_list_rcvd
            (mptcp_v6_add_raddress (rx_opt (mpcb meta)) (ip6_saddr skb) 0
                                   (mpj_addr_id tmp_opt)).2 false ∧
     (∃ i, populated6 m' i ∧
           triple6 (addr6 m' !!! i) = (mpj_addr_id tmp_opt, ip6_saddr skb, 0)) ∧
     forallb (fun e => negb (is_send_reset e)) (rr_trace r) = true).
Proof.
  split; [exact v4_do_rcv_join_syn_request|exact v6_do_rcv_join_syn_request].
Qed.

Lemma join_syn_request_only_with_recorded_address_witness :
  (let r := mptcp_v4_do_rcv_join_syn kernel_example join_env_example global_empty
              (meta_example mopt_empty) skb4_example (opt_example 2) in
   let m' := rx_opt (mpcb (rr_meta r)) in
   sk_state (meta_example mopt_empty) ≠ TCP_CLOSE ∧
   inside_tk_table (meta_example mopt_empty) = true ∧
   m' = set_list_rcvd (mptcp_v4_add_raddress mopt_empty ip_10_0_0_2 0 2).2 false ∧
   (∃ i, populated4 m' i ∧ triple4 (addr4 m' !!! i) = (2, ip_10_0_0_2, 0)) ∧
   forallb (fun e => negb (is_send_reset e)) (rr_trace r) = true) ∧
  (let r := mptcp_v6_do_rcv_join_syn kernel_example join_env_example global_empty
              (meta_example mopt_empty) skb6_example (opt_example 2) in
   let m' := rx_opt (mpcb (rr_meta r)) in
   sk_state (meta_example mopt_empty) ≠ TCP_CLOSE ∧
   inside_tk_table (meta_example mopt_empty) = true ∧
   m' = set_list_rcvd
          (mptcp_v6_add_raddress mopt_empty (ip6_saddr skb6_example) 0 2).2 false ∧
   (∃ i, populated6 m' i ∧ triple6 (addr6 m' !!! i) = (2, ip6_saddr skb6_example, 0)) ∧
   forallb (fun e => negb (is_send_reset e)) (rr_trace r) = true).
Proof.
  destruct join_syn_request_only_with_recorded_address as [H4 H6]. split.
  - apply (H4 kernel_example join_env_example global_empty (meta_example mopt_empty)
              skb4_example (opt_example 2) req4_example).
    + apply mopt_empty_wf.
    + vm_compute. reflexivity.
  - apply (H6 kernel_example join_env_example global_empty (meta_example mopt_empty)
              skb6_example (opt_example 2) req6_example).
    + apply mopt_empty_wf.
    + vm_compute. reflexivity.
Defined.
(** ** Lookups after a request has been queued *)

Lemma v4_search_req_result K g rport raddr laddr :
  (mptcp_v4_search_req K g rport raddr laddr).1.1 =
  v4_search_loop (mptcp_reqsk_htb g (inet_synq_hash K raddr rport 0 (MPTCP_HASH_SIZE K)))
                 rport raddr laddr.
Proof. unfold mptcp_v4_search_req. by destruct (v4_search_loop _ _ _ _). Qed.

Lemma v6_search_req_result K g rport raddr laddr :
  (mptcp_v6_search_req K g rport raddr laddr).1.1 =
  v6_search_loop (mptcp_reqsk_htb g (inet6_synq_hash K raddr rport 0 (MPTCP_HASH_SIZE K)))
                 rport raddr laddr.
Proof. unfold mptcp_v6_search_req. by destruct (v6_search_loop _ _ _ _). Qed.

Lemma v4_search_after_add K g h req rport raddr laddr :
  ¬ tuple_match4 rport raddr laddr req →
  (mptcp_v4_search_req K (htb_list_add g h req) rport raddr laddr).1.1 =
  (mptcp_v4_search_req K g rport raddr laddr).1.1.
Proof.
  intros Hn. rewrite !v4_search_req_result. simpl. destruct (_ =? h); [|done]. simpl.
  destruct (_ && _) eqn:Ht; [|done]. exfalso. apply Hn.
  apply andb_true_iff in Ht as [Ht Hf]. apply andb_true_iff in Ht as [Ht Hl].
  apply andb_true_iff in Ht as [Hp Ha].
  apply Z.eqb_eq in Hp, Ha, Hl. apply family_eqb_spec in Hf. done.
Qed.

Lemma v6_search_after_add K g h req rport raddr laddr :
  ¬ tuple_match6 rport raddr laddr req →
  (mptcp_v6_search_req K (htb_list_add g h req) rport raddr laddr).1.1 =
  (mptcp_v6_search_req K g rport raddr laddr).1.1.
Proof.
  intros Hn. rewrite !v6_search_req_result. simpl. destruct (_ =? h); [|done]. simpl.
  destruct (_ && _) eqn:Ht; [|done]. exfalso. apply Hn.
  apply andb_true_iff in Ht as [Ht Hl]. apply andb_true_iff in Ht as [Ht Ha].
  apply andb_true_iff in Ht as [Hp Hf].
  apply Z.eqb_eq in Hp. apply ipv6_addr_equal_spec in Ha, Hl.
  apply family_eqb_spec in Hf. done.
Qed.

Lemma v4_join_global K E g meta skb tmp_opt :
  let r := mptcp_v4_join_request_short K E g meta skb tmp_opt in
  jr_global r = g ∨
  ∃ req h, jr_global r = htb_list_add g h req ∧
           tuple_match4 (th4_source skb) (ip_saddr skb) (ip_daddr skb) req.
Proof.
  intros r. destruct (v4_join_accounting K E g meta skb tmp_opt) as (_ & Hq & _).
  fold r in Hq. destruct (jr_queued r) eqn:Hqueued; [|by left].
  destruct Hq as [req Hreq]. right.
  destruct (v4_join_queued K E g meta skb tmp_opt req Hqueued Hreq) as (Hg & Ht & _).
  by eexists _, _.
Qed.

Lemma v6_join_global K E g meta skb tmp_opt :
  let r := mptcp_v6_join_request_short K E g meta skb tmp_opt in
  jr_global r = g ∨
  ∃ req h, jr_global r = htb_list_add g h req ∧
           tuple_match6 (th6_source skb) (ip6_saddr skb) (ip6_daddr skb) req.
Proof.
  intros r. destruct (v6_join_accounting K E g meta skb tmp_opt) as (_ & Hq & _).
  fold r in Hq. destruct (jr_queued r) eqn:Hqueued; [|by left].
  destruct Hq as [req Hreq]. right.
  destruct (v6_join_queued K E g meta skb tmp_opt req Hqueued Hreq) as (Hg & Ht & _).
  by eexists _, _.
Qed.

(** X12. Queueing a JOIN request disturbs no other lookup: after
    [mptcp_vX_join_request_short], [mptcp_vX_search_req] of the same
    family gives the result it gave before for every (remote port, remote
    address, local address) other than the segment's own, and the lookups
    of the other family give the result they gave before for every
    tuple, although both families share one table. *)
Theorem join_request_keeps_other_lookups :
  (∀ K E g meta skb tmp_opt rport raddr laddr,
     (rport, raddr, laddr) ≠ (th4_source skb, ip_saddr skb, ip_daddr skb) →
     let g' := jr_global (mptcp_v4_join_request_short K E g meta skb tmp_opt) in
     (mptcp_v4_search_req K g' rport raddr laddr).1.1 =
     (mptcp_v4_search_req K g rport raddr laddr).1.1) ∧
  (∀ K E g meta skb tmp_opt rport raddr laddr,
     let g' := jr_global (mptcp_v4_join_request_short K E g meta skb tmp_opt) in
     (mptcp_v6_search_req K g' rport raddr laddr).1.1 =
     (mptcp_v6_search_req K g rport raddr laddr).1.1) ∧
  (∀ K E g meta skb tmp_opt rport raddr laddr,
     (rport, raddr, laddr) ≠ (th6_source skb, ip6_saddr skb, ip6_daddr skb) →
     let g' := jr_global (mptcp_v6_join_request_short K E g meta skb tmp_opt) in
     (mptcp_v6_search_req K g' rport raddr laddr).1.1 =
     (mptcp_v6_search_req K g rport raddr laddr).1.1) ∧
  (∀ K E g meta skb tmp_opt rport raddr laddr,
     let g' := jr_global (mptcp_v6_join_request_short K E g meta skb tmp_opt) in
     (mptcp_v4_search_req K g' rport raddr laddr).1.1 =
     (mptcp_v4_search_req K g rport raddr laddr).1.1).
Proof.
  split; [|split; [|split]].
  - intros K E g meta skb tmp_opt rport raddr laddr Hne g'. subst g'.
    destruct (v4_join_global K E g meta skb tmp_opt) as [->|(req & h & -> & Ht)]; [done|].
    apply v4_search_after_add. intros Ht'. apply Hne.
    destruct Ht as (<- & <- & <- & _), Ht' as (<- & <- & <- & _). done.
  - intros K E g meta skb tmp_opt rport raddr laddr g'. subst g'.
    destruct (v4_join_global K E g meta skb tmp_opt) as [->|(req & h & -> & Ht)]; [done|].
    apply v6_search_after_add. intros Ht'.
    destruct Ht as (_ & _ & _ & Hf), Ht' as (_ & _ & _ & Hf'). congruence.
  - intros K E g meta skb tmp_opt rport raddr laddr Hne g'. subst g'.
    destruct (v6_join_global K E g meta skb tmp_opt) as [->|(req & h & -> & Ht)]; [done|].
    apply v6_search_after_add. intros Ht'. apply Hne.
    destruct Ht as (<- & <- & <- & _), Ht' as (<- & <- & <- & _). done.
  - intros K E g meta skb tmp_opt rport raddr laddr g'. subst g'.
    destruct (v6_join_global K E g meta skb tmp_opt) as [->|(req & h & -> & Ht)]; [done|].
    apply v4_search_after_add. intros Ht'.
    destruct Ht as (_ & _ & _ & Hf), Ht' as (_ & _ & _ & Hf'). congruence.
Qed.

Lemma join_request_keeps_other_lookups_witness :
  (let g' := jr_global join4_example in
   (mptcp_v4_search_req kernel_example g' 49152 ip_10_0_0_99 0xCB007101).1.1 =
   (mptcp_v4_search_req kernel_example global_empty 49152 ip_10_0_0_99 0xCB007101).1.1) ∧
  (let g' := jr_global join6_example in
   (mptcp_v6_search_req kernel_example g' 55555 ip6_2001_db8__99
                        (ip6_daddr skb6_example)).1.1 =
   (mptcp_v6_search_req kernel_example global_empty 55555 ip6_2001_db8__99
                        (ip6_daddr skb6_example)).1.1).
Proof.
  destruct join_request_keeps_other_lookups as (H4 & _ & H6 & _). split.
  - apply (H4 kernel_example join_env_example global_empty (meta_example mopt_empty)
              skb4_example (opt_example 2)).
    vm_compute. intros H. discriminate H.
  - apply (H6 kernel_example join_env_example global_empty (meta_example mopt_empty)
              skb6_example (opt_example 2)).
    vm_compute. intros H. discriminate H.
Defined.
(** ** Subflow creation *)

Ltac subsock_solve :=
  simpl; unfold subsock_outcome, subsock_calls_succeed;
  repeat split; intros;
  repeat match goal with
         | H : _ ∧ _ |- _ => destruct H
         | H : In _ _ |- _ => first [by destruct H|simpl in H; intuition discriminate]
         end;
  try lia; try (simpl; intuition discriminate); try tauto.

Lemma init4_outcome K S meta loc rem :
  let r := mptcp_init4_subsockets K S meta loc rem in subsock_outcome K S r.1.1 r.2.
Proof.
  unfold mptcp_init4_subsockets, subsock_error. cbv zeta.
  generalize (u16 (Z.lor (rem4_bitfield rem) (Z.shiftl 1 (loc4_id loc)))). intros v.
  generalize (if negb (rem4_port (set_rem4_bitfield rem v) =? 0)
              then rem4_port (set_rem4_bitfield rem v) else inet_dport meta). intros p.
  destruct (ss_inet_create S <? 0) eqn:Hc;
    [apply Z.ltb_lt in Hc|apply Z.ltb_ge in Hc].
  { subsock_solve. }
  destruct (negb (ss_mptcp_add_sock S =? 0)) eqn:Ha;
    [apply negb_true_iff, Z.eqb_neq in Ha|apply negb_false_iff, Z.eqb_eq in Ha].
  { subsock_solve. eexists [_; _; _]. simpl. split; [done|]. intuition discriminate. }
  destruct (ss_bind S <? 0) eqn:Hb; [apply Z.ltb_lt in Hb|apply Z.ltb_ge in Hb].
  { subsock_solve. eexists [_; _; _; _; _]. simpl. split; [done|]. intuition discriminate. }
  destruct ((ss_connect S <? 0) && negb (ss_connect S =? - EINPROGRESS K)) eqn:Hn.
  - apply andb_true_iff in Hn as [Hn1 Hn2]. apply Z.ltb_lt in Hn1.
    apply negb_true_iff, Z.eqb_neq in Hn2.
    subsock_solve. eexists [_; _; _; _; _; _]. simpl. split; [done|]. intuition discriminate.
  - apply andb_false_iff in Hn. rewrite Z.ltb_ge, negb_false_iff, Z.eqb_eq in Hn.
    subsock_solve.
Qed.

Lemma init6_outcome K S meta loc rem :
  let r := mptcp_init6_subsockets K S meta loc rem in subsock_outcome K S r.1.1 r.2.
Proof.
  unfold mptcp_init6_subsockets, subsock_error. cbv zeta.
  generalize (u16 (Z.lor (rem6_bitfield rem)
                     (Z.shiftl 1 (loc6_id loc - Z.min (loc6_id loc)
                                                      (Z.of_nat MPTCP_MAX_ADDR))))).
  intros v.
  generalize (if negb (rem6_port (set_rem6_bitfield rem v) =? 0)
              then rem6_port (set_rem6_bitfield rem v) else inet_dport meta). intros p.
  destruct (ss_inet_create S <? 0) eqn:Hc;
    [apply Z.ltb_lt in Hc|apply Z.ltb_ge in Hc].
  { subsock_solve. }
  destruct (negb (ss_mptcp_add_sock S =? 0)) eqn:Ha;
    [apply negb_true_iff, Z.eqb_neq in Ha|apply negb_false_iff, Z.eqb_eq in Ha].
  { subsock_solve. eexists [_; _; _]. simpl. split; [done|]. intuition discriminate. }
  destruct (ss_bind S <? 0) eqn:Hb; [apply Z.ltb_lt in Hb|apply Z.ltb_ge in Hb].
  { subsock_solve. eexists [_; _; _; _; _]. simpl. split; [done|]. intuition discriminate. }
  destruct ((ss_connect S <? 0) && negb (ss_connect S =? - EINPROGRESS K)) eqn:Hn.
  - apply andb_true_iff in Hn as [Hn1 Hn2]. apply Z.ltb_lt in Hn1.
    apply negb_true_iff, Z.eqb_neq in Hn2.
    subsock_solve. eexists [_; _; _; _; _; _]. simpl. split; [done|]. intuition discriminate.
  - apply andb_false_iff in Hn. rewrite Z.ltb_ge, negb_false_iff, Z.eqb_eq in Hn.
    subsock_solve.
Qed.

(** X13. [mptcp_init4_subsockets] and [mptcp_init6_subsockets] hand the
    new socket to the meta socket ([sk_set_socket]) exactly when socket
    creation, [mptcp_add_sock], bind and connect all succeed (a connect in
    progress counts), and then return 0 without tearing anything down.
    When creation fails they return its error and tear nothing down; when
    a later call fails the last two calls are [sock_orphan] and
    [tcp_done], made once each.  A failure is reported by a non-negative
    return value exactly when it is [mptcp_add_sock] that failed: the
    value returned is then the result of the socket creation. *)
Theorem init_subsockets_outcome :
  (∀ K S meta loc rem,
     let r := mptcp_init4_subsockets K S meta loc rem in subsock_outcome K S r.1.1 r.2) ∧
  (∀ K S meta loc rem,
     let r := mptcp_init6_subsockets K S meta loc rem in subsock_outcome K S r.1.1 r.2).
Proof. split; [exact init4_outcome|exact init6_outcome]. Qed.

Lemma init_subsockets_outcome_witness :
  (mptcp_init4_subsockets kernel_example subsock_env_example (meta_example mopt_empty)
     (mk_loc4 ip_10_0_0_2 3 false) (mk_rem4 ip_10_0_0_99 0 0 0 1)).1.1 = 0 ∧
  (0 ≤ (mptcp_init6_subsockets kernel_example (mk_subsock_env 5 (-12) 0 0)
          (meta_example mopt_empty) (mk_loc6 ip6_2001_db8__2 17 false)
          (mk_rem6 ip6_2001_db8__99 0 0 0 1)).1.1 ∧
   ¬ subsock_calls_succeed kernel_example (mk_subsock_env 5 (-12) 0 0)).
Proof.
  destruct init_subsockets_outcome as [H4 H6]. split.
  - destruct (H4 kernel_example subsock_env_example (meta_example mopt_empty)
                 (mk_loc4 ip_10_0_0_2 3 false) (mk_rem4 ip_10_0_0_99 0 0 0 1))
      as (_ & Hs & _).
    apply Hs. unfold subsock_calls_succeed. simpl. lia.
  - destruct (H6 kernel_example (mk_subsock_env 5 (-12) 0 0) (meta_example mopt_empty)
                 (mk_loc6 ip6_2001_db8__2 17 false) (mk_rem6 ip6_2001_db8__99 0 0 0 1))
      as (_ & _ & _ & _ & Hiff).
    apply Hiff. simpl. lia.
Defined.
(** ** Address events *)

Lemma passes_checks4_test K ifa :
  passes_checks4 K ifa ↔
  (RT_SCOPE_LINK K <? ifa_scope ifa) ||
  negb (Z.land (ifa_dev_flags ifa) (IFF_NOMULTIPATH K) =? 0) = false.
Proof.
  unfold passes_checks4.
  rewrite orb_false_iff, negb_false_iff, Z.ltb_ge, Z.eqb_eq. tauto.
Qed.

Lemma passes_checks6_test K ifa :
  passes_checks6 K ifa ↔
  (RT_SCOPE_LINK K <? ifa6_scope ifa) ||
  negb (Z.land (ifa6_dev_flags ifa) (IFF_NOMULTIPATH K) =? 0) ||
  (ipv6_addr_type K (ifa6_addr ifa) =? IPV6_ADDR_ANY K) ||
  negb (Z.land (ipv6_addr_type K (ifa6_addr ifa)) (IPV6_ADDR_LOOPBACK K) =? 0) ||
  negb (Z.land (ipv6_addr_type K (ifa6_addr ifa)) (IPV6_ADDR_LINKLOCAL K) =? 0) = false.
Proof.
  unfold passes_checks6.
  rewrite !orb_false_iff, !negb_false_iff, Z.ltb_ge, !Z.eqb_eq, Z.eqb_neq. tauto.
Qed.

Lemma find_no_loc4 c a :
  no_loc4 c a →
  List.find (fun i => loc4_addr (mpcb_addr4 c !!! i) =? a)
            (mptcp_for_each_bit_set (loc4_bits c)) = None.
Proof.
  intros Hno. unfold mptcp_for_each_bit_set. rewrite find_filter.
  apply find_seq_None. intros j Hj.
  destruct (bit_set (loc4_bits c) j) eqn:Hbj; [|done]. simpl.
  apply Z.eqb_neq, Hno; [lia|done].
Qed.

Lemma find_no_loc6 c a :
  no_loc6 c a →
  List.find (fun i => ipv6_addr_equal (loc6_addr (mpcb_addr6 c !!! i)) a)
            (mptcp_for_each_bit_set (loc6_bits c)) = None.
Proof.
  intros Hno. unfold mptcp_for_each_bit_set. rewrite find_filter.
  apply find_seq_None. intros j Hj.
  destruct (bit_set (loc6_bits c) j) eqn:Hbj; [|done]. simpl.
  apply not_true_is_false. intros He%ipv6_addr_equal_spec.
  by apply (Hno j); [lia| |].
Qed.

Lemma mk_mpcb_eta c :
  mk_mpcb (meta_sk c) (mpcb_loc_key c) (mpcb_rem_key c) (rx_opt c)
          (loc4_bits c) (mpcb_addr4 c) (next_v4_index c)
          (loc6_bits c) (mpcb_addr6 c) (next_v6_index c)
          (remove_addrs c) (connection_list c) = c.
Proof. by destruct c. Qed.

Lemma addr_event_sk_loop_other bound evt nlp sks :
  is_NETDEV_DOWN evt = false → is_NETDEV_CHANGE evt = false →
  addr_event_sk_loop bound evt nlp sks = (sks, []).
Proof.
  intros Hd Hc. induction sks as [|sk sks IH]; simpl; [done|].
  rewrite IH, Hd, Hc. by destruct (bound sk).
Qed.

Lemma addr_event_sk_loop_change bound nlp sks :
  (addr_event_sk_loop bound NETDEV_CHANGE nlp sks).2 = [] ∧
  Forall2 (prio_changed bound nlp) sks (addr_event_sk_loop bound NETDEV_CHANGE nlp sks).1.
Proof.
  induction sks as [|sk sks [IHt IHl]]; simpl; [by split|].
  destruct (addr_event_sk_loop bound NETDEV_CHANGE nlp sks) as [rest tr].
  simpl in IHt, IHl. subst tr.
  destruct (bound sk) eqn:Hb; simpl; (split; [done|]); constructor; try done.
  - unfold prio_changed. rewrite Hb. simpl. split; [done|]. split; [|done].
    by destruct (Bool.eqb nlp (sf_low_prio sk)), (sf_send_mp_prio sk).
  - unfold prio_changed. by rewrite Hb.
Qed.

(** X14. The address handlers do nothing at all in three cases: the
    address fails the checks at their head; the address is in no local
    slot and the event is not an UP or CHANGE of a running device; the
    address is already in a local slot and the event is neither DOWN nor
    CHANGE (an UP for a known address, or any other event). *)
Theorem addr_event_handler_ignores :
  (∀ K ack_sk ifa evt c,
     ¬ passes_checks4 K ifa →
     mptcp_pm_addr4_event_handler K ack_sk ifa evt c = (c, [])) ∧
  (∀ K ack_sk ifa evt c,
     passes_checks4 K ifa → no_loc4 c (ifa_local ifa) →
     evt = NETDEV_DOWN ∨ evt = NETDEV_OTHER ∨ ifa_dev_running ifa = false →
     mptcp_pm_addr4_event_handler K ack_sk ifa evt c = (c, [])) ∧
  (∀ K ack_sk ifa evt c i,
     passes_checks4 K ifa → occupies_loc4 c (ifa_local ifa) i →
     evt = NETDEV_UP ∨ evt = NETDEV_OTHER →
     mptcp_pm_addr4_event_handler K ack_sk ifa evt c = (c, [])) ∧
  (∀ K ack_sk ifa evt c,
     ¬ passes_checks6 K ifa →
     mptcp_pm_addr6_event_handler K ack_sk ifa evt c = (c, [])) ∧
  (∀ K ack_sk ifa evt c,
     passes_checks6 K ifa → no_loc6 c (ifa6_addr ifa) →
     evt = NETDEV_DOWN ∨ evt = NETDEV_OTHER ∨ ifa6_dev_running ifa = false →
     mptcp_pm_addr6_event_handler K ack_sk ifa evt c = (c, [])) ∧
  (∀ K ack_sk ifa evt c i,
     passes_checks6 K ifa → occupies_loc6 c (ifa6_addr ifa) i →
     evt = NETDEV_UP ∨ evt = NETDEV_OTHER →
     mptcp_pm_addr6_event_handler K ack_sk ifa evt c = (c, [])).
Proof.
  split; [|split; [|split; [|split; [|split]]]].
  - intros K ack_sk ifa evt c Hn. unfold mptcp_pm_addr4_event_handler.
    destruct (_ || _) eqn:Ht; [done|]. by apply passes_checks4_test in Ht.
  - intros K ack_sk ifa evt c Hp Hno Hevt. unfold mptcp_pm_addr4_event_handler.
    rewrite (proj1 (passes_checks4_test K ifa) Hp), (find_no_loc4 _ _ Hno).
    destruct Hevt as [-> | [-> | ->]]; [done|done|]. by rewrite andb_false_r.
  - intros K ack_sk ifa evt c i Hp Hocc Hevt. unfold mptcp_pm_addr4_event_handler.
    rewrite (proj1 (passes_checks4_test K ifa) Hp), (find_loc4 _ _ _ Hocc).
    rewrite addr_event_sk_loop_other by (by destruct Hevt as [->| ->]).
    replace (is_NETDEV_DOWN evt) with false by (by destruct Hevt as [->| ->]).
    by rewrite mk_mpcb_eta.
  - intros K ack_sk ifa evt c Hn. unfold mptcp_pm_addr6_event_handler.
    destruct (_ || _) eqn:Ht; [done|]. by apply passes_checks6_test in Ht.
  - intros K ack_sk ifa evt c Hp Hno Hevt. unfold mptcp_pm_addr6_event_handler.
    rewrite (proj1 (passes_checks6_test K ifa) Hp), (find_no_loc6 _ _ Hno).
    destruct Hevt as [-> | [-> | ->]]; [done|done|]. by rewrite andb_false_r.
  - intros K ack_sk ifa evt c i Hp Hocc Hevt. unfold mptcp_pm_addr6_event_handler.
    rewrite (proj1 (passes_checks6_test K ifa) Hp), (find_loc6 _ _ _ Hocc).
    rewrite addr_event_sk_loop_other by (by destruct Hevt as [->| ->]).
    replace (is_NETDEV_DOWN evt) with false by (by destruct Hevt as [->| ->]).
    by rewrite mk_mpcb_eta.
Qed.
Lemma addr_event_handler_ignores_witness :
  mptcp_pm_addr4_event_handler kernel_example None ifa_eth1_nomultipath NETDEV_DOWN mpcb_s5
    = (mpcb_s5, []) ∧
  mptcp_pm_addr4_event_handler kernel_example None (mk_ifa 0 ip_10_0_0_99 0x1043 true)
    NETDEV_DOWN mpcb_s5 = (mpcb_s5, []) ∧
  mptcp_pm_addr4_event_handler kernel_example None ifa_eth1 NETDEV_UP mpcb_s5
    = (mpcb_s5, []) ∧
  mptcp_pm_addr6_event_handler kernel_example None ifa6_eth1_nomultipath NETDEV_DOWN mpcb6_s5
    = (mpcb6_s5, []) ∧
  mptcp_pm_addr6_event_handler kernel_example None (mk_ifa6 0 ip6_2001_db8__99 0x1043 true)
    NETDEV_DOWN mpcb6_s5 = (mpcb6_s5, []) ∧
  mptcp_pm_addr6_event_handler kernel_example None ifa6_eth1 NETDEV_UP mpcb6_s5
    = (mpcb6_s5, []).
Proof.
  destruct addr_event_handler_ignores as (H1 & H2 & H3 & H4 & H5 & H6).
  split; [|split; [|split; [|split; [|split]]]].
  - apply H1. intros [_ H]. vm_compute in H. discriminate H.
  - apply H2; [split; [vm_compute; discriminate|vm_compute; reflexivity]| |by left].
    intros j Hj Hb.
    each_slot j Hj ltac:(first [vm_compute in Hb; discriminate Hb
                               |vm_compute; discriminate]).
  - apply (H3 _ _ _ _ _ 3%nat);
      [split; [vm_compute; discriminate|vm_compute; reflexivity]| |by left].
    split; [unfold MPTCP_MAX_ADDR; lia|]. split; [vm_compute; reflexivity|].
    split; [vm_compute; reflexivity|]. intros j Hj Hb.
    do 3 (destruct j as [|j]; [first [vm_compute in Hb; discriminate Hb
                                     |vm_compute; discriminate]|]).
    exfalso. clear - Hj. lia.
  - apply H4. intros (_ & H & _). vm_compute in H. discriminate H.
  - apply H5; [| |by left].
    + split; [vm_compute; discriminate|]. split; [vm_compute; reflexivity|].
      split; [vm_compute; discriminate|]. split; vm_compute; reflexivity.
    + intros j Hj Hb.
      each_slot j Hj ltac:(first [vm_compute in Hb; discriminate Hb
                                 |vm_compute; discriminate]).
  - apply (H6 _ _ _ _ _ 1%nat); [| |by left].
    + split; [vm_compute; discriminate|]. split; [vm_compute; reflexivity|].
      split; [vm_compute; discriminate|]. split; vm_compute; reflexivity.
    + split; [unfold MPTCP_MAX_ADDR; lia|]. split; [vm_compute; reflexivity|].
      split; [vm_compute; reflexivity|]. intros j Hj Hb.
      destruct j as [|j]; [vm_compute in Hb; discriminate Hb|]. exfalso. clear - Hj. lia.
Defined.

(** X15. On NETDEV_CHANGE for an address that is in a local slot, the
    handlers give every subflow bound to the address the device's backup
    flag as its priority, raising [send_mp_prio] when that changes the
    priority, leave every other subflow and every other field of the
    control block as they were, and make no call. *)
Theorem addr_event_change_sets_priority :
  (∀ K ack_sk ifa c i,
     passes_checks4 K ifa → occupies_loc4 c (ifa_local ifa) i →
     let r := mptcp_pm_addr4_event_handler K ack_sk ifa NETDEV_CHANGE c in
     Forall2 (prio_changed (bound4 ifa)
                (negb (Z.land (ifa_dev_flags ifa) (IFF_MPBACKUP K) =? 0)))
             (connection_list c) (connection_list r.1) ∧
     only_connection_list c r.1 ∧ r.2 = []) ∧
  (∀ K ack_sk ifa c i,
     passes_checks6 K ifa → occupies_loc6 c (ifa6_addr ifa) i →
     let r := mptcp_pm_addr6_event_handler K ack_sk ifa NETDEV_CHANGE c in
     Forall2 (prio_changed (bound6 ifa)
                (negb (Z.land (ifa6_dev_flags ifa) (IFF_MPBACKUP K) =? 0)))
             (connection_list c) (connection_list r.1) ∧
     only_connection_list c r.1 ∧ r.2 = []).
Proof.
  split.
  - intros K ack_sk ifa c i Hp Hocc. unfold mptcp_pm_addr4_event_handler.
    rewrite (proj1 (passes_checks4_test K ifa) Hp), (find_loc4 _ _ _ Hocc).
    destruct (addr_event_sk_loop_change (bound4 ifa)
                (negb (Z.land (ifa_dev_flags ifa) (IFF_MPBACKUP K) =? 0))
                (connection_list c)) as [Ht Hl].
    unfold bound4 in Ht, Hl. destruct (addr_event_sk_loop _ _ _ _) as [sks tr].
    simpl in Ht, Hl. subst tr. by simpl.
  - intros K ack_sk ifa c i Hp Hocc. unfold mptcp_pm_addr6_event_handler.
    rewrite (proj1 (passes_checks6_test K ifa) Hp), (find_loc6 _ _ _ Hocc).
    destruct (addr_event_sk_loop_change (bound6 ifa)
                (negb (Z.land (ifa6_dev_flags ifa) (IFF_MPBACKUP K) =? 0))
                (connection_list c)) as [Ht Hl].
    unfold bound6 in Ht, Hl. destruct (addr_event_sk_loop _ _ _ _) as [sks tr].
    simpl in Ht, Hl. subst tr. by simpl.
Qed.
Lemma addr_event_change_sets_priority_witness :
  (let ifa := mk_ifa 0 ip_192_168_1_5 0x41043 true in
   let r := mptcp_pm_addr4_event_handler kernel_example None ifa NETDEV_CHANGE mpcb_s5 in
   Forall2 (prio_changed (bound4 ifa) true) (connection_list mpcb_s5)
           (connection_list r.1) ∧
   only_connection_list mpcb_s5 r.1 ∧ r.2 = []) ∧
  (let ifa := mk_ifa6 0 ip6_2001_db8__2 0x41043 true in
   let r := mptcp_pm_addr6_event_handler kernel_example None ifa NETDEV_CHANGE mpcb6_s5 in
   Forall2 (prio_changed (bound6 ifa) true) (connection_list mpcb6_s5)
           (connection_list r.1) ∧
   only_connection_list mpcb6_s5 r.1 ∧ r.2 = []).
Proof.
  destruct addr_event_change_sets_priority as [H4 H6]. split.
  - apply (H4 kernel_example None (mk_ifa 0 ip_192_168_1_5 0x41043 true) mpcb_s5 3%nat).
    + split; [vm_compute; discriminate|vm_compute; reflexivity].
    + split; [unfold MPTCP_MAX_ADDR; lia|]. split; [vm_compute; reflexivity|].
      split; [vm_compute; reflexivity|]. intros j Hj Hb.
      do 3 (destruct j as [|j]; [first [vm_compute in Hb; discriminate Hb
                                       |vm_compute; discriminate]|]).
      exfalso. clear - Hj. lia.
  - apply (H6 kernel_example None (mk_ifa6 0 ip6_2001_db8__2 0x41043 true) mpcb6_s5 1%nat).
    + split; [vm_compute; discriminate|]. split; [vm_compute; reflexivity|].
      split; [vm_compute; discriminate|]. split; vm_compute; reflexivity.
    + split; [unfold MPTCP_MAX_ADDR; lia|]. split; [vm_compute; reflexivity|].
      split; [vm_compute; reflexivity|]. intros j Hj Hb.
      destruct j as [|j]; [vm_compute in Hb; discriminate Hb|]. exfalso. clear - Hj. lia.
Defined.

Lemma Forall2_map_eq {A B} (f : A → B) (l : list A) :
  Forall2 (fun x y => y = f x) l (map f l).
Proof. induction l as [|x l IH]; simpl; by constructor. Qed.

Lemma handler4_up K ack_sk ifa evt c i :
  passes_checks4 K ifa → no_loc4 c (ifa_local ifa) →
  evt = NETDEV_UP ∨ evt = NETDEV_CHANGE → ifa_dev_running ifa = true →
  __mptcp_find_free_index (loc4_bits c) 0 (next_v4_index c) = Some i →
  (i < MPTCP_MAX_ADDR)%nat → length (mpcb_addr4 c) = MPTCP_MAX_ADDR →
  let r := mptcp_pm_addr4_event_handler K ack_sk ifa evt c in
  loc4_registered c r.1 (ifa_local ifa) i ∧ r.2 = [Ev_mptcp_create_subflows (meta_sk c)].
Proof.
  intros Hp Hno Hevt Hrun Hfree Hi Hlen. unfold mptcp_pm_addr4_event_handler.
  rewrite (proj1 (passes_checks4_test K ifa) Hp), (find_no_loc4 _ _ Hno), Hrun, Hfree.
  replace (is_NETDEV_UP evt || is_NETDEV_CHANGE evt) with true
    by (by destruct Hevt as [-> | ->]).
  simpl. split; [|done].
  unfold loc4_registered, occupies_loc4, mptcp_v4_send_add_addr. simpl.
  assert (Hset : ∀ j, (j < MPTCP_MAX_ADDR)%nat → j ≠ i →
            bit_set (u16 (Z.lor (loc4_bits c) (Z.shiftl 1 (Z.of_nat i)))) j =
            bit_set (loc4_bits c) j).
  { intros j Hj Hne. rewrite bit_set_set.
    replace (i =? j)%nat with false by (symmetry; apply Nat.eqb_neq; lia).
    replace (j <? 16)%nat with true by (symmetry; apply Nat.ltb_lt; exact Hj).
    by rewrite orb_false_r, andb_true_r. }
  split.
  { split; [done|]. split.
    { rewrite bit_set_set, Nat.eqb_refl, orb_true_r. by apply Nat.ltb_lt. }
    split; [by rewrite list_lookup_total_insert_eq by (rewrite Hlen; done)|].
    intros j Hj Hb. rewrite Hset in Hb by lia.
    rewrite list_lookup_total_insert_ne by lia. apply Hno; [lia|done]. }
  split; [by rewrite list_lookup_total_insert_eq by (rewrite Hlen; done)|].
  split.
  { intros j Hj Hne. split; [by apply Hset|]. by rewrite list_lookup_total_insert_ne. }
  split; [done|]. split.
  { apply List.Forall_forall. intros sk Hin. apply in_map_iff in Hin as (sk0 & <- & _). simpl.
    apply testbit_u16_set. unfold MPTCP_MAX_ADDR in Hi. lia. }
  split; [rewrite map_map; by apply map_ext|].
  split_and!; try done. apply Forall2_map_eq.
Qed.

Lemma handler6_up K ack_sk ifa evt c i :
  passes_checks6 K ifa → no_loc6 c (ifa6_addr ifa) →
  evt = NETDEV_UP ∨ evt = NETDEV_CHANGE → ifa6_dev_running ifa = true →
  __mptcp_find_free_index (loc6_bits c) 0 (next_v6_index c) = Some i →
  (i < MPTCP_MAX_ADDR)%nat → length (mpcb_addr6 c) = MPTCP_MAX_ADDR →
  let r := mptcp_pm_addr6_event_handler K ack_sk ifa evt c in
  loc6_registered c r.1 (ifa6_addr ifa) i ∧ r.2 = [Ev_mptcp_create_subflows (meta_sk c)].
Proof.
  intros Hp Hno Hevt Hrun Hfree Hi Hlen. unfold mptcp_pm_addr6_event_handler.
  rewrite (proj1 (passes_checks6_test K ifa) Hp), (find_no_loc6 _ _ Hno), Hrun, Hfree.
  replace (is_NETDEV_UP evt || is_NETDEV_CHANGE evt) with true
    by (by destruct Hevt as [-> | ->]).
  simpl. split; [|done].
  unfold loc6_registered, occupies_loc6, mptcp_v6_send_add_addr. simpl.
  assert (Hset : ∀ j, (j < MPTCP_MAX_ADDR)%nat → j ≠ i →
            bit_set (u16 (Z.lor (loc6_bits c) (Z.shiftl 1 (Z.of_nat i)))) j =
            bit_set (loc6_bits c) j).
  { intros j Hj Hne. rewrite bit_set_set.
    replace (i =? j)%nat with false by (symmetry; apply Nat.eqb_neq; lia).
    replace (j <? 16)%nat with true by (symmetry; apply Nat.ltb_lt; exact Hj).
    by rewrite orb_false_r, andb_true_r. }
  split.
  { split; [done|]. split.
    { rewrite bit_set_set, Nat.eqb_refl, orb_true_r. by apply Nat.ltb_lt. }
    split; [by rewrite list_lookup_total_insert_eq by (rewrite Hlen; done)|].
    intros j Hj Hb. rewrite Hset in Hb by lia.
    rewrite list_lookup_total_insert_ne by lia. apply Hno; [lia|done]. }
  split; [by rewrite list_lookup_total_insert_eq by (rewrite Hlen; done)|].
  split.
  { intros j Hj Hne. split; [by apply Hset|]. by rewrite list_lookup_total_insert_ne. }
  split; [done|]. split.
  { apply List.Forall_forall. intros sk Hin. apply in_map_iff in Hin as (sk0 & <- & _). simpl.
    apply testbit_u16_set. unfold MPTCP_MAX_ADDR in Hi. lia. }
  split; [rewrite map_map; by apply map_ext|].
  split_and!; try done. apply Forall2_map_eq.
Qed.

Lemma Forall2_fun_eq {A B} (f : A → B) (l : list A) (l1 l2 : list B) :
  Forall2 (fun x y => y = f x) l l1 → Forall2 (fun x y => y = f x) l l2 → l1 = l2.
Proof.
  intros H1. revert l2. induction H1 as [|x y l l1 -> _ IH]; intros l2 H2.
  - by inversion H2.
  - inversion H2 as [|? y2 ? l2' -> Hl2]; subst. f_equal. by apply IH.
Qed.

(** The registration clauses leave no field of the control block free:
    two results that both satisfy them are equal. *)
Lemma loc4_registered_det c c1 c2 a i :
  loc4_registered c c1 a i → loc4_registered c c2 a i → c1 = c2.
Proof.
  unfold loc4_registered.
  intros (_ & _ & _ & Hn1 & _ & _ & Hrx1 & Hra1 & Hb61 & Ha61 & Hn61 & Hm1 & Hlk1 & Hrk1 &
          Hb1 & Ha1 & Hs1)
         (_ & _ & _ & Hn2 & _ & _ & Hrx2 & Hra2 & Hb62 & Ha62 & Hn62 & Hm2 & Hlk2 & Hrk2 &
          Hb2 & Ha2 & Hs2).
  pose proof (Forall2_fun_eq _ _ _ _ Hs1 Hs2) as Hs.
  destruct c1, c2; simpl in *. congruence.
Qed.

Lemma loc6_registered_det c c1 c2 a i :
  loc6_registered c c1 a i → loc6_registered c c2 a i → c1 = c2.
Proof.
  unfold loc6_registered.
  intros (_ & _ & _ & Hn1 & _ & _ & Hrx1 & Hra1 & Hb61 & Ha61 & Hn61 & Hm1 & Hlk1 & Hrk1 &
          Hb1 & Ha1 & Hs1)
         (_ & _ & _ & Hn2 & _ & _ & Hrx2 & Hra2 & Hb62 & Ha62 & Hn62 & Hm2 & Hlk2 & Hrk2 &
          Hb2 & Ha2 & Hs2).
  pose proof (Forall2_fun_eq _ _ _ _ Hs1 Hs2) as Hs.
  destruct c1, c2; simpl in *. congruence.
Qed.

(** X16. An UP (or CHANGE) event of a running device for an address that
    passes the checks and is in no local slot registers the address in the
    slot [i] that [__mptcp_find_free_index] returns: afterwards the slot is
    populated and is the one a search for the address finds, its id is [i]
    for IPv4 and [i + MPTCP_MAX_ADDR] for IPv6, the next search starts at
    [i + 1], bit [i] is pending in [add_addr4] ([add_addr6]) of every
    subflow, [mptcp_create_subflows] is the one call made, and every other
    slot and the rest of the control block are as before: the presence
    bits are the old ones with bit [i] ORed in, the array is the old one
    with entry [i] written, each subflow differs from what it was only in
    bit [i] of its pending set, and the meta socket, the keys, the remote
    registry, [remove_addrs] and the other family's bits, array and next
    index are unchanged. *)
Theorem addr_event_up_registers_address :
  (∀ K ack_sk ifa evt c i,
     passes_checks4 K ifa → no_loc4 c (ifa_local ifa) →
     evt = NETDEV_UP ∨ evt = NETDEV_CHANGE → ifa_dev_running ifa = true →
     __mptcp_find_free_index (loc4_bits c) 0 (next_v4_index c) = Some i →
     (i < MPTCP_MAX_ADDR)%nat → length (mpcb_addr4 c) = MPTCP_MAX_ADDR →
     let r := mptcp_pm_addr4_event_handler K ack_sk ifa evt c in
     loc4_registered c r.1 (ifa_local ifa) i ∧
     r.2 = [Ev_mptcp_create_subflows (meta_sk c)]) ∧
  (∀ K ack_sk ifa evt c i,
     passes_checks6 K ifa → no_loc6 c (ifa6_addr ifa) →
     evt = NETDEV_UP ∨ evt = NETDEV_CHANGE → ifa6_dev_running ifa = true →
     __mptcp_find_free_index (loc6_bits c) 0 (next_v6_index c) = Some i →
     (i < MPTCP_MAX_ADDR)%nat → length (mpcb_addr6 c) = MPTCP_MAX_ADDR →
     let r := mptcp_pm_addr6_event_handler K ack_sk ifa evt c in
     loc6_registered c r.1 (ifa6_addr ifa) i ∧
     r.2 = [Ev_mptcp_create_subflows (meta_sk c)]).
Proof. split; [exact handler4_up|exact handler6_up]. Qed.
Lemma addr_event_up_registers_address_witness :
  (let ifa := mk_ifa 0 ip_10_0_0_99 0x1043 true in
   let r := mptcp_pm_addr4_event_handler kernel_example None ifa NETDEV_UP mpcb_s5 in
   loc4_registered mpcb_s5 r.1 ip_10_0_0_99 4 ∧
   r.2 = [Ev_mptcp_create_subflows 1%positive]) ∧
  (let ifa := mk_ifa6 0 ip6_2001_db8__99 0x1043 true in
   let r := mptcp_pm_addr6_event_handler kernel_example None ifa NETDEV_UP mpcb6_s5 in
   loc6_registered mpcb6_s5 r.1 ip6_2001_db8__99 2 ∧
   r.2 = [Ev_mptcp_create_subflows 1%positive]).
Proof.
  destruct addr_event_up_registers_address as [H4 H6]. split.
  - apply (H4 kernel_example None (mk_ifa 0 ip_10_0_0_99 0x1043 true) NETDEV_UP mpcb_s5
              4%nat).
    + split; [vm_compute; discriminate|vm_compute; reflexivity].
    + intros j Hj Hb.
      each_slot j Hj ltac:(first [vm_compute in Hb; discriminate Hb
                                 |vm_compute; discriminate]).
    + by left.
    + reflexivity.
    + vm_compute. reflexivity.
    + unfold MPTCP_MAX_ADDR. lia.
    + vm_compute. reflexivity.
  - apply (H6 kernel_example None (mk_ifa6 0 ip6_2001_db8__99 0x1043 true) NETDEV_UP
              mpcb6_s5 2%nat).
    + split; [vm_compute; discriminate|]. split; [vm_compute; reflexivity|].
      split; [vm_compute; discriminate|]. split; vm_compute; reflexivity.
    + intros j Hj Hb.
      each_slot j Hj ltac:(first [vm_compute in Hb; discriminate Hb
                                 |vm_compute; discriminate]).
    + by left.
    + reflexivity.
    + vm_compute. reflexivity.
    + unfold MPTCP_MAX_ADDR. lia.
    + vm_compute. reflexivity.
Defined.

Lemma u16_small (b : Z) : 0 ≤ b < 2 ^ 16 → u16 b = b.
Proof. intros Hb. unfold u16. rewrite Z.land_ones by lia. by apply Z.mod_small. Qed.

Lemma u16_set_clear (b : Z) (i : nat) :
  0 ≤ b < 2 ^ 16 → bit_set b i = false →
  u16 (Z.land (u16 (Z.lor b (Z.shiftl 1 (Z.of_nat i)))) (Z.lnot (Z.shiftl 1 (Z.of_nat i))))
  = b.
Proof.
  intros Hb Hi. apply Z.bits_inj'. intros n Hn.
  replace n with (Z.of_nat (Z.to_nat n)) by lia. set (k := Z.to_nat n).
  change (bit_set (u16 (Z.land (u16 (Z.lor b (Z.shiftl 1 (Z.of_nat i))))
                               (Z.lnot (Z.shiftl 1 (Z.of_nat i))))) k = bit_set b k).
  assert (Hk : bit_set b k = bit_set b k && (k <? 16)%nat)
    by (by rewrite <- testbit_u16, u16_small).
  rewrite bit_set_clear, bit_set_set.
  destruct (Nat.eqb_spec i k) as [<-|Hne].
  - by rewrite Hi, !andb_false_r.
  - simpl. rewrite orb_false_r, andb_true_r, <- Hk. symmetry. exact Hk.
Qed.

Lemma handler4_down_loc K ack_sk ifa c i :
  passes_checks4 K ifa → occupies_loc4 c (ifa_local ifa) i →
  let r := mptcp_pm_addr4_event_handler K ack_sk ifa NETDEV_DOWN c in
  loc4_bits r.1 = u16 (Z.land (loc4_bits c) (Z.lnot (Z.shiftl 1 (Z.of_nat i)))) ∧
  mpcb_addr4 r.1 = mpcb_addr4 c ∧
  remove_addrs r.1 =
    u32 (Z.lor (remove_addrs c) (Z.shiftl 1 (loc4_id (mpcb_addr4 c !!! i)))).
Proof.
  intros Hp Hocc. unfold mptcp_pm_addr4_event_handler.
  rewrite (proj1 (passes_checks4_test K ifa) Hp), (find_loc4 _ _ _ Hocc).
  destruct (addr_event_sk_loop _ _ _ _) as [sks tr]. by simpl.
Qed.

Lemma handler6_down_loc K ack_sk ifa c i :
  passes_checks6 K ifa → occupies_loc6 c (ifa6_addr ifa) i →
  let r := mptcp_pm_addr6_event_handler K ack_sk ifa NETDEV_DOWN c in
  loc6_bits r.1 = u16 (Z.land (loc6_bits c) (Z.lnot (Z.shiftl 1 (Z.of_nat i)))) ∧
  mpcb_addr6 r.1 = mpcb_addr6 c ∧
  remove_addrs r.1 =
    u32 (Z.lor (remove_addrs c) (Z.shiftl 1 (loc6_id (mpcb_addr6 c !!! i)))).
Proof.
  intros Hp Hocc. unfold mptcp_pm_addr6_event_handler.
  rewrite (proj1 (passes_checks6_test K ifa) Hp), (find_loc6 _ _ _ Hocc).
  destruct (addr_event_sk_loop _ _ _ _) as [sks tr]. by simpl.
Qed.

(** X17. Registering an address and taking it down again restores the
    set of local addresses: when an UP (or CHANGE) event has put a new
    address in a free local slot [i], a following NETDEV_DOWN for the same
    address leaves [loc4_bits] ([loc6_bits]) as it was before the first
    event, with the address in no populated slot, and has set the bit of
    the id that had been assigned ([i], or [i + MPTCP_MAX_ADDR] for IPv6)
    in [remove_addrs]. *)
Theorem addr_event_up_then_down :
  (∀ K ack_sk ifa evt c i,
     passes_checks4 K ifa → no_loc4 c (ifa_local ifa) →
     evt = NETDEV_UP ∨ evt = NETDEV_CHANGE → ifa_dev_running ifa = true →
     __mptcp_find_free_index (loc4_bits c) 0 (next_v4_index c) = Some i →
     (i < MPTCP_MAX_ADDR)%nat → bit_set (loc4_bits c) i = false →
     length (mpcb_addr4 c) = MPTCP_MAX_ADDR → 0 ≤ loc4_bits c < 2 ^ 16 →
     let c1 := (mptcp_pm_addr4_event_handler K ack_sk ifa evt c).1 in
     let c2 := (mptcp_pm_addr4_event_handler K ack_sk ifa NETDEV_DOWN c1).1 in
     loc4_bits c2 = loc4_bits c ∧ no_loc4 c2 (ifa_local ifa) ∧
     remove_addrs c2 = u32 (Z.lor (remove_addrs c) (Z.shiftl 1 (Z.of_nat i)))) ∧
  (∀ K ack_sk ifa evt c i,
     passes_checks6 K ifa → no_loc6 c (ifa6_addr ifa) →
     evt = NETDEV_UP ∨ evt = NETDEV_CHANGE → ifa6_dev_running ifa = true →
     __mptcp_find_free_index (loc6_bits c) 0 (next_v6_index c) = Some i →
     (i < MPTCP_MAX_ADDR)%nat → bit_set (loc6_bits c) i = false →
     length (mpcb_addr6 c) = MPTCP_MAX_ADDR → 0 ≤ loc6_bits c < 2 ^ 16 →
     let c1 := (mptcp_pm_addr6_event_handler K ack_sk ifa evt c).1 in
     let c2 := (mptcp_pm_addr6_event_handler K ack_sk ifa NETDEV_DOWN c1).1 in
     loc6_bits c2 = loc6_bits c ∧ no_loc6 c2 (ifa6_addr ifa) ∧
     remove_addrs c2 =
       u32 (Z.lor (remove_addrs c)
                  (Z.shiftl 1 (Z.of_nat i + Z.of_nat MPTCP_MAX_ADDR)))).
Proof.
  split.
  - intros K ack_sk ifa evt c i Hp Hno Hevt Hrun Hfree Hi Hclear Hlen Hrange c1 c2.
    destruct (handler4_up K ack_sk ifa evt c i Hp Hno Hevt Hrun Hfree Hi Hlen)
      as [(Hocc & Hid & Hother & _ & _ & _ & _ & Hrem & _) _].
    fold c1 in Hocc, Hid, Hother, Hrem.
    destruct (handler4_down_loc K ack_sk ifa c1 i Hp Hocc) as (Hbits & Haddr & Hrm).
    fold c2 in Hbits, Haddr, Hrm.
    assert (Hb1 : loc4_bits c1 = u16 (Z.lor (loc4_bits c) (Z.shiftl 1 (Z.of_nat i)))).
    { subst c1. unfold mptcp_pm_addr4_event_handler.
      rewrite (proj1 (passes_checks4_test K ifa) Hp), (find_no_loc4 _ _ Hno), Hrun, Hfree.
      by replace (is_NETDEV_UP evt || is_NETDEV_CHANGE evt) with true
        by (by destruct Hevt as [-> | ->]). }
    assert (Hbits2 : loc4_bits c2 = loc4_bits c)
      by (rewrite Hbits, Hb1; by apply u16_set_clear).
    split; [exact Hbits2|]. split.
    + intros j Hj Hb. rewrite Hbits2 in Hb. rewrite Haddr.
      assert (j ≠ i) by (intros ->; congruence).
      destruct (Hother j Hj) as [_ ->]; [done|]. by apply Hno.
    + by rewrite Hrm, Hid, Hrem.
  - intros K ack_sk ifa evt c i Hp Hno Hevt Hrun Hfree Hi Hclear Hlen Hrange c1 c2.
    destruct (handler6_up K ack_sk ifa evt c i Hp Hno Hevt Hrun Hfree Hi Hlen)
      as [(Hocc & Hid & Hother & _ & _ & _ & _ & Hrem & _) _].
    fold c1 in Hocc, Hid, Hother, Hrem.
    destruct (handler6_down_loc K ack_sk ifa c1 i Hp Hocc) as (Hbits & Haddr & Hrm).
    fold c2 in Hbits, Haddr, Hrm.
    assert (Hb1 : loc6_bits c1 = u16 (Z.lor (loc6_bits c) (Z.shiftl 1 (Z.of_nat i)))).
    { subst c1. unfold mptcp_pm_addr6_event_handler.
      rewrite (proj1 (passes_checks6_test K ifa) Hp), (find_no_loc6 _ _ Hno), Hrun, Hfree.
      by replace (is_NETDEV_UP evt || is_NETDEV_CHANGE evt) with true
        by (by destruct Hevt as [-> | ->]). }
    assert (Hbits2 : loc6_bits c2 = loc6_bits c)
      by (rewrite Hbits, Hb1; by apply u16_set_clear).
    split; [exact Hbits2|]. split.
    + intros j Hj Hb. rewrite Hbits2 in Hb. rewrite Haddr.
      assert (j ≠ i) by (intros ->; congruence).
      destruct (Hother j Hj) as [_ ->]; [done|]. by apply Hno.
    + by rewrite Hrm, Hid, Hrem.
Qed.

Lemma addr_event_up_then_down_witness :
  (let ifa := mk_ifa 0 ip_10_0_0_99 0x1043 true in
   let c1 := (mptcp_pm_addr4_event_handler kernel_example None ifa NETDEV_UP mpcb_s5).1 in
   let c2 := (mptcp_pm_addr4_event_handler kernel_example None ifa NETDEV_DOWN c1).1 in
   loc4_bits c2 = loc4_bits mpcb_s5 ∧ no_loc4 c2 ip_10_0_0_99 ∧
   remove_addrs c2 = u32 (Z.lor (remove_addrs mpcb_s5) (Z.shiftl 1 (Z.of_nat 4)))) ∧
  (let ifa := mk_ifa6 0 ip6_2001_db8__99 0x1043 true in
   let c1 := (mptcp_pm_addr6_event_handler kernel_example None ifa NETDEV_UP mpcb6_s5).1 in
   let c2 := (mptcp_pm_addr6_event_handler kernel_example None ifa NETDEV_DOWN c1).1 in
   loc6_bits c2 = loc6_bits mpcb6_s5 ∧ no_loc6 c2 ip6_2001_db8__99 ∧
   remove_addrs c2 =
     u32 (Z.lor (remove_addrs mpcb6_s5)
                (Z.shiftl 1 (Z.of_nat 2 + Z.of_nat MPTCP_MAX_ADDR)))).
Proof.
  destruct addr_event_up_then_down as [H4 H6]. split.
  - apply (H4 kernel_example None (mk_ifa 0 ip_10_0_0_99 0x1043 true) NETDEV_UP mpcb_s5
              4%nat).
    + split; [vm_compute; discriminate|vm_compute; reflexivity].
    + intros j Hj Hb.
      each_slot j Hj ltac:(first [vm_compute in Hb; discriminate Hb
                                 |vm_compute; discriminate]).
    + by left.
    + reflexivity.
    + vm_compute. reflexivity.
    + unfold MPTCP_MAX_ADDR. lia.
    + vm_compute. reflexivity.
    + vm_compute. reflexivity.
    + simpl. lia.
  - apply (H6 kernel_example None (mk_ifa6 0 ip6_2001_db8__99 0x1043 true) NETDEV_UP
              mpcb6_s5 2%nat).
    + split; [vm_compute; discriminate|]. split; [vm_compute; reflexivity|].
      split; [vm_compute; discriminate|]. split; vm_compute; reflexivity.
    + intros j Hj Hb.
      each_slot j Hj ltac:(first [vm_compute in Hb; discriminate Hb
                                 |vm_compute; discriminate]).
    + by left.
    + reflexivity.
    + vm_compute. reflexivity.
    + unfold MPTCP_MAX_ADDR. lia.
    + vm_compute. reflexivity.
    + vm_compute. reflexivity.
    + simpl. lia.
Defined.
(** ** The receive entry points *)

Lemma filter_kfree_join (tr : list event) :
  List.filter is_Rcv_kfree_skb (map Rcv_join tr) = [].
Proof. induction tr as [|e tr IH]; simpl; done. Qed.

Lemma filter_put_join sk (tr : list event) :
  List.filter (is_put_of sk) (map Rcv_join tr) = [].
Proof. induction tr as [|e tr IH]; simpl; done. Qed.

Lemma skb_consumed_join R (tr : list event) tr' :
  skb_consumed R (map Rcv_join tr ++ tr') = skb_consumed R tr'.
Proof. unfold skb_consumed. induction tr as [|e tr IH]; simpl; done. Qed.

Lemma do_rcv_no_join_accounting family R g meta mptcp_flags sk :
  let r := do_rcv_no_join family R g meta mptcp_flags in
  length (List.filter is_Rcv_kfree_skb (dr_trace r)) =
    (if skb_consumed R (dr_trace r) then 0 else 1)%nat ∧
  length (List.filter (is_put_of sk) (dr_trace r)) =
    (if decide (option_map lk_sk (re_lookup_established R) = Some sk) then 1 else 0)%nat ∧
  dr_mptcp_flags r = mptcp_flags ∧ dr_meta r = meta ∧ dr_global r = g ∧ dr_req r = None.
Proof.
  unfold do_rcv_no_join. destruct (re_lookup_established R) as [[p ism st]|]; simpl.
  - destruct ism, (is_TCP_TIME_WAIT st); simpl;
      destruct (Pos.eqb_spec p sk) as [->|Hne]; case_decide; simplify_eq; done.
  - done.
Qed.

Lemma do_rcv_child_accounting family R g meta child sk :
  let r := do_rcv_child family R g meta child in
  length (List.filter is_Rcv_kfree_skb (dr_trace r)) =
    (if skb_consumed R (dr_trace r) then 0 else 1)%nat ∧
  length (List.filter (is_put_of sk) (dr_trace r)) =
    (if decide (Some child = Some sk) then 1 else 0)%nat ∧
  dr_ret r = 0 ∧ dr_mptcp_flags r = 0 ∧ dr_meta r = meta ∧ dr_global r = g ∧
  dr_req r = None.
Proof.
  unfold do_rcv_child, skb_consumed.
  destruct (re_tcp_rcv_state_process R =? 0) eqn:Hp; simpl;
    destruct (Pos.eqb_spec child sk) as [->|Hne]; case_decide; simplify_eq; done.
Qed.

Lemma v4_do_rcv_accounting K R g meta skb mptcp_flags syn sk :
  let r := mptcp_v4_do_rcv K R g meta skb mptcp_flags syn in
  length (List.filter is_Rcv_kfree_skb (dr_trace r)) =
    (if skb_consumed R (dr_trace r) then 0 else 1)%nat ∧
  length (List.filter (is_put_of sk) (dr_trace r)) =
    (if decide (referenced_sock R mptcp_flags meta = Some sk) then 1 else 0)%nat ∧
  (if Z.land mptcp_flags (re_MPTCPHDR_JOIN R) =? 0
   then dr_mptcp_flags r = mptcp_flags ∧ dr_meta r = meta ∧ dr_global r = g ∧
        dr_req r = None
   else dr_ret r = 0 ∧ dr_mptcp_flags r = 0).
Proof.
  unfold mptcp_v4_do_rcv, referenced_sock.
  destruct (Z.land mptcp_flags (re_MPTCPHDR_JOIN R) =? 0).
  { destruct (do_rcv_no_join_accounting AF_INET R g meta mptcp_flags sk)
      as (H1 & H2 & H3). done. }
  destruct (is_TCP_CLOSE (sk_state meta) || negb (inside_tk_table meta)).
  { simpl. repeat case_decide; by simplify_eq. }
  destruct (re_hnd_req R) as [| |child].
  - simpl. repeat case_decide; by simplify_eq.
  - destruct syn; [|simpl; repeat case_decide; by simplify_eq].
    destruct (mptcp_v4_add_raddress _ _ _ _) as [ret mopt].
    destruct (ret <? 0); [simpl; repeat case_decide; by simplify_eq|].
    destruct (mptcp_v4_join_request _ _ _ _ _) as [meta2 r]. simpl.
    rewrite !List.filter_app, filter_kfree_join, filter_put_join, skb_consumed_join. simpl.
    repeat case_decide; by simplify_eq.
  - destruct (do_rcv_child_accounting AF_INET R g meta child sk)
      as (H1 & H2 & H3 & H4 & _). done.
Qed.

Lemma v6_do_rcv_accounting K R g meta skb mptcp_flags syn sk :
  let r := mptcp_v6_do_rcv K R g meta skb mptcp_flags syn in
  length (List.filter is_Rcv_kfree_skb (dr_trace r)) =
    (if skb_consumed R (dr_trace r) then 0 else 1)%nat ∧
  length (List.filter (is_put_of sk) (dr_trace r)) =
    (if decide (referenced_sock R mptcp_flags meta = Some sk) then 1 else 0)%nat ∧
  (if Z.land mptcp_flags (re_MPTCPHDR_JOIN R) =? 0
   then dr_mptcp_flags r = mptcp_flags ∧ dr_meta r = meta ∧ dr_global r = g ∧
        dr_req r = None
   else dr_ret r = 0 ∧ dr_mptcp_flags r = 0).
Proof.
  unfold mptcp_v6_do_rcv, referenced_sock.
  destruct (Z.land mptcp_flags (re_MPTCPHDR_JOIN R) =? 0).
  { destruct (do_rcv_no_join_accounting AF_INET6 R g meta mptcp_flags sk)
      as (H1 & H2 & H3). done. }
  destruct (is_TCP_CLOSE (sk_state meta) || negb (inside_tk_table meta)).
  { simpl. repeat case_decide; by simplify_eq. }
  destruct (re_hnd_req R) as [| |child].
  - simpl. repeat case_decide; by simplify_eq.
  - destruct syn; [|simpl; repeat case_decide; by simplify_eq].
    destruct (mptcp_v6_add_raddress _ _ _ _) as [ret mopt].
    destruct (ret <? 0); [simpl; repeat case_decide; by simplify_eq|].
    destruct (mptcp_v6_join_request _ _ _ _ _) as [meta2 r]. simpl.
    rewrite !List.filter_app, filter_kfree_join, filter_put_join, skb_consumed_join. simpl.
    repeat case_decide; by simplify_eq.
  - destruct (do_rcv_child_accounting AF_INET6 R g meta child sk)
      as (H1 & H2 & H3 & H4 & _). done.
Qed.

(** X18. [mptcp_v4_do_rcv] and [mptcp_v6_do_rcv] free the segment exactly
    once unless they have handed it to a routine that keeps it
    ([tcp_vX_do_rcv], or [tcp_rcv_state_process] returning 0), in which
    case they never free it; they release the socket they hold a reference
    on (the one the lookup found, or the child that [tcp_vX_hnd_req]
    returned) exactly once and release no other socket; a segment without
    [MPTCPHDR_JOIN] leaves the meta socket, the request table and the
    segment's flags untouched; a segment with it always yields 0 and has
    its [mptcp_flags] cleared. *)
Theorem do_rcv_frees_and_releases_once :
  (∀ K R g meta skb mptcp_flags syn sk,
     let r := mptcp_v4_do_rcv K R g meta skb mptcp_flags syn in
     length (List.filter is_Rcv_kfree_skb (dr_trace r)) =
       (if skb_consumed R (dr_trace r) then 0 else 1)%nat ∧
     length (List.filter (is_put_of sk) (dr_trace r)) =
       (if decide (referenced_sock R mptcp_flags meta = Some sk) then 1 else 0)%nat ∧
     (if Z.land mptcp_flags (re_MPTCPHDR_JOIN R) =? 0
      then dr_mptcp_flags r = mptcp_flags ∧ dr_meta r = meta ∧ dr_global r = g ∧
           dr_req r = None
      else dr_ret r = 0 ∧ dr_mptcp_flags r = 0)) ∧
  (∀ K R g meta skb mptcp_flags syn sk,
     let r := mptcp_v6_do_rcv K R g meta skb mptcp_flags syn in
     length (List.filter is_Rcv_kfree_skb (dr_trace r)) =
       (if skb_consumed R (dr_trace r) then 0 else 1)%nat ∧
     length (List.filter (is_put_of sk) (dr_trace r)) =
       (if decide (referenced_sock R mptcp_flags meta = Some sk) then 1 else 0)%nat ∧
     (if Z.land mptcp_flags (re_MPTCPHDR_JOIN R) =? 0
      then dr_mptcp_flags r = mptcp_flags ∧ dr_meta r = meta ∧ dr_global r = g ∧
           dr_req r = None
      else dr_ret r = 0 ∧ dr_mptcp_flags r = 0)).
Proof. split; [exact v4_do_rcv_accounting|exact v6_do_rcv_accounting]. Qed.

Lemma set_mpcb_set_mpcb meta c c' : set_mpcb (set_mpcb meta c) c' = set_mpcb meta c'.
Proof. done. Qed.

Lemma v4_do_rcv_fast K R g meta skb mptcp_flags tmp_opt :
  Z.land mptcp_flags (re_MPTCPHDR_JOIN R) ≠ 0 → re_hnd_req R = Hnd_meta_sk →
  je_md5_configured (re_join R) && je_inbound_md5_hash (re_join R) = false →
  (∀ m, re_tcp_parse_options R m = (tmp_opt, m)) →
  mpj_addr_id tmp_opt = re_join_opt_addr_id R →
  let s := mptcp_v4_do_rcv K R g meta skb mptcp_flags true in
  let f := mptcp_v4_do_rcv_join_syn K (re_join R) g meta skb tmp_opt in
  dr_meta s = rr_meta f ∧ dr_global s = rr_global f ∧ dr_req s = rr_req f ∧
  dr_queued s = rr_queued f ∧
  (dr_trace s = map Rcv_join (rr_trace f) ++ [Rcv_kfree_skb] ∧
   forallb (fun e => negb (is_send_reset e)) (rr_trace f) = true ∨
   dr_trace s = [Rcv_send_reset AF_INET None; Rcv_kfree_skb] ∧
   rr_trace f = [Ev_tcp_v4_send_reset (ip_saddr skb) (ip_daddr skb)]).
Proof.
  intros Hflag Hhnd Hmd5 Hparse Hid.
  unfold mptcp_v4_do_rcv, mptcp_v4_do_rcv_join_syn, mptcp_v4_join_request.
  rewrite (proj2 (Z.eqb_neq _ _) Hflag), Hhnd, Hmd5, Hid.
  destruct (is_TCP_CLOSE (sk_state meta) || negb (inside_tk_table meta)).
  { simpl. split_and!; try done. by right. }
  destruct (mptcp_v4_add_raddress _ _ _ _) as [ret mopt].
  destruct (ret <? 0).
  { simpl. split_and!; try done. by right. }
  rewrite Hparse. cbv zeta. rewrite set_mpcb_rx_opt_id. simpl.
  split_and!; try done. left. split; [done|]. apply v4_join_accounting.
Qed.

Lemma v6_do_rcv_fast K R g meta skb mptcp_flags tmp_opt :
  Z.land mptcp_flags (re_MPTCPHDR_JOIN R) ≠ 0 → re_hnd_req R = Hnd_meta_sk →
  je_md5_configured (re_join R) && je_inbound_md5_hash (re_join R) = false →
  (∀ m, re_tcp_parse_options R m = (tmp_opt, m)) →
  mpj_addr_id tmp_opt = re_join_opt_addr_id R →
  let s := mptcp_v6_do_rcv K R g meta skb mptcp_flags true in
  let f := mptcp_v6_do_rcv_join_syn K (re_join R) g meta skb tmp_opt in
  dr_meta s = rr_meta f ∧ dr_global s = rr_global f ∧ dr_req s = rr_req f ∧
  dr_queued s = rr_queued f ∧
  (dr_trace s = map Rcv_join (rr_trace f) ++ [Rcv_kfree_skb] ∧
   forallb (fun e => negb (is_send_reset e)) (rr_trace f) = true ∨
   dr_trace s = [Rcv_send_reset AF_INET6 None; Rcv_kfree_skb] ∧
   rr_trace f = [Ev_tcp_v6_send_reset (ip6_saddr skb) (ip6_daddr skb)]).
Proof.
  intros Hflag Hhnd Hmd5 Hparse Hid.
  unfold mptcp_v6_do_rcv, mptcp_v6_do_rcv_join_syn, mptcp_v6_join_request.
  rewrite (proj2 (Z.eqb_neq _ _) Hflag), Hhnd, Hmd5, Hid.
  destruct (is_TCP_CLOSE (sk_state meta) || negb (inside_tk_table meta)).
  { simpl. split_and!; try done. by right. }
  destruct (mptcp_v6_add_raddress _ _ _ _) as [ret mopt].
  destruct (ret <? 0).
  { simpl. split_and!; try done. by right. }
  rewrite Hparse. cbv zeta. rewrite set_mpcb_rx_opt_id. simpl.
  split_and!; try done. left. split; [done|]. apply v6_join_accounting.
Qed.

(** X19. The slow path handles a new JOIN SYN as the fast path does.
    For a segment with [MPTCPHDR_JOIN] and SYN for which [tcp_vX_hnd_req]
    returns the meta socket, that passes the MD5 check of the fast path
    and whose options parse to [tmp_opt] without changing the registry,
    [mptcp_vX_do_rcv] leaves the same meta socket and request table and
    builds the same request as [mptcp_vX_do_rcv_join_syn] called with
    [tmp_opt]; its calls are those of the fast path followed by
    [kfree_skb], a reset being sent by one exactly when it is sent by the
    other. *)
Theorem do_rcv_join_syn_agrees_with_fast_path :
  (∀ K R g meta skb mptcp_flags tmp_opt,
     Z.land mptcp_flags (re_MPTCPHDR_JOIN R) ≠ 0 → re_hnd_req R = Hnd_meta_sk →
     je_md5_configured (re_join R) && je_inbound_md5_hash (re_join R) = false →
     (∀ m, re_tcp_parse_options R m = (tmp_opt, m)) →
     mpj_addr_id tmp_opt = re_join_opt_addr_id R →
     let s := mptcp_v4_do_rcv K R g meta skb mptcp_flags true in
     let f := mptcp_v4_do_rcv_join_syn K (re_join R) g meta skb tmp_opt in
     dr_meta s = rr_meta f ∧ dr_global s = rr_global f ∧ dr_req s = rr_req f ∧
     dr_queued s = rr_queued f ∧
     (dr_trace s = map Rcv_join (rr_trace f) ++ [Rcv_kfree_skb] ∧
      forallb (fun e => negb (is_send_reset e)) (rr_trace f) = true ∨
      dr_trace s = [Rcv_send_reset AF_INET None; Rcv_kfree_skb] ∧
      rr_trace f = [Ev_tcp_v4_send_reset (ip_saddr skb) (ip_daddr skb)])) ∧
  (∀ K R g meta skb mptcp_flags tmp_opt,
     Z.land mptcp_flags (re_MPTCPHDR_JOIN R) ≠ 0 → re_hnd_req R = Hnd_meta_sk →
     je_md5_configured (re_join R) && je_inbound_md5_hash (re_join R) = false →
     (∀ m, re_tcp_parse_options R m = (tmp_opt, m)) →
     mpj_addr_id tmp_opt = re_join_opt_addr_id R →
     let s := mptcp_v6_do_rcv K R g meta skb mptcp_flags true in
     let f := mptcp_v6_do_rcv_join_syn K (re_join R) g meta skb tmp_opt in
     dr_meta s = rr_meta f ∧ dr_global s = rr_global f ∧ dr_req s = rr_req f ∧
     dr_queued s = rr_queued f ∧
     (dr_trace s = map Rcv_join (rr_trace f) ++ [Rcv_kfree_skb] ∧
      forallb (fun e => negb (is_send_reset e)) (rr_trace f) = true ∨
      dr_trace s = [Rcv_send_reset AF_INET6 None; Rcv_kfree_skb] ∧
      rr_trace f = [Ev_tcp_v6_send_reset (ip6_saddr skb) (ip6_daddr skb)])).
Proof. split; [exact v4_do_rcv_fast|exact v6_do_rcv_fast]. Qed.

Lemma do_rcv_join_syn_agrees_with_fast_path_witness :
  (let s := mptcp_v4_do_rcv kernel_example rcv_env_example global_empty
              (meta_example mopt_empty) skb4_example 1 true in
   let f := mptcp_v4_do_rcv_join_syn kernel_example join_env_example global_empty
              (meta_example mopt_empty) skb4_example (opt_example 2) in
   dr_meta s = rr_meta f ∧ dr_global s = rr_global f ∧ dr_req s = rr_req f ∧
   dr_queued s = rr_queued f ∧
   (dr_trace s = map Rcv_join (rr_trace f) ++ [Rcv_kfree_skb] ∧
    forallb (fun e => negb (is_send_reset e)) (rr_trace f) = true ∨
    dr_trace s = [Rcv_send_reset AF_INET None; Rcv_kfree_skb] ∧
    rr_trace f = [Ev_tcp_v4_send_reset (ip_saddr skb4_example) (ip_daddr skb4_example)])) ∧
  (let s := mptcp_v6_do_rcv kernel_example rcv_env_example global_empty
              (meta_example mopt_empty) skb6_example 1 true in
   let f := mptcp_v6_do_rcv_join_syn kernel_example join_env_example global_empty
              (meta_example mopt_empty) skb6_example (opt_example 2) in
   dr_meta s = rr_meta f ∧ dr_global s = rr_global f ∧ dr_req s = rr_req f ∧
   dr_queued s = rr_queued f ∧
   (dr_trace s = map Rcv_join (rr_trace f) ++ [Rcv_kfree_skb] ∧
    forallb (fun e => negb (is_send_reset e)) (rr_trace f) = true ∨
    dr_trace s = [Rcv_send_reset AF_INET6 None; Rcv_kfree_skb] ∧
    rr_trace f = [Ev_tcp_v6_send_reset (ip6_saddr skb6_example) (ip6_daddr skb6_example)])).
Proof.
  destruct do_rcv_join_syn_agrees_with_fast_path as [H4 H6]. split.
  - apply (H4 kernel_example rcv_env_example global_empty (meta_example mopt_empty)
              skb4_example 1 (opt_example 2)).
    + vm_compute. discriminate.
    + reflexivity.
    + reflexivity.
    + intros m. reflexivity.
    + reflexivity.
  - apply (H6 kernel_example rcv_env_example global_empty (meta_example mopt_empty)
              skb6_example 1 (opt_example 2)).
    + vm_compute. discriminate.
    + reflexivity.
    + reflexivity.
    + intros m. reflexivity.
    + reflexivity.
Defined.
(** ** Module initialisation *)

Ltac pm_absurd H1 H2 H3 H4 :=
  first [by destruct H1|by destruct H2|discriminate H3|discriminate H4].

Ltac pm_solve :=
  simpl; unfold pm_nothing;
  let H1 := fresh in let H2 := fresh in let H3 := fresh in let H4 := fresh in
  let Hno := fresh in let He := fresh in
  split; [repeat constructor; simpl; congruence|];
  split;
  [intros (H1 & H2 & H3 & H4);
   first [pm_absurd H1 H2 H3 H4
         |repeat first [split|constructor]; simpl; congruence]
  |split;
   [intros Hno; first [done|exfalso; apply Hno; by eauto]
   |intros He; split;
    [intros ?; first [lia|by eauto]
    |intros (H1 & H2 & H3 & H4); first [pm_absurd H1 H2 H3 H4|done]]]].

Lemma pm_v4_init_outcome P ops :
  pm_init_outcome P (mptcp_pm_v4_init P ops) mptcp_pm_v4_undo.
Proof.
  unfold pm_init_outcome, mptcp_pm_v4_init, mptcp_pm_v4_undo, pm_calls_succeed, pm_holds.
  destruct (pe_kasprintf P) as [name|] eqn:Hk; [|pm_solve].
  destruct (pe_kmem_cache_create P) as [c|] eqn:Hc; [|pm_solve].
  destruct (pe_register_addr_notifier P) as [|r|r];
    destruct (pe_register_netdevice_notifier P) as [|r'|r']; pm_solve.
Qed.

Lemma pm_v6_init_outcome P ops :
  pm_init_outcome P (mptcp_pm_v6_init P ops) mptcp_pm_v6_undo.
Proof.
  unfold pm_init_outcome, mptcp_pm_v6_init, mptcp_pm_v6_undo, pm_calls_succeed, pm_holds.
  destruct (pe_kasprintf P) as [name|] eqn:Hk; [|pm_solve].
  destruct (pe_kmem_cache_create P) as [c|] eqn:Hc; [|pm_solve].
  destruct (pe_register_addr_notifier P) as [|r|r];
    destruct (pe_register_netdevice_notifier P) as [|r'|r']; pm_solve.
Qed.

(** X20. [mptcp_pm_v4_init] and [mptcp_pm_v6_init] acquire four things (the
    slab name, the slab cache and two notifier registrations) and keep all
    or none: when every step succeeds they return 0 holding all four, with
    [slab_name] and [slab] set to what was allocated, and the matching
    [mptcp_pm_vX_undo] then releases each exactly once; when a step fails
    everything acquired before it has been released again, nothing is
    released that is not held, and [slab_name] is NULL.  Every release is
    given the pointer this run allocated.  With a non-zero [ENOMEM] the
    value returned is 0 exactly when every step succeeded. *)
Theorem pm_init_keeps_all_or_nothing :
  (∀ P ops, pm_init_outcome P (mptcp_pm_v4_init P ops) mptcp_pm_v4_undo) ∧
  (∀ P ops, pm_init_outcome P (mptcp_pm_v6_init P ops) mptcp_pm_v6_undo).
Proof. split; [exact pm_v4_init_outcome|exact pm_v6_init_outcome]. Qed.

Lemma pm_init_keeps_all_or_nothing_witness :
  let ops := mk_slab_ops None None in
  ((mptcp_pm_v4_init pm_env_example ops).1.1 = 0 ∧
   pm_holds ((mptcp_pm_v4_init pm_env_example ops).2 ++
             mptcp_pm_v4_undo (mptcp_pm_v4_init pm_env_example ops).1.2) = pm_nothing) ∧
  (pm_holds (mptcp_pm_v6_init pm_env_netdev_fails ops).2 = pm_nothing ∧
   slab_name (mptcp_pm_v6_init pm_env_netdev_fails ops).1.2 = None).
Proof.
  intros ops. destruct pm_init_keeps_all_or_nothing as [H4 H6]. split.
  - pose proof (H4 pm_env_example ops) as H. unfold pm_init_outcome in H. simpl in H.
    destruct H as (_ & Hs & _).
    destruct Hs as (Hret & _ & _ & _ & _ & Hundo).
    { unfold pm_calls_succeed. simpl. by eauto. }
    split; [exact Hret|exact Hundo].
  - pose proof (H6 pm_env_netdev_fails ops) as H. unfold pm_init_outcome in H. simpl in H.
    destruct H as (_ & _ & Hf & _). apply Hf.
    unfold pm_calls_succeed. simpl. intros (_ & _ & _ & H). discriminate H.
Defined.
(** ** Duplicate address detection *)

Lemma dad_timer_runs_counts D handler_ret expiries :
  let tr := dad_timer_runs D handler_ret expiries in
  let n := (if dad_ends D expiries then 1 else 0)%nat in
  count_dad is_Dad_handler tr = n ∧ count_dad is_Dad_handler_not_UP tr = 0%nat ∧
  count_dad is_Dad_put tr = n ∧ count_dad is_Dad_kfree tr = n ∧
  count_dad is_Dad_hold tr = 0%nat ∧ count_dad is_Dad_kmalloc_ok tr = 0%nat.
Proof.
  induction expiries as [|[jiffies ifa] rest IH]; [done|].
  unfold dad_ends, mptcp_dad_callback, mptcp_pm_inet6_addr_event in *. simpl.
  unfold mptcp_dad_callback, mptcp_pm_inet6_addr_event.
  destruct (mptcp_ipv6_is_in_dad_state D ifa); simpl; [exact IH|done].
Qed.

(** X21. A tentative IPv6 address never reaches the address handler with
    the event that was reported.  When [mptcp_pm_inet6_addr_event] is
    given an address in the DAD state it returns [NOTIFY_DONE] without
    calling the handler; if the allocation of the timer fails nothing
    else happens, ever; otherwise one reference is taken on the address
    and the timer runs: the handler is called once, with [NETDEV_UP]
    whatever the event was, at the first expiry that finds the address out
    of the DAD state, and only then is the reference dropped and the
    timer's memory freed, once each. *)
Theorem dad_defers_and_reports_up D handler_ret kmalloc_ok jiffies evt ifa expiries :
  mptcp_ipv6_is_in_dad_state D ifa = true →
  let tr := dad_event_then_timers D handler_ret kmalloc_ok jiffies evt ifa expiries in
  let n := (if kmalloc_ok && dad_ends D expiries then 1 else 0)%nat in
  (mptcp_pm_inet6_addr_event D handler_ret kmalloc_ok jiffies evt ifa).1.1 = NOTIFY_DONE D ∧
  count_dad is_Dad_handler
    (mptcp_pm_inet6_addr_event D handler_ret kmalloc_ok jiffies evt ifa).2 = 0%nat ∧
  count_dad is_Dad_handler tr = n ∧ count_dad is_Dad_handler_not_UP tr = 0%nat ∧
  count_dad is_Dad_hold tr = (if kmalloc_ok then 1 else 0)%nat ∧
  count_dad is_Dad_kmalloc_ok tr = (if kmalloc_ok then 1 else 0)%nat ∧
  count_dad is_Dad_put tr = n ∧ count_dad is_Dad_kfree tr = n.
Proof.
  intros Hdad.
  unfold dad_event_then_timers, mptcp_pm_inet6_addr_event, mptcp_dad_setup_timer.
  rewrite Hdad. destruct kmalloc_ok; simpl; [|done].
  destruct (dad_timer_runs_counts D handler_ret expiries) as (H1 & H2 & H3 & H4 & H5 & H6).
  unfold count_dad in *. simpl. by rewrite H1, H2, H3, H4, H5, H6.
Qed.

Lemma dad_defers_and_reports_up_witness :
  let D := dad_consts_example in
  let expiries := [(350, dad_ifaddr_tentative); (600, dad_ifaddr_ready)] in
  let tr := dad_event_then_timers D 1 true 100 NETDEV_DOWN dad_ifaddr_tentative expiries in
  (mptcp_pm_inet6_addr_event D 1 true 100 NETDEV_DOWN dad_ifaddr_tentative).1.1
    = NOTIFY_DONE D ∧
  count_dad is_Dad_handler
    (mptcp_pm_inet6_addr_event D 1 true 100 NETDEV_DOWN dad_ifaddr_tentative).2 = 0%nat ∧
  count_dad is_Dad_handler tr = 1%nat ∧ count_dad is_Dad_handler_not_UP tr = 0%nat ∧
  count_dad is_Dad_hold tr = 1%nat ∧ count_dad is_Dad_kmalloc_ok tr = 1%nat ∧
  count_dad is_Dad_put tr = 1%nat ∧ count_dad is_Dad_kfree tr = 1%nat.
Proof.
  apply (dad_defers_and_reports_up dad_consts_example 1 true 100 NETDEV_DOWN
           dad_ifaddr_tentative [(350, dad_ifaddr_tentative); (600, dad_ifaddr_ready)]).
  reflexivity.
Defined.
(** ** Creation of an IPv6 subflow socket for an IPv4 meta socket *)

Ltac srs_counts :=
  unfold count_srs; rewrite ?List.filter_app; simpl;
  repeat match goal with
         | |- context [if ?b then _ else _] => destruct b; simpl
         end;
  done.

(** X22. [mptcp_v6v4_syn_recv_sock] returns a socket exactly when the
    accept queue has room, a route is at hand (the argument, or a
    successful lookup), the child is created and the port is inherited,
    and the socket is then hashed.  On every other path it returns NULL
    and counts exactly one LISTENDROPS; LISTENOVERFLOWS is counted exactly
    when the accept queue is full.  A route at hand is used exactly once,
    either released or handed to the new socket.  The packet options kept
    by the request are freed exactly when a child has been created, and
    the request then no longer holds them, even if the function fails
    afterwards; nothing else of the request changes. *)
Theorem syn_recv_sock_accounting C S req :
  let r := mptcp_v6v4_syn_recv_sock C S req in
  let ok := srs_child_created S && negb (sr_inet_inherit_port S <? 0) in
  match r.1.1 with Some _ => ok = true | None => ok = false end ∧
  count_srs is_Srs_inet6_hash r.2 = (if ok then 1 else 0)%nat ∧
  count_srs is_Srs_LISTENDROPS r.2 = (if ok then 0 else 1)%nat ∧
  count_srs is_Srs_LISTENOVERFLOWS r.2 = (if sr_acceptq_is_full S then 1 else 0)%nat ∧
  count_srs is_Srs_route_use r.2 =
    (if sr_dst_arg S || (negb (sr_acceptq_is_full S) && sr_dst_lookup_ok S)
     then 1 else 0)%nat ∧
  count_srs is_Srs_kfree_skb_pktopts r.2 =
    (if srs_child_created S && ir6_pktopts req then 1 else 0)%nat ∧
  r.1.2 = set_ir6_pktopts req (ir6_pktopts req && negb (srs_child_created S)).
Proof.
  assert (Heta : set_ir6_pktopts req (ir6_pktopts req) = req) by (by destruct req).
  assert (Hreq : (if ir6_pktopts req then set_ir6_pktopts req false else req) =
                 set_ir6_pktopts req false).
  { clear Heta. destruct req as [? ? ? ? ? ? ? ? ? ? ? ? ? ? ? ? ? pk ? ? ? ?]. simpl.
    by destruct pk. }
  unfold mptcp_v6v4_syn_recv_sock, srs_child_created.
  destruct (sr_acceptq_is_full S); simpl.
  { rewrite andb_true_r, Heta. destruct (sr_dst_arg S); done. }
  destruct (sr_dst_arg S), (sr_dst_lookup_ok S); simpl;
    rewrite ?andb_true_r, ?Heta; try done;
    (destruct (sr_create_openreq_child S) as [newsk|]; simpl;
     rewrite ?andb_true_r, ?andb_false_r, ?Heta; [|done];
     destruct (sr_inet_inherit_port S <? 0); simpl;
     (split; [done|]);
     (split; [srs_counts|]); (split; [srs_counts|]); (split; [srs_counts|]);
     (split; [srs_counts|]); (split; [srs_counts|]); exact Hreq).
Qed.
(** ** The SYN-ACK of an IPv6 request on an IPv4 meta socket *)

(** X23. [mptcp_v6v4_send_synack] releases the route exactly once, as its
    last step, on every path; it gives a packet to [ip6_xmit] exactly when
    the route lookup succeeded and [tcp_make_synack] returned a buffer, and
    returns 0 only in that case, with [ip6_xmit]'s evaluated result 0.  An
    IPv6 join on an IPv4 meta socket never uses [tcp_v6_send_synack], and
    its request is queued only after one such transmission that returned
    0. *)
Theorem v6v4_synack_sent_before_request_is_queued K E g meta skb tmp_opt :
  sk_family meta = AF_INET →
  se_ENOMEM (je_synack E) ≠ 0 →
  let S := je_synack E in
  let s := mptcp_v6v4_send_synack S in
  let r := mptcp_v6_join_request_short K E g meta skb tmp_opt in
  length (List.filter is_Ev_dst_release s.2) = 1%nat ∧
  last s.2 = Some Ev_dst_release ∧
  length (List.filter is_Ev_ip6_xmit s.2) =
    (if (se_dst_lookup_err S =? 0) && se_make_synack_ok S then 1%nat else 0%nat) ∧
  (s.1 = 0 → synack_transmitted S) ∧
  forallb (fun e => negb (is_Ev_tcp_v6_send_synack e)) (jr_trace r) = true ∧
  (jr_queued r = true →
   synack_transmitted S ∧
   length (List.filter is_Ev_ip6_xmit (jr_trace r)) = 1%nat).
Proof.
  intros Hfam Hnomem S s r.
  assert (Hs : length (List.filter is_Ev_dst_release s.2) = 1%nat ∧
               last s.2 = Some Ev_dst_release ∧
               length (List.filter is_Ev_ip6_xmit s.2) =
                 (if (se_dst_lookup_err S =? 0) && se_make_synack_ok S
                  then 1%nat else 0%nat) ∧
               (s.1 = 0 → synack_transmitted S)).
  { subst s. unfold mptcp_v6v4_send_synack, synack_transmitted.
    destruct (se_dst_lookup_err S =? 0) eqn:Hl; simpl.
    - apply Z.eqb_eq in Hl. destruct (se_make_synack_ok S); simpl.
      + by split_and!.
      + split_and!; try done. subst S. intros; lia.
    - apply Z.eqb_neq in Hl. by split_and!. }
  destruct Hs as (Hs1 & Hs2 & Hs3 & Hs4).
  split_and!; try done; clear s Hs1 Hs2 Hs3 Hs4; subst r S;
    unfold mptcp_v6_join_request_short, mptcp_v6_reqsk_queue_hash_add,
      mptcp_v6v4_send_synack, synack_transmitted;
    rewrite Hfam; simpl family_eqb; rewrite andb_false_r;
    (destruct (negb (je_reqsk_alloc_ok E)); [done|]);
    cbv zeta; abstract_requests; cbn [andb];
    (match goal with |- context [if skb6_when ?k =? 0 then ?p else None] =>
       destruct (if skb6_when k =? 0 then p else None) as [tr|] eqn:Hd end;
     [paws_drop_case tr Hd|]);
    (destruct (se_dst_lookup_err (je_synack E) =? 0) eqn:Hl; simpl;
     [apply Z.eqb_eq in Hl|by rewrite ?Hl]);
    destruct (se_make_synack_ok (je_synack E)); simpl.
  - by destruct (se_xmit_err (je_synack E) =? 0).
  - by destruct (- se_ENOMEM (je_synack E) =? 0).
  - destruct (se_xmit_err (je_synack E) =? 0) eqn:Hx; simpl; [|done].
    by apply Z.eqb_eq in Hx.
  - destruct (- se_ENOMEM (je_synack E) =? 0) eqn:He; simpl; [|done].
    apply Z.eqb_eq in He. lia.
Qed.

Lemma v6v4_synack_sent_before_request_is_queued_witness :
  sk_family (meta_example mopt_empty) = AF_INET ∧
  se_ENOMEM (je_synack join_env_example) ≠ 0 ∧
  (let r := mptcp_v6_join_request_short kernel_example join_env_example global_empty
              (meta_example mopt_empty) skb6_example (opt_example 2) in
   jr_queued r = true ∧
   synack_transmitted (je_synack join_env_example) ∧
   length (List.filter is_Ev_ip6_xmit (jr_trace r)) = 1%nat).
Proof.
  split; [reflexivity|]. split; [vm_compute; discriminate|].
  destruct (v6v4_synack_sent_before_request_is_queued kernel_example join_env_example
              global_empty (meta_example mopt_empty) skb6_example (opt_example 2)
              eq_refl ltac:(vm_compute; discriminate)) as (_ & _ & _ & _ & _ & Hq).
  cbv zeta. split; [vm_compute; reflexivity|]. apply Hq. vm_compute. reflexivity.
Defined.
